(** * ESWIN SDHCI-SDIO tuning engine

    A shallow embedding of the delay-code scanner, the phase-code scanner and
    the tuning orchestrator of [drivers/mmc/host/sdhci-of-eswin-sdio.c]
    ([eswin_sdhci_sdio_delay_tuning], [eswin_sdhci_sdio_phase_code_tuning],
    [eswin_sdhci_sdio_executing_tuning]).

    The controller is a register file together with the chronological list of
    the calls the driver makes into its collaborators (clock gate, register
    accessors, tuning command, reset, delay, kernel log).  The card is an
    arbitrary function of the controller state: [mmc_send_tuning].

    C [int] locals are integers of [Z]; the two expressions that add or
    subtract window bounds go through [sint32], the registers are written
    through the conversions [u8] and [u16] of the accessors.  The macros that
    live in headers outside this file are the fields of [eswin_consts].
    [host->ops->reset] and [mmc_send_tuning] are calls into other layers:
    they appear on the trace and do not touch the registers modelled here. *)

From Stdlib Require Import ZArith List Bool Lia.
From Stdlib Require String Ascii DecimalString.
Import ListNotations.
Open Scope Z_scope.

(** ** Machine integers *)

(** The value of a C [int] expression whose mathematical result is [z]. *)
Definition sint32 (z : Z) : Z := (z + 2 ^ 31) mod 2 ^ 32 - 2 ^ 31.

(** Conversions to the argument types of [sdhci_writeb] and [sdhci_writew]. *)
Definition u8 (z : Z) : Z := z mod 2 ^ 8.
Definition u16 (z : Z) : Z := z mod 2 ^ 16.
Definition u32 (z : Z) : Z := z mod 2 ^ 32.

(** ** Constants *)

(** [#define DELAY_RANGE_THRESHOLD 20] *)
Definition DELAY_RANGE_THRESHOLD : Z := 20.

(** The macros the tuning code takes from [sdhci-eswin.h], [sdhci.h] and
    [errno.h]; their values are parameters of the development. *)
Record eswin_consts := {
  PHY_DELAY_CODE_MAX : Z;
  PHY_CLK_MAX_DELAY_MASK : Z;
  PHY_UPDATE_DELAY_CODE : Z;
  MAX_PHASE_CODE : Z;
  SDHCI_CTRL_TUNED_CLK : Z;
  SW_TUNE_ENABLE : Z;
  SDHCI_RESET_CMD : Z;
  SDHCI_RESET_DATA : Z;
  EIO : Z
}.

(** ** Controller state *)

Inductive reg :=
| PHY_SDCLKDL_CNFG_R
| PHY_SDCLKDL_DC_R
| VENDOR_AT_SATA_R
| VENDOR_AT_CTRL_R
| SDHCI_HOST_CONTROL2
| SDHCI_CMD_DATA.

Definition reg_eqb (a b : reg) : bool :=
  match a, b with
  | PHY_SDCLKDL_CNFG_R, PHY_SDCLKDL_CNFG_R
  | PHY_SDCLKDL_DC_R, PHY_SDCLKDL_DC_R
  | VENDOR_AT_SATA_R, VENDOR_AT_SATA_R
  | VENDOR_AT_CTRL_R, VENDOR_AT_CTRL_R
  | SDHCI_HOST_CONTROL2, SDHCI_HOST_CONTROL2
  | SDHCI_CMD_DATA, SDHCI_CMD_DATA => true
  | _, _ => false
  end.

(** The registers the tuning procedure calibrates: the delay line and the
    sampling phase. *)
Definition tuning_reg (r : reg) : bool :=
  match r with
  | PHY_SDCLKDL_CNFG_R | PHY_SDCLKDL_DC_R | VENDOR_AT_SATA_R => true
  | _ => false
  end.

Inductive message :=
| MsgDelayTuningFailed
| MsgSetDelay (delay : Z)
| MsgPhaseTuningFailed
| MsgSetPhaseCode (phase_code : Z).

(** One entry per call into a collaborator.  A tuning command records the
    delay code and the phase code the hardware holds when it is issued, and
    the status the card answers. *)
Inductive event :=
| DisableCardClk
| EnableCardClk
| Write (r : reg) (v : Z)
| SendTuning (opcode delay phase ret : Z)
| OpsReset (mask : Z)
| Udelay (usecs : Z)
| PrErr (m : message)
| PrInfo (m : message).

(** [struct sdhci_host] with the private data hanging off it:
    [eswin_sdhci->phy.delay_code], [eswin_sdio_priv->phase_code] and
    [eswin_sdio_priv->enable_sw_tuning]. *)
Record sdhci_host := {
  regs : reg -> Z;
  trace : list event;
  phy_delay_code : Z;
  priv_phase_code : Z;
  enable_sw_tuning : Z
}.

Definition log (e : event) (h : sdhci_host) : sdhci_host :=
  {| regs := regs h;
     trace := trace h ++ [e];
     phy_delay_code := phy_delay_code h;
     priv_phase_code := priv_phase_code h;
     enable_sw_tuning := enable_sw_tuning h |}.

Definition store (r : reg) (v : Z) (h : sdhci_host) : sdhci_host :=
  {| regs := fun r' => if reg_eqb r' r then v else regs h r';
     trace := trace h ++ [Write r v];
     phy_delay_code := phy_delay_code h;
     priv_phase_code := priv_phase_code h;
     enable_sw_tuning := enable_sw_tuning h |}.

Definition eswin_sdhci_disable_card_clk (h : sdhci_host) : sdhci_host :=
  log DisableCardClk h.

Definition eswin_sdhci_enable_card_clk (h : sdhci_host) : sdhci_host :=
  log EnableCardClk h.

Definition sdhci_writeb (h : sdhci_host) (val : Z) (r : reg) : sdhci_host :=
  store r (u8 val) h.

(** A 16-bit write into a 32-bit register: the low half is replaced, the
    upper half stays; the bus carries the 16-bit value. *)
Definition store_low_half (r : reg) (v : Z) (h : sdhci_host) : sdhci_host :=
  {| regs := fun r' =>
               if reg_eqb r' r
               then Z.lor (Z.land (regs h r) (Z.lnot 0xFFFF)) v
               else regs h r';
     trace := trace h ++ [Write r v];
     phy_delay_code := phy_delay_code h;
     priv_phase_code := priv_phase_code h;
     enable_sw_tuning := enable_sw_tuning h |}.

(** [VENDOR_AT_CTRL_R] is the one register this file reads with
    [sdhci_readl]: it is 32 bits wide and [sdhci_writew] writes its low
    half.  The other registers are accessed at one width only. *)
Definition sdhci_writew (h : sdhci_host) (val : Z) (r : reg) : sdhci_host :=
  match r with
  | VENDOR_AT_CTRL_R => store_low_half r (u16 val) h
  | _ => store r (u16 val) h
  end.

Definition sdhci_readw (h : sdhci_host) (r : reg) : Z := u16 (regs h r).
Definition sdhci_readl (h : sdhci_host) (r : reg) : Z := u32 (regs h r).

(** The events a call added to the trace. *)
Definition new_events (h h' : sdhci_host) : list event :=
  skipn (length (trace h)) (trace h').

(** Delay codes and phase codes at which tuning commands were issued. *)
Fixpoint probed_delays (evs : list event) : list Z :=
  match evs with
  | [] => []
  | SendTuning _ d _ _ :: evs' => d :: probed_delays evs'
  | _ :: evs' => probed_delays evs'
  end.

Fixpoint probed_phases (evs : list event) : list Z :=
  match evs with
  | [] => []
  | SendTuning _ _ p _ :: evs' => p :: probed_phases evs'
  | _ :: evs' => probed_phases evs'
  end.

(** [bracketed gated evs]: replaying [evs], every write to a tuning register
    happens inside a disable ... enable pair, and every pair is closed.
    [gated] says whether a pair is open at the start. *)
Fixpoint bracketed (gated : bool) (evs : list event) : bool :=
  match evs with
  | [] => negb gated
  | DisableCardClk :: evs' => bracketed true evs'
  | EnableCardClk :: evs' => bracketed false evs'
  | Write r _ :: evs' =>
      (if tuning_reg r then gated else true) && bracketed gated evs'
  | _ :: evs' => bracketed gated evs'
  end.

(** [zrange i n] is [i; i+1; ...; i+n-1]. *)
Fixpoint zrange (i : Z) (n : nat) : list Z :=
  match n with
  | O => []
  | S n' => i :: zrange (i + 1) n'
  end.

(** Delay codes at which a tuning command passed (status 0). *)
Fixpoint passed_delays (evs : list event) : list Z :=
  match evs with
  | [] => []
  | SendTuning _ d _ ret :: evs' =>
      if ret =? 0 then d :: passed_delays evs' else passed_delays evs'
  | _ :: evs' => passed_delays evs'
  end.

(** Phase codes at which a tuning command passed. *)
Fixpoint passed_phases (evs : list event) : list Z :=
  match evs with
  | [] => []
  | SendTuning _ _ p ret :: evs' =>
      if ret =? 0 then p :: passed_phases evs' else passed_phases evs'
  | _ :: evs' => passed_phases evs'
  end.

(** The number of tuning commands on a trace. *)
Definition tuning_commands (evs : list event) : nat :=
  length (probed_delays evs).

(** ** The controller beyond the tuning registers *)

(** The macros the reset hook and the PHY configuration take from
    [sdhci-eswin.h] and [sdhci.h]; their values are parameters of the
    development. *)
Record phy_consts := {
  PHY_RSTN : Z;
  PHY_PAD_SP_DRIVE_SHIF : Z;
  PHY_SLEW_2 : Z;
  PHY_TX_SLEW_CTRL_P_BIT_SHIFT : Z;
  PHY_TX_SLEW_CTRL_N_BIT_SHIFT : Z;
  PHY_PULL_BIT_SHIF : Z;
  PHY_PULL_UP : Z;
  PHY_PAD_RXSEL_0 : Z;
  PHY_PAD_RXSEL_1 : Z;
  SDHCI_RESET_ALL : Z;
  SDHCI_CTRL_CDTEST_INS : Z;
  SDHCI_CTRL_CDTEST_EN : Z;
  SDHCI_ESWIN_QUIRK_FORCE_CDTEST : Z
}.

(** The registers of the reset path that the tuning path never names. *)
Inductive io_reg :=
| SDHCI_INT_ENABLE
| SDHCI_SIGNAL_ENABLE
| SDHCI_HOST_CONTROL
| PHY_CNFG_R
| PHY_CMDPAD_CNFG_R
| PHY_DATAPAD_CNFG_R
| PHY_CLKPAD_CNFG_R
| PHY_RSTNPAD_CNFG_R.

Definition io_reg_eqb (a b : io_reg) : bool :=
  match a, b with
  | SDHCI_INT_ENABLE, SDHCI_INT_ENABLE
  | SDHCI_SIGNAL_ENABLE, SDHCI_SIGNAL_ENABLE
  | SDHCI_HOST_CONTROL, SDHCI_HOST_CONTROL
  | PHY_CNFG_R, PHY_CNFG_R
  | PHY_CMDPAD_CNFG_R, PHY_CMDPAD_CNFG_R
  | PHY_DATAPAD_CNFG_R, PHY_DATAPAD_CNFG_R
  | PHY_CLKPAD_CNFG_R, PHY_CLKPAD_CNFG_R
  | PHY_RSTNPAD_CNFG_R, PHY_RSTNPAD_CNFG_R => true
  | _, _ => false
  end.

(** The registers of the PHY among them. *)
Definition phy_reg (r : io_reg) : bool :=
  match r with
  | PHY_CNFG_R | PHY_CMDPAD_CNFG_R | PHY_DATAPAD_CNFG_R
  | PHY_CLKPAD_CNFG_R | PHY_RSTNPAD_CNFG_R => true
  | _ => false
  end.

(** The calls of the reset path, in order.  A call of the tuning model keeps
    its event, wrapped in [Core]. *)
Inductive io_event :=
| Core (e : event)
| IoWrite (r : io_reg) (v : Z)
| SdhciReset (mask : Z)
| Mdelay (msecs : Z)
| PrDebug (v : Z).

(** [struct eswin_sdhci_data] around the host: the remaining registers,
    [host->ier], the quirks and the pad settings of [eswin_sdhci->phy]. *)
Record eswin_sdhci_data := {
  host : sdhci_host;
  io : io_reg -> Z;
  io_trace : list io_event;
  ier : Z;
  quirks : Z;
  phy_drive_impedance : Z;
  phy_enable_cmd_pullup : Z;
  phy_enable_data_pullup : Z
}.

Definition io_log (e : io_event) (s : eswin_sdhci_data) : eswin_sdhci_data :=
  {| host := host s;
     io := io s;
     io_trace := io_trace s ++ [e];
     ier := ier s;
     quirks := quirks s;
     phy_drive_impedance := phy_drive_impedance s;
     phy_enable_cmd_pullup := phy_enable_cmd_pullup s;
     phy_enable_data_pullup := phy_enable_data_pullup s |}.

Definition io_store (r : io_reg) (v : Z) (s : eswin_sdhci_data)
  : eswin_sdhci_data :=
  {| host := host s;
     io := fun r' => if io_reg_eqb r' r then v else io s r';
     io_trace := io_trace s ++ [IoWrite r v];
     ier := ier s;
     quirks := quirks s;
     phy_drive_impedance := phy_drive_impedance s;
     phy_enable_cmd_pullup := phy_enable_cmd_pullup s;
     phy_enable_data_pullup := phy_enable_data_pullup s |}.

(** [sdhci_writel], [sdhci_writew], [sdhci_writeb] and [sdhci_readb] on the
    registers of [io_reg]. *)
Definition sdhci_writel (s : eswin_sdhci_data) (val : Z) (r : io_reg)
  : eswin_sdhci_data :=
  io_store r (u32 val) s.

Definition io_writew (s : eswin_sdhci_data) (val : Z) (r : io_reg)
  : eswin_sdhci_data :=
  io_store r (u16 val) s.

Definition io_writeb (s : eswin_sdhci_data) (val : Z) (r : io_reg)
  : eswin_sdhci_data :=
  io_store r (u8 val) s.

Definition sdhci_readb (s : eswin_sdhci_data) (r : io_reg) : Z := u8 (io s r).

(** A call of the tuning model made on the host inside: its events join the
    trace in the order of the call. *)
Definition on_host (f : sdhci_host -> sdhci_host) (s : eswin_sdhci_data)
  : eswin_sdhci_data :=
  {| host := f (host s);
     io := io s;
     io_trace := io_trace s ++ map Core (new_events (host s) (f (host s)));
     ier := ier s;
     quirks := quirks s;
     phy_drive_impedance := phy_drive_impedance s;
     phy_enable_cmd_pullup := phy_enable_cmd_pullup s;
     phy_enable_data_pullup := phy_enable_data_pullup s |}.

Definition mdelay (s : eswin_sdhci_data) (msecs : Z) : eswin_sdhci_data :=
  io_log (Mdelay msecs) s.

Definition pr_debug (s : eswin_sdhci_data) (v : Z) : eswin_sdhci_data :=
  io_log (PrDebug v) s.

Definition io_new_events (s s' : eswin_sdhci_data) : list io_event :=
  skipn (length (io_trace s)) (io_trace s').

(** [io_bracketed gated evs]: replaying [evs], every write to a tuning
    register or to a PHY register happens inside a disable ... enable pair
    of the card clock, and every pair is closed. *)
Fixpoint io_bracketed (gated : bool) (evs : list io_event) : bool :=
  match evs with
  | [] => negb gated
  | Core DisableCardClk :: evs' => io_bracketed true evs'
  | Core EnableCardClk :: evs' => io_bracketed false evs'
  | Core (Write r _) :: evs' =>
      (if tuning_reg r then gated else true) && io_bracketed gated evs'
  | IoWrite r _ :: evs' =>
      (if phy_reg r then gated else true) && io_bracketed gated evs'
  | _ :: evs' => io_bracketed gated evs'
  end.

(** The PHY registers written on a trace. *)
Fixpoint phy_writes (evs : list io_event) : list io_reg :=
  match evs with
  | [] => []
  | IoWrite r _ :: evs' =>
      if phy_reg r then r :: phy_writes evs' else phy_writes evs'
  | _ :: evs' => phy_writes evs'
  end.

(** The events of the tuning model on a trace. *)
Fixpoint core_events (evs : list io_event) : list event :=
  match evs with
  | [] => []
  | Core e :: evs' => e :: core_events evs'
  | _ :: evs' => core_events evs'
  end.

(** ** Loop control *)

Inductive flow := Next | Break.

(** The locals of [eswin_sdhci_sdio_delay_tuning]. *)
Record delay_locals := {
  d_ret : Z;
  d_delay : Z;
  d_delay_min : Z;
  d_delay_max : Z;
  d_delay_range : Z
}.

(** The locals of [eswin_sdhci_sdio_phase_code_tuning]. *)
Record phase_locals := {
  p_ret : Z;
  p_code_min : Z;
  p_code_max : Z
}.

(** ** Probe, clock registration and power management *)

(** The two clocks the driver enables itself. *)
Inductive clk := ClkAhb | ClkXin.

Definition clk_eqb (a b : clk) : bool :=
  match a, b with
  | ClkAhb, ClkAhb | ClkXin, ClkXin => true
  | _, _ => false
  end.

(** The two clocks the driver offers to the PHY. *)
Inductive sdclk := SdCardClk | SampleClk.

Inductive probe_message :=
| MsgCoreClkReg
| MsgIoremap
| MsgSdioId
| MsgClkAhbNotFound
| MsgClkXinNotFound
| MsgClkSpll2NotFound
| MsgClkMuxNotFound
| MsgEnableAhb
| MsgSetRate
| MsgEnableSd
| MsgNoClockOutputNames
| MsgAddSdcardProvider
| MsgAddSampleProvider
| MsgResetFailed
| MsgSidRegOffset
| MsgSidConfigFailed
| MsgSmmuFailed
| MsgParsingDt
| MsgResumeAhb
| MsgResumeSd
| MsgResumeHost.

(** The calls of the probe and power paths into the kernel, in order, each
    with the status it returned where the driver looks at it. *)
Inductive probe_call :=
| SdhciPltfmInit
| SdhciPltfmFree
| Ioremap (ok : bool)
| Iounmap
| SdhciGetOfProperty
| ClkSetParent
| ClkPrepareEnable (c : clk) (ret : Z)
| ClkDisableUnprepare (c : clk)
| ClkSetRate (ret : Z)
| DevmClkRegister (c : sdclk) (err : Z)
| OfClkAddProvider (c : sdclk) (ret : Z)
| OfClkDelProvider
| ResetInit (ret : Z)
| RegmapWrite (offset val : Z)
| DynmSidEnable (ret : Z)
| DtParseClkPhases
| MmcOfParse (ret : Z)
| TbuPower (on : bool)
| SdhciAddHost (ret : Z)
| SdhciSetupHost (ret : Z)
| DevmKzalloc (ok : bool)
| CqhciInit (dma64 : bool) (ret : Z)
| SdhciAddHostTail (ret : Z)
| SdhciCleanupHost
| MmcRetuneNeeded
| CqhciSuspend (ret : Z)
| SdhciSuspendHost (ret : Z)
| ClkDisable (c : clk)
| ClkEnable (c : clk) (ret : Z)
| SdhciResumeHost (ret : Z)
| CqhciResume (ret : Z)
| DevErr (m : probe_message).

(** What the kernel and the device tree answer to the probe: the status of
    every call the driver tests, and the device-tree properties it reads.
    A pointer result is given by its error code, 0 for a valid pointer. *)
Record probe_env := {
  pltfm_init_err : Z;
  core_clk_reg_ret : Z;
  ioremap_ok : bool;
  sdio_id_ret : Z;
  sdio_id : Z;
  clk_ahb_err : Z;
  clk_xin_err : Z;
  clk_spll2_err : Z;
  compatible_sdio : bool;
  clk_mux_err : Z;
  ahb_enable_ret : Z;
  pltfm_clock : Z;
  xin_rate : Z;
  set_rate_ret : Z;
  xin_enable_ret : Z;
  clock_cells : option Z;
  clock_cells_present : bool;
  output_name0_ret : Z;
  sdcardclk_err : Z;
  add_provider0_ret : Z;
  output_name1_ret : Z;
  sampleclk_err : Z;
  add_provider1_ret : Z;
  reset_init_ret : Z;
  regmap_found : bool;
  fwspec_sid : option Z;
  sid_regmap_found : bool;
  sid_reg_ret : Z;
  sid_reg : Z;
  dynm_sid_enable_ret : Z;
  dt_delay_code : option Z;
  dt_drive_impedance : option Z;
  convert_drive_impedance_ohm : Z -> Z;
  dt_enable_cmd_pullup : bool;
  dt_enable_data_pullup : bool;
  dt_enable_sw_tuning : bool;
  dt_phase_code : option Z;
  mmc_of_parse_ret : Z;
  sdhci_add_host_ret : Z;
  sdhci_setup_host_ret : Z;
  cq_host_alloc_ok : bool;
  use_64_bit_dma : bool;
  cqhci_init_ret : Z;
  sdhci_add_host_tail_ret : Z
}.

(** The macros of the probe path that the file does not define itself. *)
Record probe_consts := {
  ENABLE : Z;
  DISABLE : Z;
  ENOMEM : Z;
  MSHC_INT_CLK_STABLE : Z;
  MSHC_HOST_VAL_STABLE : Z;
  AWSMMUSID : Z;
  ARSMMUSID : Z;
  AWSMMUSSID : Z;
  ARSMMUSSID : Z
}.

Definition ESWIN_SDHCI_SD0_INT_STATUS : Z := 0x608.
Definition ESWIN_SDHCI_SD0_PWR_CTRL : Z := 0x60c.
Definition ESWIN_SDHCI_SD1_INT_STATUS : Z := 0x708.
Definition ESWIN_SDHCI_SD1_PWR_CTRL : Z := 0x70c.

(** The fields of the private data that the probe fills from the device
    tree; [sdhci_pltfm_init] hands the private data out zeroed. *)
Record probe_settings := {
  set_delay_code : Z;
  set_drive_impedance : Z;
  set_enable_cmd_pullup : Z;
  set_enable_data_pullup : Z;
  set_enable_sw_tuning : Z;
  set_phase_code : Z
}.

Definition zeroed_settings : probe_settings :=
  {| set_delay_code := 0;
     set_drive_impedance := 0;
     set_enable_cmd_pullup := 0;
     set_enable_data_pullup := 0;
     set_enable_sw_tuning := 0;
     set_phase_code := 0 |}.

(** [FIELD_PREP(mask, val)]: [val] shifted to the lowest set bit of [mask]
    and cut to [mask]. *)
Definition field_shift (mask : Z) : Z := Z.log2 (Z.land mask (- mask)).

Definition FIELD_PREP (mask val : Z) : Z :=
  Z.land (Z.shiftl val (field_shift mask)) mask.

Section Probe.

Variable C : probe_consts.
Variable e : probe_env.

Definition eswin_sdhci_sdio_register_sdcardclk : Z * list probe_call :=
  let ret := output_name0_ret e in
  if negb (ret =? 0) then (ret, [DevErr MsgNoClockOutputNames])
  else if negb (sdcardclk_err e =? 0) then
    (sdcardclk_err e, [DevmClkRegister SdCardClk (sdcardclk_err e)])
  else
    let ret := add_provider0_ret e in
    (ret,
     [DevmClkRegister SdCardClk 0; OfClkAddProvider SdCardClk ret] ++
     (if negb (ret =? 0) then [DevErr MsgAddSdcardProvider] else [])).

Definition eswin_sdhci_sdio_register_sampleclk : Z * list probe_call :=
  let ret := output_name1_ret e in
  if negb (ret =? 0) then (ret, [DevErr MsgNoClockOutputNames])
  else if negb (sampleclk_err e =? 0) then
    (sampleclk_err e, [DevmClkRegister SampleClk (sampleclk_err e)])
  else
    let ret := add_provider1_ret e in
    (ret,
     [DevmClkRegister SampleClk 0; OfClkAddProvider SampleClk ret] ++
     (if negb (ret =? 0) then [DevErr MsgAddSampleProvider] else [])).

Definition eswin_sdhci_sdio_unregister_sdclk : list probe_call :=
  if negb (clock_cells_present e) then [] else [OfClkDelProvider].

Definition eswin_sdhci_sdio_register_sdclk : Z * list probe_call :=
  match clock_cells e with
  | None => (0, [])
  | Some num_clks =>
      let '(ret, t) := eswin_sdhci_sdio_register_sdcardclk in
      if negb (ret =? 0) then (ret, t)
      else if negb (u32 num_clks =? 0) then
        let '(ret, t') := eswin_sdhci_sdio_register_sampleclk in
        if negb (ret =? 0) then
          (ret, t ++ t' ++ eswin_sdhci_sdio_unregister_sdclk)
        else (0, t ++ t')
      else (0, t)
  end.

Definition eswin_sdhci_sdio_add_host (has_cqe : bool) : Z * list probe_call :=
  if negb has_cqe then
    (sdhci_add_host_ret e, [SdhciAddHost (sdhci_add_host_ret e)])
  else
    let ret := sdhci_setup_host_ret e in
    if negb (ret =? 0) then (ret, [SdhciSetupHost ret])
    else if negb (cq_host_alloc_ok e) then
      (- ENOMEM C, [SdhciSetupHost 0; DevmKzalloc false; SdhciCleanupHost])
    else
      let dma64 := use_64_bit_dma e in
      let ret := cqhci_init_ret e in
      if negb (ret =? 0) then
        (ret, [SdhciSetupHost 0; DevmKzalloc true; CqhciInit dma64 ret;
               SdhciCleanupHost])
      else
        let ret := sdhci_add_host_tail_ret e in
        if negb (ret =? 0) then
          (ret, [SdhciSetupHost 0; DevmKzalloc true; CqhciInit dma64 0;
                 SdhciAddHostTail ret; SdhciCleanupHost])
        else
          (0, [SdhciSetupHost 0; DevmKzalloc true; CqhciInit dma64 0;
               SdhciAddHostTail 0]).

Definition eswin_sdhci_sdio_sid_cfg : Z * list probe_call :=
  match fwspec_sid e with
  | None => (0, [])
  | Some sid =>
      let sid := u32 sid in
      if negb (sid_regmap_found e) then (0, [])
      else
        let ret := sid_reg_ret e in
        if negb (ret =? 0) then (ret, [DevErr MsgSidRegOffset])
        else
          let rdwr_sid_ssid := u32 (FIELD_PREP (AWSMMUSID C) sid) in
          let rdwr_sid_ssid :=
            u32 (Z.lor rdwr_sid_ssid (FIELD_PREP (ARSMMUSID C) sid)) in
          let rdwr_sid_ssid :=
            u32 (Z.lor rdwr_sid_ssid (FIELD_PREP (AWSMMUSSID C) 0)) in
          let rdwr_sid_ssid :=
            u32 (Z.lor rdwr_sid_ssid (FIELD_PREP (ARSMMUSSID C) 0)) in
          let ret := dynm_sid_enable_ret e in
          (ret,
           [RegmapWrite (sid_reg e) rdwr_sid_ssid; DynmSidEnable ret] ++
           (if ret <? 0 then [DevErr MsgSidConfigFailed] else []))
  end.

(** The labels at the end of the probe.  [mapped] says whether
    [core_clk_reg] is set. *)
Definition err_pltfm_free (mapped : bool) (ret : Z) (t : list probe_call)
  : Z * list probe_call :=
  (ret, t ++ (if mapped then [Iounmap] else []) ++ [SdhciPltfmFree]).

Definition clk_dis_ahb (mapped : bool) (ret : Z) (t : list probe_call)
  : Z * list probe_call :=
  err_pltfm_free mapped ret (t ++ [ClkDisableUnprepare ClkAhb]).

Definition clk_disable_all (mapped : bool) (ret : Z) (t : list probe_call)
  : Z * list probe_call :=
  clk_dis_ahb mapped ret (t ++ [ClkDisableUnprepare ClkXin]).

Definition unreg_clk (mapped : bool) (ret : Z) (t : list probe_call)
  : Z * list probe_call :=
  clk_disable_all mapped ret (t ++ eswin_sdhci_sdio_unregister_sdclk).

(** The device-tree settings the probe stores after the stream ID is
    configured.  [val] is an [unsigned int], [phase_code] an [int]. *)
Definition read_settings : probe_settings :=
  {| set_delay_code :=
       match dt_delay_code e with
       | Some val => u32 val
       | None => set_delay_code zeroed_settings
       end;
     set_drive_impedance :=
       match dt_drive_impedance e with
       | Some val => convert_drive_impedance_ohm e (u32 val)
       | None => set_drive_impedance zeroed_settings
       end;
     set_enable_cmd_pullup :=
       if dt_enable_cmd_pullup e then ENABLE C else DISABLE C;
     set_enable_data_pullup :=
       if dt_enable_data_pullup e then ENABLE C else DISABLE C;
     set_enable_sw_tuning :=
       if dt_enable_sw_tuning e then ENABLE C else DISABLE C;
     set_phase_code :=
       match dt_phase_code e with
       | Some val => sint32 (u32 val)
       | None => -1
       end |}.

Definition eswin_sdhci_sdio_probe : Z * list probe_call * probe_settings :=
  let st := zeroed_settings in
  if negb (pltfm_init_err e =? 0) then (pltfm_init_err e, [], st)
  else
  let t := [SdhciPltfmInit] in
  let has_cqe := false in
  let ret := core_clk_reg_ret e in
  if negb (ret =? 0) then
    (err_pltfm_free false ret (t ++ [DevErr MsgCoreClkReg]), st)
  else
  let t := t ++ [Ioremap (ioremap_ok e)] in
  if negb (ioremap_ok e) then
    (err_pltfm_free false ret (t ++ [DevErr MsgIoremap]), st)
  else
  let ret := sdio_id_ret e in
  if negb (ret =? 0) then
    (err_pltfm_free true ret (t ++ [DevErr MsgSdioId]), st)
  else
  let t := t ++ [SdhciGetOfProperty] in
  if negb (clk_ahb_err e =? 0) then
    (err_pltfm_free true (clk_ahb_err e) (t ++ [DevErr MsgClkAhbNotFound]),
     st)
  else
  if negb (clk_xin_err e =? 0) then
    (err_pltfm_free true (clk_xin_err e) (t ++ [DevErr MsgClkXinNotFound]),
     st)
  else
  if negb (clk_spll2_err e =? 0) then
    (err_pltfm_free true (clk_spll2_err e)
       (t ++ [DevErr MsgClkSpll2NotFound]), st)
  else
  if compatible_sdio e && negb (clk_mux_err e =? 0) then
    (err_pltfm_free true (clk_mux_err e) (t ++ [DevErr MsgClkMuxNotFound]),
     st)
  else
  let t := t ++ (if compatible_sdio e then [ClkSetParent] else []) in
  let ret := ahb_enable_ret e in
  let t := t ++ [ClkPrepareEnable ClkAhb ret] in
  if negb (ret =? 0) then
    (err_pltfm_free true ret (t ++ [DevErr MsgEnableAhb]), st)
  else
  let set_rate :=
    negb (pltfm_clock e =? 0) && negb (pltfm_clock e =? xin_rate e) in
  if set_rate && negb (set_rate_ret e =? 0) then
    (clk_dis_ahb true (set_rate_ret e)
       (t ++ [ClkSetRate (set_rate_ret e); DevErr MsgSetRate]), st)
  else
  let t := t ++ (if set_rate then [ClkSetRate 0] else []) in
  let ret := xin_enable_ret e in
  let t := t ++ [ClkPrepareEnable ClkXin ret] in
  if negb (ret =? 0) then
    (clk_dis_ahb true ret (t ++ [DevErr MsgEnableSd]), st)
  else
  let '(ret, t') := eswin_sdhci_sdio_register_sdclk in
  let t := t ++ t' in
  if negb (ret =? 0) then (clk_disable_all true ret t, st)
  else
  let ret := reset_init_ret e in
  let t := t ++ [ResetInit ret] in
  if ret <? 0 then
    (clk_disable_all true ret (t ++ [DevErr MsgResetFailed]), st)
  else
  if negb (regmap_found e) then (0, t, st)
  else
  let t :=
    t ++
    (if u32 (sdio_id e) =? 0 then
       [RegmapWrite ESWIN_SDHCI_SD0_INT_STATUS (MSHC_INT_CLK_STABLE C);
        RegmapWrite ESWIN_SDHCI_SD0_PWR_CTRL (MSHC_HOST_VAL_STABLE C)]
     else
       [RegmapWrite ESWIN_SDHCI_SD1_INT_STATUS (MSHC_INT_CLK_STABLE C);
        RegmapWrite ESWIN_SDHCI_SD1_PWR_CTRL (MSHC_HOST_VAL_STABLE C)]) in
  let '(ret, t') := eswin_sdhci_sdio_sid_cfg in
  let t := t ++ t' in
  if ret <? 0 then
    (clk_disable_all true ret (t ++ [DevErr MsgSmmuFailed]), st)
  else
  let st := read_settings in
  let t := t ++ [DtParseClkPhases] in
  let ret := mmc_of_parse_ret e in
  let t := t ++ [MmcOfParse ret] in
  if negb (ret =? 0) then
    (unreg_clk true ret (t ++ [DevErr MsgParsingDt]), st)
  else
  let t := t ++ [TbuPower true] in
  let '(ret, t') := eswin_sdhci_sdio_add_host has_cqe in
  let t := t ++ t' in
  if negb (ret =? 0) then (unreg_clk true ret t, st)
  else (0, t, st).

End Probe.

(** [host->tuning_mode], [has_cqe] and the status of the calls of the
    suspend and resume methods. *)
Record pm_env := {
  tuning_mode_3 : bool;
  pm_has_cqe : bool;
  cqhci_suspend_ret : Z;
  sdhci_suspend_host_ret : Z;
  clk_enable_ahb_ret : Z;
  clk_enable_xin_ret : Z;
  sdhci_resume_host_ret : Z;
  cqhci_resume_ret : Z
}.

Definition eswin_sdhci_sdio_suspend (p : pm_env) : Z * list probe_call :=
  let t := if negb (tuning_mode_3 p) then [MmcRetuneNeeded] else [] in
  if pm_has_cqe p && negb (cqhci_suspend_ret p =? 0) then
    (cqhci_suspend_ret p, t ++ [CqhciSuspend (cqhci_suspend_ret p)])
  else
    let t := t ++ (if pm_has_cqe p then [CqhciSuspend 0] else []) in
    let ret := sdhci_suspend_host_ret p in
    let t := t ++ [SdhciSuspendHost ret] in
    if negb (ret =? 0) then (ret, t)
    else (0, t ++ [ClkDisable ClkXin; ClkDisable ClkAhb]).

Definition eswin_sdhci_sdio_resume (p : pm_env) : Z * list probe_call :=
  let ret := clk_enable_ahb_ret p in
  let t := [ClkEnable ClkAhb ret] in
  if negb (ret =? 0) then (ret, t ++ [DevErr MsgResumeAhb])
  else
    let ret := clk_enable_xin_ret p in
    let t := t ++ [ClkEnable ClkXin ret] in
    if negb (ret =? 0) then (ret, t ++ [DevErr MsgResumeSd])
    else
      let ret := sdhci_resume_host_ret p in
      let t := t ++ [SdhciResumeHost ret] in
      if negb (ret =? 0) then (ret, t ++ [DevErr MsgResumeHost])
      else if pm_has_cqe p then
        (cqhci_resume_ret p, t ++ [CqhciResume (cqhci_resume_ret p)])
      else (0, t).

(** *** Resource accounting on a trace of calls *)

(** How many more times clock [c] was enabled than disabled. *)
Fixpoint clk_balance (c : clk) (t : list probe_call) : Z :=
  match t with
  | [] => 0
  | ClkPrepareEnable c' ret :: t' =>
      (if clk_eqb c c' && (ret =? 0) then 1 else 0) + clk_balance c t'
  | ClkEnable c' ret :: t' =>
      (if clk_eqb c c' && (ret =? 0) then 1 else 0) + clk_balance c t'
  | ClkDisableUnprepare c' :: t' =>
      (if clk_eqb c c' then -1 else 0) + clk_balance c t'
  | ClkDisable c' :: t' =>
      (if clk_eqb c c' then -1 else 0) + clk_balance c t'
  | _ :: t' => clk_balance c t'
  end.

(** Mappings of [core_clk_reg] made and not undone. *)
Fixpoint map_balance (t : list probe_call) : Z :=
  match t with
  | [] => 0
  | Ioremap ok :: t' => (if ok then 1 else 0) + map_balance t'
  | Iounmap :: t' => -1 + map_balance t'
  | _ :: t' => map_balance t'
  end.

(** Platform hosts allocated and not freed. *)
Fixpoint pltfm_balance (t : list probe_call) : Z :=
  match t with
  | [] => 0
  | SdhciPltfmInit :: t' => 1 + pltfm_balance t'
  | SdhciPltfmFree :: t' => -1 + pltfm_balance t'
  | _ :: t' => pltfm_balance t'
  end.

(** Clock providers added with success, and calls that delete one. *)
Fixpoint providers_added (t : list probe_call) : Z :=
  match t with
  | [] => 0
  | OfClkAddProvider _ ret :: t' =>
      (if ret =? 0 then 1 else 0) + providers_added t'
  | _ :: t' => providers_added t'
  end.

Fixpoint providers_deleted (t : list probe_call) : Z :=
  match t with
  | [] => 0
  | OfClkDelProvider :: t' => 1 + providers_deleted t'
  | _ :: t' => providers_deleted t'
  end.

(** Whether the host was added, and whether the TBU was powered up. *)
Fixpoint host_added (t : list probe_call) : bool :=
  match t with
  | [] => false
  | SdhciAddHost ret :: t' => (ret =? 0) || host_added t'
  | SdhciAddHostTail ret :: t' => (ret =? 0) || host_added t'
  | _ :: t' => host_added t'
  end.

Fixpoint tbu_powered (t : list probe_call) : bool :=
  match t with
  | [] => false
  | TbuPower on :: t' => on || tbu_powered t'
  | _ :: t' => tbu_powered t'
  end.

(** Hosts set up and not cleaned up. *)
Fixpoint setup_balance (t : list probe_call) : Z :=
  match t with
  | [] => 0
  | SdhciSetupHost ret :: t' =>
      (if ret =? 0 then 1 else 0) + setup_balance t'
  | SdhciCleanupHost :: t' => -1 + setup_balance t'
  | _ :: t' => setup_balance t'
  end.

(** The position of the first call satisfying [p], if any. *)
Fixpoint first_index (p : probe_call -> bool) (t : list probe_call)
  : option nat :=
  match t with
  | [] => None
  | c :: t' =>
      if p c then Some O
      else match first_index p t' with
           | Some n => Some (S n)
           | None => None
           end
  end.

(** The answers with which the probe gets as far as the call of
    [eswin_sdhci_reset_init]. *)
Definition reaches_reset_init (e : probe_env) : Prop :=
  pltfm_init_err e = 0 /\
  core_clk_reg_ret e = 0 /\
  ioremap_ok e = true /\
  sdio_id_ret e = 0 /\
  clk_ahb_err e = 0 /\
  clk_xin_err e = 0 /\
  clk_spll2_err e = 0 /\
  (compatible_sdio e = true -> clk_mux_err e = 0) /\
  ahb_enable_ret e = 0 /\
  (pltfm_clock e <> 0 -> pltfm_clock e <> xin_rate e -> set_rate_ret e = 0) /\
  xin_enable_ret e = 0 /\
  fst (eswin_sdhci_sdio_register_sdclk e) = 0.

(** A device tree in which a property that can be read is a property that
    is there. *)
Definition clock_cells_consistent (e : probe_env) : Prop :=
  clock_cells e <> None -> clock_cells_present e = true.

(** The calls of the command-queueing path of [eswin_sdhci_sdio_add_host]. *)
Definition cqe_call (c : probe_call) : bool :=
  match c with
  | SdhciSetupHost _ | DevmKzalloc _ | CqhciInit _ _ | SdhciAddHostTail _
  | SdhciCleanupHost => true
  | _ => false
  end.

(** The host as the tuning hook finds it after a probe that stored the
    settings [st]. *)
Definition configured_host (st : probe_settings) (h : sdhci_host)
  : sdhci_host :=
  {| regs := regs h;
     trace := trace h;
     phy_delay_code := set_delay_code st;
     priv_phase_code := set_phase_code st;
     enable_sw_tuning := set_enable_sw_tuning st |}.

(** ** The FUSB303B log buffer

    The debug log of the Type-C driver that shares the file: a ring of
    [LOG_BUFFER_ENTRIES] lazily allocated text buffers, written by
    [_fusb303b_log] and drained by [fusb303b_debug_show]. *)

Module Fusb303b.

Import String Ascii.

Definition LOG_BUFFER_ENTRIES : Z := 1024.
Definition LOG_BUFFER_ENTRY_SIZE : Z := 128.

(** The two [dev_warn] messages of the logger. *)
Inductive log_warning :=
| BadLogBufferIndex (head : Z)
| LogBufferNull (head : Z).

(** The log fields of [struct fusb303b_chip]; a slot of [logbuffer] is
    [None] while its pointer is NULL. *)
Record fusb303b_chip := {
  logbuffer_head : Z;
  logbuffer_tail : Z;
  logbuffer : Z -> option string;
  dev_warnings : list log_warning
}.

(** The result of a piece of code that indexes [logbuffer]: a value, an
    access outside the array, or a loop still running when the fuel is
    spent. *)
Inductive run (A : Type) :=
| Ret (a : A)
| OutOfBounds
| Unfinished.

Arguments Ret {A} a.
Arguments OutOfBounds {A}.
Arguments Unfinished {A}.

Definition in_bounds (i : Z) : bool :=
  (0 <=? i) && (i <? LOG_BUFFER_ENTRIES).

Definition set_head (c : fusb303b_chip) (head : Z) : fusb303b_chip :=
  {| logbuffer_head := head;
     logbuffer_tail := logbuffer_tail c;
     logbuffer := logbuffer c;
     dev_warnings := dev_warnings c |}.

Definition set_tail (c : fusb303b_chip) (tail : Z) : fusb303b_chip :=
  {| logbuffer_head := logbuffer_head c;
     logbuffer_tail := tail;
     logbuffer := logbuffer c;
     dev_warnings := dev_warnings c |}.

Definition set_slot (c : fusb303b_chip) (i : Z) (s : option string)
  : fusb303b_chip :=
  {| logbuffer_head := logbuffer_head c;
     logbuffer_tail := logbuffer_tail c;
     logbuffer := fun j => if j =? i then s else logbuffer c j;
     dev_warnings := dev_warnings c |}.

Definition dev_warn (c : fusb303b_chip) (w : log_warning) : fusb303b_chip :=
  {| logbuffer_head := logbuffer_head c;
     logbuffer_tail := logbuffer_tail c;
     logbuffer := logbuffer c;
     dev_warnings := List.app (dev_warnings c) [w] |}.

(** What [snprintf] and its kin leave in a buffer of [size] bytes: the
    first [size - 1] characters of the text. *)
Definition truncate (size : Z) (s : string) : string :=
  substring 0 (Z.to_nat (size - 1)) s.

Fixpoint fill (c : Ascii.ascii) (n : nat) : string :=
  match n with
  | O => EmptyString
  | S n' => String c (fill c n')
  end.

(** [%5lu] and [%06lu]: the decimal digits, padded on the left to a least
    width. *)
Definition decimal (n : Z) : string :=
  DecimalString.NilZero.string_of_uint (N.to_uint (Z.to_N n)).

Definition pad_left (c : Ascii.ascii) (width : nat) (s : string) : string :=
  append (fill c (width - length s)) s.

(** ["[%5lu.%06lu] %s"] *)
Definition timestamped (secs usecs : Z) (text : string) : string :=
  append "["
    (append (pad_left " "%char 5 (decimal secs))
       (append "."
          (append (pad_left "0"%char 6 (decimal usecs))
             (append "] " text)))).

(** The entry that a call with the formatted message [msg] at time
    [local_clock] stores: [do_div] splits the 64-bit nanoseconds. *)
Definition log_entry (local_clock : Z) (tmpbuffer : string) : string :=
  let ts_nsec := local_clock mod 2 ^ 64 in
  let rem_nsec := ts_nsec mod 1000000000 in
  let ts_nsec := ts_nsec / 1000000000 in
  truncate LOG_BUFFER_ENTRY_SIZE
    (timestamped ts_nsec (rem_nsec / 1000) tmpbuffer).

Definition fusb303b_log_full (c : fusb303b_chip) : bool :=
  logbuffer_tail c =? Z.rem (logbuffer_head c + 1) LOG_BUFFER_ENTRIES.

(** [_fusb303b_log(chip, fmt, args)], with the text that [fmt] and [args]
    expand to, the clock and the outcome of [kzalloc] as arguments. *)
Definition _fusb303b_log (c : fusb303b_chip) (msg : string)
           (local_clock : Z) (kzalloc_ok : bool) : run fusb303b_chip :=
  if negb (in_bounds (logbuffer_head c)) then OutOfBounds
  else
    match
      match logbuffer c (logbuffer_head c) with
      | Some _ => Some c
      | None =>
          if kzalloc_ok then
            Some (set_slot c (logbuffer_head c) (Some EmptyString))
          else None
      end
    with
    | None => Ret c
    | Some c =>
        let tmpbuffer := truncate LOG_BUFFER_ENTRY_SIZE msg in
        let '(c, tmpbuffer) :=
          if fusb303b_log_full c then
            (set_head c (Z.max (logbuffer_head c - 1) 0), "overflow"%string)
          else (c, tmpbuffer) in
        if (logbuffer_head c <? 0) ||
           (logbuffer_head c >=? LOG_BUFFER_ENTRIES) then
          Ret (dev_warn c (BadLogBufferIndex (logbuffer_head c)))
        else
          match logbuffer c (logbuffer_head c) with
          | None => Ret (dev_warn c (LogBufferNull (logbuffer_head c)))
          | Some _ =>
              let c :=
                set_slot c (logbuffer_head c)
                  (Some (log_entry local_clock tmpbuffer)) in
              Ret (set_head c
                     (Z.rem (logbuffer_head c + 1) LOG_BUFFER_ENTRIES))
          end
    end.

Definition fusb303b_log := _fusb303b_log.

(** The text [seq_printf(s, "%s\n", p)] prints for the slot [i]. *)
Definition slot_text (c : fusb303b_chip) (i : Z) : string :=
  match logbuffer c i with
  | Some s => s
  | None => "(null)"%string
  end.

(** The [while] loop of [fusb303b_debug_show]: the lines printed and the
    final [tail]. *)
Fixpoint show_loop (fuel : nat) (c : fusb303b_chip) (tail : Z)
         (out : list string) : run (Z * list string) :=
  if tail =? logbuffer_head c then Ret (tail, out)
  else
    match fuel with
    | O => Unfinished
    | S fuel' =>
        if negb (in_bounds tail) then OutOfBounds
        else
          show_loop fuel' c (Z.rem (tail + 1) LOG_BUFFER_ENTRIES)
            (List.app out [slot_text c tail])
    end.

(** [fusb303b_debug_show(s, v)]: the lines handed to the [seq_file], and
    the chip; [seq_overflowed] is the answer of [seq_has_overflowed]. *)
Definition fusb303b_debug_show (fuel : nat) (c : fusb303b_chip)
           (seq_overflowed : bool) : run (list string * fusb303b_chip) :=
  match show_loop fuel c (logbuffer_tail c) [] with
  | Ret (tail, out) =>
      Ret (out, if negb seq_overflowed then set_tail c tail else c)
  | OutOfBounds => OutOfBounds
  | Unfinished => Unfinished
  end.

(** *** The ring as a queue *)

(** The entries written and not yet shown, oldest first. *)
Definition pending_count (c : fusb303b_chip) : nat :=
  Z.to_nat ((logbuffer_head c - logbuffer_tail c) mod LOG_BUFFER_ENTRIES).

Definition pending (c : fusb303b_chip) : list string :=
  List.map
    (fun k =>
       slot_text c ((logbuffer_tail c + Z.of_nat k) mod LOG_BUFFER_ENTRIES))
    (List.seq 0 (pending_count c)).

(** Both indices are inside the array and every pending slot is
    allocated. *)
Definition log_inv (c : fusb303b_chip) : Prop :=
  0 <= logbuffer_head c < LOG_BUFFER_ENTRIES /\
  0 <= logbuffer_tail c < LOG_BUFFER_ENTRIES /\
  forall k : nat,
    (k < pending_count c)%nat ->
    logbuffer c ((logbuffer_tail c + Z.of_nat k) mod LOG_BUFFER_ENTRIES)
    <> None.


(** A chip whose ring is full with the head at [head]: every slot
    allocated. *)
Definition full_chip (head : Z) : fusb303b_chip :=
  {| logbuffer_head := head;
     logbuffer_tail := Z.rem (head + 1) LOG_BUFFER_ENTRIES;
     logbuffer := fun i => Some (decimal i);
     dev_warnings := [] |}.

(** *** The chip on the I2C bus *)

Definition FUSB303B_REG_DEVICE_ID : Z := 0x1.
Definition FUSB303B_REG_DEVICE_TYPE : Z := 0x2.
Definition FUSB303B_REG_CONTROL : Z := 0x4.
Definition FUSB303B_REG_CONTROL1 : Z := 0x5.
Definition FUSB303B_REG_RESET : Z := 0xA.
Definition FUSB303B_REG_MASK : Z := 0xE.
Definition FUSB303B_REG_MASK1 : Z := 0xF.
Definition FUSB303B_REG_STATUS : Z := 0x11.
Definition FUSB303B_REG_INTERRUPT : Z := 0x14.
Definition FUSB303B_REG_INTERRUPT1 : Z := 0x15.
Definition FUSB303B_CONTROL_INT_MASK : Z := 1.
Definition FUSB303B_CONTROL1_ENABLE : Z := 8.
Definition FUSB303B_STATUS_VBUSOK : Z := 8.
Definition FUSB303B_STATUS_MASK : Z := 0x30.
Definition FUSB303B_INT_I_VBUS_CHG : Z := 16.
Definition FUSB_REG_MASK_M_VBUS_CHG : Z := 16.

(** [enum fusb_cc_status] *)
Definition CC_CONN_CC1 : Z := 1.
Definition CC_CONN_CC2 : Z := 2.

Inductive typec_cc_polarity := TYPEC_POLARITY_CC1 | TYPEC_POLARITY_CC2.

(** The lines the driver hands to [fusb303b_log]. *)
Inductive fusb_message :=
| MsgCannotWrite (data address ret : Z)
| MsgCannotRead (address ret : Z)
| MsgCannotSwReset (ret : Z)
| MsgSwReset
| MsgDeviceId (data : Z)
| MsgDeviceType (data : Z)
| MsgIrq (interrupt status : Z)
| MsgVbusOk (vbus : bool).

(** What the driver does to the world, in order: bus transfers with the
    status of the SMBus call, log lines, and calls into the port manager. *)
Inductive chip_event :=
| I2cRead (address ret : Z)
| I2cWrite (address data ret : Z)
| Log (m : fusb_message)
| TcpmVbusChange
| TcpmCcChange.

(** The port: the status the bus will answer to the transfers to come, the
    number of transfers made, the events so far and the port status of
    [struct fusb303b_chip]. *)
Record port := {
  bus : nat -> Z;
  xfers : nat;
  events : list chip_event;
  vbus_present : bool;
  cc_polarity : typec_cc_polarity
}.

Definition emit (p : port) (e : chip_event) : port :=
  {| bus := bus p;
     xfers := xfers p;
     events := List.app (events p) [e];
     vbus_present := vbus_present p;
     cc_polarity := cc_polarity p |}.

Definition transfer (p : port) (e : chip_event) : port :=
  {| bus := bus p;
     xfers := S (xfers p);
     events := List.app (events p) [e];
     vbus_present := vbus_present p;
     cc_polarity := cc_polarity p |}.

Definition set_vbus_present (p : port) (v : bool) : port :=
  {| bus := bus p;
     xfers := xfers p;
     events := events p;
     vbus_present := v;
     cc_polarity := cc_polarity p |}.

Definition set_cc_polarity (p : port) (v : typec_cc_polarity) : port :=
  {| bus := bus p;
     xfers := xfers p;
     events := events p;
     vbus_present := vbus_present p;
     cc_polarity := v |}.

Definition port_log (p : port) (m : fusb_message) : port := emit p (Log m).

Definition fusb303b_i2c_write (p : port) (address data : Z) : Z * port :=
  let address := u8 address in
  let data := u8 data in
  let ret := bus p (xfers p) in
  let p := transfer p (I2cWrite address data ret) in
  let p := if ret <? 0 then port_log p (MsgCannotWrite data address ret)
           else p in
  (ret, p).

(** The byte read is the second component. *)
Definition fusb303b_i2c_read (p : port) (address : Z) : Z * Z * port :=
  let address := u8 address in
  let ret := bus p (xfers p) in
  let p := transfer p (I2cRead address ret) in
  let data := u8 ret in
  let p := if ret <? 0 then port_log p (MsgCannotRead address ret) else p in
  (ret, data, p).

Definition fusb303b_i2c_mask_write (p : port) (address mask value : Z)
  : Z * port :=
  let address := u8 address in
  let mask := u8 mask in
  let value := u8 value in
  let '(ret, data, p) := fusb303b_i2c_read p address in
  if ret <? 0 then (ret, p)
  else
    let data := u8 (Z.land data (Z.lnot mask)) in
    let data := u8 (Z.lor data value) in
    let '(ret, p) := fusb303b_i2c_write p address data in
    if ret <? 0 then (ret, p) else (ret, p).

Definition fusb303b_i2c_clear_bits (p : port) (address clear_bits : Z)
  : Z * port :=
  fusb303b_i2c_mask_write p address clear_bits 0x00.

Definition fusb303b_sw_reset (p : port) : Z * port :=
  let '(ret, p) := fusb303b_i2c_write p FUSB303B_REG_RESET 1 in
  if ret <? 0 then (ret, port_log p (MsgCannotSwReset ret))
  else (ret, port_log p MsgSwReset).

Definition fusb303b_init_interrupt (p : port) : Z * port :=
  let '(ret, p) :=
    fusb303b_i2c_write p FUSB303B_REG_MASK
      (Z.land 0xFF (Z.lnot FUSB_REG_MASK_M_VBUS_CHG)) in
  if ret <? 0 then (ret, p)
  else
    let '(ret, p) := fusb303b_i2c_write p FUSB303B_REG_MASK1 0xFF in
    if ret <? 0 then (ret, p)
    else
      let '(ret, p) :=
        fusb303b_i2c_clear_bits p FUSB303B_REG_CONTROL
          FUSB303B_CONTROL_INT_MASK in
      if ret <? 0 then (ret, p) else (ret, p).

Definition tcpm_init (p : port) : Z * port :=
  let '(ret, p) := fusb303b_sw_reset p in
  if ret <? 0 then (ret, p)
  else
    let '(_, _, p) := fusb303b_i2c_read p FUSB303B_REG_STATUS in
    let '(_, p) :=
      fusb303b_i2c_mask_write p FUSB303B_REG_CONTROL1
        FUSB303B_CONTROL1_ENABLE FUSB303B_CONTROL1_ENABLE in
    let '(ret, p) := fusb303b_init_interrupt p in
    if ret <? 0 then (ret, p)
    else
      let '(ret, data, p) := fusb303b_i2c_read p FUSB303B_REG_STATUS in
      if ret <? 0 then (ret, p)
      else
        let p :=
          set_vbus_present p
            (negb (Z.land data FUSB303B_STATUS_VBUSOK =? 0)) in
        let '(ret, data, p) := fusb303b_i2c_read p FUSB303B_REG_DEVICE_ID in
        if ret <? 0 then (ret, p)
        else
          let p := port_log p (MsgDeviceId data) in
          let '(ret, data, p) :=
            fusb303b_i2c_read p FUSB303B_REG_DEVICE_TYPE in
          if ret <? 0 then (ret, p)
          else (ret, port_log p (MsgDeviceType data)).

(** [fusb303b_irq]; it returns [IRQ_HANDLED] on every path. *)
Definition fusb303b_irq (p : port) : port :=
  let '(ret, interrupt, p) := fusb303b_i2c_read p FUSB303B_REG_INTERRUPT in
  if ret <? 0 then p
  else
    let '(ret, interrupt1, p) :=
      fusb303b_i2c_read p FUSB303B_REG_INTERRUPT in
    if ret <? 0 then p
    else
      let '(ret, status, p) := fusb303b_i2c_read p FUSB303B_REG_STATUS in
      if ret <? 0 then p
      else
        let p := port_log p (MsgIrq interrupt status) in
        let p :=
          if negb (Z.land interrupt FUSB303B_INT_I_VBUS_CHG =? 0) then
            let vbus := negb (Z.land status FUSB303B_STATUS_VBUSOK =? 0) in
            let p := port_log p (MsgVbusOk vbus) in
            if negb (Bool.eqb vbus (vbus_present p)) then
              emit (set_vbus_present p vbus) TcpmVbusChange
            else p
          else p in
        let cc_status :=
          u8 (Z.shiftr (Z.land status FUSB303B_STATUS_MASK) 4) in
        let p :=
          if CC_CONN_CC1 =? cc_status then
            emit (set_cc_polarity p TYPEC_POLARITY_CC1) TcpmCcChange
          else if CC_CONN_CC2 =? cc_status then
            emit (set_cc_polarity p TYPEC_POLARITY_CC2) TcpmCcChange
          else p in
        let p :=
          if negb (0 =? interrupt) then
            snd (fusb303b_i2c_write p FUSB303B_REG_INTERRUPT interrupt)
          else p in
        if negb (0 =? interrupt1) then
          snd (fusb303b_i2c_write p FUSB303B_REG_INTERRUPT1 interrupt1)
        else p.

(** The events a call added, and the addresses read and the bytes
    written among them. *)
Definition new_chip_events (p p' : port) : list chip_event :=
  List.skipn (List.length (events p)) (events p').

Fixpoint reads_of (evs : list chip_event) : list Z :=
  match evs with
  | [] => []
  | I2cRead address _ :: evs' => address :: reads_of evs'
  | _ :: evs' => reads_of evs'
  end.

Fixpoint writes_of (evs : list chip_event) : list (Z * Z) :=
  match evs with
  | [] => []
  | I2cWrite address data _ :: evs' => (address, data) :: writes_of evs'
  | _ :: evs' => writes_of evs'
  end.

(** A bus that answers a fixed list of statuses, then 0. *)
Definition scripted_bus (answers : list Z) : nat -> Z :=
  fun n => List.nth n answers 0.

Definition idle_port (answers : list Z) : port :=
  {| bus := scripted_bus answers;
     xfers := 0;
     events := [];
     vbus_present := false;
     cc_polarity := TYPEC_POLARITY_CC1 |}.

(** A message of the driver. *)
Definition sample_message : string := "sw reset".

End Fusb303b.

(** ** The I2S controller *)

Module I2s.

(** Macros defined in this part of the file. *)
Definition VO_MCLK_DIVSOR_MASK : Z := 0xff0.
Definition VO_MCLK_DIVSOR_OFFSET : Z := 4.
Definition MAX_SAMPLE_RATE_SUPPORT : Z := 192000.
Definition MAX_SAMPLE_RATE_CLK : Z := MAX_SAMPLE_RATE_SUPPORT * 32 * 2.
Definition VO_TOP_CSR : Z := 0x50280000.
Definition VO_I2S0_DIV_NUM : Z := 0x2000.
Definition VO_I2S1_DIV_NUM : Z := 0x2004.
Definition VO_I2S2_DIV_NUM : Z := 0x2008.
Definition DIV_NUM_MASK : Z := 0x1f.
Definition COMP1_MAX_WORDSIZE : Z := 5.

(** The macros taken from [i2s.h] and from kernel headers.  The [COMP1_]
    and [COMP2_] macros extract fields of the two component parameter
    registers. *)
Record i2s_consts := {
  EINVAL : Z;
  ENOMEM : Z;
  SNDRV_PCM_STREAM_PLAYBACK : Z;
  SNDRV_PCM_FORMAT_S16_LE : Z;
  SNDRV_PCM_FORMAT_S24_LE : Z;
  SNDRV_PCM_FORMAT_S32_LE : Z;
  SNDRV_PCM_FMTBIT_S16_LE : Z;
  SNDRV_PCM_FMTBIT_S24_LE : Z;
  SNDRV_PCM_FMTBIT_S32_LE : Z;
  SNDRV_PCM_RATE_8000_192000 : Z;
  ESW_I2S_RATES : Z;
  CLOCK_CYCLES_32 : Z;
  CCR_WSS_POS : Z;
  NO_CLOCK_GATING : Z;
  RESOLUTION_16_BIT : Z;
  RESOLUTION_24_BIT : Z;
  RESOLUTION_32_BIT : Z;
  TWO_CHANNEL_SUPPORT : Z;
  MIN_CHANNEL_NUM : Z;
  DW_I2S_MASTER : Z;
  DW_I2S_SLAVE : Z;
  DWC_I2S_PLAY : Z;
  DWC_I2S_RECORD : Z;
  COMP_MAX_DATA_WIDTH : Z;
  DMA_SLAVE_BUSWIDTH_1_BYTE : Z;
  DMA_SLAVE_BUSWIDTH_2_BYTES : Z;
  DMA_SLAVE_BUSWIDTH_4_BYTES : Z;
  DMA_SLAVE_BUSWIDTH_UNDEFINED : Z;
  TXDMA_CH0 : Z;
  RXDMA_CH0 : Z;
  COMP1_FIFO_DEPTH_GLOBAL : Z -> Z;
  COMP1_APB_DATA_WIDTH : Z -> Z;
  COMP1_TX_ENABLED : Z -> Z;
  COMP1_RX_ENABLED : Z -> Z;
  COMP1_TX_WORDSIZE_0 : Z -> Z;
  COMP2_RX_WORDSIZE_0 : Z -> Z;
  COMP1_TX_CHANNELS : Z -> Z;
  COMP1_RX_CHANNELS : Z -> Z;
  COMP1_MODE_EN : Z -> Z
}.

(** The registers written by the functions modelled here, by the name of
    the macro that gives their offset. *)
Inductive i2s_reg :=
| TER (ch : Z)
| RER (ch : Z)
| TCR (ch : Z)
| TFCR (ch : Z)
| RCR (ch : Z)
| RFCR (ch : Z)
| CCR.

Inductive reset_line := I2srst | I2sprst | Voprst.

(** What [devm_reset_control_get_optional_exclusive] returns: a control,
    [NULL] for a line that is not described, or an [ERR_PTR]. *)
Inductive reset_control :=
| Control (l : reset_line)
| NoControl
| ErrPtr (err : Z).

Inductive component := I2s0Component | I2sComponent.

Inductive i2s_message :=
| MsgUnsupportedFmt
| MsgChannelNotSupported
| MsgNoPhandle
| MsgNoOffset (ret : Z)
| MsgCantSupportRate (rate : Z)
| MsgNotSupportRate (rate : Z)
| MsgClocksDiffer
| MsgIoremapResourceFailed
| MsgCantSetRate (ret : Z)
| MsgResetFailed
| MsgRequestIrqFailed
| MsgRemapDivFailed (port : Z)
| MsgRegisterDaiFailed
| MsgRegisterPcmFailed (ret : Z)
| MsgConfigureByDtFailed
| MsgIdxInval (idx : Z)
| MsgConfigureDaiFailed (ret : Z)
| MsgNoComponent.

Inductive i2s_event :=
| WriteReg (r : i2s_reg) (v : Z)
| WriteDiv (v : Z)
| RegmapWrite (reg v : Z)
| DevErr (m : i2s_message)
| DevWarn
| DevInfo
| DevDbg
| Warn
| DevmKzalloc
| DevmIoremapResource
| DevmClkGet
| ClkPrepareEnable
| ClkSetRate (rate : Z)
| ClkDisableUnprepare
| ResetGet (l : reset_line)
| ResetAssert (c : reset_control)
| ResetDeassert (c : reset_control)
| DevSetDrvdata
| PlatformGetIrq
| DevmRequestIrq (irq : Z)
| DevmIoremap (address : Z)
| RegisterComponent (c : component) (first_dai count : nat)
| I2sPcmRegister
| DmaenginePcmRegister
| DmaMapResource (address size : Z)
| PmRuntimeEnable
| AudioProcModuleInit.

Record snd_soc_pcm_stream := {
  formats : Z;
  channels_min : Z;
  channels_max : Z;
  rates : Z
}.

Record snd_soc_dai_driver := {
  playback : snd_soc_pcm_stream;
  capture : snd_soc_pcm_stream
}.

Record snd_dmaengine_dai_dma_data := {
  addr : Z;
  addr_width : Z;
  fifo_size : Z;
  maxburst : Z
}.

(** The fields of [struct i2s_dev] used below; [config] is flattened into
    [chan_nr], [data_width] and [sample_rate]. *)
Record i2s_dev := {
  capability : Z;
  fifo_th : Z;
  use_pio : bool;
  eswin_plat : Z;
  active : Z;
  i2s_div_num : Z;
  ccr : Z;
  xfer_resolution : Z;
  chan_nr : Z;
  data_width : Z;
  sample_rate : Z;
  play_dma_data : snd_dmaengine_dai_dma_data;
  capture_dma_data : snd_dmaengine_dai_dma_data;
  log : list i2s_event
}.

Definition zeroed_dma_data : snd_dmaengine_dai_dma_data :=
  {| addr := 0; addr_width := 0; fifo_size := 0; maxburst := 0 |}.

(** The device after [devm_kzalloc]. *)
Definition zeroed_dev : i2s_dev :=
  {| capability := 0; fifo_th := 0; use_pio := false; eswin_plat := 0;
     active := 0; i2s_div_num := 0; ccr := 0; xfer_resolution := 0;
     chan_nr := 0; data_width := 0; sample_rate := 0;
     play_dma_data := zeroed_dma_data;
     capture_dma_data := zeroed_dma_data;
     log := [] |}.

Definition say (d : i2s_dev) (evs : list i2s_event) : i2s_dev :=
  {| capability := capability d; fifo_th := fifo_th d; use_pio := use_pio d;
     eswin_plat := eswin_plat d; active := active d;
     i2s_div_num := i2s_div_num d; ccr := ccr d;
     xfer_resolution := xfer_resolution d; chan_nr := chan_nr d;
     data_width := data_width d; sample_rate := sample_rate d;
     play_dma_data := play_dma_data d;
     capture_dma_data := capture_dma_data d;
     log := log d ++ evs |}.

Definition set_capability (d : i2s_dev) (v : Z) : i2s_dev :=
  {| capability := v; fifo_th := fifo_th d; use_pio := use_pio d;
     eswin_plat := eswin_plat d; active := active d;
     i2s_div_num := i2s_div_num d; ccr := ccr d;
     xfer_resolution := xfer_resolution d; chan_nr := chan_nr d;
     data_width := data_width d; sample_rate := sample_rate d;
     play_dma_data := play_dma_data d;
     capture_dma_data := capture_dma_data d;
     log := log d |}.

Definition set_fifo_th (d : i2s_dev) (v : Z) : i2s_dev :=
  {| capability := capability d; fifo_th := v; use_pio := use_pio d;
     eswin_plat := eswin_plat d; active := active d;
     i2s_div_num := i2s_div_num d; ccr := ccr d;
     xfer_resolution := xfer_resolution d; chan_nr := chan_nr d;
     data_width := data_width d; sample_rate := sample_rate d;
     play_dma_data := play_dma_data d;
     capture_dma_data := capture_dma_data d;
     log := log d |}.

Definition set_use_pio (d : i2s_dev) (v : bool) : i2s_dev :=
  {| capability := capability d; fifo_th := fifo_th d; use_pio := v;
     eswin_plat := eswin_plat d; active := active d;
     i2s_div_num := i2s_div_num d; ccr := ccr d;
     xfer_resolution := xfer_resolution d; chan_nr := chan_nr d;
     data_width := data_width d; sample_rate := sample_rate d;
     play_dma_data := play_dma_data d;
     capture_dma_data := capture_dma_data d;
     log := log d |}.

Definition set_eswin_plat (d : i2s_dev) (v : Z) : i2s_dev :=
  {| capability := capability d; fifo_th := fifo_th d; use_pio := use_pio d;
     eswin_plat := v; active := active d;
     i2s_div_num := i2s_div_num d; ccr := ccr d;
     xfer_resolution := xfer_resolution d; chan_nr := chan_nr d;
     data_width := data_width d; sample_rate := sample_rate d;
     play_dma_data := play_dma_data d;
     capture_dma_data := capture_dma_data d;
     log := log d |}.

Definition set_i2s_div_num (d : i2s_dev) (v : Z) : i2s_dev :=
  {| capability := capability d; fifo_th := fifo_th d; use_pio := use_pio d;
     eswin_plat := eswin_plat d; active := active d;
     i2s_div_num := v; ccr := ccr d;
     xfer_resolution := xfer_resolution d; chan_nr := chan_nr d;
     data_width := data_width d; sample_rate := sample_rate d;
     play_dma_data := play_dma_data d;
     capture_dma_data := capture_dma_data d;
     log := log d |}.

(** The three assignments of one arm of the format switch. *)
Definition set_format (d : i2s_dev) (width c resolution : Z) : i2s_dev :=
  {| capability := capability d; fifo_th := fifo_th d; use_pio := use_pio d;
     eswin_plat := eswin_plat d; active := active d;
     i2s_div_num := i2s_div_num d; ccr := c;
     xfer_resolution := resolution; chan_nr := chan_nr d;
     data_width := width; sample_rate := sample_rate d;
     play_dma_data := play_dma_data d;
     capture_dma_data := capture_dma_data d;
     log := log d |}.

Definition set_chan_nr (d : i2s_dev) (v : Z) : i2s_dev :=
  {| capability := capability d; fifo_th := fifo_th d; use_pio := use_pio d;
     eswin_plat := eswin_plat d; active := active d;
     i2s_div_num := i2s_div_num d; ccr := ccr d;
     xfer_resolution := xfer_resolution d; chan_nr := v;
     data_width := data_width d; sample_rate := sample_rate d;
     play_dma_data := play_dma_data d;
     capture_dma_data := capture_dma_data d;
     log := log d |}.

Definition set_sample_rate (d : i2s_dev) (v : Z) : i2s_dev :=
  {| capability := capability d; fifo_th := fifo_th d; use_pio := use_pio d;
     eswin_plat := eswin_plat d; active := active d;
     i2s_div_num := i2s_div_num d; ccr := ccr d;
     xfer_resolution := xfer_resolution d; chan_nr := chan_nr d;
     data_width := data_width d; sample_rate := v;
     play_dma_data := play_dma_data d;
     capture_dma_data := capture_dma_data d;
     log := log d |}.

Definition set_play_dma_data (d : i2s_dev) (v : snd_dmaengine_dai_dma_data)
  : i2s_dev :=
  {| capability := capability d; fifo_th := fifo_th d; use_pio := use_pio d;
     eswin_plat := eswin_plat d; active := active d;
     i2s_div_num := i2s_div_num d; ccr := ccr d;
     xfer_resolution := xfer_resolution d; chan_nr := chan_nr d;
     data_width := data_width d; sample_rate := sample_rate d;
     play_dma_data := v;
     capture_dma_data := capture_dma_data d;
     log := log d |}.

Definition set_capture_dma_data (d : i2s_dev)
  (v : snd_dmaengine_dai_dma_data) : i2s_dev :=
  {| capability := capability d; fifo_th := fifo_th d; use_pio := use_pio d;
     eswin_plat := eswin_plat d; active := active d;
     i2s_div_num := i2s_div_num d; ccr := ccr d;
     xfer_resolution := xfer_resolution d; chan_nr := chan_nr d;
     data_width := data_width d; sample_rate := sample_rate d;
     play_dma_data := play_dma_data d;
     capture_dma_data := v;
     log := log d |}.

(** [i2s_write_reg] on [i2s_base]; the value is a [u32]. *)
Definition i2s_write_reg (d : i2s_dev) (r : i2s_reg) (val : Z) : i2s_dev :=
  say d [WriteReg r (u32 val)].

(** The outcome of a function with a division whose divisor may be zero. *)
Inductive outcome (A : Type) :=
| Returns (a : A)
| DivisionByZero.
Arguments Returns {A} a.
Arguments DivisionByZero {A}.

(** What the calls of [i2s_hw_params] into the kernel give: the regmap of
    the clock selector ([None]) or the error of the lookup, the status and
    the value of [of_property_read_u32_index], the selector read through
    the regmap, and the divider register read through [i2s_div_base]. *)
Record hw_env := {
  syscon_regmap_lookup_by_phandle : option Z;
  of_property_read_u32_index : Z * Z;
  regmap_read : Z;
  div_readl : Z
}.

(** What the calls of [i2s_probe] and of the functions it calls give. *)
Record i2s_env := {
  kzalloc_drvdata : bool;
  kzalloc_config : bool;
  devm_ioremap_resource : option Z;
  res_start : Z;
  node_is_i2s0 : bool;
  node_is_i2s1 : bool;
  devm_clk_get : option Z;
  clk_prepare_enable : Z;
  clk_set_rate : Z;
  reset_control_get : reset_line -> reset_control;
  reset_control_assert : reset_control -> Z;
  reset_control_deassert : reset_control -> Z;
  platform_get_irq : Z;
  devm_request_irq : Z;
  devm_ioremap : bool;
  devm_snd_soc_register_component : Z;
  i2s_pcm_register : Z;
  devm_snd_dmaengine_pcm_register : Z;
  comp1 : Z;
  comp2 : Z;
  snd_soc_lookup_component : bool;
  playback_dma_is_hsp : bool;
  capture_dma_is_hsp : bool;
  dma_map_resource : Z -> Z -> Z;
  device_property_read_u32 : Z * Z
}.

Definition i2s_formats (C : i2s_consts) : list Z :=
  [SNDRV_PCM_FMTBIT_S16_LE C;
   SNDRV_PCM_FMTBIT_S16_LE C;
   Z.lor (SNDRV_PCM_FMTBIT_S24_LE C) (SNDRV_PCM_FMTBIT_S16_LE C);
   Z.lor (SNDRV_PCM_FMTBIT_S24_LE C) (SNDRV_PCM_FMTBIT_S16_LE C);
   Z.lor (Z.lor (SNDRV_PCM_FMTBIT_S32_LE C) (SNDRV_PCM_FMTBIT_S24_LE C))
     (SNDRV_PCM_FMTBIT_S16_LE C)].

Definition fifo_width : list Z := [12; 16; 20; 24; 32; 0; 0; 0].

Definition bus_widths (C : i2s_consts) : list Z :=
  [DMA_SLAVE_BUSWIDTH_1_BYTE C;
   DMA_SLAVE_BUSWIDTH_2_BYTES C;
   DMA_SLAVE_BUSWIDTH_4_BYTES C;
   DMA_SLAVE_BUSWIDTH_UNDEFINED C].

Definition at_index (l : list Z) (i : Z) : Z := List.nth (Z.to_nat i) l 0.

Definition ESW_I2S_FORMATS (C : i2s_consts) : Z :=
  Z.lor (Z.lor (SNDRV_PCM_FMTBIT_S16_LE C) (SNDRV_PCM_FMTBIT_S24_LE C))
    (SNDRV_PCM_FMTBIT_S32_LE C).

Definition esw_stream (C : i2s_consts) : snd_soc_pcm_stream :=
  {| formats := ESW_I2S_FORMATS C;
     channels_min := 2;
     channels_max := 2;
     rates := ESW_I2S_RATES C |}.

(** [i2s_dai]: "i2s0-hdmi", "i2s0", "i2s1" and "i2s2". *)
Definition i2s_dai (C : i2s_consts) : list snd_soc_dai_driver :=
  List.repeat {| playback := esw_stream C; capture := esw_stream C |} 4.

Definition update_dai (dais : list snd_soc_dai_driver) (i : nat)
  (f : snd_soc_dai_driver -> snd_soc_dai_driver)
  : list snd_soc_dai_driver :=
  List.map
    (fun '(k, x) => if Nat.eqb k i then f x else x)
    (List.combine (List.seq 0 (List.length dais)) dais).

Section Driver.

Variable C : i2s_consts.

Definition i2s_disable_channels (d : i2s_dev) (stream : Z) : i2s_dev :=
  if stream =? SNDRV_PCM_STREAM_PLAYBACK C
  then i2s_write_reg d (TER 0) 0
  else i2s_write_reg d (RER 0) 0.

(** One turn of the loop of [i2s_config]. *)
Definition i2s_config_channel (stream : Z) (d : i2s_dev) (ch_reg : Z)
  : i2s_dev :=
  if stream =? SNDRV_PCM_STREAM_PLAYBACK C then
    let d := i2s_write_reg d (TCR ch_reg) (xfer_resolution d) in
    let d := i2s_write_reg d (TFCR ch_reg) (fifo_th d - 1) in
    i2s_write_reg d (TER ch_reg) 1
  else
    let d := i2s_write_reg d (RCR ch_reg) (xfer_resolution d) in
    let d := i2s_write_reg d (RFCR ch_reg) (fifo_th d - 1) in
    i2s_write_reg d (RER ch_reg) 1.

(** [i2s_config]; [ch_reg] is a [u32] compared with the [int]
    [chan_nr / 2]. *)
Definition i2s_config (d : i2s_dev) (stream : Z) : i2s_dev :=
  let d := i2s_disable_channels d stream in
  List.fold_left (i2s_config_channel stream)
    (List.map Z.of_nat
       (List.seq 0 (Z.to_nat (u32 (Z.quot (chan_nr d) 2)))))
    d.

(** The clock of a master on a platform without [eswin-plat]. *)
Definition vo_mclk_divisor (e : hw_env) (d : i2s_dev) : Z * i2s_dev :=
  match syscon_regmap_lookup_by_phandle e with
  | Some err => (err, say d [DevErr MsgNoPhandle])
  | None =>
      let '(ret, vo_mclk_sel_reg) := of_property_read_u32_index e in
      if negb (ret =? 0) then (ret, say d [DevErr (MsgNoOffset ret)])
      else
        let vo_mclk_sel :=
          u32 (Z.land (regmap_read e) (Z.lnot VO_MCLK_DIVSOR_MASK)) in
        let select code :=
          let vo_mclk_sel :=
            Z.lor vo_mclk_sel (Z.shiftl code VO_MCLK_DIVSOR_OFFSET) in
          (0, say d [RegmapWrite vo_mclk_sel_reg vo_mclk_sel]) in
        if sample_rate d =? 96000 then select 0x10
        else if sample_rate d =? 48000 then select 0x12
        else if sample_rate d =? 44100 then select 0x11
        else
          (- EINVAL C, say d [DevErr (MsgCantSupportRate (sample_rate d))])
  end.

(** The clock of a master on a platform with [eswin-plat]. *)
Definition i2s_div (e : hw_env) (d : i2s_dev) : outcome (Z * i2s_dev) :=
  if sample_rate d =? 0 then DivisionByZero
  else if negb (MAX_SAMPLE_RATE_SUPPORT mod sample_rate d =? 0) then
    Returns
      (- EINVAL C, say d [DevErr (MsgNotSupportRate (sample_rate d))])
  else
    let div_num := u32 (MAX_SAMPLE_RATE_SUPPORT / sample_rate d - 1) in
    if negb (active d =? 0) then
      if negb (i2s_div_num d =? div_num) then
        Returns (- EINVAL C, say d [DevErr MsgClocksDiffer])
      else Returns (0, d)
    else
      let div_num_reg := u32 (Z.land (div_readl e) (Z.lnot DIV_NUM_MASK)) in
      let div_num_reg := Z.lor div_num_reg div_num in
      let d := say d [DevInfo] in
      let d := set_i2s_div_num d div_num in
      Returns (0, say d [WriteDiv div_num_reg]).

(** The end of [i2s_hw_params]: the clock of a master. *)
Definition i2s_hw_params_clock (e : hw_env) (d : i2s_dev)
  : outcome (Z * i2s_dev) :=
  if negb (Z.land (capability d) (DW_I2S_MASTER C) =? 0) then
    if eswin_plat d =? 0 then Returns (vo_mclk_divisor e d)
    else i2s_div e d
  else Returns (0, d).

(** [i2s_hw_params] after the switch on the format. *)
Definition i2s_hw_params_channels (e : hw_env) (d : i2s_dev)
  (stream channels rate : Z) : outcome (Z * i2s_dev) :=
  let d := set_chan_nr d channels in
  if negb (chan_nr d =? TWO_CHANNEL_SUPPORT C) then
    Returns (- EINVAL C, say d [DevErr MsgChannelNotSupported])
  else
    let d := i2s_config d stream in
    let d := i2s_write_reg d CCR (ccr d) in
    let d := set_sample_rate d rate in
    i2s_hw_params_clock e d.

(** [i2s_hw_params]; [format], [channels] and [rate] are what
    [params_format], [params_channels] and [params_rate] give. *)
Definition i2s_hw_params (e : hw_env) (d : i2s_dev)
  (stream format channels rate : Z) : outcome (Z * i2s_dev) :=
  let d := say d [DevInfo] in
  let c :=
    Z.lor (Z.shiftl (CLOCK_CYCLES_32 C) (CCR_WSS_POS C))
      (NO_CLOCK_GATING C) in
  if format =? SNDRV_PCM_FORMAT_S16_LE C then
    i2s_hw_params_channels e (set_format d 16 c (RESOLUTION_16_BIT C))
      stream channels rate
  else if format =? SNDRV_PCM_FORMAT_S24_LE C then
    i2s_hw_params_channels e (set_format d 24 c (RESOLUTION_24_BIT C))
      stream channels rate
  else if format =? SNDRV_PCM_FORMAT_S32_LE C then
    i2s_hw_params_channels e (set_format d 32 c (RESOLUTION_32_BIT C))
      stream channels rate
  else Returns (- EINVAL C, say d [DevErr MsgUnsupportedFmt]).

Definition is_err (c : reset_control) : bool :=
  match c with ErrPtr _ => true | _ => false end.

Definition ptr_err (c : reset_control) : Z :=
  match c with ErrPtr err => err | _ => 0 end.

Definition warn_on (condition : bool) : list i2s_event :=
  if condition then [Warn] else [].

(** [i2s_reset]. *)
Definition i2s_reset (e : i2s_env) : Z * list i2s_event :=
  let rst := reset_control_get e I2srst in
  let t := [ResetGet I2srst] in
  if is_err rst then (ptr_err rst, t)
  else
    let prst := reset_control_get e I2sprst in
    let t := t ++ [ResetGet I2sprst] in
    if is_err prst then (ptr_err prst, t)
    else
      let voprst := reset_control_get e Voprst in
      let t := t ++ [ResetGet Voprst] in
      if is_err prst then (ptr_err prst, t)
      else
        let ret := reset_control_assert e rst in
        let t := t ++ [ResetAssert rst] ++ warn_on (negb (0 =? ret)) in
        let ret := reset_control_assert e prst in
        let t := t ++ [ResetAssert prst] ++ warn_on (negb (0 =? ret)) in
        let ret := reset_control_deassert e rst in
        let t := t ++ [ResetDeassert rst] ++ warn_on (negb (0 =? ret)) in
        let ret := reset_control_deassert e prst in
        let t := t ++ [ResetDeassert prst] ++ warn_on (negb (0 =? ret)) in
        let ret := reset_control_deassert e voprst in
        let t := t ++ [ResetDeassert voprst] ++ warn_on (negb (0 =? ret)) in
        (0, t).

Definition set_playback (x : snd_soc_dai_driver) (s : snd_soc_pcm_stream)
  : snd_soc_dai_driver :=
  {| playback := s; capture := capture x |}.

Definition set_capture (x : snd_soc_dai_driver) (s : snd_soc_pcm_stream)
  : snd_soc_dai_driver :=
  {| playback := playback x; capture := s |}.

(** [i2s_configure_dai] on the entry [i] of [i2s_dai]. *)
Definition i2s_configure_dai (e : i2s_env) (d : i2s_dev)
  (dais : list snd_soc_dai_driver) (i : nat) (rates : Z)
  : Z * i2s_dev * list snd_soc_dai_driver :=
  let fifo_depth :=
    u32 (Z.shiftl 1 (1 + COMP1_FIFO_DEPTH_GLOBAL C (comp1 e))) in
  let mode d dais :=
    let d :=
      if negb (COMP1_MODE_EN C (comp1 e) =? 0)
      then set_capability (say d [DevDbg])
             (Z.lor (capability d) (DW_I2S_MASTER C))
      else set_capability (say d [DevDbg])
             (Z.lor (capability d) (DW_I2S_SLAVE C)) in
    (0, set_fifo_th d (fifo_depth / 2), dais) in
  let record d dais :=
    if negb (COMP1_RX_ENABLED C (comp1 e) =? 0) then
      let d := say d [DevDbg] in
      let idx := u32 (COMP2_RX_WORDSIZE_0 C (comp2 e)) in
      if idx >=? COMP1_MAX_WORDSIZE then (- EINVAL C, say d [Warn], dais)
      else
        mode d
          (update_dai dais i
             (fun x =>
                set_capture x
                  {| formats := at_index (i2s_formats C) idx;
                     channels_min := MIN_CHANNEL_NUM C;
                     channels_max :=
                       u32 (Z.shiftl (COMP1_RX_CHANNELS C (comp1 e) + 1) 1);
                     rates := rates |}))
    else mode d dais in
  if negb (COMP1_TX_ENABLED C (comp1 e) =? 0) then
    let d := say d [DevDbg] in
    let idx := u32 (COMP1_TX_WORDSIZE_0 C (comp1 e)) in
    if idx >=? COMP1_MAX_WORDSIZE then (- EINVAL C, say d [Warn], dais)
    else
      record d
        (update_dai dais i
           (fun x =>
              set_playback x
                {| formats := at_index (i2s_formats C) idx;
                   channels_min := MIN_CHANNEL_NUM C;
                   channels_max :=
                     u32 (Z.shiftl (COMP1_TX_CHANNELS C (comp1 e) + 1) 1);
                   rates := rates |}))
  else record d dais.

(** [i2s_configure_dai_by_dt] on the entry [i] of [i2s_dai]. *)
Definition i2s_configure_dai_by_dt (e : i2s_env) (d : i2s_dev)
  (dais : list snd_soc_dai_driver) (i : nat)
  : Z * i2s_dev * list snd_soc_dai_driver :=
  let d := say d [DevInfo] in
  let fifo_depth :=
    u32 (Z.shiftl 1 (1 + COMP1_FIFO_DEPTH_GLOBAL C (comp1 e))) in
  let idx := u32 (COMP1_APB_DATA_WIDTH C (comp1 e)) in
  if idx >=? COMP_MAX_DATA_WIDTH C then
    (- EINVAL C, say d [Warn; DevErr (MsgIdxInval idx)], dais)
  else
    let '(ret, d, dais) :=
      i2s_configure_dai e d dais i (SNDRV_PCM_RATE_8000_192000 C) in
    if ret <? 0 then
      (ret, say d [DevErr (MsgConfigureDaiFailed ret)], dais)
    else if negb (snd_soc_lookup_component e) then
      (-1, say d [DevErr MsgNoComponent], dais)
    else
      let d :=
        if negb (COMP1_TX_ENABLED C (comp1 e) =? 0) then
          let idx2 := u32 (COMP1_TX_WORDSIZE_0 C (comp1 e)) in
          let d :=
            set_capability d (Z.lor (capability d) (DWC_I2S_PLAY C)) in
          let size :=
            Z.shiftr (u32 (fifo_depth * at_index fifo_width idx2)) 3 in
          if playback_dma_is_hsp e then
            set_play_dma_data
              (say d [DmaMapResource (res_start e + TXDMA_CH0 C) size])
              {| addr := dma_map_resource e (res_start e + TXDMA_CH0 C) size;
                 addr_width := at_index (bus_widths C) idx;
                 fifo_size := size;
                 maxburst := 16 |}
          else
            set_play_dma_data d
              {| addr := res_start e + TXDMA_CH0 C;
                 addr_width := at_index (bus_widths C) idx;
                 fifo_size := size;
                 maxburst := 16 |}
        else d in
      let d :=
        if negb (COMP1_RX_ENABLED C (comp1 e) =? 0) then
          let idx2 := u32 (COMP2_RX_WORDSIZE_0 C (comp2 e)) in
          let d :=
            set_capability d (Z.lor (capability d) (DWC_I2S_RECORD C)) in
          let size :=
            Z.shiftr (u32 (fifo_depth * at_index fifo_width idx2)) 3 in
          if capture_dma_is_hsp e then
            set_capture_dma_data
              (say d [DmaMapResource (res_start e + RXDMA_CH0 C) size])
              {| addr := dma_map_resource e (res_start e + RXDMA_CH0 C) size;
                 addr_width := at_index (bus_widths C) idx;
                 fifo_size := size;
                 maxburst := 16 |}
          else
            set_capture_dma_data d
              {| addr := res_start e + RXDMA_CH0 C;
                 addr_width := at_index (bus_widths C) idx;
                 fifo_size := size;
                 maxburst := 16 |}
        else d in
      (0, d, dais).

(** The label [err_probe] of [i2s_probe]. *)
Definition err_probe (d : i2s_dev) (dais : list snd_soc_dai_driver)
  (ret : Z) : Z * i2s_dev * list snd_soc_dai_driver :=
  if negb (Z.land (capability d) (DW_I2S_MASTER C) =? 0)
  then (ret, say d [ClkDisableUnprepare], dais)
  else (ret, d, dais).

(** The end of [i2s_probe], from the registration of the component on. *)
Definition i2s_probe_register (e : i2s_env) (d : i2s_dev)
  (dais : list snd_soc_dai_driver) (irq : Z)
  : Z * i2s_dev * list snd_soc_dai_driver :=
  let div_num :=
    if node_is_i2s0 e then (VO_I2S0_DIV_NUM, I2s0Component, 0%nat, 2%nat, 0)
    else if node_is_i2s1 e then
      (VO_I2S1_DIV_NUM, I2sComponent, 2%nat, 1%nat, 1)
    else (VO_I2S2_DIV_NUM, I2sComponent, 3%nat, 1%nat, 2) in
  let '(offset, comp, first, count, port) := div_num in
  let d := say d [DevmIoremap (VO_TOP_CSR + offset)] in
  if negb (devm_ioremap e) then
    (- ENOMEM C, say d [DevErr (MsgRemapDivFailed port)], dais)
  else
    let d := say d [RegisterComponent comp first count] in
    let ret := devm_snd_soc_register_component e in
    if negb (ret =? 0) then
      err_probe (say d [DevErr MsgRegisterDaiFailed]) dais ret
    else
      let '(ret, d) :=
        if irq >=? 0
        then (i2s_pcm_register e, set_use_pio (say d [I2sPcmRegister]) true)
        else (devm_snd_dmaengine_pcm_register e,
              set_use_pio (say d [DmaenginePcmRegister]) false) in
      if negb (ret =? 0) then
        err_probe (say d [DevErr (MsgRegisterPcmFailed ret)]) dais ret
      else
        let '(ret, d, dais) := i2s_configure_dai_by_dt e d dais 0 in
        if ret <? 0 then (ret, say d [DevErr MsgConfigureByDtFailed], dais)
        else
          let '(ret, plat) := device_property_read_u32 e in
          let d :=
            if negb (0 =? ret)
            then set_eswin_plat (say d [DevWarn]) 0
            else set_eswin_plat d plat in
          let d := say d [DevInfo; PmRuntimeEnable; AudioProcModuleInit] in
          (0, d, dais).

(** The middle of [i2s_probe]: the interrupt. *)
Definition i2s_probe_irq (e : i2s_env) (d : i2s_dev)
  (dais : list snd_soc_dai_driver)
  : Z * i2s_dev * list snd_soc_dai_driver :=
  let d := say d [DevSetDrvdata; PlatformGetIrq] in
  let irq := platform_get_irq e in
  if irq >=? 0 then
    let d := say d [DevmRequestIrq irq] in
    let ret := devm_request_irq e in
    if ret <? 0 then (ret, say d [DevErr MsgRequestIrqFailed], dais)
    else i2s_probe_register e d dais irq
  else i2s_probe_register e d dais irq.

(** [i2s_probe]; the device is what the function leaves in [i2s_drvdata],
    with the calls made on its [log]. *)
Definition i2s_probe (e : i2s_env) (dais : list snd_soc_dai_driver)
  : Z * i2s_dev * list snd_soc_dai_driver :=
  let d := say zeroed_dev [DevInfo; DevmKzalloc] in
  if negb (kzalloc_drvdata e) then (- ENOMEM C, d, dais)
  else
    let d := say d [DevmKzalloc] in
    if negb (kzalloc_config e) then (- ENOMEM C, d, dais)
    else
      let d := say d [DevmIoremapResource] in
      match devm_ioremap_resource e with
      | Some err => (err, say d [DevErr MsgIoremapResourceFailed], dais)
      | None =>
          if node_is_i2s0 e then
            let d := say d [DevmClkGet] in
            match devm_clk_get e with
            | Some err => (err, d, dais)
            | None =>
                let d := say d [ClkPrepareEnable] in
                let ret := clk_prepare_enable e in
                if ret <? 0 then (ret, d, dais)
                else
                  let d := say d [ClkSetRate MAX_SAMPLE_RATE_CLK] in
                  let ret := clk_set_rate e in
                  let d :=
                    if negb (ret =? 0)
                    then say d [DevErr (MsgCantSetRate ret)] else d in
                  let '(ret, t) := i2s_reset e in
                  let d := say d t in
                  if negb (ret =? 0) then
                    err_probe (say d [DevErr MsgResetFailed]) dais ret
                  else i2s_probe_irq e d dais
            end
          else i2s_probe_irq e d dais
      end.

End Driver.

(** *** Vocabulary of the statements *)

(** The events a call added to the log of the device. *)
Definition new_i2s_events (d d' : i2s_dev) : list i2s_event :=
  List.skipn (List.length (log d)) (log d').

Definition clk_enables (t : list i2s_event) : nat :=
  List.length
    (List.filter
       (fun ev => match ev with ClkPrepareEnable => true | _ => false end) t).

Definition clk_disables (t : list i2s_event) : nat :=
  List.length
    (List.filter
       (fun ev => match ev with ClkDisableUnprepare => true | _ => false end)
       t).

(** The values written to the divider register. *)
Fixpoint div_writes (t : list i2s_event) : list Z :=
  match t with
  | [] => []
  | WriteDiv v :: t => v :: div_writes t
  | _ :: t => div_writes t
  end.

(** The values written through the regmap of the clock selector. *)
Fixpoint regmap_writes (t : list i2s_event) : list (Z * Z) :=
  match t with
  | [] => []
  | RegmapWrite r v :: t => (r, v) :: regmap_writes t
  | _ :: t => regmap_writes t
  end.

(** The registers of the controller written, in order. *)
Fixpoint reg_writes (t : list i2s_event) : list (i2s_reg * Z) :=
  match t with
  | [] => []
  | WriteReg r v :: t => (r, v) :: reg_writes t
  | _ :: t => reg_writes t
  end.

(** The controls handed to [reset_control_deassert], in order. *)
Fixpoint deasserted (t : list i2s_event) : list reset_control :=
  match t with
  | [] => []
  | ResetDeassert c :: t => c :: deasserted t
  | _ :: t => deasserted t
  end.

(** [d'] is [d] but for the format, the channels, the rate and new events
    that write neither the divider nor the clock selector. *)
Definition clock_view (d d' : i2s_dev) (t : list i2s_event) : Prop :=
  capability d' = capability d /\
  eswin_plat d' = eswin_plat d /\
  active d' = active d /\
  i2s_div_num d' = i2s_div_num d /\
  log d' = log d ++ t /\
  div_writes t = [] /\
  regmap_writes t = [].

(** The playback stream [i2s_configure_dai] derives from the component
    parameter register. *)
Definition hardware_playback (C : i2s_consts) (e : i2s_env)
  : snd_soc_pcm_stream :=
  {| formats :=
       at_index (i2s_formats C) (u32 (COMP1_TX_WORDSIZE_0 C (comp1 e)));
     channels_min := MIN_CHANNEL_NUM C;
     channels_max := u32 (Z.shiftl (COMP1_TX_CHANNELS C (comp1 e) + 1) 1);
     rates := SNDRV_PCM_RATE_8000_192000 C |}.

Definition format_supported (C : i2s_consts) (format : Z) : bool :=
  (format =? SNDRV_PCM_FORMAT_S16_LE C)
  || (format =? SNDRV_PCM_FORMAT_S24_LE C)
  || (format =? SNDRV_PCM_FORMAT_S32_LE C).

(** *** A sample platform *)

(** The values of a DesignWare I2S block under Linux. *)
Definition sample_consts : i2s_consts :=
  {| EINVAL := 22;
     ENOMEM := 12;
     SNDRV_PCM_STREAM_PLAYBACK := 0;
     SNDRV_PCM_FORMAT_S16_LE := 2;
     SNDRV_PCM_FORMAT_S24_LE := 6;
     SNDRV_PCM_FORMAT_S32_LE := 10;
     SNDRV_PCM_FMTBIT_S16_LE := 4;
     SNDRV_PCM_FMTBIT_S24_LE := 64;
     SNDRV_PCM_FMTBIT_S32_LE := 1024;
     SNDRV_PCM_RATE_8000_192000 := 0x1ffe;
     ESW_I2S_RATES := 0x14aa;
     CLOCK_CYCLES_32 := 2;
     CCR_WSS_POS := 3;
     NO_CLOCK_GATING := 0;
     RESOLUTION_16_BIT := 2;
     RESOLUTION_24_BIT := 4;
     RESOLUTION_32_BIT := 5;
     TWO_CHANNEL_SUPPORT := 2;
     MIN_CHANNEL_NUM := 2;
     DW_I2S_MASTER := 8;
     DW_I2S_SLAVE := 4;
     DWC_I2S_PLAY := 1;
     DWC_I2S_RECORD := 2;
     COMP_MAX_DATA_WIDTH := 4;
     DMA_SLAVE_BUSWIDTH_1_BYTE := 1;
     DMA_SLAVE_BUSWIDTH_2_BYTES := 2;
     DMA_SLAVE_BUSWIDTH_4_BYTES := 4;
     DMA_SLAVE_BUSWIDTH_UNDEFINED := 0;
     TXDMA_CH0 := 0x1c8;
     RXDMA_CH0 := 0x1c0;
     COMP1_FIFO_DEPTH_GLOBAL := fun r => Z.shiftr (Z.land r 0xc) 2;
     COMP1_APB_DATA_WIDTH := fun r => Z.land r 0x3;
     COMP1_TX_ENABLED := fun r => Z.land r 0x20;
     COMP1_RX_ENABLED := fun r => Z.land r 0x40;
     COMP1_TX_WORDSIZE_0 := fun r => Z.shiftr (Z.land r 0x70000) 16;
     COMP2_RX_WORDSIZE_0 := fun r => Z.land r 0x7;
     COMP1_TX_CHANNELS := fun r => Z.shiftr (Z.land r 0x600) 9;
     COMP1_RX_CHANNELS := fun r => Z.shiftr (Z.land r 0x180) 7;
     COMP1_MODE_EN := fun r => Z.land r 0x10 |}.

(** A platform on which every call succeeds, but for the lookup of the
    reset lines, which gives [lines], and the registration of the
    component, which gives [registered]; the node is i2s0 or i2s1. *)
Definition sample_probe_env (i2s0 : bool)
  (lines : reset_line -> reset_control) (registered : Z) : i2s_env :=
  {| kzalloc_drvdata := true;
     kzalloc_config := true;
     devm_ioremap_resource := None;
     res_start := 0x50200000;
     node_is_i2s0 := i2s0;
     node_is_i2s1 := negb i2s0;
     devm_clk_get := None;
     clk_prepare_enable := 0;
     clk_set_rate := 0;
     reset_control_get := lines;
     reset_control_assert := fun _ => 0;
     reset_control_deassert :=
       fun c => match c with ErrPtr _ => -22 | _ => 0 end;
     platform_get_irq := -6;
     devm_request_irq := 0;
     devm_ioremap := true;
     devm_snd_soc_register_component := registered;
     i2s_pcm_register := 0;
     devm_snd_dmaengine_pcm_register := 0;
     comp1 := 0x4027a;
     comp2 := 0x4;
     snd_soc_lookup_component := true;
     playback_dma_is_hsp := false;
     capture_dma_is_hsp := false;
     dma_map_resource := fun address _ => address;
     device_property_read_u32 := (0, 1) |}.

Definition all_lines (l : reset_line) : reset_control := Control l.

(** The lookup of the third line fails. *)
Definition voprst_fails (l : reset_line) : reset_control :=
  match l with Voprst => ErrPtr (-517) | _ => Control l end.

(** The lookup of the first line fails. *)
Definition i2srst_fails (l : reset_line) : reset_control :=
  match l with I2srst => ErrPtr (-517) | _ => Control l end.

(** A master with the given platform flag, count of active streams and
    recorded divider. *)
Definition sample_master (plat count divider : Z) : i2s_dev :=
  {| capability := 11; fifo_th := 8; use_pio := false;
     eswin_plat := plat; active := count; i2s_div_num := divider;
     ccr := 0; xfer_resolution := 0; chan_nr := 0;
     data_width := 0; sample_rate := 0;
     play_dma_data := zeroed_dma_data;
     capture_dma_data := zeroed_dma_data;
     log := [] |}.

Definition sample_hw_env (selector divider : Z) : hw_env :=
  {| syscon_regmap_lookup_by_phandle := None;
     of_property_read_u32_index := (0, 0x4c);
     regmap_read := selector;
     div_readl := divider |}.

End I2s.

(** ** Concrete platforms, cards and controllers *)

(** A platform with a 7-bit delay line and an 8-bit phase range. *)
Definition board_consts : eswin_consts :=
  {| PHY_DELAY_CODE_MAX := 127;
     PHY_CLK_MAX_DELAY_MASK := 127;
     PHY_UPDATE_DELAY_CODE := 16;
     MAX_PHASE_CODE := 255;
     SDHCI_CTRL_TUNED_CLK := 128;
     SW_TUNE_ENABLE := 16;
     SDHCI_RESET_CMD := 2;
     SDHCI_RESET_DATA := 4;
     EIO := 5 |}.

(** A platform with six phase codes only. *)
Definition scenario_consts : eswin_consts :=
  {| PHY_DELAY_CODE_MAX := 127;
     PHY_CLK_MAX_DELAY_MASK := 127;
     PHY_UPDATE_DELAY_CODE := 16;
     MAX_PHASE_CODE := 5;
     SDHCI_CTRL_TUNED_CLK := 128;
     SW_TUNE_ENABLE := 16;
     SDHCI_RESET_CMD := 2;
     SDHCI_RESET_DATA := 4;
     EIO := 5 |}.

(** A card whose answer depends on the delay code alone. *)
Definition delay_card (pass : Z -> bool) (err : Z) : sdhci_host -> Z -> Z :=
  fun h _ => if pass (regs h PHY_SDCLKDL_DC_R) then 0 else err.

(** A card whose answer depends on the phase code alone. *)
Definition phase_card (pass : Z -> bool) (err : Z) : sdhci_host -> Z -> Z :=
  fun h _ => if pass (regs h VENDOR_AT_SATA_R) then 0 else err.

(** A controller out of reset: registers and trace empty, with the static
    fallback delay code, the static phase code and the tuning switch of its
    device-tree node. *)
Definition fresh_host (fallback static_phase sw : Z) : sdhci_host :=
  {| regs := fun _ => 0;
     trace := [];
     phy_delay_code := fallback;
     priv_phase_code := static_phase;
     enable_sw_tuning := sw |}.

(** Membership in the run of codes [a..b]. *)
Definition in_run (a b : Z) (i : Z) : bool := (a <=? i) && (i <=? b).

(** The opcode of the tuning block command and the status of a failed
    command used by the concrete cards. *)
Definition MMC_SEND_TUNING_BLOCK : Z := 19.
Definition tuning_error : Z := -84.

(** Cards with one or two passing runs of delay codes, or of phase codes, and
    the card that never passes. *)
Definition delay_run_card (a b : Z) : sdhci_host -> Z -> Z :=
  delay_card (in_run a b) tuning_error.

Definition delay_two_runs_card (a1 b1 a2 b2 : Z) : sdhci_host -> Z -> Z :=
  delay_card (fun i => in_run a1 b1 i || in_run a2 b2 i) tuning_error.

Definition phase_run_card (a b : Z) : sdhci_host -> Z -> Z :=
  phase_card (in_run a b) tuning_error.

Definition phase_two_runs_card (a1 b1 a2 b2 : Z) : sdhci_host -> Z -> Z :=
  phase_card (fun i => in_run a1 b1 i || in_run a2 b2 i) tuning_error.

Definition dead_card : sdhci_host -> Z -> Z := fun _ _ => tuning_error.

(** A controller with software tuning enabled, fallback delay code 32 and no
    static phase code. *)
Definition tuning_host : sdhci_host := fresh_host 32 (-1) 1.

(** The same with the tuned clock selected and the auto-tuning control
    register holding 0x12345608. *)
Definition tuned_host : sdhci_host :=
  {| regs := fun r =>
               match r with
               | SDHCI_HOST_CONTROL2 => 0x80
               | VENDOR_AT_CTRL_R => 0x12345608
               | _ => 0
               end;
     trace := [];
     phy_delay_code := 32;
     priv_phase_code := -1;
     enable_sw_tuning := 1 |}.

(** The pad and reset macros of a platform. *)
Definition board_phy_consts : phy_consts :=
  {| PHY_RSTN := 1;
     PHY_PAD_SP_DRIVE_SHIF := 16;
     PHY_SLEW_2 := 2;
     PHY_TX_SLEW_CTRL_P_BIT_SHIFT := 5;
     PHY_TX_SLEW_CTRL_N_BIT_SHIFT := 9;
     PHY_PULL_BIT_SHIF := 3;
     PHY_PULL_UP := 1;
     PHY_PAD_RXSEL_0 := 0;
     PHY_PAD_RXSEL_1 := 1;
     SDHCI_RESET_ALL := 1;
     SDHCI_CTRL_CDTEST_INS := 64;
     SDHCI_CTRL_CDTEST_EN := 128;
     SDHCI_ESWIN_QUIRK_FORCE_CDTEST := 1 |}.

(** A controller whose software reset clears every register on a full reset
    and none otherwise. *)
Definition clearing_reset (mask : Z) (rg : reg -> Z) (ig : io_reg -> Z)
  : (reg -> Z) * (io_reg -> Z) :=
  if mask =? 1 then (fun _ => 0, fun _ => 0) else (rg, ig).

(** A controller in use: delay code 25 in the delay line, card-detect test
    quirk set, interrupts enabled. *)
Definition running_controller : eswin_sdhci_data :=
  {| host := {| regs := fun r => match r with
                                 | PHY_SDCLKDL_DC_R => 25
                                 | _ => 0
                                 end;
                trace := [];
                phy_delay_code := 32;
                priv_phase_code := -1;
                enable_sw_tuning := 1 |};
     io := fun _ => 0;
     io_trace := [];
     ier := 50331903;
     quirks := 1;
     phy_drive_impedance := 12;
     phy_enable_cmd_pullup := 1;
     phy_enable_data_pullup := 1 |}.

(** The macros of the probe path on a platform. *)
Definition board_probe_consts : probe_consts :=
  {| ENABLE := 1;
     DISABLE := 0;
     ENOMEM := 12;
     MSHC_INT_CLK_STABLE := 1;
     MSHC_HOST_VAL_STABLE := 1;
     AWSMMUSID := 0xFF000000;
     ARSMMUSID := 0x00FF0000;
     AWSMMUSSID := 0x0000FF00;
     ARSMMUSSID := 0x000000FF |}.

(** A device behind the SMMU with both PHY clocks to offer, on which every
    call succeeds but for what the arguments say: whether [core_clk_reg]
    can be mapped, whether the [eswin,hsp_sp_csr] regmap is there, the
    status of the reset initialisation and of the device-tree parser, and
    the tuning properties of the device tree. *)
Definition sample_env (ioremap regmap : bool) (reset_ret parse_ret : Z)
           (sw : bool) (phase : option Z) : probe_env :=
  {| pltfm_init_err := 0;
     core_clk_reg_ret := 0;
     ioremap_ok := ioremap;
     sdio_id_ret := 0;
     sdio_id := 1;
     clk_ahb_err := 0;
     clk_xin_err := 0;
     clk_spll2_err := 0;
     compatible_sdio := true;
     clk_mux_err := 0;
     ahb_enable_ret := 0;
     pltfm_clock := 200000000;
     xin_rate := 100000000;
     set_rate_ret := 0;
     xin_enable_ret := 0;
     clock_cells := Some 1;
     clock_cells_present := true;
     output_name0_ret := 0;
     sdcardclk_err := 0;
     add_provider0_ret := 0;
     output_name1_ret := 0;
     sampleclk_err := 0;
     add_provider1_ret := 0;
     reset_init_ret := reset_ret;
     regmap_found := regmap;
     fwspec_sid := Some 5;
     sid_regmap_found := true;
     sid_reg_ret := 0;
     sid_reg := 0x1008;
     dynm_sid_enable_ret := 0;
     dt_delay_code := Some 32;
     dt_drive_impedance := Some 50;
     convert_drive_impedance_ohm := fun ohm => ohm / 10;
     dt_enable_cmd_pullup := true;
     dt_enable_data_pullup := true;
     dt_enable_sw_tuning := sw;
     dt_phase_code := phase;
     mmc_of_parse_ret := parse_ret;
     sdhci_add_host_ret := 0;
     sdhci_setup_host_ret := 0;
     cq_host_alloc_ok := true;
     use_64_bit_dma := true;
     cqhci_init_ret := 0;
     sdhci_add_host_tail_ret := 0 |}.

(** A controller with command queueing on which every call of suspend and
    resume succeeds but [sdhci_resume_host]. *)
Definition sample_pm_env : pm_env :=
  {| tuning_mode_3 := false;
     pm_has_cqe := true;
     cqhci_suspend_ret := 0;
     sdhci_suspend_host_ret := 0;
     clk_enable_ahb_ret := 0;
     clk_enable_xin_ret := 0;
     sdhci_resume_host_ret := -5;
     cqhci_resume_ret := 0 |}.

Section Tuning.

Variable K : eswin_consts.

(** [mmc_send_tuning(host->mmc, opcode, &cmd_error)]: the status of one
    tuning command, 0 for a pass.  It may depend on everything the
    controller holds, the history included. *)
Variable mmc_send_tuning : sdhci_host -> Z -> Z.

(** The indeterminate content of the local [int ret] of the delay scanner,
    which is declared without an initialiser. *)
Variable ret_uninit : Z.

Definition send_tuning (h : sdhci_host) (opcode : Z) : Z * sdhci_host :=
  let ret := mmc_send_tuning h opcode in
  (ret, log (SendTuning opcode (regs h PHY_SDCLKDL_DC_R)
               (regs h VENDOR_AT_SATA_R) ret) h).

(** [host->ops->reset(host, mask)] *)
Definition ops_reset (h : sdhci_host) (mask : Z) : sdhci_host :=
  log (OpsReset mask) h.

Definition udelay (h : sdhci_host) (usecs : Z) : sdhci_host :=
  log (Udelay usecs) h.

Definition pr_err (h : sdhci_host) (m : message) : sdhci_host :=
  log (PrErr m) h.

Definition pr_info (h : sdhci_host) (m : message) : sdhci_host :=
  log (PrInfo m) h.

Definition eswin_sdhci_sdio_config_phy_delay (h : sdhci_host) (delay : Z)
  : sdhci_host :=
  let delay := Z.land delay (PHY_CLK_MAX_DELAY_MASK K) in
  let h := sdhci_writeb h (PHY_UPDATE_DELAY_CODE K) PHY_SDCLKDL_CNFG_R in
  let h := sdhci_writeb h delay PHY_SDCLKDL_DC_R in
  sdhci_writeb h 0 PHY_SDCLKDL_CNFG_R.

(** *** Delay-code scanner *)

(** One iteration of the [for] loop at delay code [i]. *)
Definition delay_iter (opcode i : Z) (h : sdhci_host) (l : delay_locals)
  : sdhci_host * delay_locals * flow :=
  let h := eswin_sdhci_disable_card_clk h in
  let h := eswin_sdhci_sdio_config_phy_delay h i in
  let h := eswin_sdhci_enable_card_clk h in
  let '(ret, h) := send_tuning h opcode in
  if negb (ret =? 0) then
    let h := ops_reset h (Z.lor (SDHCI_RESET_CMD K) (SDHCI_RESET_DATA K)) in
    let h := udelay h 200 in
    if negb (d_delay_min l =? -1) && negb (d_delay_max l =? -1) then
      if sint32 (d_delay_max l - d_delay_min l) >? d_delay_range l then
        let delay_range := sint32 (d_delay_max l - d_delay_min l) in
        let delay := Z.quot (sint32 (d_delay_min l + d_delay_max l)) 2 in
        if delay_range >? DELAY_RANGE_THRESHOLD then
          (h, {| d_ret := ret; d_delay := delay;
                 d_delay_min := d_delay_min l;
                 d_delay_max := d_delay_max l;
                 d_delay_range := delay_range |}, Break)
        else
          (h, {| d_ret := ret; d_delay := delay;
                 d_delay_min := -1; d_delay_max := -1;
                 d_delay_range := delay_range |}, Next)
      else
        (h, {| d_ret := ret; d_delay := d_delay l;
               d_delay_min := -1; d_delay_max := -1;
               d_delay_range := d_delay_range l |}, Next)
    else
      (h, {| d_ret := ret; d_delay := d_delay l;
             d_delay_min := d_delay_min l;
             d_delay_max := d_delay_max l;
             d_delay_range := d_delay_range l |}, Next)
  else
    if d_delay_min l =? -1 then
      (h, {| d_ret := ret; d_delay := d_delay l;
             d_delay_min := i;
             d_delay_max := d_delay_max l;
             d_delay_range := d_delay_range l |}, Next)
    else
      (h, {| d_ret := ret; d_delay := d_delay l;
             d_delay_min := d_delay_min l;
             d_delay_max := i;
             d_delay_range := d_delay_range l |}, Next).

(** [n] iterations starting at code [i], unless one of them breaks. *)
Fixpoint delay_loop (opcode : Z) (n : nat) (i : Z)
         (h : sdhci_host) (l : delay_locals)
  : sdhci_host * delay_locals * flow :=
  match n with
  | O => (h, l, Next)
  | S n' =>
      match delay_iter opcode i h l with
      | (h', l', Break) => (h', l', Break)
      | (h', l', Next) => delay_loop opcode n' (i + 1) h' l'
      end
  end.

Definition delay_init : delay_locals :=
  {| d_ret := ret_uninit; d_delay := -1;
     d_delay_min := -1; d_delay_max := -1; d_delay_range := -1 |}.

(** [for (i = 0; i <= PHY_DELAY_CODE_MAX; i++)] *)
Definition delay_scan (opcode : Z) (h : sdhci_host)
  : sdhci_host * delay_locals * flow :=
  delay_loop opcode (Z.to_nat (PHY_DELAY_CODE_MAX K + 1)) 0 h delay_init.

Definition eswin_sdhci_sdio_delay_tuning (h : sdhci_host) (opcode : Z)
  : Z * sdhci_host :=
  let '(h, l, _) := delay_scan opcode h in
  if d_delay l =? -1 then
    let h := pr_err h MsgDelayTuningFailed in
    let h := eswin_sdhci_disable_card_clk h in
    let h := eswin_sdhci_sdio_config_phy_delay h (phy_delay_code h) in
    let h := eswin_sdhci_enable_card_clk h in
    (d_ret l, h)
  else
    let h := pr_info h (MsgSetDelay (d_delay l)) in
    let h := eswin_sdhci_disable_card_clk h in
    let h := eswin_sdhci_sdio_config_phy_delay h (d_delay l) in
    let h := eswin_sdhci_enable_card_clk h in
    (0, h).

(** *** Phase-code scanner *)

Definition phase_iter (opcode phase_code : Z)
           (h : sdhci_host) (l : phase_locals)
  : sdhci_host * phase_locals * flow :=
  let h := eswin_sdhci_disable_card_clk h in
  let h := sdhci_writew h phase_code VENDOR_AT_SATA_R in
  let h := eswin_sdhci_enable_card_clk h in
  let '(ret, h) := send_tuning h opcode in
  if negb (ret =? 0) then
    let h := ops_reset h (Z.lor (SDHCI_RESET_CMD K) (SDHCI_RESET_DATA K)) in
    let h := udelay h 200 in
    if negb (p_code_min l =? -1) && negb (p_code_max l =? -1) then
      (h, {| p_ret := ret; p_code_min := p_code_min l;
             p_code_max := p_code_max l |}, Break)
    else
      (h, {| p_ret := ret; p_code_min := p_code_min l;
             p_code_max := p_code_max l |}, Next)
  else
    if p_code_min l =? -1 then
      (h, {| p_ret := ret; p_code_min := phase_code;
             p_code_max := p_code_max l |}, Next)
    else
      (h, {| p_ret := ret; p_code_min := p_code_min l;
             p_code_max := phase_code |}, Next).

Fixpoint phase_loop (opcode : Z) (n : nat) (phase_code : Z)
         (h : sdhci_host) (l : phase_locals)
  : sdhci_host * phase_locals * flow :=
  match n with
  | O => (h, l, Next)
  | S n' =>
      match phase_iter opcode phase_code h l with
      | (h', l', Break) => (h', l', Break)
      | (h', l', Next) => phase_loop opcode n' (phase_code + 1) h' l'
      end
  end.

Definition phase_init : phase_locals :=
  {| p_ret := 0; p_code_min := -1; p_code_max := -1 |}.

(** [for (phase_code = 0; phase_code <= MAX_PHASE_CODE; phase_code++)] *)
Definition phase_scan (opcode : Z) (h : sdhci_host)
  : sdhci_host * phase_locals * flow :=
  phase_loop opcode (Z.to_nat (MAX_PHASE_CODE K + 1)) 0 h phase_init.

Definition eswin_sdhci_sdio_phase_code_tuning (h : sdhci_host) (opcode : Z)
  : Z * sdhci_host :=
  let '(h, l, _) := phase_scan opcode h in
  if (p_code_min l =? -1) && (p_code_max l =? -1) then
    let h := pr_err h MsgPhaseTuningFailed in
    let h := eswin_sdhci_disable_card_clk h in
    let h := sdhci_writew h 0 VENDOR_AT_SATA_R in
    let h := eswin_sdhci_enable_card_clk h in
    (- EIO K, h)
  else
    let phase_code := Z.quot (sint32 (p_code_min l + p_code_max l)) 2 in
    let h := pr_info h (MsgSetPhaseCode phase_code) in
    let h := eswin_sdhci_disable_card_clk h in
    let h := sdhci_writew h phase_code VENDOR_AT_SATA_R in
    let h := eswin_sdhci_enable_card_clk h in
    (0, h).

(** *** Tuning orchestrator *)

Definition eswin_sdhci_sdio_executing_tuning (h : sdhci_host) (opcode : Z)
  : Z * sdhci_host :=
  if enable_sw_tuning h =? 0 then
    if negb (priv_phase_code h =? -1) then
      let h := eswin_sdhci_disable_card_clk h in
      let h := sdhci_writew h (priv_phase_code h) VENDOR_AT_SATA_R in
      let h := eswin_sdhci_enable_card_clk h in
      (0, h)
    else (0, h)
  else
    let h := eswin_sdhci_disable_card_clk h in
    let ctrl := sdhci_readw h SDHCI_HOST_CONTROL2 in
    let ctrl := Z.land ctrl (u32 (Z.lnot (SDHCI_CTRL_TUNED_CLK K))) in
    let h := sdhci_writew h ctrl SDHCI_HOST_CONTROL2 in
    let val := sdhci_readl h VENDOR_AT_CTRL_R in
    let val := Z.lor val (SW_TUNE_ENABLE K) in
    let h := sdhci_writew h val VENDOR_AT_CTRL_R in
    let h := sdhci_writew h 0 VENDOR_AT_SATA_R in
    let h := eswin_sdhci_enable_card_clk h in
    let h := sdhci_writew h 0 SDHCI_CMD_DATA in
    let '(ret, h) := eswin_sdhci_sdio_delay_tuning h opcode in
    if ret <? 0 then (ret, h)
    else
      let '(ret, h) := eswin_sdhci_sdio_phase_code_tuning h opcode in
      if ret <? 0 then (ret, h)
      else (0, h).

(** *** Reset hook and PHY configuration *)

Section ResetHook.

Variable Phy : phy_consts.

(** [sdhci_reset(host, mask)] of the SDHCI core: what a software reset does
    to the registers is the controller's business and left open. *)
Variable sdhci_reset_regs :
  Z -> (reg -> Z) -> (io_reg -> Z) -> (reg -> Z) * (io_reg -> Z).

Definition sdhci_reset (s : eswin_sdhci_data) (mask : Z) : eswin_sdhci_data :=
  let '(rg, ig) := sdhci_reset_regs mask (regs (host s)) (io s) in
  {| host := {| regs := rg;
                trace := trace (host s);
                phy_delay_code := phy_delay_code (host s);
                priv_phase_code := priv_phase_code (host s);
                enable_sw_tuning := enable_sw_tuning (host s) |};
     io := ig;
     io_trace := io_trace s ++ [SdhciReset mask];
     ier := ier s;
     quirks := quirks s;
     phy_drive_impedance := phy_drive_impedance s;
     phy_enable_cmd_pullup := phy_enable_cmd_pullup s;
     phy_enable_data_pullup := phy_enable_data_pullup s |}.

Definition eswin_sdhci_sdio_config_phy (s : eswin_sdhci_data)
  : eswin_sdhci_data :=
  let drv :=
    u32 (Z.shiftl (phy_drive_impedance s) (PHY_PAD_SP_DRIVE_SHIF Phy)) in
  let s := pr_debug s drv in
  let s := on_host eswin_sdhci_disable_card_clk s in
  let s := sdhci_writel s (Z.lor drv (Z.lnot (PHY_RSTN Phy))) PHY_CNFG_R in
  let val :=
    u32 (Z.lor
           (Z.lor
              (Z.lor
                 (Z.shiftl (PHY_SLEW_2 Phy) (PHY_TX_SLEW_CTRL_P_BIT_SHIFT Phy))
                 (Z.shiftl (PHY_SLEW_2 Phy) (PHY_TX_SLEW_CTRL_N_BIT_SHIFT Phy)))
              (Z.shiftl (phy_enable_cmd_pullup s) (PHY_PULL_BIT_SHIF Phy)))
           (PHY_PAD_RXSEL_1 Phy)) in
  let s := io_writew s val PHY_CMDPAD_CNFG_R in
  let s := pr_debug s val in
  let val :=
    u32 (Z.lor
           (Z.lor
              (Z.lor
                 (Z.shiftl (PHY_SLEW_2 Phy) (PHY_TX_SLEW_CTRL_P_BIT_SHIFT Phy))
                 (Z.shiftl (PHY_SLEW_2 Phy) (PHY_TX_SLEW_CTRL_N_BIT_SHIFT Phy)))
              (Z.shiftl (phy_enable_data_pullup s) (PHY_PULL_BIT_SHIF Phy)))
           (PHY_PAD_RXSEL_1 Phy)) in
  let s := io_writew s val PHY_DATAPAD_CNFG_R in
  let s := pr_debug s val in
  let val :=
    u32 (Z.lor
           (Z.lor
              (Z.shiftl (PHY_SLEW_2 Phy) (PHY_TX_SLEW_CTRL_P_BIT_SHIFT Phy))
              (Z.shiftl (PHY_SLEW_2 Phy) (PHY_TX_SLEW_CTRL_N_BIT_SHIFT Phy)))
           (PHY_PAD_RXSEL_0 Phy)) in
  let s := io_writew s val PHY_CLKPAD_CNFG_R in
  let s := pr_debug s val in
  let s := mdelay s 2 in
  let val :=
    u32 (Z.lor
           (Z.lor
              (Z.lor
                 (Z.shiftl (PHY_SLEW_2 Phy) (PHY_TX_SLEW_CTRL_P_BIT_SHIFT Phy))
                 (Z.shiftl (PHY_SLEW_2 Phy) (PHY_TX_SLEW_CTRL_N_BIT_SHIFT Phy)))
              (Z.shiftl (PHY_PULL_UP Phy) (PHY_PULL_BIT_SHIF Phy)))
           (PHY_PAD_RXSEL_1 Phy)) in
  let s := io_writew s val PHY_RSTNPAD_CNFG_R in
  let s := sdhci_writel s (Z.lor drv (PHY_RSTN Phy)) PHY_CNFG_R in
  let s :=
    on_host
      (fun h => eswin_sdhci_sdio_config_phy_delay h (phy_delay_code h)) s in
  on_host eswin_sdhci_enable_card_clk s.

(** The hook before its last test: interrupts masked, controller reset,
    interrupts restored, card-detect test forced where the quirk asks. *)
Definition reset_core (s : eswin_sdhci_data) (mask : Z) : eswin_sdhci_data :=
  let s := sdhci_writel s 0 SDHCI_INT_ENABLE in
  let s := sdhci_writel s 0 SDHCI_SIGNAL_ENABLE in
  let s := sdhci_reset s mask in
  let s := sdhci_writel s (ier s) SDHCI_INT_ENABLE in
  let s := sdhci_writel s (ier s) SDHCI_SIGNAL_ENABLE in
  if negb (Z.land (quirks s) (SDHCI_ESWIN_QUIRK_FORCE_CDTEST Phy) =? 0) then
    let ctrl := sdhci_readb s SDHCI_HOST_CONTROL in
    let ctrl :=
      u8 (Z.lor ctrl
            (Z.lor (SDHCI_CTRL_CDTEST_INS Phy) (SDHCI_CTRL_CDTEST_EN Phy))) in
    io_writeb s ctrl SDHCI_HOST_CONTROL
  else s.

(** [mask] is a [u8] parameter. *)
Definition eswin_sdhci_sdio_reset (s : eswin_sdhci_data) (mask : Z)
  : eswin_sdhci_data :=
  let mask := u8 mask in
  let s := reset_core s mask in
  if mask =? SDHCI_RESET_ALL Phy then eswin_sdhci_sdio_config_phy s else s.

End ResetHook.

(** *** Vocabulary of the statements *)

(** The controller as the card sees it when the tuning command of delay
    code [i] (of phase code [phase_code]) is issued. *)
Definition delay_probe_host (i : Z) (h : sdhci_host) : sdhci_host :=
  eswin_sdhci_enable_card_clk
    (eswin_sdhci_sdio_config_phy_delay (eswin_sdhci_disable_card_clk h) i).

Definition phase_probe_host (phase_code : Z) (h : sdhci_host) : sdhci_host :=
  eswin_sdhci_enable_card_clk
    (sdhci_writew (eswin_sdhci_disable_card_clk h) phase_code
       VENDOR_AT_SATA_R).

(** The controller after a tuning command that returned [ret]: the command
    is on the trace, and so are the reset and the settle delay of the
    failure path. *)
Definition after_probe (opcode ret : Z) (h : sdhci_host) : sdhci_host :=
  let h := snd (send_tuning h opcode) in
  if negb (ret =? 0) then
    udelay
      (ops_reset h (Z.lor (SDHCI_RESET_CMD K) (SDHCI_RESET_DATA K))) 200
  else h.

(** The trace of one iteration, call by call. *)
Definition settle_events (ret : Z) : list event :=
  if negb (ret =? 0) then
    [OpsReset (Z.lor (SDHCI_RESET_CMD K) (SDHCI_RESET_DATA K)); Udelay 200]
  else [].

Definition config_events (delay : Z) : list event :=
  [Write PHY_SDCLKDL_CNFG_R (u8 (PHY_UPDATE_DELAY_CODE K));
   Write PHY_SDCLKDL_DC_R (u8 (Z.land delay (PHY_CLK_MAX_DELAY_MASK K)));
   Write PHY_SDCLKDL_CNFG_R (u8 0)].

(** The [if (ret) ... else ...] of the delay loop as a function of the
    status [ret], the code [i] and the locals. *)
Definition delay_step (ret i : Z) (l : delay_locals) : delay_locals * flow :=
  if negb (ret =? 0) then
    if negb (d_delay_min l =? -1) && negb (d_delay_max l =? -1) then
      if sint32 (d_delay_max l - d_delay_min l) >? d_delay_range l then
        let delay_range := sint32 (d_delay_max l - d_delay_min l) in
        let delay := Z.quot (sint32 (d_delay_min l + d_delay_max l)) 2 in
        if delay_range >? DELAY_RANGE_THRESHOLD then
          ({| d_ret := ret; d_delay := delay;
              d_delay_min := d_delay_min l;
              d_delay_max := d_delay_max l;
              d_delay_range := delay_range |}, Break)
        else
          ({| d_ret := ret; d_delay := delay;
              d_delay_min := -1; d_delay_max := -1;
              d_delay_range := delay_range |}, Next)
      else
        ({| d_ret := ret; d_delay := d_delay l;
            d_delay_min := -1; d_delay_max := -1;
            d_delay_range := d_delay_range l |}, Next)
    else
      ({| d_ret := ret; d_delay := d_delay l;
          d_delay_min := d_delay_min l;
          d_delay_max := d_delay_max l;
          d_delay_range := d_delay_range l |}, Next)
  else
    if d_delay_min l =? -1 then
      ({| d_ret := ret; d_delay := d_delay l;
          d_delay_min := i;
          d_delay_max := d_delay_max l;
          d_delay_range := d_delay_range l |}, Next)
    else
      ({| d_ret := ret; d_delay := d_delay l;
          d_delay_min := d_delay_min l;
          d_delay_max := i;
          d_delay_range := d_delay_range l |}, Next).

(** The same for the phase loop. *)
Definition phase_step (ret phase_code : Z) (l : phase_locals)
  : phase_locals * flow :=
  if negb (ret =? 0) then
    if negb (p_code_min l =? -1) && negb (p_code_max l =? -1) then
      ({| p_ret := ret; p_code_min := p_code_min l;
          p_code_max := p_code_max l |}, Break)
    else
      ({| p_ret := ret; p_code_min := p_code_min l;
          p_code_max := p_code_max l |}, Next)
  else
    if p_code_min l =? -1 then
      ({| p_ret := ret; p_code_min := phase_code;
          p_code_max := p_code_max l |}, Next)
    else
      ({| p_ret := ret; p_code_min := p_code_min l;
          p_code_max := phase_code |}, Next).

(** The card passes (fails) every tuning command issued while the delay
    line holds code [j]. *)
Definition delay_passes (opcode j : Z) : Prop :=
  forall h, regs h PHY_SDCLKDL_DC_R = j -> mmc_send_tuning h opcode = 0.

Definition delay_fails (opcode j : Z) : Prop :=
  forall h, regs h PHY_SDCLKDL_DC_R = j -> mmc_send_tuning h opcode <> 0.

(** The card passes (fails) every tuning command issued while the phase
    register holds code [j]. *)
Definition phase_passes (opcode j : Z) : Prop :=
  forall h, regs h VENDOR_AT_SATA_R = j -> mmc_send_tuning h opcode = 0.

Definition phase_fails (opcode j : Z) : Prop :=
  forall h, regs h VENDOR_AT_SATA_R = j -> mmc_send_tuning h opcode <> 0.

(** Every delay code of the range survives the mask and the byte-wide
    register write of [eswin_sdhci_sdio_config_phy_delay]. *)
Definition delay_codes_fit : Prop :=
  forall c, 0 <= c <= PHY_DELAY_CODE_MAX K ->
            u8 (Z.land c (PHY_CLK_MAX_DELAY_MASK K)) = c.

(** Every phase code of the range survives the 16-bit register write. *)
Definition phase_codes_fit : Prop :=
  0 <= MAX_PHASE_CODE K < 2 ^ 16.

(** [h'] continues the trace of [h]. *)
Definition grows (h h' : sdhci_host) : Prop :=
  trace h' = trace h ++ new_events h h'.

(** The calls leave the device-tree data alone. *)
Definition same_config (h h' : sdhci_host) : Prop :=
  phy_delay_code h' = phy_delay_code h /\
  priv_phase_code h' = priv_phase_code h /\
  enable_sw_tuning h' = enable_sw_tuning h.

(** The effect of a piece of driver code on the controller: the trace only
    grows, the device-tree data stays, and the new calls respect the clock
    gate. *)
Definition well_behaved (h h' : sdhci_host) : Prop :=
  grows h h' /\ same_config h h' /\ bracketed false (new_events h h') = true.

(** The controller after the opening sequence of the software-tuning path of
    the orchestrator: tuned-clock flag cleared, software tuning enabled, phase
    register zeroed, command/data register cleared. *)
Definition tuning_prologue (h : sdhci_host) : sdhci_host :=
  let h := eswin_sdhci_disable_card_clk h in
  let ctrl := sdhci_readw h SDHCI_HOST_CONTROL2 in
  let ctrl := Z.land ctrl (u32 (Z.lnot (SDHCI_CTRL_TUNED_CLK K))) in
  let h := sdhci_writew h ctrl SDHCI_HOST_CONTROL2 in
  let val := sdhci_readl h VENDOR_AT_CTRL_R in
  let val := Z.lor val (SW_TUNE_ENABLE K) in
  let h := sdhci_writew h val VENDOR_AT_CTRL_R in
  let h := sdhci_writew h 0 VENDOR_AT_SATA_R in
  let h := eswin_sdhci_enable_card_clk h in
  sdhci_writew h 0 SDHCI_CMD_DATA.

(** *** Loop invariants of the delay sweep

    Each relates the locals at the head of iteration [i] to the card. *)

(** One passing run [a..b]: nothing before it, an open window inside it, the
    recorded candidate after it. *)
Definition single_run_inv (a b i : Z) (l : delay_locals) : Prop :=
  (i <= a /\ d_delay l = -1 /\ d_delay_min l = -1 /\
   d_delay_max l = -1 /\ d_delay_range l = -1) \/
  (i = a + 1 /\ d_delay l = -1 /\ d_delay_min l = a /\
   d_delay_max l = -1 /\ d_delay_range l = -1) \/
  (a + 2 <= i <= b + 1 /\ d_delay l = -1 /\ d_delay_min l = a /\
   d_delay_max l = i - 1 /\ d_delay_range l = -1) \/
  (b + 2 <= i /\ d_delay l = (a + b) / 2 /\ d_delay_min l = -1 /\
   d_delay_max l = -1 /\ d_delay_range l = b - a).

(** Two passing runs [a1..b1] and [a2..b2], in scan order; [m] is the
    candidate expected at the end. *)
Definition two_runs_inv (a1 b1 a2 b2 m i : Z) (l : delay_locals) : Prop :=
  (i <= a1 /\ d_delay l = -1 /\ d_delay_min l = -1 /\
   d_delay_max l = -1 /\ d_delay_range l = -1) \/
  (i = a1 + 1 /\ d_delay l = -1 /\ d_delay_min l = a1 /\
   d_delay_max l = -1 /\ d_delay_range l = -1) \/
  (a1 + 2 <= i <= b1 + 1 /\ d_delay l = -1 /\ d_delay_min l = a1 /\
   d_delay_max l = i - 1 /\ d_delay_range l = -1) \/
  (b1 + 2 <= i <= a2 /\ d_delay l = (a1 + b1) / 2 /\ d_delay_min l = -1 /\
   d_delay_max l = -1 /\ d_delay_range l = b1 - a1) \/
  (i = a2 + 1 /\ d_delay l = (a1 + b1) / 2 /\ d_delay_min l = a2 /\
   d_delay_max l = -1 /\ d_delay_range l = b1 - a1) \/
  (a2 + 2 <= i <= b2 + 1 /\ d_delay l = (a1 + b1) / 2 /\
   d_delay_min l = a2 /\
   d_delay_max l = i - 1 /\ d_delay_range l = b1 - a1) \/
  (b2 + 2 <= i /\ d_delay l = m /\ d_delay_min l = -1 /\
   d_delay_max l = -1 /\ d_delay_range l = Z.max (b1 - a1) (b2 - a2)).

(** Two passing runs of which the one scanned first, [a1..b1], is the
    wider: its candidate is recorded at its closing failure and stays.  The
    second run, [a2..b2], may be a single code, after which the start of
    the window stays set, and may reach the end of the range. *)
Definition first_run_wider_inv (a1 b1 a2 b2 i : Z) (l : delay_locals)
  : Prop :=
  (i <= a1 /\ d_delay l = -1 /\ d_delay_min l = -1 /\
   d_delay_max l = -1 /\ d_delay_range l = -1) \/
  (i = a1 + 1 /\ d_delay l = -1 /\ d_delay_min l = a1 /\
   d_delay_max l = -1 /\ d_delay_range l = -1) \/
  (a1 + 2 <= i <= b1 + 1 /\ d_delay l = -1 /\ d_delay_min l = a1 /\
   d_delay_max l = i - 1 /\ d_delay_range l = -1) \/
  (b1 + 2 <= i <= a2 /\ d_delay l = (a1 + b1) / 2 /\ d_delay_min l = -1 /\
   d_delay_max l = -1 /\ d_delay_range l = b1 - a1) \/
  ((a2 + 1 <= i /\ (i = a2 + 1 \/ a2 = b2)) /\
   d_delay l = (a1 + b1) / 2 /\ d_delay_min l = a2 /\
   d_delay_max l = -1 /\ d_delay_range l = b1 - a1) \/
  (a2 + 2 <= i <= b2 + 1 /\ d_delay l = (a1 + b1) / 2 /\
   d_delay_min l = a2 /\
   d_delay_max l = i - 1 /\ d_delay_range l = b1 - a1) \/
  (b2 + 2 <= i /\ d_delay l = (a1 + b1) / 2 /\ d_delay_min l = -1 /\
   d_delay_max l = -1 /\ d_delay_range l = b1 - a1).

(** A run [a..b] wider than the threshold: up to its closing failure at
    [b + 1] no window wider than the threshold has been recorded, and from
    [a] on a window is open that started at [a] or before. *)
Definition early_exit_inv (a b i : Z) (l : delay_locals) : Prop :=
  i <= b + 1 /\
  d_delay_range l <= DELAY_RANGE_THRESHOLD /\
  -1 <= d_delay_min l < i /\
  -1 <= d_delay_max l < i /\
  (a < i -> 0 <= d_delay_min l <= a) /\
  (a + 1 < i -> d_delay_max l = i - 1).

(** *** Loop invariants of the phase sweep *)

(** Whatever the card answers: no pass yet, one pass (the window has a start
    and no end), or a window whose end is the code just probed. *)
Definition phase_window_inv (c : Z) (l : phase_locals) : Prop :=
  (p_code_min l = -1 /\ p_code_max l = -1) \/
  (0 <= p_code_min l < c /\ p_code_max l = -1) \/
  (0 <= p_code_min l < p_code_max l /\ p_code_max l = c - 1).

(** A card that passes at the single phase code [p]. *)
Definition single_phase_inv (p c : Z) (l : phase_locals) : Prop :=
  (c <= p /\ p_code_min l = -1 /\ p_code_max l = -1) \/
  (p < c /\ p_code_min l = p /\ p_code_max l = -1).

(** A card that passes at [p], fails up to [q] and passes from [q] to the
    end of the range. *)
Definition phase_tail_inv (p q c : Z) (l : phase_locals) : Prop :=
  (c <= p /\ p_code_min l = -1 /\ p_code_max l = -1) \/
  (p < c <= q /\ p_code_min l = p /\ p_code_max l = -1) \/
  (q < c /\ p_code_min l = p /\ p_code_max l = c - 1).

(** The phase sweep seen from the trace since [h0], for every card, as long
    as it has not ended by [break]: no command has passed; or one has, at
    [code_min]; or the one at [code_min] and then every one from some code
    [q] up to the code just probed, which is [code_max]. *)
Definition phase_evidence (h0 : sdhci_host) (c : Z) (h : sdhci_host)
           (l : phase_locals) : Prop :=
  grows h0 h /\
  ((p_code_min l = -1 /\ p_code_max l = -1 /\
    passed_phases (new_events h0 h) = []) \/
   (0 <= p_code_min l < c /\ p_code_max l = -1 /\
    passed_phases (new_events h0 h) = [p_code_min l]) \/
   (exists q,
      0 <= p_code_min l < q /\ q <= p_code_max l /\ p_code_max l = c - 1 /\
      passed_phases (new_events h0 h) =
        p_code_min l :: zrange q (Z.to_nat (c - q)))).

(** *** Invariants that hold for every card *)

(** The delay sweep seen from the trace since [h0]: the window bounds are
    codes at which a command passed, and a recorded candidate is the midpoint
    of two such codes, the upper one followed by a probed code. *)
Definition delay_evidence (h0 : sdhci_host) (i : Z) (h : sdhci_host)
           (l : delay_locals) : Prop :=
  grows h0 h /\
  -1 <= d_delay_min l < i /\
  -1 <= d_delay_max l < i /\
  (d_delay_min l <> -1 ->
   In (d_delay_min l) (passed_delays (new_events h0 h))) /\
  (d_delay_max l <> -1 ->
   d_delay_min l <> -1 /\ d_delay_min l < d_delay_max l /\
   In (d_delay_max l) (passed_delays (new_events h0 h))) /\
  (d_delay l <> -1 ->
   exists lo hi,
     0 <= lo /\ lo < hi /\ hi + 1 < i /\
     In lo (passed_delays (new_events h0 h)) /\
     In hi (passed_delays (new_events h0 h)) /\
     d_delay l = (lo + hi) / 2).

(** The same at the iteration that breaks: the candidate is the window just
    closed at code [i]. *)
Definition delay_evidence_break (h0 : sdhci_host) (i : Z) (h : sdhci_host)
           (l : delay_locals) : Prop :=
  grows h0 h /\
  exists lo hi,
    0 <= lo /\ lo < hi /\ hi < i /\
    In lo (passed_delays (new_events h0 h)) /\
    In hi (passed_delays (new_events h0 h)) /\
    d_delay l = (lo + hi) / 2.

(** A sweep that leaves register [r] alone: it still holds [v], and every
    tuning command since [h0] was issued while it did. *)
Definition phase_held (v : Z) (h0 h : sdhci_host) : Prop :=
  grows h0 h /\ regs h VENDOR_AT_SATA_R = v /\
  Forall (fun p => p = v) (probed_phases (new_events h0 h)).

Definition delay_held (v : Z) (h0 h : sdhci_host) : Prop :=
  grows h0 h /\ regs h PHY_SDCLKDL_DC_R = v /\
  Forall (fun d => d = v) (probed_delays (new_events h0 h)).

(** ** Arithmetic *)

Lemma sint32_small (z : Z) : - 2 ^ 31 <= z < 2 ^ 31 -> sint32 z = z.
Proof.
  intros Hz. unfold sint32.
  rewrite Z.mod_small by lia. lia.
Qed.

Lemma u16_small (z : Z) : 0 <= z < 2 ^ 16 -> u16 z = z.
Proof. intros Hz. unfold u16. now rewrite Z.mod_small. Qed.

Lemma u8_range (z : Z) : 0 <= u8 z < 2 ^ 8.
Proof. unfold u8. apply Z.mod_pos_bound. lia. Qed.

Lemma delay_codes_fit_max :
  delay_codes_fit -> PHY_DELAY_CODE_MAX K < 2 ^ 8.
Proof.
  intros Hfit.
  destruct (Z_lt_le_dec (PHY_DELAY_CODE_MAX K) 0) as [Hneg | Hpos].
  - lia.
  - specialize (Hfit (PHY_DELAY_CODE_MAX K) ltac:(lia)).
    pose proof (u8_range
      (Z.land (PHY_DELAY_CODE_MAX K) (PHY_CLK_MAX_DELAY_MASK K))). lia.
Qed.

Lemma quot2_div2 (z : Z) : 0 <= z -> Z.quot z 2 = z / 2.
Proof. intros Hz. apply Z.quot_div_nonneg; lia. Qed.

(** ** Traces *)

Lemma new_events_app (h h' : sdhci_host) (evs : list event) :
  trace h' = trace h ++ evs -> new_events h h' = evs.
Proof.
  intros E. unfold new_events. rewrite E.
  rewrite skipn_app, skipn_all, Nat.sub_diag. reflexivity.
Qed.

Lemma grows_intro (h h' : sdhci_host) (evs : list event) :
  trace h' = trace h ++ evs -> grows h h'.
Proof.
  intros E. unfold grows. now rewrite (new_events_app _ _ _ E).
Qed.

Lemma grows_refl (h : sdhci_host) : grows h h.
Proof. apply grows_intro with (evs := []). now rewrite app_nil_r. Qed.

Lemma new_events_refl (h : sdhci_host) : new_events h h = [].
Proof. apply new_events_app. now rewrite app_nil_r. Qed.

Lemma new_events_trans (h1 h2 h3 : sdhci_host) :
  grows h1 h2 -> grows h2 h3 ->
  new_events h1 h3 = new_events h1 h2 ++ new_events h2 h3.
Proof.
  intros G12 G23. apply new_events_app.
  unfold grows in G12, G23.
  rewrite G23, G12. now rewrite app_assoc.
Qed.

Lemma grows_trans (h1 h2 h3 : sdhci_host) :
  grows h1 h2 -> grows h2 h3 -> grows h1 h3.
Proof.
  intros G12 G23.
  apply grows_intro with (evs := new_events h1 h2 ++ new_events h2 h3).
  unfold grows in G12, G23.
  rewrite G23, G12. now rewrite app_assoc.
Qed.

Lemma probed_delays_app (l1 l2 : list event) :
  probed_delays (l1 ++ l2) = probed_delays l1 ++ probed_delays l2.
Proof.
  induction l1 as [| e l1 IH]; simpl; [reflexivity |].
  destruct e; simpl; rewrite IH; reflexivity.
Qed.

Lemma probed_phases_app (l1 l2 : list event) :
  probed_phases (l1 ++ l2) = probed_phases l1 ++ probed_phases l2.
Proof.
  induction l1 as [| e l1 IH]; simpl; [reflexivity |].
  destruct e; simpl; rewrite IH; reflexivity.
Qed.

Lemma bracketed_app (g : bool) (l1 l2 : list event) :
  bracketed g l1 = true -> bracketed false l2 = true ->
  bracketed g (l1 ++ l2) = true.
Proof.
  revert g. induction l1 as [| e l1 IH]; simpl; intros g H1 H2.
  - destruct g; [discriminate | exact H2].
  - destruct e; auto.
    apply andb_true_iff in H1 as [Hw H1].
    apply andb_true_iff. split; auto.
Qed.

Lemma zrange_app (i : Z) (n m : nat) :
  zrange i (n + m) = zrange i n ++ zrange (i + Z.of_nat n) m.
Proof.
  revert i. induction n as [| n IH]; intros i.
  - simpl. now rewrite Z.add_0_r.
  - cbn [Nat.add zrange app]. rewrite IH.
    replace (i + Z.of_nat (S n)) with (i + 1 + Z.of_nat n) by lia.
    reflexivity.
Qed.

Lemma zrange_bounds (i : Z) (n : nat) (x : Z) :
  In x (zrange i n) -> i <= x < i + Z.of_nat n.
Proof.
  revert i. induction n as [| n IH]; intros i; simpl; [tauto |].
  intros [E | Hin]; [lia |]. apply IH in Hin. lia.
Qed.

(** ** One iteration *)

Lemma delay_iter_eq (opcode i : Z) (h : sdhci_host) (l : delay_locals) :
  delay_iter opcode i h l =
  (after_probe opcode (mmc_send_tuning (delay_probe_host i h) opcode)
     (delay_probe_host i h),
   fst (delay_step (mmc_send_tuning (delay_probe_host i h) opcode) i l),
   snd (delay_step (mmc_send_tuning (delay_probe_host i h) opcode) i l)).
Proof.
  unfold delay_iter, delay_step, after_probe, delay_probe_host, send_tuning.
  cbn [fst snd].
  destruct (negb (_ =? 0)); [| destruct (d_delay_min l =? -1); reflexivity].
  destruct (negb (d_delay_min l =? -1) && negb (d_delay_max l =? -1));
    [| reflexivity].
  destruct (sint32 (d_delay_max l - d_delay_min l) >? d_delay_range l);
    [| reflexivity].
  cbv zeta.
  destruct (sint32 (d_delay_max l - d_delay_min l) >? DELAY_RANGE_THRESHOLD);
    reflexivity.
Qed.

Lemma phase_iter_eq (opcode c : Z) (h : sdhci_host) (l : phase_locals) :
  phase_iter opcode c h l =
  (after_probe opcode (mmc_send_tuning (phase_probe_host c h) opcode)
     (phase_probe_host c h),
   fst (phase_step (mmc_send_tuning (phase_probe_host c h) opcode) c l),
   snd (phase_step (mmc_send_tuning (phase_probe_host c h) opcode) c l)).
Proof.
  unfold phase_iter, phase_step, after_probe, phase_probe_host, send_tuning.
  cbn [fst snd].
  destruct (negb (_ =? 0)); [| destruct (p_code_min l =? -1); reflexivity].
  destruct (negb (p_code_min l =? -1) && negb (p_code_max l =? -1));
    reflexivity.
Qed.

Lemma config_trace (h : sdhci_host) (delay : Z) :
  trace (eswin_sdhci_sdio_config_phy_delay h delay) =
  trace h ++ config_events delay.
Proof.
  unfold eswin_sdhci_sdio_config_phy_delay, sdhci_writeb, store,
    config_events.
  cbn [trace]. now rewrite <- !app_assoc.
Qed.

Lemma delay_probe_trace (i : Z) (h : sdhci_host) :
  trace (delay_probe_host i h) =
  trace h ++ DisableCardClk :: config_events i ++ [EnableCardClk].
Proof.
  unfold delay_probe_host, eswin_sdhci_enable_card_clk,
    eswin_sdhci_disable_card_clk, log.
  cbn [trace]. rewrite config_trace. cbn [trace].
  rewrite <- !app_assoc. reflexivity.
Qed.

Lemma delay_probe_dc (i : Z) (h : sdhci_host) :
  delay_codes_fit -> 0 <= i <= PHY_DELAY_CODE_MAX K ->
  regs (delay_probe_host i h) PHY_SDCLKDL_DC_R = i.
Proof. intros Hfit Hi. cbn. exact (Hfit i Hi). Qed.

Lemma phase_probe_trace (c : Z) (h : sdhci_host) :
  trace (phase_probe_host c h) =
  trace h ++ [DisableCardClk; Write VENDOR_AT_SATA_R (u16 c); EnableCardClk].
Proof.
  unfold phase_probe_host, eswin_sdhci_enable_card_clk,
    eswin_sdhci_disable_card_clk, sdhci_writew, store_low_half, store, log.
  cbn [trace]. rewrite <- !app_assoc. reflexivity.
Qed.

Lemma phase_probe_sata (c : Z) (h : sdhci_host) :
  regs (phase_probe_host c h) VENDOR_AT_SATA_R = u16 c.
Proof. reflexivity. Qed.

Lemma after_probe_trace (opcode ret : Z) (h : sdhci_host) :
  ret = mmc_send_tuning h opcode ->
  trace (after_probe opcode ret h) =
  trace h ++ SendTuning opcode (regs h PHY_SDCLKDL_DC_R)
               (regs h VENDOR_AT_SATA_R) ret :: settle_events ret.
Proof.
  intros ->. unfold after_probe, settle_events, send_tuning, udelay,
    ops_reset, log.
  cbn [snd]. destruct (negb (_ =? 0)); cbn [trace];
    rewrite <- ?app_assoc; reflexivity.
Qed.

Lemma after_probe_config (opcode ret : Z) (h : sdhci_host) :
  same_config h (after_probe opcode ret h).
Proof.
  unfold after_probe, same_config.
  destruct (negb (ret =? 0)); cbn; auto.
Qed.

Lemma settle_events_quiet (ret : Z) :
  bracketed false (settle_events ret) = true /\
  probed_delays (settle_events ret) = [] /\
  probed_phases (settle_events ret) = [].
Proof.
  unfold settle_events. destruct (negb (ret =? 0)); cbn; auto.
Qed.

(** What one iteration of the delay loop does to the controller. *)
Lemma delay_iter_host (opcode i : Z) (h h' : sdhci_host)
      (l l' : delay_locals) (f : flow) :
  delay_iter opcode i h l = (h', l', f) ->
  grows h h' /\ same_config h h' /\
  bracketed false (new_events h h') = true /\
  probed_delays (new_events h h') =
    [u8 (Z.land i (PHY_CLK_MAX_DELAY_MASK K))].
Proof.
  rewrite delay_iter_eq. intros E. inversion E as [[Eh El Ef]]. clear E El Ef.
  set (ret := mmc_send_tuning (delay_probe_host i h) opcode).
  assert (T : trace (after_probe opcode ret (delay_probe_host i h)) =
              trace h ++
              (DisableCardClk :: config_events i ++ [EnableCardClk]) ++
              SendTuning opcode
                (u8 (Z.land i (PHY_CLK_MAX_DELAY_MASK K)))
                (regs (delay_probe_host i h) VENDOR_AT_SATA_R) ret
                :: settle_events ret).
  { rewrite after_probe_trace by reflexivity.
    rewrite delay_probe_trace, <- app_assoc. reflexivity. }
  destruct (settle_events_quiet ret) as (Sb & Sd & _).
  split; [exact (grows_intro _ _ _ T) |].
  split.
  { destruct (after_probe_config opcode ret (delay_probe_host i h))
      as (C1 & C2 & C3).
    unfold same_config. rewrite C1, C2, C3. cbn. auto. }
  rewrite (new_events_app _ _ _ T). split.
  - cbn. exact Sb.
  - cbn. now rewrite Sd.
Qed.

(** What one iteration of the phase loop does to the controller. *)
Lemma phase_iter_host (opcode c : Z) (h h' : sdhci_host)
      (l l' : phase_locals) (f : flow) :
  phase_iter opcode c h l = (h', l', f) ->
  grows h h' /\ same_config h h' /\
  bracketed false (new_events h h') = true /\
  probed_phases (new_events h h') = [u16 c].
Proof.
  rewrite phase_iter_eq. intros E. inversion E as [[Eh El Ef]]. clear E El Ef.
  set (ret := mmc_send_tuning (phase_probe_host c h) opcode).
  assert (T : trace (after_probe opcode ret (phase_probe_host c h)) =
              trace h ++
              [DisableCardClk; Write VENDOR_AT_SATA_R (u16 c);
               EnableCardClk] ++
              SendTuning opcode
                (regs (phase_probe_host c h) PHY_SDCLKDL_DC_R)
                (u16 c) ret :: settle_events ret).
  { rewrite after_probe_trace by reflexivity.
    rewrite phase_probe_trace, <- app_assoc. reflexivity. }
  destruct (settle_events_quiet ret) as (Sb & _ & Sp).
  split; [exact (grows_intro _ _ _ T) |].
  split.
  { destruct (after_probe_config opcode ret (phase_probe_host c h))
      as (C1 & C2 & C3).
    unfold same_config. rewrite C1, C2, C3. cbn. auto. }
  rewrite (new_events_app _ _ _ T). split.
  - cbn. exact Sb.
  - cbn. now rewrite Sp.
Qed.

(** ** Loops *)

Lemma same_config_refl (h : sdhci_host) : same_config h h.
Proof. unfold same_config. auto. Qed.

Lemma same_config_trans (h1 h2 h3 : sdhci_host) :
  same_config h1 h2 -> same_config h2 h3 -> same_config h1 h3.
Proof.
  unfold same_config. intros (A1 & A2 & A3) (B1 & B2 & B3).
  repeat split; congruence.
Qed.

Lemma well_behaved_refl (h : sdhci_host) : well_behaved h h.
Proof.
  split; [apply grows_refl |]. split; [apply same_config_refl |].
  now rewrite new_events_refl.
Qed.

Lemma well_behaved_trans (h1 h2 h3 : sdhci_host) :
  well_behaved h1 h2 -> well_behaved h2 h3 -> well_behaved h1 h3.
Proof.
  intros (G12 & C12 & B12) (G23 & C23 & B23).
  split; [exact (grows_trans _ _ _ G12 G23) |].
  split; [exact (same_config_trans _ _ _ C12 C23) |].
  rewrite (new_events_trans _ _ _ G12 G23). now apply bracketed_app.
Qed.

Lemma delay_loop_host (opcode : Z) (n : nat) :
  forall i h l h' l' f,
    delay_loop opcode n i h l = (h', l', f) -> well_behaved h h'.
Proof.
  induction n as [| n IH]; intros i h l h' l' f E; cbn [delay_loop] in E.
  - inversion E; subst. apply well_behaved_refl.
  - destruct (delay_iter opcode i h l) as [[h1 l1] f1] eqn:E1.
    pose proof (delay_iter_host _ _ _ _ _ _ _ E1) as (G & C & B & _).
    assert (W1 : well_behaved h h1) by (unfold well_behaved; auto).
    destruct f1.
    + eapply well_behaved_trans; [exact W1 | eapply IH; exact E].
    + inversion E; subst. exact W1.
Qed.

Lemma phase_loop_host (opcode : Z) (n : nat) :
  forall c h l h' l' f,
    phase_loop opcode n c h l = (h', l', f) -> well_behaved h h'.
Proof.
  induction n as [| n IH]; intros c h l h' l' f E; cbn [phase_loop] in E.
  - inversion E; subst. apply well_behaved_refl.
  - destruct (phase_iter opcode c h l) as [[h1 l1] f1] eqn:E1.
    pose proof (phase_iter_host _ _ _ _ _ _ _ E1) as (G & C & B & _).
    assert (W1 : well_behaved h h1) by (unfold well_behaved; auto).
    destruct f1.
    + eapply well_behaved_trans; [exact W1 | eapply IH; exact E].
    + inversion E; subst. exact W1.
Qed.

(** The codes probed by a loop are consecutive from its first code; all of
    them unless it breaks. *)
Lemma delay_loop_probes (opcode : Z) (n : nat) :
  delay_codes_fit ->
  forall i h l h' l' f,
    0 <= i -> i + Z.of_nat n <= PHY_DELAY_CODE_MAX K + 1 ->
    delay_loop opcode n i h l = (h', l', f) ->
    exists k : nat,
      (k <= n)%nat /\
      probed_delays (new_events h h') = zrange i k /\
      (f = Next -> k = n) /\ (f = Break -> (0 < k)%nat).
Proof.
  intros Hfit.
  induction n as [| n IH]; intros i h l h' l' f Hi Hn E; cbn [delay_loop] in E.
  - inversion E; subst. exists 0%nat. rewrite new_events_refl.
    repeat split; auto. discriminate.
  - destruct (delay_iter opcode i h l) as [[h1 l1] f1] eqn:E1.
    pose proof (delay_iter_host _ _ _ _ _ _ _ E1) as (G & _ & _ & P).
    rewrite (Hfit i) in P by lia.
    destruct f1.
    + pose proof (delay_loop_host _ _ _ _ _ _ _ _ E) as (G' & _).
      destruct (IH (i + 1) h1 l1 h' l' f ltac:(lia) ltac:(lia) E)
        as (k & Hk & Pk & Nk & Bk).
      exists (S k). rewrite (new_events_trans _ _ _ G G'), probed_delays_app.
      rewrite P, Pk. repeat split; auto; lia.
    + inversion E; subst. exists 1%nat. rewrite P.
      repeat split; auto; try lia. discriminate.
Qed.

Lemma phase_loop_probes (opcode : Z) (n : nat) :
  phase_codes_fit ->
  forall c h l h' l' f,
    0 <= c -> c + Z.of_nat n <= MAX_PHASE_CODE K + 1 ->
    phase_loop opcode n c h l = (h', l', f) ->
    exists k : nat,
      (k <= n)%nat /\
      probed_phases (new_events h h') = zrange c k /\
      (f = Next -> k = n) /\ (f = Break -> (0 < k)%nat).
Proof.
  intros Hfit.
  induction n as [| n IH]; intros c h l h' l' f Hc Hn E; cbn [phase_loop] in E.
  - inversion E; subst. exists 0%nat. rewrite new_events_refl.
    repeat split; auto. discriminate.
  - destruct (phase_iter opcode c h l) as [[h1 l1] f1] eqn:E1.
    pose proof (phase_iter_host _ _ _ _ _ _ _ E1) as (G & _ & _ & P).
    rewrite u16_small in P by (unfold phase_codes_fit in Hfit; lia).
    destruct f1.
    + pose proof (phase_loop_host _ _ _ _ _ _ _ _ E) as (G' & _).
      destruct (IH (c + 1) h1 l1 h' l' f ltac:(lia) ltac:(lia) E)
        as (k & Hk & Pk & Nk & Bk).
      exists (S k). rewrite (new_events_trans _ _ _ G G'), probed_phases_app.
      rewrite P, Pk. repeat split; auto; lia.
    + inversion E; subst. exists 1%nat. rewrite P.
      repeat split; auto; try lia. discriminate.
Qed.

(** A loop of [n + m] iterations is a loop of [n] followed, unless it broke,
    by a loop of [m]. *)
Lemma delay_loop_split (opcode : Z) (n m : nat) :
  forall i h l,
    delay_loop opcode (n + m) i h l =
    match delay_loop opcode n i h l with
    | (h1, l1, Break) => (h1, l1, Break)
    | (h1, l1, Next) => delay_loop opcode m (i + Z.of_nat n) h1 l1
    end.
Proof.
  induction n as [| n IH]; intros i h l.
  - cbn [Nat.add delay_loop]. now rewrite Z.add_0_r.
  - cbn [Nat.add delay_loop].
    destruct (delay_iter opcode i h l) as [[h1 l1] f1].
    destruct f1; [| reflexivity].
    rewrite IH. replace (i + 1 + Z.of_nat n) with (i + Z.of_nat (S n)) by lia.
    reflexivity.
Qed.

Lemma phase_loop_split (opcode : Z) (n m : nat) :
  forall c h l,
    phase_loop opcode (n + m) c h l =
    match phase_loop opcode n c h l with
    | (h1, l1, Break) => (h1, l1, Break)
    | (h1, l1, Next) => phase_loop opcode m (c + Z.of_nat n) h1 l1
    end.
Proof.
  induction n as [| n IH]; intros c h l.
  - cbn [Nat.add phase_loop]. now rewrite Z.add_0_r.
  - cbn [Nat.add phase_loop].
    destruct (phase_iter opcode c h l) as [[h1 l1] f1].
    destruct f1; [| reflexivity].
    rewrite IH. replace (c + 1 + Z.of_nat n) with (c + Z.of_nat (S n)) by lia.
    reflexivity.
Qed.

(** The proof rule of the delay loop: an invariant [I] of the locals at the
    head of iteration [i], kept by every iteration that goes on, and a
    property [B] established by an iteration that breaks. *)
Lemma delay_loop_rule (opcode lo hi : Z) (I B : Z -> delay_locals -> Prop) :
  (forall i h l, lo <= i < hi -> I i l ->
     match delay_step (mmc_send_tuning (delay_probe_host i h) opcode) i l with
     | (l', Next) => I (i + 1) l'
     | (l', Break) => B i l'
     end) ->
  forall n i h l h' l' f,
    lo <= i -> i + Z.of_nat n <= hi -> I i l ->
    delay_loop opcode n i h l = (h', l', f) ->
    match f with
    | Next => I (i + Z.of_nat n) l'
    | Break => exists j, i <= j < i + Z.of_nat n /\ B j l'
    end.
Proof.
  intros Hstep.
  induction n as [| n IH]; intros i h l h' l' f Hi Hn HI E;
    cbn [delay_loop] in E.
  - inversion E; subst. now rewrite Z.add_0_r.
  - rewrite delay_iter_eq in E.
    specialize (Hstep i h l ltac:(lia) HI).
    destruct (delay_step _ i l) as [l1 f1]. cbn [fst snd] in E.
    destruct f1.
    + specialize (IH (i + 1) _ l1 h' l' f ltac:(lia) ltac:(lia) Hstep E).
      destruct f.
      * replace (i + Z.of_nat (S n)) with (i + 1 + Z.of_nat n) by lia.
        exact IH.
      * destruct IH as (j & Hj & HB). exists j. split; [lia | exact HB].
    + inversion E; subst. exists i. split; [lia | exact Hstep].
Qed.

Lemma phase_loop_rule (opcode lo hi : Z) (I B : Z -> phase_locals -> Prop) :
  (forall c h l, lo <= c < hi -> I c l ->
     match phase_step (mmc_send_tuning (phase_probe_host c h) opcode) c l with
     | (l', Next) => I (c + 1) l'
     | (l', Break) => B c l'
     end) ->
  forall n c h l h' l' f,
    lo <= c -> c + Z.of_nat n <= hi -> I c l ->
    phase_loop opcode n c h l = (h', l', f) ->
    match f with
    | Next => I (c + Z.of_nat n) l'
    | Break => exists j, c <= j < c + Z.of_nat n /\ B j l'
    end.
Proof.
  intros Hstep.
  induction n as [| n IH]; intros c h l h' l' f Hc Hn HI E;
    cbn [phase_loop] in E.
  - inversion E; subst. now rewrite Z.add_0_r.
  - rewrite phase_iter_eq in E.
    specialize (Hstep c h l ltac:(lia) HI).
    destruct (phase_step _ c l) as [l1 f1]. cbn [fst snd] in E.
    destruct f1.
    + specialize (IH (c + 1) _ l1 h' l' f ltac:(lia) ltac:(lia) Hstep E).
      destruct f.
      * replace (c + Z.of_nat (S n)) with (c + 1 + Z.of_nat n) by lia.
        exact IH.
      * destruct IH as (j & Hj & HB). exists j. split; [lia | exact HB].
    + inversion E; subst. exists c. split; [lia | exact Hstep].
Qed.

(** ** The scanners after their loops *)

(** The commit sequence shared by both exits of the delay scanner. *)
Lemma program_delay_trace (h : sdhci_host) (e : event) (delay : Z) :
  trace (eswin_sdhci_enable_card_clk
           (eswin_sdhci_sdio_config_phy_delay
              (eswin_sdhci_disable_card_clk (log e h)) delay)) =
  trace h ++ e :: DisableCardClk :: config_events delay ++ [EnableCardClk].
Proof.
  unfold eswin_sdhci_enable_card_clk, eswin_sdhci_disable_card_clk, log.
  cbn [trace]. rewrite config_trace. cbn [trace].
  rewrite <- !app_assoc. reflexivity.
Qed.

Lemma program_phase_trace (h : sdhci_host) (e : event) (c : Z) :
  trace (eswin_sdhci_enable_card_clk
           (sdhci_writew (eswin_sdhci_disable_card_clk (log e h)) c
              VENDOR_AT_SATA_R)) =
  trace h ++ [e; DisableCardClk; Write VENDOR_AT_SATA_R (u16 c);
              EnableCardClk].
Proof.
  unfold eswin_sdhci_enable_card_clk, eswin_sdhci_disable_card_clk,
    sdhci_writew, store_low_half, store, log.
  cbn [trace]. rewrite <- !app_assoc. reflexivity.
Qed.

(** The failure exit of the delay scanner. *)
Lemma delay_tuning_failed (opcode : Z) (h h1 : sdhci_host)
      (l1 : delay_locals) (f1 : flow) :
  delay_scan opcode h = (h1, l1, f1) ->
  d_delay l1 = -1 ->
  exists h',
    eswin_sdhci_sdio_delay_tuning h opcode = (d_ret l1, h') /\
    regs h' PHY_SDCLKDL_DC_R =
      u8 (Z.land (phy_delay_code h) (PHY_CLK_MAX_DELAY_MASK K)) /\
    trace h' = trace h1 ++ PrErr MsgDelayTuningFailed :: DisableCardClk ::
                 config_events (phy_delay_code h) ++ [EnableCardClk] /\
    same_config h h'.
Proof.
  intros E Hd. unfold eswin_sdhci_sdio_delay_tuning. rewrite E.
  rewrite Hd. cbn [Z.eqb Pos.eqb].
  pose proof (delay_loop_host _ _ _ _ _ _ _ _ E) as (_ & C & _).
  destruct C as (C1 & C2 & C3).
  eexists. split; [reflexivity |].
  split; [cbn; now rewrite C1 |].
  split.
  - unfold pr_err. rewrite program_delay_trace. cbn. now rewrite C1.
  - unfold same_config. cbn. auto.
Qed.

(** The success exit of the delay scanner. *)
Lemma delay_tuning_committed (opcode : Z) (h h1 : sdhci_host)
      (l1 : delay_locals) (f1 : flow) :
  delay_scan opcode h = (h1, l1, f1) ->
  d_delay l1 <> -1 ->
  exists h',
    eswin_sdhci_sdio_delay_tuning h opcode = (0, h') /\
    regs h' PHY_SDCLKDL_DC_R =
      u8 (Z.land (d_delay l1) (PHY_CLK_MAX_DELAY_MASK K)) /\
    trace h' = trace h1 ++ PrInfo (MsgSetDelay (d_delay l1)) ::
                 DisableCardClk :: config_events (d_delay l1) ++
                 [EnableCardClk] /\
    same_config h h'.
Proof.
  intros E Hd. unfold eswin_sdhci_sdio_delay_tuning. rewrite E.
  apply Z.eqb_neq in Hd. rewrite Hd.
  pose proof (delay_loop_host _ _ _ _ _ _ _ _ E) as (_ & C & _).
  destruct C as (C1 & C2 & C3).
  eexists. split; [reflexivity |].
  split; [reflexivity |].
  split.
  - unfold pr_info. now rewrite program_delay_trace.
  - unfold same_config. cbn. auto.
Qed.

(** The failure exit of the phase scanner. *)
Lemma phase_tuning_failed (opcode : Z) (h h1 : sdhci_host)
      (l1 : phase_locals) (f1 : flow) :
  phase_scan opcode h = (h1, l1, f1) ->
  p_code_min l1 = -1 -> p_code_max l1 = -1 ->
  exists h',
    eswin_sdhci_sdio_phase_code_tuning h opcode = (- EIO K, h') /\
    regs h' VENDOR_AT_SATA_R = 0 /\
    trace h' = trace h1 ++ [PrErr MsgPhaseTuningFailed; DisableCardClk;
                            Write VENDOR_AT_SATA_R 0; EnableCardClk] /\
    same_config h h'.
Proof.
  intros E Hmin Hmax. unfold eswin_sdhci_sdio_phase_code_tuning. rewrite E.
  rewrite Hmin, Hmax. cbn [Z.eqb Pos.eqb andb].
  pose proof (phase_loop_host _ _ _ _ _ _ _ _ E) as (_ & C & _).
  destruct C as (C1 & C2 & C3).
  eexists. split; [reflexivity |].
  split; [reflexivity |].
  split.
  - unfold pr_err. now rewrite program_phase_trace.
  - unfold same_config. cbn. auto.
Qed.

(** The success exit of the phase scanner. *)
Lemma phase_tuning_committed (opcode : Z) (h h1 : sdhci_host)
      (l1 : phase_locals) (f1 : flow) :
  phase_scan opcode h = (h1, l1, f1) ->
  p_code_min l1 <> -1 \/ p_code_max l1 <> -1 ->
  exists h',
    eswin_sdhci_sdio_phase_code_tuning h opcode = (0, h') /\
    regs h' VENDOR_AT_SATA_R =
      u16 (Z.quot (sint32 (p_code_min l1 + p_code_max l1)) 2) /\
    trace h' = trace h1 ++
      [PrInfo (MsgSetPhaseCode
                 (Z.quot (sint32 (p_code_min l1 + p_code_max l1)) 2));
       DisableCardClk;
       Write VENDOR_AT_SATA_R
         (u16 (Z.quot (sint32 (p_code_min l1 + p_code_max l1)) 2));
       EnableCardClk] /\
    same_config h h'.
Proof.
  intros E Hset. unfold eswin_sdhci_sdio_phase_code_tuning. rewrite E.
  assert (Hc : (p_code_min l1 =? -1) && (p_code_max l1 =? -1) = false).
  { apply andb_false_iff.
    destruct Hset as [Hs | Hs]; [left | right]; now apply Z.eqb_neq. }
  rewrite Hc.
  pose proof (phase_loop_host _ _ _ _ _ _ _ _ E) as (_ & C & _).
  destruct C as (C1 & C2 & C3).
  eexists. split; [reflexivity |].
  split; [reflexivity |].
  split.
  - unfold pr_info. now rewrite program_phase_trace.
  - unfold same_config. cbn. auto.
Qed.

Lemma delay_tuning_host (opcode : Z) (h : sdhci_host) :
  well_behaved h (snd (eswin_sdhci_sdio_delay_tuning h opcode)).
Proof.
  destruct (delay_scan opcode h) as [[h1 l1] f1] eqn:E.
  pose proof (delay_loop_host _ _ _ _ _ _ _ _ E) as W1.
  destruct (Z.eq_dec (d_delay l1) (-1)) as [Hd | Hd].
  - destruct (delay_tuning_failed _ _ _ _ _ E Hd) as (h' & -> & _ & T & C).
    cbn [snd]. eapply well_behaved_trans; [exact W1 |].
    split; [exact (grows_intro _ _ _ T) |].
    split.
    + destruct W1 as (_ & (A1 & A2 & A3) & _). destruct C as (B1 & B2 & B3).
      unfold same_config. repeat split; congruence.
    + now rewrite (new_events_app _ _ _ T).
  - destruct (delay_tuning_committed _ _ _ _ _ E Hd) as (h' & -> & _ & T & C).
    cbn [snd]. eapply well_behaved_trans; [exact W1 |].
    split; [exact (grows_intro _ _ _ T) |].
    split.
    + destruct W1 as (_ & (A1 & A2 & A3) & _). destruct C as (B1 & B2 & B3).
      unfold same_config. repeat split; congruence.
    + now rewrite (new_events_app _ _ _ T).
Qed.

Lemma phase_tuning_host (opcode : Z) (h : sdhci_host) :
  well_behaved h (snd (eswin_sdhci_sdio_phase_code_tuning h opcode)).
Proof.
  destruct (phase_scan opcode h) as [[h1 l1] f1] eqn:E.
  pose proof (phase_loop_host _ _ _ _ _ _ _ _ E) as W1.
  destruct (Z.eq_dec (p_code_min l1) (-1)) as [Hmin | Hmin];
    [destruct (Z.eq_dec (p_code_max l1) (-1)) as [Hmax | Hmax] |].
  - destruct (phase_tuning_failed _ _ _ _ _ E Hmin Hmax)
      as (h' & -> & _ & T & C).
    cbn [snd]. eapply well_behaved_trans; [exact W1 |].
    split; [exact (grows_intro _ _ _ T) |].
    split.
    + destruct W1 as (_ & (A1 & A2 & A3) & _). destruct C as (B1 & B2 & B3).
      unfold same_config. repeat split; congruence.
    + now rewrite (new_events_app _ _ _ T).
  - destruct (phase_tuning_committed _ _ _ _ _ E (or_intror Hmax))
      as (h' & -> & _ & T & C).
    cbn [snd]. eapply well_behaved_trans; [exact W1 |].
    split; [exact (grows_intro _ _ _ T) |].
    split.
    + destruct W1 as (_ & (A1 & A2 & A3) & _). destruct C as (B1 & B2 & B3).
      unfold same_config. repeat split; congruence.
    + now rewrite (new_events_app _ _ _ T).
  - destruct (phase_tuning_committed _ _ _ _ _ E (or_introl Hmin))
      as (h' & -> & _ & T & C).
    cbn [snd]. eapply well_behaved_trans; [exact W1 |].
    split; [exact (grows_intro _ _ _ T) |].
    split.
    + destruct W1 as (_ & (A1 & A2 & A3) & _). destruct C as (B1 & B2 & B3).
      unfold same_config. repeat split; congruence.
    + now rewrite (new_events_app _ _ _ T).
Qed.

(** ** The orchestrator *)

Lemma executing_tuning_static (opcode : Z) (h : sdhci_host) :
  enable_sw_tuning h = 0 ->
  eswin_sdhci_sdio_executing_tuning h opcode =
  if negb (priv_phase_code h =? -1) then
    (0, eswin_sdhci_enable_card_clk
          (sdhci_writew (eswin_sdhci_disable_card_clk h) (priv_phase_code h)
             VENDOR_AT_SATA_R))
  else (0, h).
Proof.
  intros E. unfold eswin_sdhci_sdio_executing_tuning. rewrite E. reflexivity.
Qed.

Lemma executing_tuning_auto (opcode : Z) (h : sdhci_host) :
  enable_sw_tuning h <> 0 ->
  eswin_sdhci_sdio_executing_tuning h opcode =
  let '(ret, h1) := eswin_sdhci_sdio_delay_tuning (tuning_prologue h) opcode in
  if ret <? 0 then (ret, h1)
  else
    let '(ret, h2) := eswin_sdhci_sdio_phase_code_tuning h1 opcode in
    if ret <? 0 then (ret, h2) else (0, h2).
Proof.
  intros E. apply Z.eqb_neq in E.
  unfold eswin_sdhci_sdio_executing_tuning. rewrite E. reflexivity.
Qed.

Lemma tuning_prologue_host (h : sdhci_host) :
  well_behaved h (tuning_prologue h).
Proof.
  assert (T : exists a b,
             trace (tuning_prologue h) =
             trace h ++ [DisableCardClk; Write SDHCI_HOST_CONTROL2 a;
                         Write VENDOR_AT_CTRL_R b; Write VENDOR_AT_SATA_R (u16 0);
                         EnableCardClk; Write SDHCI_CMD_DATA (u16 0)]).
  { do 2 eexists.
    unfold tuning_prologue, eswin_sdhci_enable_card_clk,
      eswin_sdhci_disable_card_clk, sdhci_writew, store_low_half, store, log.
    cbn [trace]. rewrite <- !app_assoc. reflexivity. }
  destruct T as (a & b & T).
  split; [exact (grows_intro _ _ _ T) |].
  split; [unfold same_config; cbn; auto |].
  now rewrite (new_events_app _ _ _ T).
Qed.

Lemma executing_tuning_host (opcode : Z) (h : sdhci_host) :
  well_behaved h (snd (eswin_sdhci_sdio_executing_tuning h opcode)).
Proof.
  destruct (Z.eq_dec (enable_sw_tuning h) 0) as [E | E].
  - rewrite (executing_tuning_static _ _ E).
    destruct (negb (priv_phase_code h =? -1)); cbn [snd];
      [| apply well_behaved_refl].
    assert (T : trace (eswin_sdhci_enable_card_clk
                         (sdhci_writew (eswin_sdhci_disable_card_clk h)
                            (priv_phase_code h) VENDOR_AT_SATA_R)) =
                trace h ++ [DisableCardClk;
                            Write VENDOR_AT_SATA_R (u16 (priv_phase_code h));
                            EnableCardClk]).
    { unfold eswin_sdhci_enable_card_clk, eswin_sdhci_disable_card_clk,
        sdhci_writew, store_low_half, store, log.
      cbn [trace]. rewrite <- !app_assoc. reflexivity. }
    split; [exact (grows_intro _ _ _ T) |].
    split; [unfold same_config; cbn; auto |].
    now rewrite (new_events_app _ _ _ T).
  - rewrite (executing_tuning_auto _ _ E).
    pose proof (tuning_prologue_host h) as W0.
    pose proof (delay_tuning_host opcode (tuning_prologue h)) as W1.
    destruct (eswin_sdhci_sdio_delay_tuning (tuning_prologue h) opcode)
      as [ret h1].
    cbn [snd] in W1.
    pose proof (well_behaved_trans _ _ _ W0 W1) as W01.
    destruct (ret <? 0); [exact W01 |].
    pose proof (phase_tuning_host opcode h1) as W2.
    destruct (eswin_sdhci_sdio_phase_code_tuning h1 opcode) as [ret2 h2].
    cbn [snd] in W2.
    pose proof (well_behaved_trans _ _ _ W01 W2) as W.
    destruct (ret2 <? 0); exact W.
Qed.

(** C8 -- Clock-gating discipline.  In every execution of the tuning
    orchestrator, whether software tuning is disabled (static phase code) or
    enabled (both scanners and their final commits), and in every execution
    of either scanner on its own, each write to a tuning register
    ([PHY_SDCLKDL_CNFG_R], [PHY_SDCLKDL_DC_R], [VENDOR_AT_SATA_R]) lies between
    a call that disables the card clock and a call that enables it again:
    replayed from a running clock, the calls added to the trace never write
    such a register outside a disable/enable pair and leave no pair open. *)
Theorem clock_gating_discipline (h : sdhci_host) (opcode : Z) :
  bracketed false
    (new_events h (snd (eswin_sdhci_sdio_executing_tuning h opcode))) = true /\
  bracketed false
    (new_events h (snd (eswin_sdhci_sdio_delay_tuning h opcode))) = true /\
  bracketed false
    (new_events h (snd (eswin_sdhci_sdio_phase_code_tuning h opcode))) = true.
Proof.
  split; [apply executing_tuning_host |].
  split; [apply delay_tuning_host | apply phase_tuning_host].
Qed.

(** ** Case analysis of one step *)

Ltac split_tests :=
  repeat match goal with
         | |- context [Z.eqb ?a ?b] => destruct (Z.eqb_spec a b)
         | |- context [Z.gtb ?a ?b] => destruct (Z.gtb_spec a b)
         end;
  cbn [negb andb].

Ltac arith :=
  solve [lia | Z.to_euclidean_division_equations; lia].

Ltac step_cases :=
  unfold delay_step, phase_step; split_tests;
  cbn [d_ret d_delay d_delay_min d_delay_max d_delay_range
       p_ret p_code_min p_code_max].

Lemma scan_length_delay :
  0 <= PHY_DELAY_CODE_MAX K ->
  Z.of_nat (Z.to_nat (PHY_DELAY_CODE_MAX K + 1)) = PHY_DELAY_CODE_MAX K + 1.
Proof. intros H. apply Z2Nat.id. lia. Qed.

Lemma scan_length_phase :
  0 <= MAX_PHASE_CODE K ->
  Z.of_nat (Z.to_nat (MAX_PHASE_CODE K + 1)) = MAX_PHASE_CODE K + 1.
Proof. intros H. apply Z2Nat.id. lia. Qed.

(** The proof rules at the full sweeps. *)
Lemma delay_scan_rule (opcode : Z) (I B : Z -> delay_locals -> Prop)
      (h h1 : sdhci_host) (l1 : delay_locals) (f1 : flow) :
  0 <= PHY_DELAY_CODE_MAX K ->
  (forall i h0 l, 0 <= i <= PHY_DELAY_CODE_MAX K -> I i l ->
     match delay_step (mmc_send_tuning (delay_probe_host i h0) opcode) i l with
     | (l', Next) => I (i + 1) l'
     | (l', Break) => B i l'
     end) ->
  I 0 delay_init ->
  delay_scan opcode h = (h1, l1, f1) ->
  match f1 with
  | Next => I (PHY_DELAY_CODE_MAX K + 1) l1
  | Break => exists j, 0 <= j <= PHY_DELAY_CODE_MAX K /\ B j l1
  end.
Proof.
  intros Hmax Hstep H0 E. unfold delay_scan in E.
  assert (Hstep' : forall i h0 l, 0 <= i < PHY_DELAY_CODE_MAX K + 1 -> I i l ->
     match delay_step (mmc_send_tuning (delay_probe_host i h0) opcode) i l with
     | (l', Next) => I (i + 1) l'
     | (l', Break) => B i l'
     end) by (intros; apply Hstep; [lia | assumption]).
  pose proof (delay_loop_rule opcode 0 (PHY_DELAY_CODE_MAX K + 1) I B Hstep'
    (Z.to_nat (PHY_DELAY_CODE_MAX K + 1)) 0 h delay_init h1 l1 f1) as R.
  rewrite scan_length_delay in R by exact Hmax.
  specialize (R ltac:(lia) ltac:(lia) H0 E).
  destruct f1; [exact R |].
  destruct R as (j & Hj & HB). exists j. split; [lia | exact HB].
Qed.

Lemma phase_scan_rule (opcode : Z) (I B : Z -> phase_locals -> Prop)
      (h h1 : sdhci_host) (l1 : phase_locals) (f1 : flow) :
  0 <= MAX_PHASE_CODE K ->
  (forall c h0 l, 0 <= c <= MAX_PHASE_CODE K -> I c l ->
     match phase_step (mmc_send_tuning (phase_probe_host c h0) opcode) c l with
     | (l', Next) => I (c + 1) l'
     | (l', Break) => B c l'
     end) ->
  I 0 phase_init ->
  phase_scan opcode h = (h1, l1, f1) ->
  match f1 with
  | Next => I (MAX_PHASE_CODE K + 1) l1
  | Break => exists j, 0 <= j <= MAX_PHASE_CODE K /\ B j l1
  end.
Proof.
  intros Hmax Hstep H0 E. unfold phase_scan in E.
  assert (Hstep' : forall c h0 l, 0 <= c < MAX_PHASE_CODE K + 1 -> I c l ->
     match phase_step (mmc_send_tuning (phase_probe_host c h0) opcode) c l with
     | (l', Next) => I (c + 1) l'
     | (l', Break) => B c l'
     end) by (intros; apply Hstep; [lia | assumption]).
  pose proof (phase_loop_rule opcode 0 (MAX_PHASE_CODE K + 1) I B Hstep'
    (Z.to_nat (MAX_PHASE_CODE K + 1)) 0 h phase_init h1 l1 f1) as R.
  rewrite scan_length_phase in R by exact Hmax.
  specialize (R ltac:(lia) ltac:(lia) H0 E).
  destruct f1; [exact R |].
  destruct R as (j & Hj & HB). exists j. split; [lia | exact HB].
Qed.

(** ** The all-fail card *)

Lemma delay_scan_all_fail (opcode : Z) (h h1 : sdhci_host)
      (l1 : delay_locals) (f1 : flow) :
  0 <= PHY_DELAY_CODE_MAX K ->
  (forall h', mmc_send_tuning h' opcode <> 0) ->
  delay_scan opcode h = (h1, l1, f1) ->
  d_delay l1 = -1 /\ d_ret l1 <> 0.
Proof.
  intros Hmax Hfail E.
  pose proof (delay_scan_rule opcode
    (fun i l => d_delay l = -1 /\ d_delay_min l = -1 /\
                (0 < i -> d_ret l <> 0))
    (fun _ _ => False) h h1 l1 f1 Hmax) as R.
  cbv beta in R.
  assert (R' := fun S => R S ltac:(cbn; repeat split; auto; lia) E).
  clear R.
  assert (Hres : match f1 with
                 | Next => d_delay l1 = -1 /\ d_delay_min l1 = -1 /\
                           (0 < PHY_DELAY_CODE_MAX K + 1 -> d_ret l1 <> 0)
                 | Break => exists j : Z,
                     0 <= j <= PHY_DELAY_CODE_MAX K /\ False
                 end).
  { apply R'. intros i h0 l Hi (Hdl & Hm & _).
    pose proof (Hfail (delay_probe_host i h0)) as Hr.
    step_cases; auto; try contradiction; try lia. }
  destruct f1.
  - destruct Hres as (Hdl & _ & Hr). split; [exact Hdl | apply Hr; lia].
  - destruct Hres as (j & _ & []).
Qed.

Lemma phase_scan_all_fail (opcode : Z) (h h1 : sdhci_host)
      (l1 : phase_locals) (f1 : flow) :
  0 <= MAX_PHASE_CODE K ->
  (forall h', mmc_send_tuning h' opcode <> 0) ->
  phase_scan opcode h = (h1, l1, f1) ->
  p_code_min l1 = -1 /\ p_code_max l1 = -1.
Proof.
  intros Hmax Hfail E.
  pose proof (phase_scan_rule opcode
    (fun _ l => p_code_min l = -1 /\ p_code_max l = -1)
    (fun _ _ => False) h h1 l1 f1 Hmax) as R.
  cbv beta in R.
  assert (Hres : match f1 with
                 | Next => p_code_min l1 = -1 /\ p_code_max l1 = -1
                 | Break => exists j : Z, 0 <= j <= MAX_PHASE_CODE K /\ False
                 end).
  { apply R; [| cbn; auto | exact E]. intros c h0 l Hc (Hmin & Hmx).
    pose proof (Hfail (phase_probe_host c h0)) as Hr.
    step_cases; auto; try contradiction; try lia. }
  destruct f1; [exact Hres | destruct Hres as (j & _ & [])].
Qed.

(** C6 -- All-fail fallback.  When every tuning command fails, the delay
    scanner logs the failure, programs the statically configured fallback
    delay code [phy.delay_code] through [eswin_sdhci_sdio_config_phy_delay]
    (so the delay line ends up holding it under the mask) and returns a
    nonzero status; the phase scanner logs the failure, programs phase code 0
    and returns [-EIO], a negative status. *)
Theorem all_fail_fallback (h : sdhci_host) (opcode : Z) :
  0 <= PHY_DELAY_CODE_MAX K ->
  0 <= MAX_PHASE_CODE K ->
  0 < EIO K ->
  (forall h', mmc_send_tuning h' opcode <> 0) ->
  (exists ret hd evs,
      eswin_sdhci_sdio_delay_tuning h opcode = (ret, hd) /\
      ret <> 0 /\
      regs hd PHY_SDCLKDL_DC_R =
        u8 (Z.land (phy_delay_code h) (PHY_CLK_MAX_DELAY_MASK K)) /\
      new_events h hd =
        evs ++ PrErr MsgDelayTuningFailed :: DisableCardClk ::
               config_events (phy_delay_code h) ++ [EnableCardClk]) /\
  (exists ret hp evs,
      eswin_sdhci_sdio_phase_code_tuning h opcode = (ret, hp) /\
      ret = - EIO K /\ ret < 0 /\
      regs hp VENDOR_AT_SATA_R = 0 /\
      new_events h hp =
        evs ++ [PrErr MsgPhaseTuningFailed; DisableCardClk;
                Write VENDOR_AT_SATA_R 0; EnableCardClk]).
Proof.
  intros Hd Hp Heio Hfail. split.
  - destruct (delay_scan opcode h) as [[h1 l1] f1] eqn:E.
    destruct (delay_scan_all_fail _ _ _ _ _ Hd Hfail E) as (Hdelay & Hret).
    destruct (delay_tuning_failed _ _ _ _ _ E Hdelay)
      as (hd & Eq & Hreg & T & _).
    pose proof (delay_loop_host _ _ _ _ _ _ _ _ E) as (G & _).
    exists (d_ret l1), hd, (new_events h h1).
    repeat split; auto.
    apply new_events_app. unfold grows in G. rewrite T, G.
    now rewrite <- app_assoc.
  - destruct (phase_scan opcode h) as [[h1 l1] f1] eqn:E.
    destruct (phase_scan_all_fail _ _ _ _ _ Hp Hfail E) as (Hmin & Hmx).
    destruct (phase_tuning_failed _ _ _ _ _ E Hmin Hmx)
      as (hp & Eq & Hreg & T & _).
    pose proof (phase_loop_host _ _ _ _ _ _ _ _ E) as (G & _).
    exists (- EIO K), hp, (new_events h h1).
    repeat split; auto; try lia.
    apply new_events_app. unfold grows in G. rewrite T, G.
    now rewrite <- app_assoc.
Qed.

(** ** Cards that answer by delay code *)

Lemma delay_probe_pass (opcode i : Z) (h : sdhci_host) :
  delay_codes_fit -> 0 <= i <= PHY_DELAY_CODE_MAX K ->
  delay_passes opcode i ->
  mmc_send_tuning (delay_probe_host i h) opcode = 0.
Proof. intros Hfit Hi Hp. apply Hp. now apply delay_probe_dc. Qed.

Lemma delay_probe_fail (opcode i : Z) (h : sdhci_host) :
  delay_codes_fit -> 0 <= i <= PHY_DELAY_CODE_MAX K ->
  delay_fails opcode i ->
  mmc_send_tuning (delay_probe_host i h) opcode <> 0.
Proof. intros Hfit Hi Hf. apply Hf. now apply delay_probe_dc. Qed.

Lemma phase_probe_pass (opcode c : Z) (h : sdhci_host) :
  phase_codes_fit -> 0 <= c <= MAX_PHASE_CODE K ->
  phase_passes opcode c ->
  mmc_send_tuning (phase_probe_host c h) opcode = 0.
Proof.
  intros Hfit Hc Hp. apply Hp. rewrite phase_probe_sata.
  apply u16_small. unfold phase_codes_fit in Hfit. lia.
Qed.

Lemma phase_probe_fail (opcode c : Z) (h : sdhci_host) :
  phase_codes_fit -> 0 <= c <= MAX_PHASE_CODE K ->
  phase_fails opcode c ->
  mmc_send_tuning (phase_probe_host c h) opcode <> 0.
Proof.
  intros Hfit Hc Hf. apply Hf. rewrite phase_probe_sata.
  apply u16_small. unfold phase_codes_fit in Hfit. lia.
Qed.

(** The window bounds stay inside the codes already probed, whatever the card
    answers; a break records a candidate. *)
Lemma delay_scan_bounds (opcode : Z) (h h1 : sdhci_host)
      (l1 : delay_locals) (f1 : flow) :
  delay_codes_fit -> 0 <= PHY_DELAY_CODE_MAX K ->
  delay_scan opcode h = (h1, l1, f1) ->
  -1 <= d_delay_min l1 <= PHY_DELAY_CODE_MAX K /\
  -1 <= d_delay_max l1 <= PHY_DELAY_CODE_MAX K /\
  (f1 = Break -> d_delay l1 <> -1).
Proof.
  intros Hfit Hmax E.
  pose proof (delay_codes_fit_max Hfit) as Hlt.
  pose proof (delay_scan_rule opcode
    (fun i l => -1 <= d_delay_min l < i /\ -1 <= d_delay_max l < i)
    (fun i l => -1 <= d_delay_min l < i /\ -1 <= d_delay_max l < i /\
                d_delay l <> -1)
    h h1 l1 f1 Hmax) as R.
  cbv beta in R.
  assert (Hres := R ltac:(
    intros i h0 l Hi (Hmn & Hmx);
    destruct l as [r d mn mx rg];
    cbn [d_ret d_delay d_delay_min d_delay_max d_delay_range] in *;
    unfold delay_step;
    cbn [d_ret d_delay d_delay_min d_delay_max d_delay_range];
    rewrite ?sint32_small by lia;
    split_tests;
    cbn [d_ret d_delay d_delay_min d_delay_max d_delay_range];
    arith)
    ltac:(cbn; lia) E).
  destruct f1.
  - destruct Hres as (Hmn & Hmx). repeat split; try lia; discriminate.
  - destruct Hres as (j & Hj & Hmn & Hmx & Hd). repeat split; try lia; auto.
Qed.

(** The status left in [ret] by a sweep that ran to the end is the one of the
    probe at the last code. *)
Lemma delay_scan_last_ret (opcode : Z) (h h1 : sdhci_host)
      (l1 : delay_locals) :
  delay_codes_fit -> 0 <= PHY_DELAY_CODE_MAX K ->
  delay_passes opcode (PHY_DELAY_CODE_MAX K) ->
  delay_scan opcode h = (h1, l1, Next) ->
  d_ret l1 = 0.
Proof.
  intros Hfit Hmax Hpass E.
  pose proof (delay_scan_rule opcode
    (fun i l => i = PHY_DELAY_CODE_MAX K + 1 -> d_ret l = 0)
    (fun _ _ => True) h h1 l1 Next Hmax) as R.
  cbv beta in R. apply R; [| cbn; lia | exact E | reflexivity].
  intros i h0 l Hi _.
  destruct (Z.eq_dec i (PHY_DELAY_CODE_MAX K)) as [-> | Hne].
  - rewrite (delay_probe_pass opcode _ h0 Hfit Hi Hpass).
    unfold delay_step. cbn [Z.eqb negb].
    destruct (d_delay_min l =? -1); cbn; auto.
  - step_cases; auto; lia.
Qed.

(** C10 -- Delay run-to-end edge case.  When the probe at
    [PHY_DELAY_CODE_MAX] passes but the sweep recorded no candidate window
    ([delay] is still -1 after the loop, as when the only passing run reaches
    the end of the range and no failure closes it), the delay scanner logs
    the failure and programs the static fallback delay code, yet returns 0,
    the status of the last tuning command; the orchestrator therefore does
    not stop and its result is the one of the phase scanner run on the
    controller the delay scanner left. *)
Theorem delay_run_to_end_returns_zero (opcode : Z) :
  delay_codes_fit -> 0 <= PHY_DELAY_CODE_MAX K ->
  delay_passes opcode (PHY_DELAY_CODE_MAX K) ->
  (forall h,
      d_delay (snd (fst (delay_scan opcode h))) = -1 ->
      exists hd evs,
        eswin_sdhci_sdio_delay_tuning h opcode = (0, hd) /\
        regs hd PHY_SDCLKDL_DC_R =
          u8 (Z.land (phy_delay_code h) (PHY_CLK_MAX_DELAY_MASK K)) /\
        new_events h hd =
          evs ++ PrErr MsgDelayTuningFailed :: DisableCardClk ::
                 config_events (phy_delay_code h) ++ [EnableCardClk]) /\
  (forall h0,
      enable_sw_tuning h0 <> 0 ->
      d_delay (snd (fst (delay_scan opcode (tuning_prologue h0)))) = -1 ->
      eswin_sdhci_sdio_executing_tuning h0 opcode =
      let '(ret, h2) :=
        eswin_sdhci_sdio_phase_code_tuning
          (snd (eswin_sdhci_sdio_delay_tuning (tuning_prologue h0) opcode))
          opcode in
      if ret <? 0 then (ret, h2) else (0, h2)).
Proof.
  intros Hfit Hmax Hpass.
  assert (Scanner : forall h,
      d_delay (snd (fst (delay_scan opcode h))) = -1 ->
      exists hd evs,
        eswin_sdhci_sdio_delay_tuning h opcode = (0, hd) /\
        regs hd PHY_SDCLKDL_DC_R =
          u8 (Z.land (phy_delay_code h) (PHY_CLK_MAX_DELAY_MASK K)) /\
        new_events h hd =
          evs ++ PrErr MsgDelayTuningFailed :: DisableCardClk ::
                 config_events (phy_delay_code h) ++ [EnableCardClk]).
  { intros h Hnone.
    destruct (delay_scan opcode h) as [[h1 l1] f1] eqn:E.
    cbn [fst snd] in Hnone.
    destruct (delay_scan_bounds _ _ _ _ _ Hfit Hmax E) as (_ & _ & Hbrk).
    assert (f1 = Next) as -> by (destruct f1; [reflexivity |];
                                 exfalso; now apply Hbrk).
    pose proof (delay_scan_last_ret _ _ _ _ Hfit Hmax Hpass E) as Hret.
    destruct (delay_tuning_failed _ _ _ _ _ E Hnone)
      as (hd & Eq & Hreg & T & _).
    pose proof (delay_loop_host _ _ _ _ _ _ _ _ E) as (G & _).
    exists hd, (new_events h h1). rewrite Eq, Hret.
    repeat split; auto.
    apply new_events_app. unfold grows in G. rewrite T, G.
    now rewrite <- app_assoc. }
  split; [exact Scanner |].
  intros h0 Hsw Hnone.
  rewrite (executing_tuning_auto _ _ Hsw).
  destruct (Scanner _ Hnone) as (hd & evs & Eq & _).
  rewrite Eq. cbn [snd Z.ltb Z.compare]. reflexivity.
Qed.

(** ** One passing run *)

(** The success exit, with the candidate known and inside the range. *)
Lemma delay_tuning_commits (opcode : Z) (h h1 : sdhci_host)
      (l1 : delay_locals) (f1 : flow) (m : Z) :
  delay_codes_fit ->
  delay_scan opcode h = (h1, l1, f1) ->
  d_delay l1 = m -> 0 <= m <= PHY_DELAY_CODE_MAX K ->
  exists hd evs,
    eswin_sdhci_sdio_delay_tuning h opcode = (0, hd) /\
    regs hd PHY_SDCLKDL_DC_R = m /\
    new_events h hd =
      evs ++ PrInfo (MsgSetDelay m) :: DisableCardClk ::
             config_events m ++ [EnableCardClk] /\
    probed_delays (new_events h hd) = probed_delays (new_events h h1).
Proof.
  intros Hfit E Hm Hrange.
  destruct (delay_tuning_committed _ _ _ _ _ E ltac:(lia))
    as (hd & Eq & Hreg & T & _).
  pose proof (delay_loop_host _ _ _ _ _ _ _ _ E) as (G & _).
  rewrite Hm in *. rewrite (Hfit m Hrange) in Hreg.
  assert (N : new_events h hd =
              new_events h h1 ++ PrInfo (MsgSetDelay m) :: DisableCardClk ::
                config_events m ++ [EnableCardClk]).
  { apply new_events_app. unfold grows in G. rewrite T, G.
    now rewrite <- app_assoc. }
  exists hd, (new_events h h1). repeat split; auto.
  rewrite N, probed_delays_app. cbn. now rewrite app_nil_r.
Qed.

(** A phase of an invariant: the position of the loop first, then the
    locals. *)
Ltac phase_holds := solve [split; [lia | repeat split; arith]].

Ltac pick_disjunct :=
  first [ phase_holds | left; phase_holds | right; pick_disjunct ].

Ltac delay_window_step :=
  unfold delay_step, DELAY_RANGE_THRESHOLD;
  cbn [d_ret d_delay d_delay_min d_delay_max d_delay_range];
  rewrite ?sint32_small by lia;
  split_tests;
  cbn [d_ret d_delay d_delay_min d_delay_max d_delay_range];
  rewrite ?quot2_div2 by lia;
  first [ solve [exfalso; lia] | pick_disjunct | arith ].

Lemma delay_scan_single_run (opcode a b : Z) (h h1 : sdhci_host)
      (l1 : delay_locals) (f1 : flow) :
  delay_codes_fit ->
  0 <= a -> a < b -> b < PHY_DELAY_CODE_MAX K ->
  (forall j, a <= j <= b -> delay_passes opcode j) ->
  (forall j, 0 <= j <= PHY_DELAY_CODE_MAX K -> j < a \/ b < j ->
             delay_fails opcode j) ->
  delay_scan opcode h = (h1, l1, f1) ->
  d_delay l1 = (a + b) / 2.
Proof.
  intros Hfit Ha Hab Hb Hpass Hfail E.
  pose proof (delay_codes_fit_max Hfit) as Hlt.
  pose proof (delay_scan_rule opcode (single_run_inv a b)
    (fun _ l => d_delay l = (a + b) / 2)
    h h1 l1 f1 ltac:(lia)) as R.
  assert (Hres : match f1 with
                 | Next => single_run_inv a b (PHY_DELAY_CODE_MAX K + 1) l1
                 | Break => exists j, 0 <= j <= PHY_DELAY_CODE_MAX K /\
                                      d_delay l1 = (a + b) / 2
                 end).
  { apply R; [| unfold single_run_inv, delay_init;
                 cbn [d_ret d_delay d_delay_min d_delay_max d_delay_range];
                 lia | exact E].
    intros i h0 l Hi HI.
    assert (Hp : a <= i <= b ->
                 mmc_send_tuning (delay_probe_host i h0) opcode = 0)
      by (intros Hr; apply delay_probe_pass; auto).
    assert (Hf : i < a \/ b < i ->
                 mmc_send_tuning (delay_probe_host i h0) opcode <> 0)
      by (intros Hr; apply delay_probe_fail; auto).
    generalize dependent (mmc_send_tuning (delay_probe_host i h0) opcode).
    intros ret Hp Hf.
    destruct l as [r d mn mx rg]. unfold single_run_inv in *.
    cbn [d_ret d_delay d_delay_min d_delay_max d_delay_range] in HI.
    destruct HI as [C | [C | [C | C]]];
      destruct C as (Ci & Cd & Cmn & Cmx & Crg); subst d mn mx rg;
      delay_window_step. }
  destruct f1.
  - unfold single_run_inv in Hres. lia.
  - destruct Hres as (j & _ & Hd). exact Hd.
Qed.

(** C1 (amended) -- Delay midpoint correctness.  When exactly one contiguous
    run of delay codes [a..b] passes and every other code of the range fails,
    and the run has at least two codes and ends before [PHY_DELAY_CODE_MAX]
    (0 <= a < b < PHY_DELAY_CODE_MAX), the delay scanner programs
    floor((a+b)/2) as the delay code, logs it and returns 0. *)
Theorem delay_midpoint_of_single_run (h : sdhci_host) (opcode a b : Z) :
  delay_codes_fit ->
  0 <= a -> a < b -> b < PHY_DELAY_CODE_MAX K ->
  (forall j, a <= j <= b -> delay_passes opcode j) ->
  (forall j, 0 <= j <= PHY_DELAY_CODE_MAX K -> j < a \/ b < j ->
             delay_fails opcode j) ->
  exists hd evs,
    eswin_sdhci_sdio_delay_tuning h opcode = (0, hd) /\
    regs hd PHY_SDCLKDL_DC_R = (a + b) / 2 /\
    new_events h hd =
      evs ++ PrInfo (MsgSetDelay ((a + b) / 2)) :: DisableCardClk ::
             config_events ((a + b) / 2) ++ [EnableCardClk].
Proof.
  intros Hfit Ha Hab Hb Hpass Hfail.
  destruct (delay_scan opcode h) as [[h1 l1] f1] eqn:E.
  pose proof (delay_scan_single_run _ _ _ _ _ _ _
                Hfit Ha Hab Hb Hpass Hfail E) as Hd.
  destruct (delay_tuning_commits _ _ _ _ _ _ Hfit E Hd ltac:(arith))
    as (hd & evs & Eq & Hreg & N & _).
  exists hd, evs. auto.
Qed.

(** ** Two passing runs *)

Lemma delay_scan_two_runs (opcode a1 b1 a2 b2 m : Z) (h h1 : sdhci_host)
      (l1 : delay_locals) (f1 : flow) :
  delay_codes_fit ->
  0 <= a1 -> a1 < b1 -> b1 + 1 < a2 -> a2 < b2 ->
  b2 < PHY_DELAY_CODE_MAX K ->
  (forall j, a1 <= j <= b1 \/ a2 <= j <= b2 -> delay_passes opcode j) ->
  (forall j, 0 <= j <= PHY_DELAY_CODE_MAX K ->
             ~ a1 <= j <= b1 -> ~ a2 <= j <= b2 -> delay_fails opcode j) ->
  (b1 - a1 < b2 - a2 ->
   b1 - a1 <= DELAY_RANGE_THRESHOLD /\ m = (a2 + b2) / 2) ->
  (b2 - a2 <= b1 - a1 -> m = (a1 + b1) / 2) ->
  delay_scan opcode h = (h1, l1, f1) ->
  d_delay l1 = m.
Proof.
  intros Hfit Ha1 Hab1 Hgap Hab2 Hb2 Hpass Hfail Hnarrow Hwide E.
  pose proof (delay_codes_fit_max Hfit) as Hlt.
  pose proof (delay_scan_rule opcode (two_runs_inv a1 b1 a2 b2 m)
    (fun _ l => d_delay l = m) h h1 l1 f1 ltac:(lia)) as R.
  assert (Hres : match f1 with
                 | Next => two_runs_inv a1 b1 a2 b2 m
                             (PHY_DELAY_CODE_MAX K + 1) l1
                 | Break => exists j, 0 <= j <= PHY_DELAY_CODE_MAX K /\
                                      d_delay l1 = m
                 end).
  { apply R; [| unfold two_runs_inv, delay_init;
                 cbn [d_ret d_delay d_delay_min d_delay_max d_delay_range];
                 lia | exact E].
    intros i h0 l Hi HI.
    assert (Hp : a1 <= i <= b1 \/ a2 <= i <= b2 ->
                 mmc_send_tuning (delay_probe_host i h0) opcode = 0)
      by (intros Hr; apply delay_probe_pass; auto).
    assert (Hf : ~ a1 <= i <= b1 -> ~ a2 <= i <= b2 ->
                 mmc_send_tuning (delay_probe_host i h0) opcode <> 0)
      by (intros Hr1 Hr2; apply delay_probe_fail; auto).
    generalize dependent (mmc_send_tuning (delay_probe_host i h0) opcode).
    intros ret Hp Hf.
    destruct l as [r d mn mx rg].
    unfold two_runs_inv, DELAY_RANGE_THRESHOLD in *.
    cbn [d_ret d_delay d_delay_min d_delay_max d_delay_range] in HI.
    clear R E Hpass Hfail Hfit.
    destruct HI as [C | [C | [C | [C | [C | [C | C]]]]]];
      destruct C as (Ci & Cd & Cmn & Cmx & Crg); subst d mn mx rg;
      unfold delay_step, DELAY_RANGE_THRESHOLD;
      cbn [d_ret d_delay d_delay_min d_delay_max d_delay_range];
      rewrite ?sint32_small by lia;
      split_tests;
      cbn [d_ret d_delay d_delay_min d_delay_max d_delay_range];
      rewrite ?quot2_div2 by lia;
      first [ solve [exfalso; lia]
            | pick_disjunct
            | assert (Hi1 : i - 1 = b1 \/ i - 1 = b2) by lia;
              destruct Hi1 as [Hi1 | Hi1]; rewrite Hi1; lia ]. }
  destruct f1.
  - unfold two_runs_inv in Hres. lia.
  - destruct Hres as (j & _ & Hd). exact Hd.
Qed.

Lemma delay_scan_first_run_wider (opcode a1 b1 a2 b2 : Z)
      (h h1 : sdhci_host) (l1 : delay_locals) (f1 : flow) :
  delay_codes_fit ->
  0 <= a1 -> a1 < b1 -> b1 + 1 < a2 -> a2 <= b2 ->
  b2 <= PHY_DELAY_CODE_MAX K ->
  (forall j, a1 <= j <= b1 \/ a2 <= j <= b2 -> delay_passes opcode j) ->
  (forall j, 0 <= j <= PHY_DELAY_CODE_MAX K ->
             ~ a1 <= j <= b1 -> ~ a2 <= j <= b2 -> delay_fails opcode j) ->
  b2 - a2 < b1 - a1 ->
  delay_scan opcode h = (h1, l1, f1) ->
  d_delay l1 = (a1 + b1) / 2.
Proof.
  intros Hfit Ha1 Hab1 Hgap Hab2 Hb2 Hpass Hfail Hwide E.
  pose proof (delay_codes_fit_max Hfit) as Hlt.
  pose proof (delay_scan_rule opcode (first_run_wider_inv a1 b1 a2 b2)
    (fun _ l => d_delay l = (a1 + b1) / 2) h h1 l1 f1 ltac:(lia)) as R.
  assert (Hres : match f1 with
                 | Next => first_run_wider_inv a1 b1 a2 b2
                             (PHY_DELAY_CODE_MAX K + 1) l1
                 | Break => exists j, 0 <= j <= PHY_DELAY_CODE_MAX K /\
                                      d_delay l1 = (a1 + b1) / 2
                 end).
  { apply R; [| unfold first_run_wider_inv, delay_init;
                 cbn [d_ret d_delay d_delay_min d_delay_max d_delay_range];
                 lia | exact E].
    intros i h0 l Hi HI.
    assert (Hp : a1 <= i <= b1 \/ a2 <= i <= b2 ->
                 mmc_send_tuning (delay_probe_host i h0) opcode = 0)
      by (intros Hr; apply delay_probe_pass; auto).
    assert (Hf : ~ a1 <= i <= b1 -> ~ a2 <= i <= b2 ->
                 mmc_send_tuning (delay_probe_host i h0) opcode <> 0)
      by (intros Hr1 Hr2; apply delay_probe_fail; auto).
    generalize dependent (mmc_send_tuning (delay_probe_host i h0) opcode).
    intros ret Hp Hf.
    destruct l as [r d mn mx rg].
    unfold first_run_wider_inv, DELAY_RANGE_THRESHOLD in *.
    cbn [d_ret d_delay d_delay_min d_delay_max d_delay_range] in HI.
    clear R E Hpass Hfail Hfit.
    destruct HI as [C | [C | [C | [C | [C | [C | C]]]]]];
      destruct C as (Ci & Cd & Cmn & Cmx & Crg); subst d mn mx rg;
      unfold delay_step, DELAY_RANGE_THRESHOLD;
      cbn [d_ret d_delay d_delay_min d_delay_max d_delay_range];
      rewrite ?sint32_small by lia;
      split_tests;
      cbn [d_ret d_delay d_delay_min d_delay_max d_delay_range];
      rewrite ?quot2_div2 by lia;
      first [ solve [exfalso; lia]
            | pick_disjunct
            | assert (Hi1 : i - 1 = b1) by lia; rewrite Hi1; lia ]. }
  destruct f1.
  - unfold first_run_wider_inv in Hres. lia.
  - destruct Hres as (j & _ & Hd). exact Hd.
Qed.

(** C3 (amended) -- Widest-window selection.  When exactly two disjoint runs
    of delay codes pass, [a1..b1] scanned first and [a2..b2] second, with a
    failing code between them, their widths differ and the first run has at
    least two codes, the delay scanner programs the midpoint of the wider
    run and not the midpoint of the narrower one in each of these cases:
    the first run is the wider, whatever the shape of the second (a single
    code, or a run that reaches [PHY_DELAY_CODE_MAX]); or the second run is
    the wider, it ends before [PHY_DELAY_CODE_MAX], and the first run is not
    wider than the early-exit threshold
    ([b1 - a1 <= DELAY_RANGE_THRESHOLD]). *)
Theorem delay_widest_of_two_runs (h : sdhci_host)
        (opcode a1 b1 a2 b2 : Z) :
  delay_codes_fit ->
  0 <= a1 -> a1 < b1 -> b1 + 1 < a2 -> a2 <= b2 ->
  b2 <= PHY_DELAY_CODE_MAX K ->
  (forall j, a1 <= j <= b1 \/ a2 <= j <= b2 -> delay_passes opcode j) ->
  (forall j, 0 <= j <= PHY_DELAY_CODE_MAX K ->
             ~ a1 <= j <= b1 -> ~ a2 <= j <= b2 -> delay_fails opcode j) ->
  b1 - a1 <> b2 - a2 ->
  (b1 - a1 < b2 - a2 ->
   b1 - a1 <= DELAY_RANGE_THRESHOLD /\ b2 < PHY_DELAY_CODE_MAX K) ->
  exists hd,
    eswin_sdhci_sdio_delay_tuning h opcode = (0, hd) /\
    regs hd PHY_SDCLKDL_DC_R =
      (if b1 - a1 <? b2 - a2 then (a2 + b2) / 2 else (a1 + b1) / 2) /\
    regs hd PHY_SDCLKDL_DC_R <>
      (if b1 - a1 <? b2 - a2 then (a1 + b1) / 2 else (a2 + b2) / 2).
Proof.
  intros Hfit Ha1 Hab1 Hgap Hab2 Hb2 Hpass Hfail Hne Hthr.
  destruct (delay_scan opcode h) as [[h1 l1] f1] eqn:E.
  set (m := if b1 - a1 <? b2 - a2 then (a2 + b2) / 2 else (a1 + b1) / 2).
  assert (Hd : d_delay l1 = m).
  { unfold m. destruct (Z.ltb_spec (b1 - a1) (b2 - a2)) as [Hlt | Hge].
    - destruct (Hthr Hlt) as (Ht & Hend).
      eapply delay_scan_two_runs with (a1 := a1) (b1 := b1) (a2 := a2)
        (b2 := b2); eauto; intros; try lia; auto.
    - eapply delay_scan_first_run_wider with (a1 := a1) (b1 := b1)
        (a2 := a2) (b2 := b2); eauto; lia. }
  assert (Hm : 0 <= m <= PHY_DELAY_CODE_MAX K).
  { unfold m. destruct (Z.ltb_spec (b1 - a1) (b2 - a2)); arith. }
  destruct (delay_tuning_commits _ _ _ _ _ _ Hfit E Hd Hm)
    as (hd & evs & Eq & Hreg & _).
  exists hd. split; [exact Eq |]. split; [exact Hreg |].
  rewrite Hreg. unfold m.
  destruct (Z.ltb_spec (b1 - a1) (b2 - a2)); arith.
Qed.

(** ** The early exit *)

Lemma delay_loop_passes_next (opcode : Z) (n : nat) (i : Z)
      (h : sdhci_host) (l : delay_locals) :
  delay_codes_fit ->
  0 <= i -> i + Z.of_nat n <= PHY_DELAY_CODE_MAX K + 1 ->
  (forall j, i <= j < i + Z.of_nat n -> delay_passes opcode j) ->
  snd (delay_loop opcode n i h l) = Next.
Proof.
  intros Hfit Hi Hn Hpass.
  destruct (delay_loop opcode n i h l) as [[h1 l1] f1] eqn:E.
  pose proof (delay_loop_rule opcode i (i + Z.of_nat n)
    (fun _ _ => True) (fun _ _ => False)) as R.
  cbv beta in R.
  assert (Hres : match f1 with
                 | Next => True
                 | Break => exists j, i <= j < i + Z.of_nat n /\ False
                 end).
  { eapply R; [| | | exact I | exact E]; try lia.
    intros j h0 l0 Hj _.
    rewrite (delay_probe_pass opcode j h0 Hfit ltac:(lia) (Hpass j Hj)).
    unfold delay_step. cbn [Z.eqb negb].
    destruct (d_delay_min l0 =? -1); exact I. }
  destruct f1; [reflexivity | destruct Hres as (j & _ & [])].
Qed.

(** The sweep of a card with a run [a..b] wider than the threshold does not
    get past the closing failure at [b + 1]. *)
Lemma delay_loop_early_exit (opcode a b : Z) (h : sdhci_host) :
  delay_codes_fit ->
  0 <= a -> DELAY_RANGE_THRESHOLD < b - a -> b < PHY_DELAY_CODE_MAX K ->
  (forall j, a <= j <= b -> delay_passes opcode j) ->
  delay_fails opcode (b + 1) ->
  snd (delay_loop opcode (Z.to_nat (b + 2)) 0 h delay_init) = Break.
Proof.
  intros Hfit Ha Hwide Hb Hpass Hfail.
  unfold DELAY_RANGE_THRESHOLD in Hwide.
  pose proof (delay_codes_fit_max Hfit) as Hlt.
  destruct (delay_loop opcode (Z.to_nat (b + 2)) 0 h delay_init)
    as [[h1 l1] f1] eqn:E.
  pose proof (delay_loop_rule opcode 0 (b + 2)
    (early_exit_inv a b) (fun _ _ => True)) as R.
  assert (Hres : match f1 with
                 | Next => early_exit_inv a b
                             (0 + Z.of_nat (Z.to_nat (b + 2))) l1
                 | Break => exists j,
                     0 <= j < 0 + Z.of_nat (Z.to_nat (b + 2)) /\ True
                 end).
  { eapply R; [| | | | exact E]; try lia.
    - intros i h0 l Hi HI.
      assert (Hp : a <= i <= b ->
                   mmc_send_tuning (delay_probe_host i h0) opcode = 0)
        by (intros Hr; apply delay_probe_pass; auto; lia).
      assert (Hf : i = b + 1 ->
                   mmc_send_tuning (delay_probe_host i h0) opcode <> 0)
        by (intros ->; apply delay_probe_fail; auto; lia).
      generalize dependent (mmc_send_tuning (delay_probe_host i h0) opcode).
      intros ret Hp Hf.
      destruct l as [r d mn mx rg].
      unfold early_exit_inv, DELAY_RANGE_THRESHOLD in *.
      cbn [d_ret d_delay d_delay_min d_delay_max d_delay_range] in HI.
      unfold delay_step, DELAY_RANGE_THRESHOLD;
        cbn [d_ret d_delay d_delay_min d_delay_max d_delay_range];
        rewrite ?sint32_small by lia;
        split_tests;
        cbn [d_ret d_delay d_delay_min d_delay_max d_delay_range];
        first [ exact I | lia ].
    - unfold early_exit_inv, DELAY_RANGE_THRESHOLD, delay_init.
      cbn [d_ret d_delay d_delay_min d_delay_max d_delay_range]. lia. }
  destruct f1; [| reflexivity].
  unfold early_exit_inv in Hres. lia.
Qed.

(** The commit after the sweep issues no tuning command. *)
Lemma delay_tuning_probes (opcode : Z) (h : sdhci_host) :
  probed_delays
    (new_events h (snd (eswin_sdhci_sdio_delay_tuning h opcode))) =
  probed_delays (new_events h (fst (fst (delay_scan opcode h)))).
Proof.
  destruct (delay_scan opcode h) as [[h1 l1] f1] eqn:E. cbn [fst].
  pose proof (delay_loop_host _ _ _ _ _ _ _ _ E) as (G & _).
  destruct (Z.eq_dec (d_delay l1) (-1)) as [Hd | Hd].
  - destruct (delay_tuning_failed _ _ _ _ _ E Hd) as (hd & -> & _ & T & _).
    cbn [snd].
    rewrite (new_events_trans h h1 hd G (grows_intro _ _ _ T)).
    rewrite (new_events_app _ _ _ T), probed_delays_app.
    cbn. now rewrite app_nil_r.
  - destruct (delay_tuning_committed _ _ _ _ _ E Hd) as (hd & -> & _ & T & _).
    cbn [snd].
    rewrite (new_events_trans h h1 hd G (grows_intro _ _ _ T)).
    rewrite (new_events_app _ _ _ T), probed_delays_app.
    cbn. now rewrite app_nil_r.
Qed.

(** C7 -- Early-exit threshold.  When the codes [a..b] pass with
    [b - a > DELAY_RANGE_THRESHOLD] (20) and the probe at [b + 1], still
    inside the range, fails, the delay sweep ends by [break]: the codes it
    probes are [0 .. k-1] for some [k <= b + 2], so no tuning command is
    issued at a delay code beyond the closing failure [b + 1]; and when the
    sweep reaches code [a] (nothing before [a] ended it), it stops exactly at
    the closing failure, having probed [0 .. b+1]. *)
Theorem delay_early_exit (h : sdhci_host) (opcode a b : Z) :
  delay_codes_fit ->
  0 <= a -> DELAY_RANGE_THRESHOLD < b - a -> b < PHY_DELAY_CODE_MAX K ->
  (forall j, a <= j <= b -> delay_passes opcode j) ->
  delay_fails opcode (b + 1) ->
  snd (delay_scan opcode h) = Break /\
  exists k : nat,
    Z.of_nat k <= b + 2 /\
    probed_delays
      (new_events h (snd (eswin_sdhci_sdio_delay_tuning h opcode))) =
      zrange 0 k /\
    (forall x,
        In x (probed_delays
                (new_events h
                   (snd (eswin_sdhci_sdio_delay_tuning h opcode)))) ->
        x <= b + 1) /\
    (snd (delay_loop opcode (Z.to_nat a) 0 h delay_init) = Next ->
     Z.of_nat k = b + 2).
Proof.
  intros Hfit Ha Hwide Hb Hpass Hfail.
  pose proof (delay_loop_early_exit opcode a b h Hfit Ha Hwide Hb Hpass Hfail)
    as Hbrk.
  unfold DELAY_RANGE_THRESHOLD in Hwide.
  destruct (delay_loop opcode (Z.to_nat (b + 2)) 0 h delay_init)
    as [[h1 l1] f1] eqn:E1.
  cbn [snd] in Hbrk. subst f1.
  assert (Escan : delay_scan opcode h = (h1, l1, Break)).
  { unfold delay_scan.
    replace (Z.to_nat (PHY_DELAY_CODE_MAX K + 1))
      with (Z.to_nat (b + 2) + Z.to_nat (PHY_DELAY_CODE_MAX K - b - 1))%nat
      by lia.
    now rewrite delay_loop_split, E1. }
  split; [now rewrite Escan |].
  rewrite delay_tuning_probes, Escan. cbn [fst].
  assert (Hin : forall k : nat, Z.of_nat k <= b + 2 ->
            forall x, In x (zrange 0 k) -> x <= b + 1).
  { intros k Hk x Hx. apply zrange_bounds in Hx. lia. }
  destruct (delay_loop opcode (Z.to_nat a) 0 h delay_init)
    as [[ha la] fa] eqn:Ea.
  destruct fa.
  - (* the sweep reaches [a] *)
    exists (Z.to_nat (b + 2)).
    assert (Hk : Z.of_nat (Z.to_nat (b + 2)) <= b + 2) by lia.
    split; [exact Hk |].
    assert (Hprobes : probed_delays (new_events h h1) =
                      zrange 0 (Z.to_nat (b + 2))).
    { replace (Z.to_nat (b + 2))
        with (Z.to_nat a + (Z.to_nat (b - a + 1) + 1))%nat in E1 |- * by lia.
      rewrite delay_loop_split, Ea in E1.
      rewrite delay_loop_split in E1.
      replace (0 + Z.of_nat (Z.to_nat a)) with a in E1 by lia.
      pose proof (delay_loop_passes_next opcode (Z.to_nat (b - a + 1)) a
                    ha la Hfit Ha ltac:(lia)
                    ltac:(intros j Hj; apply Hpass; lia)) as Hnext.
      destruct (delay_loop opcode (Z.to_nat (b - a + 1)) a ha la)
        as [[hb lb] fb] eqn:Eb.
      cbn [snd] in Hnext. subst fb.
      replace (a + Z.of_nat (Z.to_nat (b - a + 1))) with (b + 1) in E1 by lia.
      destruct (delay_loop_probes opcode (Z.to_nat a) Hfit
                  0 h delay_init ha la Next
                  ltac:(lia) ltac:(lia) Ea) as (ka & _ & Pa & Na & _).
      destruct (delay_loop_probes opcode (Z.to_nat (b - a + 1)) Hfit
                  a ha la hb lb Next
                  Ha ltac:(lia) Eb) as (kb & _ & Pb & Nb & _).
      destruct (delay_loop_probes opcode 1 Hfit
                  (b + 1) hb lb h1 l1 Break
                  ltac:(lia) ltac:(lia) E1) as (k1 & Hk1 & P1 & _ & B1).
      specialize (Na eq_refl). specialize (Nb eq_refl).
      specialize (B1 eq_refl). subst ka kb.
      assert (k1 = 1%nat) by lia. subst k1.
      pose proof (delay_loop_host _ _ _ _ _ _ _ _ Ea) as (Ga & _).
      pose proof (delay_loop_host _ _ _ _ _ _ _ _ Eb) as (Gb & _).
      pose proof (delay_loop_host _ _ _ _ _ _ _ _ E1) as (G1 & _).
      rewrite (new_events_trans h ha h1 Ga (grows_trans _ _ _ Gb G1)).
      rewrite (new_events_trans ha hb h1 Gb G1).
      rewrite !probed_delays_app, Pa, Pb, P1.
      rewrite !zrange_app.
      replace (0 + Z.of_nat (Z.to_nat a)) with a by lia.
      replace (a + Z.of_nat (Z.to_nat (b - a + 1))) with (b + 1) by lia.
      reflexivity. }
    split; [exact Hprobes |].
    split; [rewrite Hprobes; exact (Hin _ Hk) |].
    intros _. lia.
  - (* an earlier window ended the sweep *)
    destruct (delay_loop_probes opcode (Z.to_nat (b + 2)) Hfit
                0 h delay_init h1 l1 Break
                ltac:(lia) ltac:(lia) E1) as (k & Hk & P & _ & _).
    exists k.
    assert (Hk' : Z.of_nat k <= b + 2) by lia.
    split; [exact Hk' |].
    split; [exact P |].
    split; [rewrite P; exact (Hin _ Hk') |].
    cbn [snd]. discriminate.
Qed.

(** ** The phase sweep *)

Ltac phase_window_step :=
  unfold phase_step;
  cbn [p_ret p_code_min p_code_max];
  split_tests;
  cbn [p_ret p_code_min p_code_max];
  first [ solve [exfalso; lia] | lia ].

Lemma phase_loop_window (opcode : Z) (n : nat) (h h1 : sdhci_host)
      (l1 : phase_locals) (f1 : flow) :
  phase_loop opcode n 0 h phase_init = (h1, l1, f1) ->
  match f1 with
  | Next => phase_window_inv (Z.of_nat n) l1
  | Break => exists j, 0 <= j < Z.of_nat n /\
                       0 <= p_code_min l1 < p_code_max l1 /\
                       p_code_max l1 = j - 1
  end.
Proof.
  intros E.
  pose proof (phase_loop_rule opcode 0 (Z.of_nat n) phase_window_inv
    (fun j l => 0 <= p_code_min l < p_code_max l /\ p_code_max l = j - 1))
    as R.
  cbv beta in R.
  apply (R ltac:(
    intros c h0 l Hc HI;
    generalize (mmc_send_tuning (phase_probe_host c h0) opcode); intros ret;
    destruct l as [r mn mx]; unfold phase_window_inv in *;
    cbn [p_ret p_code_min p_code_max] in HI;
    phase_window_step) n 0 h phase_init h1 l1 f1 ltac:(lia) ltac:(lia)).
  - unfold phase_window_inv, phase_init. cbn [p_ret p_code_min p_code_max].
    lia.
  - exact E.
Qed.

Lemma phase_tuning_probes (opcode : Z) (h : sdhci_host) :
  probed_phases
    (new_events h (snd (eswin_sdhci_sdio_phase_code_tuning h opcode))) =
  probed_phases (new_events h (fst (fst (phase_scan opcode h)))).
Proof.
  destruct (phase_scan opcode h) as [[h1 l1] f1] eqn:E. cbn [fst].
  pose proof (phase_loop_host _ _ _ _ _ _ _ _ E) as (G & _).
  destruct (Z.eq_dec (p_code_min l1) (-1)) as [Hmin | Hmin];
    [destruct (Z.eq_dec (p_code_max l1) (-1)) as [Hmax | Hmax] |].
  - destruct (phase_tuning_failed _ _ _ _ _ E Hmin Hmax)
      as (hp & -> & _ & T & _).
    cbn [snd].
    rewrite (new_events_trans h h1 hp G (grows_intro _ _ _ T)).
    rewrite (new_events_app _ _ _ T), probed_phases_app.
    cbn. now rewrite app_nil_r.
  - destruct (phase_tuning_committed _ _ _ _ _ E (or_intror Hmax))
      as (hp & -> & _ & T & _).
    cbn [snd].
    rewrite (new_events_trans h h1 hp G (grows_intro _ _ _ T)).
    rewrite (new_events_app _ _ _ T), probed_phases_app.
    cbn. now rewrite app_nil_r.
  - destruct (phase_tuning_committed _ _ _ _ _ E (or_introl Hmin))
      as (hp & -> & _ & T & _).
    cbn [snd].
    rewrite (new_events_trans h h1 hp G (grows_intro _ _ _ T)).
    rewrite (new_events_app _ _ _ T), probed_phases_app.
    cbn. now rewrite app_nil_r.
Qed.

(** The first failing probe that finds both bounds set ends the sweep; the
    midpoint of the two bounds is committed. *)
Lemma phase_first_window (opcode k : Z) (h h1 : sdhci_host)
      (l1 : phase_locals) :
  phase_codes_fit ->
  0 <= k <= MAX_PHASE_CODE K ->
  phase_loop opcode (Z.to_nat k) 0 h phase_init = (h1, l1, Next) ->
  mmc_send_tuning (phase_probe_host k h1) opcode <> 0 ->
  p_code_min l1 <> -1 -> p_code_max l1 <> -1 ->
  exists hp,
    eswin_sdhci_sdio_phase_code_tuning h opcode = (0, hp) /\
    regs hp VENDOR_AT_SATA_R = (p_code_min l1 + p_code_max l1) / 2 /\
    probed_phases (new_events h hp) = zrange 0 (Z.to_nat (k + 1)).
Proof.
  intros Hfit Hk E1 Hret Hmin Hmax.
  unfold phase_codes_fit in Hfit.
  pose proof (phase_loop_window _ _ _ _ _ _ E1) as W.
  cbv iota in W. unfold phase_window_inv in W.
  set (ret := mmc_send_tuning (phase_probe_host k h1) opcode) in *.
  set (h2 := after_probe opcode ret (phase_probe_host k h1)).
  set (l2 := {| p_ret := ret; p_code_min := p_code_min l1;
                p_code_max := p_code_max l1 |}).
  assert (Eiter : phase_iter opcode k h1 l1 = (h2, l2, Break)).
  { rewrite phase_iter_eq. fold ret. unfold phase_step.
    apply Z.eqb_neq in Hret, Hmin, Hmax. rewrite Hret, Hmin, Hmax.
    reflexivity. }
  assert (E : phase_scan opcode h = (h2, l2, Break)).
  { unfold phase_scan.
    replace (Z.to_nat (MAX_PHASE_CODE K + 1))
      with (Z.to_nat k + S (Z.to_nat (MAX_PHASE_CODE K - k)))%nat by lia.
    rewrite phase_loop_split, E1. cbn [phase_loop].
    replace (0 + Z.of_nat (Z.to_nat k)) with k by lia.
    now rewrite Eiter. }
  destruct (phase_tuning_committed _ _ _ _ _ E (or_introl Hmin))
    as (hp & Eq & Hreg & T & _).
  exists hp. split; [exact Eq |].
  cbn [l2 p_code_min p_code_max] in Hreg.
  split.
  - rewrite Hreg, sint32_small by lia.
    rewrite quot2_div2 by lia. apply u16_small.
    Z.to_euclidean_division_equations; lia.
  - pose proof (phase_tuning_probes opcode h) as P.
    rewrite Eq, E in P. cbn [fst snd] in P. rewrite P.
    destruct (phase_loop_probes opcode (Z.to_nat k) Hfit
                0 h phase_init h1 l1 Next ltac:(lia) ltac:(lia) E1)
      as (k1 & _ & P1 & N1 & _).
    specialize (N1 eq_refl). subst k1.
    pose proof (phase_iter_host _ _ _ _ _ _ _ Eiter) as (G2 & _ & _ & P2).
    pose proof (phase_loop_host _ _ _ _ _ _ _ _ E1) as (G1 & _).
    rewrite (new_events_trans h h1 h2 G1 G2), probed_phases_app, P1, P2.
    rewrite u16_small by lia.
    replace (Z.to_nat (k + 1)) with (Z.to_nat k + 1)%nat by lia.
    rewrite zrange_app. cbn [zrange].
    replace (0 + Z.of_nat (Z.to_nat k)) with k by lia. reflexivity.
Qed.

(** A sweep that ends with both bounds unset went through the whole range;
    phase code 0 is programmed and the status is [-EIO]. *)
Lemma phase_no_window (opcode : Z) (h : sdhci_host) :
  phase_codes_fit ->
  p_code_min (snd (fst (phase_scan opcode h))) = -1 ->
  p_code_max (snd (fst (phase_scan opcode h))) = -1 ->
  snd (phase_scan opcode h) = Next /\
  exists hp,
    eswin_sdhci_sdio_phase_code_tuning h opcode = (- EIO K, hp) /\
    regs hp VENDOR_AT_SATA_R = 0 /\
    probed_phases (new_events h hp) =
      zrange 0 (Z.to_nat (MAX_PHASE_CODE K + 1)).
Proof.
  intros Hfit Hmin Hmax.
  destruct (phase_scan opcode h) as [[h1 l1] f1] eqn:E.
  cbn [fst snd] in *.
  pose proof E as E'. unfold phase_scan in E'.
  pose proof (phase_loop_window _ _ _ _ _ _ E') as W.
  assert (f1 = Next) as ->.
  { destruct f1; [reflexivity |]. destruct W as (j & _ & Hw & _). lia. }
  split; [reflexivity |].
  destruct (phase_tuning_failed _ _ _ _ _ E Hmin Hmax)
    as (hp & Eq & Hreg & T & _).
  exists hp. split; [exact Eq |]. split; [exact Hreg |].
  pose proof (phase_tuning_probes opcode h) as P.
  rewrite Eq, E in P. cbn [fst snd] in P. rewrite P.
  unfold phase_codes_fit in Hfit.
  destruct (phase_loop_probes opcode (Z.to_nat (MAX_PHASE_CODE K + 1)) Hfit
              0 h phase_init h1 l1 Next ltac:(lia) ltac:(lia) E')
    as (k1 & _ & P1 & N1 & _).
  specialize (N1 eq_refl). now subst k1.
Qed.

(** ** The phase sweep that never breaks *)

Lemma phase_sentinel_general (opcode : Z) (h : sdhci_host) :
  phase_codes_fit ->
  snd (phase_scan opcode h) = Next ->
  p_code_min (snd (fst (phase_scan opcode h))) <> -1 ->
  0 <= p_code_min (snd (fst (phase_scan opcode h))) <= MAX_PHASE_CODE K /\
  (p_code_max (snd (fst (phase_scan opcode h))) = -1 \/
   p_code_max (snd (fst (phase_scan opcode h))) = MAX_PHASE_CODE K /\
   p_code_min (snd (fst (phase_scan opcode h))) < MAX_PHASE_CODE K) /\
  exists hp,
    eswin_sdhci_sdio_phase_code_tuning h opcode = (0, hp) /\
    regs hp VENDOR_AT_SATA_R =
      Z.quot (p_code_min (snd (fst (phase_scan opcode h))) +
              p_code_max (snd (fst (phase_scan opcode h)))) 2.
Proof.
  intros Hfit Hnext Hmin. unfold phase_codes_fit in Hfit.
  destruct (phase_scan opcode h) as [[h1 l1] f1] eqn:E.
  cbn [fst snd] in *. subst f1.
  pose proof E as E'. unfold phase_scan in E'.
  pose proof (phase_loop_window _ _ _ _ _ _ E') as W.
  cbv iota in W. unfold phase_window_inv in W.
  rewrite Z2Nat.id in W by lia.
  split; [lia |]. split; [lia |].
  destruct (phase_tuning_committed _ _ _ _ _ E (or_introl Hmin))
    as (hp & Eq & Hreg & _).
  exists hp. split; [exact Eq |].
  rewrite Hreg, sint32_small by lia.
  apply u16_small. Z.to_euclidean_division_equations; lia.
Qed.

Lemma phase_single_pass (opcode p : Z) (h : sdhci_host) :
  phase_codes_fit ->
  0 <= p <= MAX_PHASE_CODE K ->
  phase_passes opcode p ->
  (forall j, 0 <= j <= MAX_PHASE_CODE K -> j <> p -> phase_fails opcode j) ->
  snd (phase_scan opcode h) = Next /\
  p_code_min (snd (fst (phase_scan opcode h))) = p /\
  p_code_max (snd (fst (phase_scan opcode h))) = -1.
Proof.
  intros Hfit Hp Hpass Hfail.
  destruct (phase_scan opcode h) as [[h1 l1] f1] eqn:E.
  cbn [fst snd].
  pose proof (phase_scan_rule opcode (single_phase_inv p)
    (fun _ _ => False) h h1 l1 f1 ltac:(lia)) as R.
  assert (Hres : match f1 with
                 | Next => single_phase_inv p (MAX_PHASE_CODE K + 1) l1
                 | Break => exists j, 0 <= j <= MAX_PHASE_CODE K /\ False
                 end).
  { apply R; [| unfold single_phase_inv, phase_init;
                 cbn [p_ret p_code_min p_code_max]; lia | exact E].
    intros c h0 l Hc HI.
    assert (Hp1 : c = p ->
                  mmc_send_tuning (phase_probe_host c h0) opcode = 0)
      by (intros ->; apply phase_probe_pass; auto).
    assert (Hf1 : c <> p ->
                  mmc_send_tuning (phase_probe_host c h0) opcode <> 0)
      by (intros Hne; apply phase_probe_fail; auto).
    generalize dependent (mmc_send_tuning (phase_probe_host c h0) opcode).
    intros ret Hp1 Hf1.
    destruct l as [r mn mx]. unfold single_phase_inv in *.
    cbn [p_ret p_code_min p_code_max] in HI.
    phase_window_step. }
  destruct f1.
  - unfold single_phase_inv in Hres. repeat split; lia.
  - destruct Hres as (j & _ & []).
Qed.

(** ** Traces of one iteration, in full *)

Lemma passed_delays_app (l1 l2 : list event) :
  passed_delays (l1 ++ l2) = passed_delays l1 ++ passed_delays l2.
Proof.
  induction l1 as [| e l1 IH]; simpl; [reflexivity |].
  destruct e; simpl; try exact IH.
  destruct (ret =? 0); simpl; now rewrite IH.
Qed.

Lemma probes_same_length (evs : list event) :
  length (probed_phases evs) = length (probed_delays evs).
Proof.
  induction evs as [| e evs IH]; simpl; [reflexivity |].
  destruct e; simpl; now rewrite ?IH.
Qed.

Lemma delay_iter_events (opcode i : Z) (h h' : sdhci_host)
      (l l' : delay_locals) (f : flow) :
  delay_iter opcode i h l = (h', l', f) ->
  grows h h' /\
  new_events h h' =
    (DisableCardClk :: config_events i ++ [EnableCardClk]) ++
    SendTuning opcode (u8 (Z.land i (PHY_CLK_MAX_DELAY_MASK K)))
      (regs h VENDOR_AT_SATA_R)
      (mmc_send_tuning (delay_probe_host i h) opcode)
      :: settle_events (mmc_send_tuning (delay_probe_host i h) opcode) /\
  (l', f) = delay_step (mmc_send_tuning (delay_probe_host i h) opcode) i l /\
  regs h' PHY_SDCLKDL_DC_R = u8 (Z.land i (PHY_CLK_MAX_DELAY_MASK K)) /\
  (forall r, r <> PHY_SDCLKDL_DC_R -> r <> PHY_SDCLKDL_CNFG_R ->
             regs h' r = regs h r).
Proof.
  rewrite delay_iter_eq. intros E. inversion E as [[Eh El Ef]]. clear E.
  set (ret := mmc_send_tuning (delay_probe_host i h) opcode).
  assert (T : trace (after_probe opcode ret (delay_probe_host i h)) =
              trace h ++
              (DisableCardClk :: config_events i ++ [EnableCardClk]) ++
              SendTuning opcode
                (u8 (Z.land i (PHY_CLK_MAX_DELAY_MASK K)))
                (regs h VENDOR_AT_SATA_R) ret :: settle_events ret).
  { rewrite after_probe_trace by reflexivity.
    rewrite delay_probe_trace, <- app_assoc. reflexivity. }
  assert (Hregs : forall r, regs (after_probe opcode ret (delay_probe_host i h)) r
                            = regs (delay_probe_host i h) r).
  { intros r. unfold after_probe. destruct (negb (ret =? 0)); reflexivity. }
  split; [exact (grows_intro _ _ _ T) |].
  split; [exact (new_events_app _ _ _ T) |].
  split; [now destruct (delay_step ret i l) |].
  split; [now rewrite Hregs |].
  intros r H1 H2. rewrite Hregs. destruct r; try reflexivity; congruence.
Qed.

Lemma phase_iter_events (opcode c : Z) (h h' : sdhci_host)
      (l l' : phase_locals) (f : flow) :
  phase_iter opcode c h l = (h', l', f) ->
  grows h h' /\
  new_events h h' =
    [DisableCardClk; Write VENDOR_AT_SATA_R (u16 c); EnableCardClk] ++
    SendTuning opcode (regs h PHY_SDCLKDL_DC_R) (u16 c)
      (mmc_send_tuning (phase_probe_host c h) opcode)
      :: settle_events (mmc_send_tuning (phase_probe_host c h) opcode) /\
  (l', f) = phase_step (mmc_send_tuning (phase_probe_host c h) opcode) c l /\
  regs h' VENDOR_AT_SATA_R = u16 c /\
  (forall r, r <> VENDOR_AT_SATA_R -> regs h' r = regs h r).
Proof.
  rewrite phase_iter_eq. intros E. inversion E as [[Eh El Ef]]. clear E.
  set (ret := mmc_send_tuning (phase_probe_host c h) opcode).
  assert (T : trace (after_probe opcode ret (phase_probe_host c h)) =
              trace h ++
              [DisableCardClk; Write VENDOR_AT_SATA_R (u16 c);
               EnableCardClk] ++
              SendTuning opcode (regs h PHY_SDCLKDL_DC_R) (u16 c) ret
                :: settle_events ret).
  { rewrite after_probe_trace by reflexivity.
    rewrite phase_probe_trace, <- app_assoc. reflexivity. }
  assert (Hregs : forall r, regs (after_probe opcode ret (phase_probe_host c h)) r
                            = regs (phase_probe_host c h) r).
  { intros r. unfold after_probe. destruct (negb (ret =? 0)); reflexivity. }
  split; [exact (grows_intro _ _ _ T) |].
  split; [exact (new_events_app _ _ _ T) |].
  split; [now destruct (phase_step ret c l) |].
  split; [now rewrite Hregs |].
  intros r H1. rewrite Hregs. destruct r; try reflexivity; congruence.
Qed.

(** The proof rules again, with the controller in the invariant. *)
Lemma delay_loop_rule_host (opcode lo hi : Z)
      (I B : Z -> sdhci_host -> delay_locals -> Prop) :
  (forall i h l, lo <= i < hi -> I i h l ->
     match delay_iter opcode i h l with
     | (h', l', Next) => I (i + 1) h' l'
     | (h', l', Break) => B i h' l'
     end) ->
  forall n i h l h' l' f,
    lo <= i -> i + Z.of_nat n <= hi -> I i h l ->
    delay_loop opcode n i h l = (h', l', f) ->
    match f with
    | Next => I (i + Z.of_nat n) h' l'
    | Break => exists j, i <= j < i + Z.of_nat n /\ B j h' l'
    end.
Proof.
  intros Hstep.
  induction n as [| n IH]; intros i h l h' l' f Hi Hn HI E;
    cbn [delay_loop] in E.
  - inversion E; subst. now rewrite Z.add_0_r.
  - specialize (Hstep i h l ltac:(lia) HI).
    destruct (delay_iter opcode i h l) as [[h1 l1] f1].
    destruct f1.
    + specialize (IH (i + 1) h1 l1 h' l' f ltac:(lia) ltac:(lia) Hstep E).
      destruct f.
      * replace (i + Z.of_nat (S n)) with (i + 1 + Z.of_nat n) by lia.
        exact IH.
      * destruct IH as (j & Hj & HB). exists j. split; [lia | exact HB].
    + inversion E; subst. exists i. split; [lia | exact Hstep].
Qed.

Lemma phase_loop_rule_host (opcode lo hi : Z)
      (I B : Z -> sdhci_host -> phase_locals -> Prop) :
  (forall c h l, lo <= c < hi -> I c h l ->
     match phase_iter opcode c h l with
     | (h', l', Next) => I (c + 1) h' l'
     | (h', l', Break) => B c h' l'
     end) ->
  forall n c h l h' l' f,
    lo <= c -> c + Z.of_nat n <= hi -> I c h l ->
    phase_loop opcode n c h l = (h', l', f) ->
    match f with
    | Next => I (c + Z.of_nat n) h' l'
    | Break => exists j, c <= j < c + Z.of_nat n /\ B j h' l'
    end.
Proof.
  intros Hstep.
  induction n as [| n IH]; intros c h l h' l' f Hc Hn HI E;
    cbn [phase_loop] in E.
  - inversion E; subst. now rewrite Z.add_0_r.
  - specialize (Hstep c h l ltac:(lia) HI).
    destruct (phase_iter opcode c h l) as [[h1 l1] f1].
    destruct f1.
    + specialize (IH (c + 1) h1 l1 h' l' f ltac:(lia) ltac:(lia) Hstep E).
      destruct f.
      * replace (c + Z.of_nat (S n)) with (c + 1 + Z.of_nat n) by lia.
        exact IH.
      * destruct IH as (j & Hj & HB). exists j. split; [lia | exact HB].
    + inversion E; subst. exists c. split; [lia | exact Hstep].
Qed.

(** ** The phase sweep that never breaks, and the commands that passed *)

Lemma passed_phases_app (l1 l2 : list event) :
  passed_phases (l1 ++ l2) = passed_phases l1 ++ passed_phases l2.
Proof.
  induction l1 as [| e l1 IH]; simpl; [reflexivity |].
  destruct e; simpl; try exact IH.
  destruct (ret =? 0); simpl; now rewrite IH.
Qed.

Lemma phase_iter_passed (opcode c : Z) (h0 h h' : sdhci_host)
      (l l' : phase_locals) (f : flow) :
  phase_codes_fit -> 0 <= c <= MAX_PHASE_CODE K ->
  grows h0 h ->
  phase_iter opcode c h l = (h', l', f) ->
  grows h0 h' /\
  passed_phases (new_events h0 h') =
    passed_phases (new_events h0 h) ++
    (if mmc_send_tuning (phase_probe_host c h) opcode =? 0 then [c] else []).
Proof.
  intros Hfit Hc G E. unfold phase_codes_fit in Hfit.
  destruct (phase_iter_events _ _ _ _ _ _ _ E) as (G' & N & _).
  split; [exact (grows_trans _ _ _ G G') |].
  rewrite (new_events_trans _ _ _ G G'), passed_phases_app, N.
  f_equal. rewrite passed_phases_app. unfold settle_events.
  rewrite (u16_small c) by lia.
  destruct (mmc_send_tuning (phase_probe_host c h) opcode =? 0) eqn:Er;
    cbn; rewrite Er; reflexivity.
Qed.

Lemma zrange_snoc (q c : Z) :
  q <= c ->
  zrange q (Z.to_nat (c + 1 - q)) = zrange q (Z.to_nat (c - q)) ++ [c].
Proof.
  intros Hq.
  replace (Z.to_nat (c + 1 - q)) with (Z.to_nat (c - q) + 1)%nat by lia.
  rewrite zrange_app. cbn [zrange]. do 2 f_equal. lia.
Qed.

Lemma phase_evidence_step (opcode c : Z) (h0 h : sdhci_host)
      (l : phase_locals) :
  phase_codes_fit -> 0 <= c <= MAX_PHASE_CODE K ->
  phase_evidence h0 c h l ->
  match phase_iter opcode c h l with
  | (h', l', Next) => phase_evidence h0 (c + 1) h' l'
  | (h', l', Break) => True
  end.
Proof.
  intros Hfit Hc (G & Ev).
  destruct (phase_iter opcode c h l) as [[h' l'] f] eqn:E.
  destruct (phase_iter_passed _ _ _ _ _ _ _ _ Hfit Hc G E) as (G' & P).
  destruct (phase_iter_events _ _ _ _ _ _ _ E) as (_ & _ & S & _).
  set (ret := mmc_send_tuning (phase_probe_host c h) opcode) in *.
  clearbody ret. clear E.
  destruct l as [r mn mx]. cbn [p_ret p_code_min p_code_max] in *.
  unfold phase_step in S. cbn [p_ret p_code_min p_code_max] in S.
  destruct (Z.eqb_spec ret 0) as [Hr | Hr]; cbn [negb] in S.
  - (* the command passed *)
    destruct (Z.eqb_spec mn (-1)) as [Hm | Hm];
      inversion S; subst l' f; clear S;
      (split; [exact G' |]); cbn [p_ret p_code_min p_code_max];
      destruct Ev as [(E1 & E2 & E3) | [(E1 & E2 & E3) |
                      (q & E1 & E2 & E3 & E4)]]; try lia.
    + right. left. rewrite P, E3. cbn [app]. repeat split; lia.
    + right. right. exists c. rewrite P, E3.
      replace (Z.to_nat (c + 1 - c)) with 1%nat by lia.
      cbn [app zrange]. repeat split; lia.
    + right. right. exists q. rewrite P, E4, zrange_snoc by lia.
      cbn [app]. repeat split; lia.
  - (* the command failed *)
    rewrite app_nil_r in P.
    destruct (Z.eqb_spec mn (-1)) as [Hm | Hm]; cbn [negb andb] in S;
      [| destruct (Z.eqb_spec mx (-1)) as [Hx | Hx]; cbn [negb andb] in S];
      inversion S; subst l' f; clear S; try exact I;
      (split; [exact G' |]); cbn [p_ret p_code_min p_code_max];
      destruct Ev as [(E1 & E2 & E3) | [(E1 & E2 & E3) |
                      (q & E1 & E2 & E3 & E4)]]; try lia.
    + left. rewrite P. repeat split; auto.
    + right. left. rewrite P. repeat split; auto; lia.
Qed.

(** The sweep that never breaks, for every card: the commands that passed
    are the one at [code_min] alone, and then [code_max] is the sentinel,
    or that one and every one from some later code to the end of the
    range, and then [code_max] is [MAX_PHASE_CODE]. *)
Lemma phase_scan_evidence (opcode : Z) (h h1 : sdhci_host)
      (l1 : phase_locals) :
  phase_codes_fit ->
  phase_scan opcode h = (h1, l1, Next) ->
  p_code_min l1 <> -1 ->
  grows h h1 /\
  exists rest,
    passed_phases (new_events h h1) = p_code_min l1 :: rest /\
    (rest = [] -> p_code_max l1 = -1) /\
    (rest <> [] ->
     p_code_max l1 = MAX_PHASE_CODE K /\
     exists q,
       p_code_min l1 < q <= MAX_PHASE_CODE K /\
       rest = zrange q (Z.to_nat (MAX_PHASE_CODE K + 1 - q))).
Proof.
  intros Hfit E Hmin. pose proof Hfit as Hfit'.
  unfold phase_codes_fit in Hfit'. unfold phase_scan in E.
  pose proof (phase_loop_rule_host opcode 0 (MAX_PHASE_CODE K + 1)
    (phase_evidence h) (fun _ _ _ => True)
    ltac:(intros c h0 l Hc; apply phase_evidence_step; [exact Hfit | lia])
    (Z.to_nat (MAX_PHASE_CODE K + 1)) 0 h phase_init h1 l1 Next
    ltac:(lia) ltac:(lia)) as R.
  assert (H0 : phase_evidence h 0 h phase_init).
  { split; [apply grows_refl |]. left.
    rewrite new_events_refl. repeat split. }
  specialize (R H0 E). cbv iota in R.
  rewrite Z.add_0_l, Z2Nat.id in R by lia.
  destruct R as (G & Ev). split; [exact G |].
  destruct Ev as [(E1 & E2 & E3) | [(E1 & E2 & E3) |
                  (q & E1 & E2 & E3 & E4)]]; [contradiction | |].
  - exists []. split; [exact E3 |].
    split; [intros _; exact E2 | intros N; contradiction].
  - exists (zrange q (Z.to_nat (MAX_PHASE_CODE K + 1 - q))).
    split; [exact E4 |]. split.
    + intros N. exfalso.
      replace (Z.to_nat (MAX_PHASE_CODE K + 1 - q))
        with (S (Z.to_nat (MAX_PHASE_CODE K - q))) in N by lia.
      discriminate N.
    + intros _. split; [lia |]. exists q. split; [lia | reflexivity].
Qed.

Lemma phase_run_to_end (opcode p q : Z) (h : sdhci_host) :
  phase_codes_fit ->
  0 <= p -> p < q -> q <= MAX_PHASE_CODE K ->
  phase_passes opcode p ->
  (forall j, q <= j <= MAX_PHASE_CODE K -> phase_passes opcode j) ->
  (forall j, 0 <= j < q -> j <> p -> phase_fails opcode j) ->
  snd (phase_scan opcode h) = Next /\
  p_code_min (snd (fst (phase_scan opcode h))) = p /\
  p_code_max (snd (fst (phase_scan opcode h))) = MAX_PHASE_CODE K.
Proof.
  intros Hfit Hp Hpq Hq Hpass Htail Hfail.
  destruct (phase_scan opcode h) as [[h1 l1] f1] eqn:E.
  cbn [fst snd].
  pose proof (phase_scan_rule opcode (phase_tail_inv p q)
    (fun _ _ => False) h h1 l1 f1 ltac:(lia)) as R.
  assert (Hres : match f1 with
                 | Next => phase_tail_inv p q (MAX_PHASE_CODE K + 1) l1
                 | Break => exists j, 0 <= j <= MAX_PHASE_CODE K /\ False
                 end).
  { apply R; [| unfold phase_tail_inv, phase_init;
                 cbn [p_ret p_code_min p_code_max]; lia | exact E].
    intros c h0 l Hc HI.
    assert (Hp1 : c = p \/ q <= c ->
                  mmc_send_tuning (phase_probe_host c h0) opcode = 0)
      by (intros [-> | Hr]; apply phase_probe_pass; auto; apply Htail; lia).
    assert (Hf1 : c <> p -> c < q ->
                  mmc_send_tuning (phase_probe_host c h0) opcode <> 0)
      by (intros Hne Hlt; apply phase_probe_fail; auto; apply Hfail; lia).
    generalize dependent (mmc_send_tuning (phase_probe_host c h0) opcode).
    intros ret Hp1 Hf1.
    destruct l as [r mn mx]. unfold phase_tail_inv in *.
    cbn [p_ret p_code_min p_code_max] in HI.
    phase_window_step. }
  destruct f1.
  - unfold phase_tail_inv in Hres. repeat split; lia.
  - destruct Hres as (j & _ & []).
Qed.

(** C9 (amended) -- Phase sentinel edge case.  When at least one phase code
    passes ([code_min] is set after the sweep) but no failing probe ever
    finds both [code_min] and [code_max] set (the sweep never breaks), the
    phase scanner still returns 0 and programs [(code_min + code_max) / 2]
    (C division, truncating towards zero), where [code_min] is the code of
    the first command that passed, and [code_max] is the -1 sentinel when
    that command is the only one that passed, and [MAX_PHASE_CODE]
    otherwise: the other commands that passed are then the ones at every
    code from some later code to the end of the range.  In particular,
    when exactly one phase code [p] passes it programs [(p - 1) / 2], which
    for [p >= 1] is a code at which the tuning command fails; and when the
    card passes at [p], fails up to [q] and passes from [q] to the end of
    the range it programs [(p + MAX_PHASE_CODE) / 2]. *)
Theorem phase_sentinel_midpoint (h : sdhci_host) (opcode : Z) :
  phase_codes_fit ->
  (snd (phase_scan opcode h) = Next ->
   p_code_min (snd (fst (phase_scan opcode h))) <> -1 ->
   0 <= p_code_min (snd (fst (phase_scan opcode h))) <= MAX_PHASE_CODE K /\
   exists hp rest,
     eswin_sdhci_sdio_phase_code_tuning h opcode = (0, hp) /\
     regs hp VENDOR_AT_SATA_R =
       Z.quot (p_code_min (snd (fst (phase_scan opcode h))) +
               p_code_max (snd (fst (phase_scan opcode h)))) 2 /\
     passed_phases (new_events h hp) =
       p_code_min (snd (fst (phase_scan opcode h))) :: rest /\
     (rest = [] -> p_code_max (snd (fst (phase_scan opcode h))) = -1) /\
     (rest <> [] ->
      p_code_max (snd (fst (phase_scan opcode h))) = MAX_PHASE_CODE K /\
      exists q,
        p_code_min (snd (fst (phase_scan opcode h))) < q <=
          MAX_PHASE_CODE K /\
        rest = zrange q (Z.to_nat (MAX_PHASE_CODE K + 1 - q)))) /\
  (forall p,
      0 <= p <= MAX_PHASE_CODE K ->
      phase_passes opcode p ->
      (forall j, 0 <= j <= MAX_PHASE_CODE K -> j <> p ->
                 phase_fails opcode j) ->
      exists hp,
        eswin_sdhci_sdio_phase_code_tuning h opcode = (0, hp) /\
        regs hp VENDOR_AT_SATA_R = Z.quot (p - 1) 2 /\
        (1 <= p -> phase_fails opcode (Z.quot (p - 1) 2))) /\
  (forall p q,
      0 <= p -> p < q -> q <= MAX_PHASE_CODE K ->
      phase_passes opcode p ->
      (forall j, q <= j <= MAX_PHASE_CODE K -> phase_passes opcode j) ->
      (forall j, 0 <= j < q -> j <> p -> phase_fails opcode j) ->
      exists hp,
        eswin_sdhci_sdio_phase_code_tuning h opcode = (0, hp) /\
        regs hp VENDOR_AT_SATA_R = Z.quot (p + MAX_PHASE_CODE K) 2).
Proof.
  intros Hfit. split; [| split].
  - intros Hnext Hmin.
    destruct (phase_sentinel_general opcode h Hfit Hnext Hmin)
      as (Hrange & _ & hp & Eq & Hreg).
    split; [exact Hrange |].
    destruct (phase_scan opcode h) as [[h1 l1] f1] eqn:E.
    cbn [fst snd] in *. subst f1.
    destruct (phase_scan_evidence opcode h h1 l1 Hfit E Hmin)
      as (G & rest & P & Hone & Hmore).
    destruct (phase_tuning_committed _ _ _ _ _ E (or_introl Hmin))
      as (hp' & Eq' & _ & T & _).
    rewrite Eq in Eq'. inversion Eq'; subst hp'.
    exists hp, rest. split; [exact Eq |]. split; [exact Hreg |].
    split; [| split; [exact Hone | exact Hmore]].
    rewrite (new_events_trans h h1 hp G (grows_intro _ _ _ T)).
    rewrite passed_phases_app, P.
    rewrite (new_events_app _ _ _ T). cbn. now rewrite app_nil_r.
  - intros p Hp Hpass Hfail.
    destruct (phase_single_pass opcode p h Hfit Hp Hpass Hfail)
      as (Hnext & Hmin & Hmax).
    destruct (phase_sentinel_general opcode h Hfit Hnext ltac:(lia))
      as (_ & _ & hp & Eq & Hreg).
    rewrite Hmin, Hmax in Hreg.
    exists hp. split; [exact Eq |]. split; [exact Hreg |].
    intros Hp1. apply Hfail; Z.to_euclidean_division_equations; lia.
  - intros p q Hp Hpq Hq Hpass Htail Hfail.
    destruct (phase_run_to_end opcode p q h Hfit Hp Hpq Hq Hpass Htail Hfail)
      as (Hnext & Hmin & Hmax).
    destruct (phase_sentinel_general opcode h Hfit Hnext ltac:(lia))
      as (_ & _ & hp & Eq & Hreg).
    rewrite Hmin, Hmax in Hreg.
    exists hp. split; [exact Eq | exact Hreg].
Qed.

(** ** Probes in order, and how many *)

(** X1 -- Both scanners probe their codes in increasing order from 0, each
    code once: the codes at which tuning commands are issued are
    [0, 1, ..., k-1] with [1 <= k], at most the whole range, and exactly the
    whole range unless the sweep ends by [break]. *)
Theorem scanners_probe_in_order (h : sdhci_host) (opcode : Z) :
  (delay_codes_fit -> 0 <= PHY_DELAY_CODE_MAX K ->
   exists k : nat,
     (1 <= k <= Z.to_nat (PHY_DELAY_CODE_MAX K + 1))%nat /\
     probed_delays
       (new_events h (snd (eswin_sdhci_sdio_delay_tuning h opcode))) =
       zrange 0 k /\
     (snd (delay_scan opcode h) = Next ->
      k = Z.to_nat (PHY_DELAY_CODE_MAX K + 1))) /\
  (phase_codes_fit ->
   exists k : nat,
     (1 <= k <= Z.to_nat (MAX_PHASE_CODE K + 1))%nat /\
     probed_phases
       (new_events h (snd (eswin_sdhci_sdio_phase_code_tuning h opcode))) =
       zrange 0 k /\
     (snd (phase_scan opcode h) = Next ->
      k = Z.to_nat (MAX_PHASE_CODE K + 1))).
Proof.
  split.
  - intros Hfit Hmax. rewrite delay_tuning_probes.
    destruct (delay_scan opcode h) as [[h1 l1] f1] eqn:E. cbn [fst snd].
    pose proof E as E'. unfold delay_scan in E'.
    destruct (delay_loop_probes opcode (Z.to_nat (PHY_DELAY_CODE_MAX K + 1))
                Hfit 0 h delay_init h1 l1 f1 ltac:(lia) ltac:(lia) E')
      as (k & Hk & P & N & B).
    exists k. split; [| split; [exact P | exact N]].
    destruct f1; [specialize (N eq_refl) | specialize (B eq_refl)]; lia.
  - intros Hfit. rewrite phase_tuning_probes.
    destruct (phase_scan opcode h) as [[h1 l1] f1] eqn:E. cbn [fst snd].
    pose proof E as E'. unfold phase_scan in E'.
    pose proof Hfit as Hfit'. unfold phase_codes_fit in Hfit'.
    destruct (phase_loop_probes opcode (Z.to_nat (MAX_PHASE_CODE K + 1))
                Hfit 0 h phase_init h1 l1 f1 ltac:(lia) ltac:(lia) E')
      as (k & Hk & P & N & B).
    exists k. split; [| split; [exact P | exact N]].
    destruct f1; [specialize (N eq_refl) | specialize (B eq_refl)]; lia.
Qed.

Lemma delay_loop_count (opcode : Z) (n : nat) :
  forall i h l h' l' f,
    delay_loop opcode n i h l = (h', l', f) ->
    (tuning_commands (new_events h h') <= n)%nat.
Proof.
  unfold tuning_commands.
  induction n as [| n IH]; intros i h l h' l' f E; cbn [delay_loop] in E.
  - inversion E; subst. rewrite new_events_refl. cbn. lia.
  - destruct (delay_iter opcode i h l) as [[h1 l1] f1] eqn:E1.
    pose proof (delay_iter_host _ _ _ _ _ _ _ E1) as (G & _ & _ & P).
    destruct f1.
    + pose proof (delay_loop_host _ _ _ _ _ _ _ _ E) as (G' & _).
      specialize (IH _ _ _ _ _ _ E).
      rewrite (new_events_trans _ _ _ G G'), probed_delays_app, P.
      cbn [length app]. lia.
    + inversion E; subst. rewrite P. cbn. lia.
Qed.

Lemma phase_loop_count (opcode : Z) (n : nat) :
  forall c h l h' l' f,
    phase_loop opcode n c h l = (h', l', f) ->
    (tuning_commands (new_events h h') <= n)%nat.
Proof.
  unfold tuning_commands.
  induction n as [| n IH]; intros c h l h' l' f E; cbn [phase_loop] in E.
  - inversion E; subst. rewrite new_events_refl. cbn. lia.
  - destruct (phase_iter opcode c h l) as [[h1 l1] f1] eqn:E1.
    pose proof (phase_iter_host _ _ _ _ _ _ _ E1) as (G & _ & _ & P).
    apply (f_equal (@length Z)) in P. rewrite probes_same_length in P.
    cbn [length] in P.
    destruct f1.
    + pose proof (phase_loop_host _ _ _ _ _ _ _ _ E) as (G' & _).
      specialize (IH _ _ _ _ _ _ E).
      rewrite (new_events_trans _ _ _ G G'), probed_delays_app, length_app.
      lia.
    + inversion E; subst. lia.
Qed.

Lemma delay_tuning_count (opcode : Z) (h : sdhci_host) :
  (tuning_commands
     (new_events h (snd (eswin_sdhci_sdio_delay_tuning h opcode))) <=
   Z.to_nat (PHY_DELAY_CODE_MAX K + 1))%nat.
Proof.
  unfold tuning_commands. rewrite delay_tuning_probes.
  destruct (delay_scan opcode h) as [[h1 l1] f1] eqn:E. cbn [fst].
  exact (delay_loop_count _ _ _ _ _ _ _ _ E).
Qed.

Lemma phase_tuning_count (opcode : Z) (h : sdhci_host) :
  (tuning_commands
     (new_events h (snd (eswin_sdhci_sdio_phase_code_tuning h opcode))) <=
   Z.to_nat (MAX_PHASE_CODE K + 1))%nat.
Proof.
  unfold tuning_commands. rewrite <- probes_same_length, phase_tuning_probes.
  destruct (phase_scan opcode h) as [[h1 l1] f1] eqn:E. cbn [fst].
  rewrite probes_same_length.
  exact (phase_loop_count _ _ _ _ _ _ _ _ E).
Qed.

Lemma tuning_prologue_trace (h : sdhci_host) :
  exists a b,
    trace (tuning_prologue h) =
    trace h ++ [DisableCardClk; Write SDHCI_HOST_CONTROL2 a;
                Write VENDOR_AT_CTRL_R b; Write VENDOR_AT_SATA_R (u16 0);
                EnableCardClk; Write SDHCI_CMD_DATA (u16 0)].
Proof.
  do 2 eexists.
  unfold tuning_prologue, eswin_sdhci_enable_card_clk,
    eswin_sdhci_disable_card_clk, sdhci_writew, store_low_half, store, log.
  cbn [trace]. rewrite <- !app_assoc. reflexivity.
Qed.

(** X2 -- Command budget.  Whatever the card answers, one run of the
    orchestrator issues at most [(PHY_DELAY_CODE_MAX + 1) +
    (MAX_PHASE_CODE + 1)] tuning commands, and none at all when software
    tuning is disabled. *)
Theorem tuning_command_budget (h : sdhci_host) (opcode : Z) :
  (tuning_commands
     (new_events h (snd (eswin_sdhci_sdio_executing_tuning h opcode))) <=
   Z.to_nat (PHY_DELAY_CODE_MAX K + 1) +
   Z.to_nat (MAX_PHASE_CODE K + 1))%nat /\
  (enable_sw_tuning h = 0 ->
   tuning_commands
     (new_events h (snd (eswin_sdhci_sdio_executing_tuning h opcode))) =
   0%nat).
Proof.
  assert (Static : enable_sw_tuning h = 0 ->
            tuning_commands
              (new_events h
                 (snd (eswin_sdhci_sdio_executing_tuning h opcode))) = 0%nat).
  { intros E. rewrite (executing_tuning_static _ _ E).
    destruct (negb (priv_phase_code h =? -1)); cbn [snd].
    - assert (T : trace (eswin_sdhci_enable_card_clk
                           (sdhci_writew (eswin_sdhci_disable_card_clk h)
                              (priv_phase_code h) VENDOR_AT_SATA_R)) =
                  trace h ++ [DisableCardClk;
                              Write VENDOR_AT_SATA_R (u16 (priv_phase_code h));
                              EnableCardClk]).
      { unfold eswin_sdhci_enable_card_clk, eswin_sdhci_disable_card_clk,
          sdhci_writew, store_low_half, store, log.
        cbn [trace]. rewrite <- !app_assoc. reflexivity. }
      now rewrite (new_events_app _ _ _ T).
    - now rewrite new_events_refl. }
  split; [| exact Static].
  destruct (Z.eq_dec (enable_sw_tuning h) 0) as [E | E].
  - rewrite (Static E). lia.
  - rewrite (executing_tuning_auto _ _ E).
    destruct (tuning_prologue_trace h) as (a & b & T0).
    pose proof (grows_intro _ _ _ T0) as G0.
    pose proof (delay_tuning_host opcode (tuning_prologue h)) as (G1 & _).
    pose proof (delay_tuning_count opcode (tuning_prologue h)) as C1.
    destruct (eswin_sdhci_sdio_delay_tuning (tuning_prologue h) opcode)
      as [ret h1].
    cbn [snd] in G1, C1.
    assert (C01 : (tuning_commands (new_events h h1) <=
                   Z.to_nat (PHY_DELAY_CODE_MAX K + 1))%nat).
    { unfold tuning_commands in *.
      rewrite (new_events_trans _ _ _ G0 G1), probed_delays_app.
      rewrite (new_events_app _ _ _ T0). cbn [probed_delays app]. exact C1. }
    destruct (ret <? 0); cbn [snd]; [lia |].
    pose proof (phase_tuning_host opcode h1) as (G2 & _).
    pose proof (phase_tuning_count opcode h1) as C2.
    destruct (eswin_sdhci_sdio_phase_code_tuning h1 opcode) as [ret2 h2].
    cbn [snd] in G2, C2.
    assert (C : (tuning_commands (new_events h h2) <=
                 Z.to_nat (PHY_DELAY_CODE_MAX K + 1) +
                 Z.to_nat (MAX_PHASE_CODE K + 1))%nat).
    { unfold tuning_commands in *.
      rewrite (new_events_trans _ _ _ (grows_trans _ _ _ G0 G1) G2).
      rewrite probed_delays_app, length_app. lia. }
    destruct (ret2 <? 0); exact C.
Qed.

(** ** What a committed delay code is evidence of *)

Lemma delay_iter_passed (opcode i : Z) (h0 h h' : sdhci_host)
      (l l' : delay_locals) (f : flow) :
  delay_codes_fit -> 0 <= i <= PHY_DELAY_CODE_MAX K ->
  grows h0 h ->
  delay_iter opcode i h l = (h', l', f) ->
  grows h0 h' /\
  passed_delays (new_events h0 h') =
    passed_delays (new_events h0 h) ++
    (if mmc_send_tuning (delay_probe_host i h) opcode =? 0 then [i] else []).
Proof.
  intros Hfit Hi G E.
  destruct (delay_iter_events _ _ _ _ _ _ _ E) as (G' & N & _).
  split; [exact (grows_trans _ _ _ G G') |].
  rewrite (new_events_trans _ _ _ G G'), passed_delays_app, N.
  f_equal. rewrite passed_delays_app. unfold config_events, settle_events.
  rewrite (Hfit i Hi).
  destruct (mmc_send_tuning (delay_probe_host i h) opcode =? 0) eqn:Er;
    cbn; rewrite Er; reflexivity.
Qed.

Lemma delay_evidence_step (opcode i : Z) (h0 h : sdhci_host)
      (l : delay_locals) :
  delay_codes_fit -> 0 <= i <= PHY_DELAY_CODE_MAX K ->
  delay_evidence h0 i h l ->
  match delay_iter opcode i h l with
  | (h', l', Next) => delay_evidence h0 (i + 1) h' l'
  | (h', l', Break) => delay_evidence_break h0 i h' l'
  end.
Proof.
  intros Hfit Hi (G & Hmn & Hmx & Emn & Emx & Ed).
  pose proof (delay_codes_fit_max Hfit) as Hlt.
  destruct (delay_iter opcode i h l) as [[h' l'] f] eqn:E.
  destruct (delay_iter_passed _ _ _ _ _ _ _ _ Hfit Hi G E) as (G' & P).
  destruct (delay_iter_events _ _ _ _ _ _ _ E) as (_ & _ & S & _).
  set (ret := mmc_send_tuning (delay_probe_host i h) opcode) in *.
  assert (Keep : forall x, In x (passed_delays (new_events h0 h)) ->
                           In x (passed_delays (new_events h0 h')))
    by (intros x Hx; rewrite P; apply in_or_app; now left).
  assert (New : ret = 0 -> In i (passed_delays (new_events h0 h'))).
  { intros Hr. rewrite P, Hr. cbn [Z.eqb]. apply in_or_app. right. now left. }
  clearbody ret. clear P E.
  destruct l as [r d mn mx rg].
  cbn [d_ret d_delay d_delay_min d_delay_max d_delay_range] in *.
  unfold delay_step, DELAY_RANGE_THRESHOLD in S.
  cbn [d_ret d_delay d_delay_min d_delay_max d_delay_range] in S.
  rewrite ?sint32_small in S by lia.
  destruct (Z.eqb_spec ret 0) as [Hr | Hr]; cbn [negb] in S.
  - (* the command passed *)
    destruct (Z.eqb_spec mn (-1)) as [Hm | Hm];
      inversion S; subst l' f; clear S;
      unfold delay_evidence;
      cbn [d_ret d_delay d_delay_min d_delay_max d_delay_range].
    + split; [exact G' |]. split; [lia |]. split; [lia |].
      split; [intros _; now apply New |].
      split; [intros Hx; exfalso; specialize (Emx Hx); tauto |].
      intros Hd. destruct (Ed Hd) as (lo & hi & H1 & H2 & H3 & H4 & H5 & H6).
      exists lo, hi. repeat split; auto; lia.
    + split; [exact G' |]. split; [lia |]. split; [lia |].
      split; [intros Hx; apply Keep, Emn, Hx |].
      split; [intros _; repeat split; auto; lia |].
      intros Hd. destruct (Ed Hd) as (lo & hi & H1 & H2 & H3 & H4 & H5 & H6).
      exists lo, hi. repeat split; auto; lia.
  - (* the command failed *)
    destruct (Z.eqb_spec mn (-1)) as [Hm | Hm]; cbn [negb andb] in S;
      [| destruct (Z.eqb_spec mx (-1)) as [Hx | Hx]; cbn [negb andb] in S].
    + inversion S; subst l' f; clear S. unfold delay_evidence.
      cbn [d_ret d_delay d_delay_min d_delay_max d_delay_range].
      split; [exact G' |]. split; [lia |]. split; [lia |].
      split; [intros Hn; contradiction |].
      split; [intros Hx; exfalso; specialize (Emx Hx); tauto |].
      intros Hd. destruct (Ed Hd) as (lo & hi & H1 & H2 & H3 & H4 & H5 & H6).
      exists lo, hi. repeat split; auto; lia.
    + inversion S; subst l' f; clear S. unfold delay_evidence.
      cbn [d_ret d_delay d_delay_min d_delay_max d_delay_range].
      split; [exact G' |]. split; [lia |]. split; [lia |].
      split; [intros _; apply Keep, Emn, Hm |].
      split; [intros Hn; contradiction |].
      intros Hd. destruct (Ed Hd) as (lo & hi & H1 & H2 & H3 & H4 & H5 & H6).
      exists lo, hi. repeat split; auto; lia.
    + destruct (Emx Hx) as (_ & Hlt' & Hin).
      specialize (Emn Hm).
      rewrite quot2_div2 in S by lia.
      destruct (Z.gtb_spec (mx - mn) rg) as [Hw | Hw];
        [destruct (Z.gtb_spec (mx - mn) 20) as [Ht | Ht] |];
        inversion S; subst l' f; clear S.
      * split; [exact G' |].
        exists mn, mx.
        cbn [d_ret d_delay d_delay_min d_delay_max d_delay_range].
        repeat split; auto; lia.
      * unfold delay_evidence.
        cbn [d_ret d_delay d_delay_min d_delay_max d_delay_range].
        split; [exact G' |]. split; [lia |]. split; [lia |].
        split; [intros Hn; contradiction |].
        split; [intros Hn; contradiction |].
        intros _. exists mn, mx. repeat split; auto; lia.
      * unfold delay_evidence.
        cbn [d_ret d_delay d_delay_min d_delay_max d_delay_range].
        split; [exact G' |]. split; [lia |]. split; [lia |].
        split; [intros Hn; contradiction |].
        split; [intros Hn; contradiction |].
        intros Hd.
        destruct (Ed Hd) as (lo & hi & H1 & H2 & H3 & H4 & H5 & H6).
        exists lo, hi. repeat split; auto; lia.
Qed.

(** X3 -- A committed delay code lies between two passing probes.  Whatever
    the card answers, when the delay sweep records a candidate the scanner
    returns 0 and the delay code it programs is floor((lo + hi) / 2) for two
    delay codes [lo < hi] at which tuning commands of this very scan passed,
    with [hi < PHY_DELAY_CODE_MAX]; so the code programmed is inside
    [lo, hi) and inside the range. *)
Theorem delay_commit_between_passing_probes (h : sdhci_host) (opcode : Z) :
  delay_codes_fit -> 0 <= PHY_DELAY_CODE_MAX K ->
  d_delay (snd (fst (delay_scan opcode h))) <> -1 ->
  exists hd lo hi,
    eswin_sdhci_sdio_delay_tuning h opcode = (0, hd) /\
    0 <= lo /\ lo < hi /\ hi < PHY_DELAY_CODE_MAX K /\
    In lo (passed_delays (new_events h hd)) /\
    In hi (passed_delays (new_events h hd)) /\
    regs hd PHY_SDCLKDL_DC_R = (lo + hi) / 2 /\
    lo <= regs hd PHY_SDCLKDL_DC_R < hi.
Proof.
  intros Hfit Hmax Hd.
  destruct (delay_scan opcode h) as [[h1 l1] f1] eqn:E. cbn [fst snd] in Hd.
  pose proof E as E'. unfold delay_scan in E'.
  pose proof (delay_loop_rule_host opcode 0 (PHY_DELAY_CODE_MAX K + 1)
    (delay_evidence h) (delay_evidence_break h)
    ltac:(intros i h0 l Hi; apply delay_evidence_step; [exact Hfit | lia])
    (Z.to_nat (PHY_DELAY_CODE_MAX K + 1)) 0 h delay_init h1 l1 f1
    ltac:(lia) ltac:(lia)) as R.
  assert (H0 : delay_evidence h 0 h delay_init).
  { unfold delay_evidence, delay_init.
    cbn [d_ret d_delay d_delay_min d_delay_max d_delay_range].
    split; [apply grows_refl |]. repeat split; try lia; intros Hx; lia. }
  specialize (R H0 E').
  assert (Ev : grows h h1 /\
               exists lo hi,
                 0 <= lo /\ lo < hi /\ hi < PHY_DELAY_CODE_MAX K /\
                 In lo (passed_delays (new_events h h1)) /\
                 In hi (passed_delays (new_events h h1)) /\
                 d_delay l1 = (lo + hi) / 2).
  { destruct f1.
    - destruct R as (G & _ & _ & _ & _ & Ed).
      split; [exact G |].
      destruct (Ed Hd) as (lo & hi & H1 & H2 & H3 & H4 & H5 & H6).
      exists lo, hi. repeat split; auto; lia.
    - destruct R as (j & Hj & G & lo & hi & H1 & H2 & H3 & H4 & H5 & H6).
      split; [exact G |].
      exists lo, hi. repeat split; auto; lia. }
  destruct Ev as (G & lo & hi & H1 & H2 & H3 & H4 & H5 & H6).
  destruct (delay_tuning_committed _ _ _ _ _ E Hd)
    as (hd & Eq & Hreg & T & _).
  assert (Keep : forall x, In x (passed_delays (new_events h h1)) ->
                           In x (passed_delays (new_events h hd))).
  { intros x Hx.
    rewrite (new_events_trans h h1 hd G (grows_intro _ _ _ T)).
    rewrite passed_delays_app. apply in_or_app. now left. }
  assert (Hm : 0 <= d_delay l1 <= PHY_DELAY_CODE_MAX K)
    by (rewrite H6; Z.to_euclidean_division_equations; lia).
  rewrite (Hfit _ Hm), H6 in Hreg.
  exists hd, lo, hi. rewrite Hreg.
  repeat split; auto; Z.to_euclidean_division_equations; lia.
Qed.

(** ** The phase register after the phase scanner *)

(** X4 -- The phase scanner always leaves a phase code of the range in the
    phase register.  Whatever the card answers, it returns 0 or [-EIO]; after
    [-EIO] the register holds 0, and after 0 it holds a code between 0 and
    [MAX_PHASE_CODE]. *)
Theorem phase_code_always_in_range (h : sdhci_host) (opcode : Z) :
  phase_codes_fit ->
  0 <= regs (snd (eswin_sdhci_sdio_phase_code_tuning h opcode))
         VENDOR_AT_SATA_R <= MAX_PHASE_CODE K /\
  (fst (eswin_sdhci_sdio_phase_code_tuning h opcode) = 0 \/
   fst (eswin_sdhci_sdio_phase_code_tuning h opcode) = - EIO K /\
   regs (snd (eswin_sdhci_sdio_phase_code_tuning h opcode))
     VENDOR_AT_SATA_R = 0).
Proof.
  intros Hfit. unfold phase_codes_fit in Hfit.
  destruct (phase_scan opcode h) as [[h1 l1] f1] eqn:E.
  pose proof E as E'. unfold phase_scan in E'.
  pose proof (phase_loop_window _ _ _ _ _ _ E') as W.
  rewrite Z2Nat.id in W by lia.
  destruct (Z.eq_dec (p_code_min l1) (-1)) as [Hmin | Hmin];
    [destruct (Z.eq_dec (p_code_max l1) (-1)) as [Hmax | Hmax] |].
  - destruct (phase_tuning_failed _ _ _ _ _ E Hmin Hmax)
      as (hp & -> & Hreg & _).
    cbn [fst snd]. rewrite Hreg. split; [lia | right; auto].
  - exfalso. destruct f1.
    + unfold phase_window_inv in W. lia.
    + destruct W as (j & _ & Hw & _). lia.
  - destruct (phase_tuning_committed _ _ _ _ _ E (or_introl Hmin))
      as (hp & -> & Hreg & _).
    cbn [fst snd]. split; [| left; reflexivity].
    assert (Hb : -1 <= p_code_min l1 + p_code_max l1 <= 2 * MAX_PHASE_CODE K).
    { destruct f1.
      - unfold phase_window_inv in W. lia.
      - destruct W as (j & Hj & Hw & Hx). lia. }
    rewrite Hreg, sint32_small by lia.
    rewrite u16_small; Z.to_euclidean_division_equations; lia.
Qed.

(** ** Each scanner leaves the other axis alone *)

Lemma delay_loop_holds_phase (opcode : Z) (v : Z) (h0 : sdhci_host) (n : nat) :
  forall i h l h' l' f,
    phase_held v h0 h ->
    delay_loop opcode n i h l = (h', l', f) ->
    phase_held v h0 h'.
Proof.
  induction n as [| n IH]; intros i h l h' l' f Hh E; cbn [delay_loop] in E.
  - inversion E; subst. exact Hh.
  - destruct (delay_iter opcode i h l) as [[h1 l1] f1] eqn:E1.
    destruct (delay_iter_events _ _ _ _ _ _ _ E1) as (G & N & _ & _ & Fr).
    destruct Hh as (G0 & Hv & Hall).
    assert (H1 : phase_held v h0 h1).
    { split; [exact (grows_trans _ _ _ G0 G) |].
      split; [rewrite Fr; [exact Hv | discriminate | discriminate] |].
      rewrite (new_events_trans _ _ _ G0 G), probed_phases_app.
      apply Forall_app. split; [exact Hall |].
      rewrite N, probed_phases_app. unfold config_events, settle_events.
      destruct (negb (_ =? 0)); cbn; repeat constructor; exact Hv. }
    destruct f1.
    + eapply IH; [exact H1 | exact E].
    + inversion E; subst. exact H1.
Qed.

Lemma phase_loop_holds_delay (opcode : Z) (v : Z) (h0 : sdhci_host) (n : nat) :
  forall c h l h' l' f,
    delay_held v h0 h ->
    phase_loop opcode n c h l = (h', l', f) ->
    delay_held v h0 h'.
Proof.
  induction n as [| n IH]; intros c h l h' l' f Hh E; cbn [phase_loop] in E.
  - inversion E; subst. exact Hh.
  - destruct (phase_iter opcode c h l) as [[h1 l1] f1] eqn:E1.
    destruct (phase_iter_events _ _ _ _ _ _ _ E1) as (G & N & _ & _ & Fr).
    destruct Hh as (G0 & Hv & Hall).
    assert (H1 : delay_held v h0 h1).
    { split; [exact (grows_trans _ _ _ G0 G) |].
      split; [rewrite Fr; [exact Hv | discriminate] |].
      rewrite (new_events_trans _ _ _ G0 G), probed_delays_app.
      apply Forall_app. split; [exact Hall |].
      rewrite N. unfold settle_events.
      destruct (negb (_ =? 0)); cbn; repeat constructor; exact Hv. }
    destruct f1.
    + eapply IH; [exact H1 | exact E].
    + inversion E; subst. exact H1.
Qed.

Lemma delay_tuning_holds_phase (opcode : Z) (h : sdhci_host) :
  phase_held (regs h VENDOR_AT_SATA_R) h
    (snd (eswin_sdhci_sdio_delay_tuning h opcode)).
Proof.
  destruct (delay_scan opcode h) as [[h1 l1] f1] eqn:E.
  pose proof E as E'. unfold delay_scan in E'.
  assert (H0 : phase_held (regs h VENDOR_AT_SATA_R) h h).
  { split; [apply grows_refl |]. split; [reflexivity |].
    rewrite new_events_refl. constructor. }
  destruct (delay_loop_holds_phase _ _ _ _ _ _ _ _ _ _ H0 E')
    as (G & Hv & Hall).
  pose proof (delay_tuning_probes opcode h) as P.
  pose proof (delay_tuning_host opcode h) as (Gd & _).
  unfold eswin_sdhci_sdio_delay_tuning in *. rewrite E in *.
  cbn [fst] in P.
  assert (Hp : forall evs, probed_delays evs = [] -> probed_phases evs = []).
  { intros evs Hevs. pose proof (probes_same_length evs) as L.
    rewrite Hevs in L. now destruct (probed_phases evs). }
  destruct (d_delay l1 =? -1); cbn [snd] in *.
  - split; [exact Gd |]. split; [exact Hv |].
    match goal with
    | |- Forall _ (probed_phases (new_events h ?hd)) =>
        assert (T : trace hd = trace h1 ++ PrErr MsgDelayTuningFailed ::
                      DisableCardClk ::
                      config_events (phy_delay_code
                                       (eswin_sdhci_disable_card_clk
                                          (pr_err h1 MsgDelayTuningFailed)))
                      ++ [EnableCardClk])
          by (unfold pr_err; now rewrite program_delay_trace);
        rewrite (new_events_trans h h1 hd G (grows_intro _ _ _ T)),
          (new_events_app _ _ _ T), probed_phases_app
    end.
    apply Forall_app. split; [exact Hall |]. cbn. constructor.
  - split; [exact Gd |]. split; [exact Hv |].
    match goal with
    | |- Forall _ (probed_phases (new_events h ?hd)) =>
        assert (T : trace hd = trace h1 ++ PrInfo (MsgSetDelay (d_delay l1)) ::
                      DisableCardClk :: config_events (d_delay l1)
                      ++ [EnableCardClk])
          by (unfold pr_info; now rewrite program_delay_trace);
        rewrite (new_events_trans h h1 hd G (grows_intro _ _ _ T)),
          (new_events_app _ _ _ T), probed_phases_app
    end.
    apply Forall_app. split; [exact Hall |]. cbn. constructor.
Qed.

Lemma phase_tuning_holds_delay (opcode : Z) (h : sdhci_host) :
  delay_held (regs h PHY_SDCLKDL_DC_R) h
    (snd (eswin_sdhci_sdio_phase_code_tuning h opcode)).
Proof.
  destruct (phase_scan opcode h) as [[h1 l1] f1] eqn:E.
  pose proof E as E'. unfold phase_scan in E'.
  assert (H0 : delay_held (regs h PHY_SDCLKDL_DC_R) h h).
  { split; [apply grows_refl |]. split; [reflexivity |].
    rewrite new_events_refl. constructor. }
  destruct (phase_loop_holds_delay _ _ _ _ _ _ _ _ _ _ H0 E')
    as (G & Hv & Hall).
  pose proof (phase_tuning_host opcode h) as (Gp & _).
  unfold eswin_sdhci_sdio_phase_code_tuning in *. rewrite E in *.
  destruct ((p_code_min l1 =? -1) && (p_code_max l1 =? -1)); cbn [snd] in *.
  - split; [exact Gp |]. split; [exact Hv |].
    match goal with
    | |- Forall _ (probed_delays (new_events h ?hp)) =>
        assert (T : trace hp = trace h1 ++
                      [PrErr MsgPhaseTuningFailed; DisableCardClk;
                       Write VENDOR_AT_SATA_R (u16 0); EnableCardClk])
          by (unfold pr_err; now rewrite program_phase_trace);
        rewrite (new_events_trans h h1 hp G (grows_intro _ _ _ T)),
          (new_events_app _ _ _ T), probed_delays_app
    end.
    apply Forall_app. split; [exact Hall |]. cbn. constructor.
  - split; [exact Gp |]. split; [exact Hv |].
    match goal with
    | |- Forall _ (probed_delays (new_events h ?hp)) =>
        assert (T : trace hp = trace h1 ++
                      [PrInfo (MsgSetPhaseCode
                         (Z.quot (sint32 (p_code_min l1 + p_code_max l1)) 2));
                       DisableCardClk;
                       Write VENDOR_AT_SATA_R
                         (u16 (Z.quot
                                 (sint32 (p_code_min l1 + p_code_max l1)) 2));
                       EnableCardClk])
          by (unfold pr_info; now rewrite program_phase_trace);
        rewrite (new_events_trans h h1 hp G (grows_intro _ _ _ T)),
          (new_events_app _ _ _ T), probed_delays_app
    end.
    apply Forall_app. split; [exact Hall |]. cbn. constructor.
Qed.

(** X5 -- The two axes are tuned independently.  The delay scanner never
    writes the phase register: it returns with the phase code it found, and
    every one of its tuning commands is issued at that phase code.  The phase
    scanner never writes the delay line: it returns with the delay code it
    found, and every one of its tuning commands is issued at that delay code.
    Hence, with software tuning enabled, the whole delay scan runs at phase
    code 0 and, when the phase scan runs, it runs at the delay code the delay
    scanner programmed, which is still in the delay line when the
    orchestrator returns. *)
Theorem scanners_hold_the_other_axis (h : sdhci_host) (opcode : Z) :
  (regs (snd (eswin_sdhci_sdio_delay_tuning h opcode)) VENDOR_AT_SATA_R =
     regs h VENDOR_AT_SATA_R /\
   Forall (fun p => p = regs h VENDOR_AT_SATA_R)
     (probed_phases
        (new_events h (snd (eswin_sdhci_sdio_delay_tuning h opcode))))) /\
  (regs (snd (eswin_sdhci_sdio_phase_code_tuning h opcode)) PHY_SDCLKDL_DC_R =
     regs h PHY_SDCLKDL_DC_R /\
   Forall (fun d => d = regs h PHY_SDCLKDL_DC_R)
     (probed_delays
        (new_events h (snd (eswin_sdhci_sdio_phase_code_tuning h opcode))))) /\
  (enable_sw_tuning h <> 0 ->
   Forall (fun p => p = 0)
     (probed_phases
        (new_events (tuning_prologue h)
           (snd (eswin_sdhci_sdio_delay_tuning (tuning_prologue h) opcode))))
   /\
   (0 <= fst (eswin_sdhci_sdio_delay_tuning (tuning_prologue h) opcode) ->
    regs (snd (eswin_sdhci_sdio_executing_tuning h opcode)) PHY_SDCLKDL_DC_R =
      regs (snd (eswin_sdhci_sdio_delay_tuning (tuning_prologue h) opcode))
        PHY_SDCLKDL_DC_R /\
    Forall
      (fun d =>
         d = regs (snd (eswin_sdhci_sdio_delay_tuning (tuning_prologue h)
                          opcode)) PHY_SDCLKDL_DC_R)
      (probed_delays
         (new_events
            (snd (eswin_sdhci_sdio_delay_tuning (tuning_prologue h) opcode))
            (snd (eswin_sdhci_sdio_executing_tuning h opcode)))))).
Proof.
  split; [| split].
  - destruct (delay_tuning_holds_phase opcode h) as (_ & Hv & Hall). auto.
  - destruct (phase_tuning_holds_delay opcode h) as (_ & Hv & Hall). auto.
  - intros Hsw. split.
    + destruct (delay_tuning_holds_phase opcode (tuning_prologue h))
        as (_ & _ & Hall).
      exact Hall.
    + intros Hret. rewrite (executing_tuning_auto _ _ Hsw).
      destruct (eswin_sdhci_sdio_delay_tuning (tuning_prologue h) opcode)
        as [ret h1].
      cbn [fst snd] in *.
      assert (Hlt : (ret <? 0) = false) by (apply Z.ltb_ge; lia).
      rewrite Hlt.
      destruct (phase_tuning_holds_delay opcode h1) as (_ & Hv & Hall).
      destruct (eswin_sdhci_sdio_phase_code_tuning h1 opcode) as [ret2 h2].
      cbn [snd] in *.
      destruct (ret2 <? 0); cbn [snd]; auto.
Qed.

(** ** Registers the scanners never write *)

Lemma delay_loop_frame (opcode : Z) (n : nat) :
  forall i h l h' l' f r,
    delay_loop opcode n i h l = (h', l', f) ->
    r <> PHY_SDCLKDL_DC_R -> r <> PHY_SDCLKDL_CNFG_R ->
    regs h' r = regs h r.
Proof.
  induction n as [| n IH]; intros i h l h' l' f r E R1 R2;
    cbn [delay_loop] in E.
  - inversion E; subst. reflexivity.
  - destruct (delay_iter opcode i h l) as [[h1 l1] f1] eqn:E1.
    destruct (delay_iter_events _ _ _ _ _ _ _ E1) as (_ & _ & _ & _ & Fr).
    destruct f1.
    + rewrite (IH _ _ _ _ _ _ r E R1 R2). now apply Fr.
    + inversion E; subst. now apply Fr.
Qed.

Lemma phase_loop_frame (opcode : Z) (n : nat) :
  forall c h l h' l' f r,
    phase_loop opcode n c h l = (h', l', f) ->
    r <> VENDOR_AT_SATA_R ->
    regs h' r = regs h r.
Proof.
  induction n as [| n IH]; intros c h l h' l' f r E R1;
    cbn [phase_loop] in E.
  - inversion E; subst. reflexivity.
  - destruct (phase_iter opcode c h l) as [[h1 l1] f1] eqn:E1.
    destruct (phase_iter_events _ _ _ _ _ _ _ E1) as (_ & _ & _ & _ & Fr).
    destruct f1.
    + rewrite (IH _ _ _ _ _ _ r E R1). now apply Fr.
    + inversion E; subst. now apply Fr.
Qed.

Lemma delay_tuning_frame (opcode : Z) (h : sdhci_host) (r : reg) :
  r <> PHY_SDCLKDL_DC_R -> r <> PHY_SDCLKDL_CNFG_R ->
  regs (snd (eswin_sdhci_sdio_delay_tuning h opcode)) r = regs h r.
Proof.
  intros R1 R2.
  destruct (delay_scan opcode h) as [[h1 l1] f1] eqn:E.
  pose proof E as E'. unfold delay_scan in E'.
  rewrite <- (delay_loop_frame _ _ _ _ _ _ _ _ r E' R1 R2).
  unfold eswin_sdhci_sdio_delay_tuning. rewrite E.
  destruct (d_delay l1 =? -1); cbn [snd];
    unfold eswin_sdhci_enable_card_clk, eswin_sdhci_sdio_config_phy_delay,
      eswin_sdhci_disable_card_clk, pr_err, pr_info, sdhci_writeb, store, log;
    cbn [regs]; destruct r; try congruence; reflexivity.
Qed.

Lemma phase_tuning_frame (opcode : Z) (h : sdhci_host) (r : reg) :
  r <> VENDOR_AT_SATA_R ->
  regs (snd (eswin_sdhci_sdio_phase_code_tuning h opcode)) r = regs h r.
Proof.
  intros R1.
  destruct (phase_scan opcode h) as [[h1 l1] f1] eqn:E.
  pose proof E as E'. unfold phase_scan in E'.
  rewrite <- (phase_loop_frame _ _ _ _ _ _ _ _ r E' R1).
  unfold eswin_sdhci_sdio_phase_code_tuning. rewrite E.
  destruct ((p_code_min l1 =? -1) && (p_code_max l1 =? -1)); cbn [snd];
    unfold eswin_sdhci_enable_card_clk, eswin_sdhci_disable_card_clk,
      pr_err, pr_info, sdhci_writew, store_low_half, store, log;
    cbn [regs]; destruct r; try congruence; reflexivity.
Qed.

Lemma executing_tuning_frame (opcode : Z) (h : sdhci_host) (r : reg) :
  enable_sw_tuning h <> 0 ->
  r <> PHY_SDCLKDL_DC_R -> r <> PHY_SDCLKDL_CNFG_R -> r <> VENDOR_AT_SATA_R ->
  regs (snd (eswin_sdhci_sdio_executing_tuning h opcode)) r =
  regs (tuning_prologue h) r.
Proof.
  intros Hsw R1 R2 R3. rewrite (executing_tuning_auto _ _ Hsw).
  pose proof (delay_tuning_frame opcode (tuning_prologue h) r R1 R2) as Fd.
  destruct (eswin_sdhci_sdio_delay_tuning (tuning_prologue h) opcode)
    as [ret h1].
  cbn [snd] in Fd.
  destruct (ret <? 0); [exact Fd |].
  pose proof (phase_tuning_frame opcode h1 r R3) as Fp.
  destruct (eswin_sdhci_sdio_phase_code_tuning h1 opcode) as [ret2 h2].
  cbn [snd] in Fp.
  destruct (ret2 <? 0); cbn [snd]; congruence.
Qed.

Lemma u16_testbit (z n : Z) :
  0 <= n -> Z.testbit (u16 z) n = (n <? 16) && Z.testbit z n.
Proof.
  intros Hn. unfold u16. destruct (n <? 16) eqn:E.
  - apply Z.ltb_lt in E. now rewrite Z.mod_pow2_bits_low by lia.
  - apply Z.ltb_ge in E. now rewrite Z.mod_pow2_bits_high by lia.
Qed.

Lemma u32_testbit (z n : Z) :
  0 <= n -> Z.testbit (u32 z) n = (n <? 32) && Z.testbit z n.
Proof.
  intros Hn. unfold u32. destruct (n <? 32) eqn:E.
  - apply Z.ltb_lt in E. now rewrite Z.mod_pow2_bits_low by lia.
  - apply Z.ltb_ge in E. now rewrite Z.mod_pow2_bits_high by lia.
Qed.

(** X6 -- The control bits after tuning.  With software tuning enabled the
    orchestrator returns, whatever the outcome of the two scans, with every
    bit of [SDHCI_CTRL_TUNED_CLK] clear in the 16-bit host control 2 register
    and every bit of [SW_TUNE_ENABLE] that fits 16 bits set in the auto-tuning
    control register; the other bits of its low half-word are the ones found
    at entry, and so are the bits from 16 up: the 32-bit value read from the
    auto-tuning control register is written back with a 16-bit write, which
    leaves the upper half-word of the register alone, so that a bit of
    [SW_TUNE_ENABLE] from 16 up is not set by this code.  With software
    tuning disabled neither register, nor the delay line, is touched. *)
Theorem tuning_control_bits (h : sdhci_host) (opcode : Z) :
  (enable_sw_tuning h <> 0 ->
   forall n, 0 <= n ->
     Z.testbit (regs (snd (eswin_sdhci_sdio_executing_tuning h opcode))
                  SDHCI_HOST_CONTROL2) n =
       (n <? 16) && Z.testbit (regs h SDHCI_HOST_CONTROL2) n &&
       negb (Z.testbit (SDHCI_CTRL_TUNED_CLK K) n) /\
     Z.testbit (regs (snd (eswin_sdhci_sdio_executing_tuning h opcode))
                  VENDOR_AT_CTRL_R) n =
       Z.testbit (regs h VENDOR_AT_CTRL_R) n ||
       (n <? 16) && Z.testbit (SW_TUNE_ENABLE K) n) /\
  (enable_sw_tuning h = 0 ->
   forall r, r <> VENDOR_AT_SATA_R ->
     regs (snd (eswin_sdhci_sdio_executing_tuning h opcode)) r = regs h r).
Proof.
  split.
  - intros Hsw n Hn.
    rewrite !(executing_tuning_frame _ _ _ Hsw) by discriminate.
    unfold tuning_prologue, eswin_sdhci_enable_card_clk,
      eswin_sdhci_disable_card_clk, sdhci_writew, sdhci_readw, sdhci_readl,
      store_low_half, store, log.
    cbn [regs reg_eqb].
    change 65535 with (Z.ones 16).
    rewrite Z.lor_spec, Z.land_spec, Z.lnot_spec, Z.testbit_ones_nonneg,
      !u16_testbit, Z.land_spec, Z.lor_spec, !u16_testbit, !u32_testbit,
      Z.lnot_spec by lia.
    destruct (n <? 16) eqn:E16; cbn [andb negb orb].
    + apply Z.ltb_lt in E16.
      assert (E32 : (n <? 32) = true) by (apply Z.ltb_lt; lia).
      rewrite E32. cbn [andb]. rewrite andb_false_r. cbn [orb].
      split; reflexivity.
    + rewrite andb_true_r, !orb_false_r. split; reflexivity.
  - intros Hsw r Hr. apply Z.eqb_eq in Hsw.
    unfold eswin_sdhci_sdio_executing_tuning. rewrite Hsw.
    destruct (negb (priv_phase_code h =? -1)); cbn [snd]; [| reflexivity].
    unfold eswin_sdhci_enable_card_clk, eswin_sdhci_disable_card_clk,
      sdhci_writew, store_low_half, store, log.
    cbn [regs]. destruct r; try congruence; reflexivity.
Qed.

(** ** The reset hook *)

Section ResetHookFacts.

Variable Phy : phy_consts.
Variable sdhci_reset_regs :
  Z -> (reg -> Z) -> (io_reg -> Z) -> (reg -> Z) * (io_reg -> Z).

Lemma io_new_events_app (s s' : eswin_sdhci_data) (evs : list io_event) :
  io_trace s' = io_trace s ++ evs -> io_new_events s s' = evs.
Proof.
  intros E. unfold io_new_events. rewrite E.
  rewrite skipn_app, skipn_all, Nat.sub_diag. reflexivity.
Qed.

Lemma on_host_events (f : sdhci_host -> sdhci_host) (s : eswin_sdhci_data)
      (evs : list event) :
  trace (f (host s)) = trace (host s) ++ evs ->
  io_trace (on_host f s) = io_trace s ++ map Core evs.
Proof.
  intros E. unfold on_host. cbn [io_trace].
  now rewrite (new_events_app _ _ _ E).
Qed.

(** What each primitive does to each field. *)
Lemma writel_fields (s : eswin_sdhci_data) (v : Z) (r : io_reg) :
  host (sdhci_writel s v r) = host s /\
  io_trace (sdhci_writel s v r) = io_trace s ++ [IoWrite r (u32 v)] /\
  (forall r', io (sdhci_writel s v r) r' =
              if io_reg_eqb r' r then u32 v else io s r') /\
  ier (sdhci_writel s v r) = ier s /\
  quirks (sdhci_writel s v r) = quirks s /\
  phy_drive_impedance (sdhci_writel s v r) = phy_drive_impedance s.
Proof. repeat split. Qed.

Lemma writew_fields (s : eswin_sdhci_data) (v : Z) (r : io_reg) :
  host (io_writew s v r) = host s /\
  io_trace (io_writew s v r) = io_trace s ++ [IoWrite r (u16 v)] /\
  (forall r', io (io_writew s v r) r' =
              if io_reg_eqb r' r then u16 v else io s r') /\
  ier (io_writew s v r) = ier s /\
  quirks (io_writew s v r) = quirks s /\
  phy_drive_impedance (io_writew s v r) = phy_drive_impedance s.
Proof. repeat split. Qed.

Lemma writeb_fields (s : eswin_sdhci_data) (v : Z) (r : io_reg) :
  host (io_writeb s v r) = host s /\
  io_trace (io_writeb s v r) = io_trace s ++ [IoWrite r (u8 v)] /\
  (forall r', io (io_writeb s v r) r' =
              if io_reg_eqb r' r then u8 v else io s r') /\
  ier (io_writeb s v r) = ier s /\
  quirks (io_writeb s v r) = quirks s /\
  phy_drive_impedance (io_writeb s v r) = phy_drive_impedance s.
Proof. repeat split. Qed.

Lemma log_fields (e : io_event) (s : eswin_sdhci_data) :
  host (io_log e s) = host s /\
  io_trace (io_log e s) = io_trace s ++ [e] /\
  io (io_log e s) = io s /\
  ier (io_log e s) = ier s /\
  quirks (io_log e s) = quirks s /\
  phy_drive_impedance (io_log e s) = phy_drive_impedance s.
Proof. repeat split. Qed.

Lemma on_host_fields (f : sdhci_host -> sdhci_host) (s : eswin_sdhci_data) :
  host (on_host f s) = f (host s) /\
  io (on_host f s) = io s /\
  ier (on_host f s) = ier s /\
  quirks (on_host f s) = quirks s /\
  phy_drive_impedance (on_host f s) = phy_drive_impedance s.
Proof. repeat split. Qed.

(** One call after the other: what the second adds comes after what the
    first added. *)
Lemma io_trace_step (s s1 s2 : eswin_sdhci_data) (evs1 evs2 : list io_event) :
  io_trace s1 = io_trace s ++ evs1 ->
  io_trace s2 = io_trace s1 ++ evs2 ->
  io_trace s2 = io_trace s ++ (evs1 ++ evs2).
Proof. intros E1 E2. rewrite E2, E1. now rewrite app_assoc. Qed.

Ltac io_fields :=
  lazy beta iota zeta delta
    [eswin_sdhci_sdio_config_phy reset_core sdhci_reset on_host sdhci_writel
     io_writew io_writeb sdhci_readb mdelay pr_debug io_store io_log
     io_trace host io ier quirks phy_drive_impedance phy_enable_cmd_pullup
     phy_enable_data_pullup io_reg_eqb].

Lemma config_phy_effect (s : eswin_sdhci_data) :
  exists evs,
    io_trace (eswin_sdhci_sdio_config_phy Phy s) = io_trace s ++ evs /\
    io_bracketed false evs = true /\
    phy_writes evs =
      [PHY_CNFG_R; PHY_CMDPAD_CNFG_R; PHY_DATAPAD_CNFG_R; PHY_CLKPAD_CNFG_R;
       PHY_RSTNPAD_CNFG_R; PHY_CNFG_R] /\
    core_events evs =
      DisableCardClk :: config_events (phy_delay_code (host s)) ++
      [EnableCardClk].
Proof.
  destruct s as [h ig tr ie q imp cp dp].
  eexists. split.
  - io_fields.
    rewrite (new_events_app _ _ [DisableCardClk]) by reflexivity.
    rewrite (new_events_app _ _ (config_events _)) by apply config_trace.
    rewrite (new_events_app _ _ [EnableCardClk]) by reflexivity.
    rewrite <- !app_assoc. reflexivity.
  - cbn. auto.
Qed.

Lemma config_phy_host (s : eswin_sdhci_data) :
  regs (host (eswin_sdhci_sdio_config_phy Phy s)) PHY_SDCLKDL_DC_R =
    u8 (Z.land (phy_delay_code (host s)) (PHY_CLK_MAX_DELAY_MASK K)) /\
  regs (host (eswin_sdhci_sdio_config_phy Phy s)) PHY_SDCLKDL_CNFG_R = 0 /\
  (forall r, r <> PHY_SDCLKDL_DC_R -> r <> PHY_SDCLKDL_CNFG_R ->
             regs (host (eswin_sdhci_sdio_config_phy Phy s)) r =
             regs (host s) r) /\
  same_config (host s) (host (eswin_sdhci_sdio_config_phy Phy s)).
Proof.
  destruct s as [h ig tr ie q imp cp dp]. io_fields.
  unfold eswin_sdhci_sdio_config_phy_delay, eswin_sdhci_enable_card_clk,
    eswin_sdhci_disable_card_clk, sdhci_writeb, store, log, same_config.
  cbn [regs phy_delay_code priv_phase_code enable_sw_tuning reg_eqb].
  repeat split.
  intros r R1 R2. destruct r; try congruence; reflexivity.
Qed.

Lemma config_phy_io (s : eswin_sdhci_data) :
  io (eswin_sdhci_sdio_config_phy Phy s) PHY_CNFG_R =
    u32 (Z.lor (u32 (Z.shiftl (phy_drive_impedance s)
                       (PHY_PAD_SP_DRIVE_SHIF Phy)))
           (PHY_RSTN Phy)) /\
  (forall r, phy_reg r = false ->
             io (eswin_sdhci_sdio_config_phy Phy s) r = io s r) /\
  ier (eswin_sdhci_sdio_config_phy Phy s) = ier s.
Proof.
  destruct s as [h ig tr ie q imp cp dp]. io_fields.
  repeat split.
  intros r Hr. destruct r; try discriminate; reflexivity.
Qed.

Lemma u8_testbit (z n : Z) :
  0 <= n -> Z.testbit (u8 z) n = (n <? 8) && Z.testbit z n.
Proof.
  intros Hn. unfold u8. destruct (n <? 8) eqn:E.
  - apply Z.ltb_lt in E. now rewrite Z.mod_pow2_bits_low by lia.
  - apply Z.ltb_ge in E. now rewrite Z.mod_pow2_bits_high by lia.
Qed.

Lemma reset_core_effect (s : eswin_sdhci_data) (mask : Z) :
  exists evs,
    io_trace (reset_core Phy sdhci_reset_regs s mask) = io_trace s ++ evs /\
    io_bracketed false evs = true /\
    phy_writes evs = [] /\
    core_events evs = [] /\
    io (reset_core Phy sdhci_reset_regs s mask) SDHCI_INT_ENABLE =
      u32 (ier s) /\
    io (reset_core Phy sdhci_reset_regs s mask) SDHCI_SIGNAL_ENABLE =
      u32 (ier s) /\
    ier (reset_core Phy sdhci_reset_regs s mask) = ier s /\
    phy_drive_impedance (reset_core Phy sdhci_reset_regs s mask) =
      phy_drive_impedance s /\
    trace (host (reset_core Phy sdhci_reset_regs s mask)) = trace (host s) /\
    same_config (host s) (host (reset_core Phy sdhci_reset_regs s mask)) /\
    regs (host (reset_core Phy sdhci_reset_regs s mask)) =
      fst (sdhci_reset_regs mask (regs (host s))
             (io (sdhci_writel (sdhci_writel s 0 SDHCI_INT_ENABLE) 0
                    SDHCI_SIGNAL_ENABLE))) /\
    (forall r, phy_reg r = true ->
       io (reset_core Phy sdhci_reset_regs s mask) r =
       snd (sdhci_reset_regs mask (regs (host s))
              (io (sdhci_writel (sdhci_writel s 0 SDHCI_INT_ENABLE) 0
                     SDHCI_SIGNAL_ENABLE))) r) /\
    (Z.land (quirks s) (SDHCI_ESWIN_QUIRK_FORCE_CDTEST Phy) <> 0 ->
     forall n, 0 <= n < 8 ->
       Z.testbit (Z.lor (SDHCI_CTRL_CDTEST_INS Phy)
                    (SDHCI_CTRL_CDTEST_EN Phy)) n = true ->
       Z.testbit (io (reset_core Phy sdhci_reset_regs s mask)
                    SDHCI_HOST_CONTROL) n = true).
Proof.
  destruct s as [h ig tr ie q imp cp dp]. io_fields.
  match goal with
  | |- context [sdhci_reset_regs mask ?rg0 ?ig0] =>
      destruct (sdhci_reset_regs mask rg0 ig0) as [rg ig'] eqn:R
  end.
  unfold same_config. cbn [fst snd].
  destruct (Z.land q (SDHCI_ESWIN_QUIRK_FORCE_CDTEST Phy) =? 0) eqn:Q;
    cbn [negb]; io_fields; cbn [regs trace phy_delay_code priv_phase_code
                                 enable_sw_tuning];
    rewrite <- !app_assoc; eexists; (split; [reflexivity |]);
    cbn [app io_bracketed phy_writes core_events phy_reg negb andb];
    repeat (split; [reflexivity |]);
    (split; [repeat split |]); (split; [reflexivity |]).
  - split; [intros r Hr; destruct r; try discriminate; reflexivity |].
    apply Z.eqb_eq in Q. intros Hq. contradiction.
  - split; [intros r Hr; destruct r; try discriminate; reflexivity |].
    intros _ n Hn Hbit.
    rewrite !u8_testbit, Z.lor_spec, Hbit by lia.
    assert (E : (n <? 8) = true) by (apply Z.ltb_lt; lia).
    rewrite E. cbn. now rewrite orb_true_r.
Qed.

Lemma io_bracketed_app_closed (l1 l2 : list io_event) (g : bool) :
  io_bracketed g l1 = true ->
  io_bracketed false l2 = true ->
  io_bracketed g (l1 ++ l2) = true.
Proof.
  revert g. induction l1 as [| e l1 IH]; intros g H1 H2.
  - destruct g; [discriminate | exact H2].
  - destruct e as [e | r v | m | m | v]; cbn [app io_bracketed] in *;
      [destruct e; cbn [io_bracketed] in *; auto | | auto ..].
    + apply andb_true_iff in H1 as [Ha Hb].
      apply andb_true_iff. split; [exact Ha | auto].
    + apply andb_true_iff in H1 as [Ha Hb].
      apply andb_true_iff. split; [exact Ha | auto].
Qed.

Lemma phy_writes_app (l1 l2 : list io_event) :
  phy_writes (l1 ++ l2) = phy_writes l1 ++ phy_writes l2.
Proof.
  induction l1 as [| e l1 IH]; cbn [app phy_writes]; [reflexivity |].
  destruct e as [e | r v | m | m | v]; try exact IH.
  destruct (phy_reg r); cbn [app]; now rewrite IH.
Qed.

Lemma core_events_app (l1 l2 : list io_event) :
  core_events (l1 ++ l2) = core_events l1 ++ core_events l2.
Proof.
  induction l1 as [| e l1 IH]; cbn [app core_events]; [reflexivity |].
  destruct e as [e | r v | m | m | v]; try exact IH.
  cbn [app]. now rewrite IH.
Qed.

(** X7 -- The reset hook, for every mask and whatever the software reset does
    to the registers: both interrupt enable registers hold [host->ier] at
    return; every write to a PHY register or to a tuning register made by the
    hook is inside a closed disable/enable pair of the card clock; the
    device-tree settings are kept; and with the card-detect test quirk the
    bits [SDHCI_CTRL_CDTEST_INS | SDHCI_CTRL_CDTEST_EN] of the 8-bit host
    control register are set. *)
Theorem reset_hook_interrupts_and_gating (s : eswin_sdhci_data) (mask : Z) :
  io (eswin_sdhci_sdio_reset Phy sdhci_reset_regs s mask) SDHCI_INT_ENABLE =
    u32 (ier s) /\
  io (eswin_sdhci_sdio_reset Phy sdhci_reset_regs s mask) SDHCI_SIGNAL_ENABLE =
    u32 (ier s) /\
  io_bracketed false
    (io_new_events s (eswin_sdhci_sdio_reset Phy sdhci_reset_regs s mask)) =
    true /\
  same_config (host s)
    (host (eswin_sdhci_sdio_reset Phy sdhci_reset_regs s mask)) /\
  (Z.land (quirks s) (SDHCI_ESWIN_QUIRK_FORCE_CDTEST Phy) <> 0 ->
   forall n, 0 <= n < 8 ->
     Z.testbit (Z.lor (SDHCI_CTRL_CDTEST_INS Phy)
                  (SDHCI_CTRL_CDTEST_EN Phy)) n = true ->
     Z.testbit (io (eswin_sdhci_sdio_reset Phy sdhci_reset_regs s mask)
                  SDHCI_HOST_CONTROL) n = true).
Proof.
  unfold eswin_sdhci_sdio_reset. cbv zeta.
  destruct (reset_core_effect s (u8 mask))
    as (evs & T & Br & _ & _ & Hint & Hsig & _ & _ & _ & Cfg & _ & _ & Hcd).
  destruct (u8 mask =? SDHCI_RESET_ALL Phy).
  - set (s1 := reset_core Phy sdhci_reset_regs s (u8 mask)) in *.
    destruct (config_phy_effect s1) as (evs2 & T2 & Br2 & _).
    destruct (config_phy_io s1) as (_ & Fr & _).
    destruct (config_phy_host s1) as (_ & _ & _ & Cfg2).
    rewrite (Fr SDHCI_INT_ENABLE), (Fr SDHCI_SIGNAL_ENABLE),
      (Fr SDHCI_HOST_CONTROL) by reflexivity.
    split; [exact Hint |]. split; [exact Hsig |].
    split.
    { rewrite (io_new_events_app s _ (evs ++ evs2))
        by (rewrite T2, T; now rewrite app_assoc).
      now apply io_bracketed_app_closed. }
    split; [exact (same_config_trans _ _ _ Cfg Cfg2) | exact Hcd].
  - split; [exact Hint |]. split; [exact Hsig |].
    split; [now rewrite (io_new_events_app _ _ _ T) |].
    split; [exact Cfg | exact Hcd].
Qed.

(** X8 -- A reset that is not a full reset leaves the PHY alone.  When the
    mask, cut to 8 bits, differs from [SDHCI_RESET_ALL], as does the mask
    [SDHCI_RESET_CMD | SDHCI_RESET_DATA] of the reset the delay scanner asks
    for after a failed tuning command, the hook makes no call of the tuning
    model (no clock gating, no write to the delay line or the phase
    register), writes no PHY register, and returns with the tuning registers
    and the PHY registers exactly as the software reset left them. *)
Theorem partial_reset_spares_phy (s : eswin_sdhci_data) (mask : Z) :
  u8 mask <> SDHCI_RESET_ALL Phy ->
  core_events
    (io_new_events s (eswin_sdhci_sdio_reset Phy sdhci_reset_regs s mask)) =
    [] /\
  phy_writes
    (io_new_events s (eswin_sdhci_sdio_reset Phy sdhci_reset_regs s mask)) =
    [] /\
  trace (host (eswin_sdhci_sdio_reset Phy sdhci_reset_regs s mask)) =
    trace (host s) /\
  regs (host (eswin_sdhci_sdio_reset Phy sdhci_reset_regs s mask)) =
    fst (sdhci_reset_regs (u8 mask) (regs (host s))
           (io (sdhci_writel (sdhci_writel s 0 SDHCI_INT_ENABLE) 0
                  SDHCI_SIGNAL_ENABLE))) /\
  (forall r, phy_reg r = true ->
     io (eswin_sdhci_sdio_reset Phy sdhci_reset_regs s mask) r =
     snd (sdhci_reset_regs (u8 mask) (regs (host s))
            (io (sdhci_writel (sdhci_writel s 0 SDHCI_INT_ENABLE) 0
                   SDHCI_SIGNAL_ENABLE))) r).
Proof.
  intros Hmask. apply Z.eqb_neq in Hmask.
  unfold eswin_sdhci_sdio_reset. cbv zeta. rewrite Hmask.
  destruct (reset_core_effect s (u8 mask))
    as (evs & T & _ & Hphy & Hcore & _ & _ & _ & _ & Htr & _ & Hregs & Hio
        & _).
  rewrite (io_new_events_app _ _ _ T). auto.
Qed.

(** X9 -- A full reset reprograms the PHY.  When the mask, cut to 8 bits, is
    [SDHCI_RESET_ALL], then whatever the software reset did to the
    registers: the delay line holds the device-tree delay code (under the
    delay mask, as an 8-bit value) and its update flag is down; the PHY
    configuration register holds the shifted drive impedance with the
    [PHY_RSTN] bits set; the PHY registers are written in the order
    configuration, command pad, data pad, clock pad, reset pad,
    configuration; and a delay scan run next that selects no delay code
    leaves in the delay line exactly the code the reset put there. *)
Theorem full_reset_reprograms_phy (s : eswin_sdhci_data) (mask : Z) :
  u8 mask = SDHCI_RESET_ALL Phy ->
  regs (host (eswin_sdhci_sdio_reset Phy sdhci_reset_regs s mask))
    PHY_SDCLKDL_DC_R =
    u8 (Z.land (phy_delay_code (host s)) (PHY_CLK_MAX_DELAY_MASK K)) /\
  regs (host (eswin_sdhci_sdio_reset Phy sdhci_reset_regs s mask))
    PHY_SDCLKDL_CNFG_R = 0 /\
  (forall n, 0 <= n ->
     Z.testbit (io (eswin_sdhci_sdio_reset Phy sdhci_reset_regs s mask)
                  PHY_CNFG_R) n =
     (n <? 32) &&
     (Z.testbit (Z.shiftl (phy_drive_impedance s)
                   (PHY_PAD_SP_DRIVE_SHIF Phy)) n ||
      Z.testbit (PHY_RSTN Phy) n)) /\
  phy_writes
    (io_new_events s (eswin_sdhci_sdio_reset Phy sdhci_reset_regs s mask)) =
    [PHY_CNFG_R; PHY_CMDPAD_CNFG_R; PHY_DATAPAD_CNFG_R; PHY_CLKPAD_CNFG_R;
     PHY_RSTNPAD_CNFG_R; PHY_CNFG_R] /\
  (forall opcode,
     d_delay
       (snd (fst (delay_scan opcode
                    (host (eswin_sdhci_sdio_reset Phy sdhci_reset_regs s
                             mask))))) = -1 ->
     regs (snd (eswin_sdhci_sdio_delay_tuning
                  (host (eswin_sdhci_sdio_reset Phy sdhci_reset_regs s mask))
                  opcode)) PHY_SDCLKDL_DC_R =
     regs (host (eswin_sdhci_sdio_reset Phy sdhci_reset_regs s mask))
       PHY_SDCLKDL_DC_R).
Proof.
  intros Hmask. apply Z.eqb_eq in Hmask.
  unfold eswin_sdhci_sdio_reset. cbv zeta. rewrite Hmask.
  destruct (reset_core_effect s (u8 mask))
    as (evs & T & _ & Hphy & _ & _ & _ & _ & Himp & _ & Cfg & _ & _ & _).
  set (s1 := reset_core Phy sdhci_reset_regs s (u8 mask)) in *.
  destruct (config_phy_effect s1) as (evs2 & T2 & _ & Hphy2 & _).
  destruct (config_phy_io s1) as (Hcnfg & _ & _).
  destruct (config_phy_host s1) as (Hdc & Hup & _ & Cfg2).
  destruct Cfg as (Cd & _). destruct Cfg2 as (Cd2 & _).
  split; [rewrite Hdc; now rewrite Cd |].
  split; [exact Hup |].
  split.
  { intros n Hn. rewrite Hcnfg, Himp.
    rewrite u32_testbit, Z.lor_spec, u32_testbit by lia.
    destruct (n <? 32); reflexivity. }
  split.
  { rewrite (io_new_events_app s _ (evs ++ evs2))
      by (rewrite T2, T; now rewrite app_assoc).
    rewrite phy_writes_app, Hphy, Hphy2. reflexivity. }
  intros opcode Hd.
  destruct (delay_scan opcode (host (eswin_sdhci_sdio_config_phy Phy s1)))
    as [[h1 l1] f1] eqn:E.
  cbn [fst snd] in Hd.
  destruct (delay_tuning_failed _ _ _ _ _ E Hd) as (h' & -> & Hreg & _).
  cbn [snd]. rewrite Hreg, Hdc, Cd2. reflexivity.
Qed.

End ResetHookFacts.

End Tuning.

(** * Concrete platforms and cards *)

Lemma board_delay_codes_fit : delay_codes_fit board_consts.
Proof.
  intros c Hc. cbn in Hc. unfold u8. cbn [PHY_CLK_MAX_DELAY_MASK board_consts].
  change 127 with (Z.ones 7). rewrite Z.land_ones by lia.
  rewrite (Z.mod_small c (2 ^ 7)) by lia.
  apply Z.mod_small. lia.
Qed.

Lemma scenario_phase_codes_fit : phase_codes_fit scenario_consts.
Proof. unfold phase_codes_fit. cbn. lia. Qed.

Lemma in_run_true (a b i : Z) : a <= i <= b -> in_run a b i = true.
Proof.
  intros H. unfold in_run. apply andb_true_iff. split; apply Z.leb_le; lia.
Qed.

Lemma in_run_false (a b i : Z) : i < a \/ b < i -> in_run a b i = false.
Proof.
  intros H. unfold in_run. apply andb_false_iff.
  destruct H; [left | right]; apply Z.leb_gt; lia.
Qed.

Lemma delay_card_passes (pass : Z -> bool) (err opcode j : Z) :
  pass j = true -> delay_passes (delay_card pass err) opcode j.
Proof. intros Hp h Hh. unfold delay_card. now rewrite Hh, Hp. Qed.

Lemma delay_card_fails (pass : Z -> bool) (err opcode j : Z) :
  err <> 0 -> pass j = false -> delay_fails (delay_card pass err) opcode j.
Proof. intros He Hp h Hh. unfold delay_card. now rewrite Hh, Hp. Qed.

Lemma phase_card_passes (pass : Z -> bool) (err opcode j : Z) :
  pass j = true -> phase_passes (phase_card pass err) opcode j.
Proof. intros Hp h Hh. unfold phase_card. now rewrite Hh, Hp. Qed.

Lemma phase_card_fails (pass : Z -> bool) (err opcode j : Z) :
  err <> 0 -> pass j = false -> phase_fails (phase_card pass err) opcode j.
Proof. intros He Hp h Hh. unfold phase_card. now rewrite Hh, Hp. Qed.

(** The checker of the clock gate is not vacuous: a bare write to a tuning
    register, and a pair left open, are both refused. *)
Example bracketed_refuses_ungated_write :
  bracketed false [Write VENDOR_AT_SATA_R 3] = false /\
  bracketed false [DisableCardClk; Write PHY_SDCLKDL_DC_R 3] = false /\
  bracketed false [DisableCardClk; Write PHY_SDCLKDL_DC_R 3;
                   EnableCardClk] = true.
Proof. repeat split. Qed.

(** * The orchestrator stops on a negative status *)

Lemma executing_tuning_short_circuit (K : eswin_consts)
      (card : sdhci_host -> Z -> Z) (ret0 : Z)
      (h : sdhci_host) (opcode : Z) :
  enable_sw_tuning h <> 0 ->
  fst (eswin_sdhci_sdio_delay_tuning K card ret0 (tuning_prologue K h) opcode)
    < 0 ->
  eswin_sdhci_sdio_executing_tuning K card ret0 h opcode =
  eswin_sdhci_sdio_delay_tuning K card ret0 (tuning_prologue K h) opcode.
Proof.
  intros Hsw Hneg. rewrite (executing_tuning_auto K card ret0 opcode h Hsw).
  destruct (eswin_sdhci_sdio_delay_tuning K card ret0 (tuning_prologue K h)
              opcode) as [ret h1].
  cbn [fst] in Hneg. apply Z.ltb_lt in Hneg. now rewrite Hneg.
Qed.

(** * Phase scanner: first complete window *)

(** C2 -- Phase-scanner first-complete-window policy and termination.  The
    phase sweep probes the phase codes in order from 0; the first failing
    probe, at code [k], that finds both [code_min] and [code_max] set ends it
    at once: the codes probed are exactly [0 .. k], the scanner programs
    floor((code_min + code_max) / 2) and returns 0.  A sweep that ends with
    [code_min = -1] and [code_max = -1] has probed [0 .. MAX_PHASE_CODE]; the
    scanner then programs phase code 0 and returns [-EIO].  With
    [MAX_PHASE_CODE = 5] and a card that passes exactly on the phases 2, 3
    and 4, the probes are 0, 1, 2, 3, 4, 5 and the code programmed is 3. *)
Theorem phase_first_complete_window :
  (forall (K : eswin_consts) (card : sdhci_host -> Z -> Z)
          (opcode k : Z) (h h1 : sdhci_host) (l1 : phase_locals),
      phase_codes_fit K ->
      0 <= k <= MAX_PHASE_CODE K ->
      phase_loop K card opcode (Z.to_nat k) 0 h phase_init = (h1, l1, Next) ->
      card (phase_probe_host k h1) opcode <> 0 ->
      p_code_min l1 <> -1 -> p_code_max l1 <> -1 ->
      exists hp,
        eswin_sdhci_sdio_phase_code_tuning K card h opcode = (0, hp) /\
        regs hp VENDOR_AT_SATA_R = (p_code_min l1 + p_code_max l1) / 2 /\
        probed_phases (new_events h hp) = zrange 0 (Z.to_nat (k + 1))) /\
  (forall (K : eswin_consts) (card : sdhci_host -> Z -> Z)
          (opcode : Z) (h : sdhci_host),
      phase_codes_fit K ->
      p_code_min (snd (fst (phase_scan K card opcode h))) = -1 ->
      p_code_max (snd (fst (phase_scan K card opcode h))) = -1 ->
      snd (phase_scan K card opcode h) = Next /\
      exists hp,
        eswin_sdhci_sdio_phase_code_tuning K card h opcode = (- EIO K, hp) /\
        regs hp VENDOR_AT_SATA_R = 0 /\
        probed_phases (new_events h hp) =
          zrange 0 (Z.to_nat (MAX_PHASE_CODE K + 1))) /\
  (let r := eswin_sdhci_sdio_phase_code_tuning scenario_consts
              (phase_run_card 2 4) tuning_host MMC_SEND_TUNING_BLOCK in
   fst r = 0 /\
   regs (snd r) VENDOR_AT_SATA_R = 3 /\
   probed_phases (trace (snd r)) = [0; 1; 2; 3; 4; 5]).
Proof.
  split; [| split].
  - intros K card opcode k h h1 l1. apply phase_first_window.
  - intros K card opcode h. apply phase_no_window.
  - vm_compute. repeat split.
Qed.

Lemma phase_first_complete_window_witness :
  exists hp,
    eswin_sdhci_sdio_phase_code_tuning scenario_consts
      (phase_run_card 2 4) tuning_host MMC_SEND_TUNING_BLOCK = (0, hp) /\
    regs hp VENDOR_AT_SATA_R = (2 + 4) / 2 /\
    probed_phases (new_events tuning_host hp) = zrange 0 (Z.to_nat (5 + 1)).
Proof.
  pose (s := phase_loop scenario_consts (phase_run_card 2 4)
               MMC_SEND_TUNING_BLOCK (Z.to_nat 5) 0 tuning_host phase_init).
  destruct phase_first_complete_window as (First & _).
  apply (First scenario_consts (phase_run_card 2 4) MMC_SEND_TUNING_BLOCK 5
           tuning_host (fst (fst s)) (snd (fst s))).
  - exact scenario_phase_codes_fit.
  - cbn. lia.
  - vm_compute. reflexivity.
  - vm_compute. discriminate.
  - vm_compute. discriminate.
  - vm_compute. discriminate.
Defined.

(** * Delay scanner on concrete cards *)

Lemma delay_run_card_passes (a b opcode j : Z) :
  a <= j <= b -> delay_passes (delay_run_card a b) opcode j.
Proof. intros H. apply delay_card_passes, in_run_true, H. Qed.

Lemma delay_run_card_fails (a b opcode j : Z) :
  j < a \/ b < j -> delay_fails (delay_run_card a b) opcode j.
Proof.
  intros H. apply delay_card_fails; [discriminate | apply in_run_false, H].
Qed.

Lemma delay_two_runs_card_passes (a1 b1 a2 b2 opcode j : Z) :
  a1 <= j <= b1 \/ a2 <= j <= b2 ->
  delay_passes (delay_two_runs_card a1 b1 a2 b2) opcode j.
Proof.
  intros H. apply delay_card_passes. apply orb_true_iff.
  destruct H; [left | right]; now apply in_run_true.
Qed.

Lemma delay_two_runs_card_fails (a1 b1 a2 b2 opcode j : Z) :
  ~ a1 <= j <= b1 -> ~ a2 <= j <= b2 ->
  delay_fails (delay_two_runs_card a1 b1 a2 b2) opcode j.
Proof.
  intros H1 H2. apply delay_card_fails; [discriminate |].
  apply orb_false_iff. split; apply in_run_false; lia.
Qed.

Lemma phase_run_card_passes (a b opcode j : Z) :
  a <= j <= b -> phase_passes (phase_run_card a b) opcode j.
Proof. intros H. apply phase_card_passes, in_run_true, H. Qed.

Lemma phase_run_card_fails (a b opcode j : Z) :
  j < a \/ b < j -> phase_fails (phase_run_card a b) opcode j.
Proof.
  intros H. apply phase_card_fails; [discriminate | apply in_run_false, H].
Qed.

Lemma delay_midpoint_of_single_run_witness :
  exists hd evs,
    eswin_sdhci_sdio_delay_tuning board_consts (delay_run_card 5 9) 0
      tuning_host MMC_SEND_TUNING_BLOCK = (0, hd) /\
    regs hd PHY_SDCLKDL_DC_R = (5 + 9) / 2 /\
    new_events tuning_host hd =
      evs ++ PrInfo (MsgSetDelay ((5 + 9) / 2)) :: DisableCardClk ::
             config_events board_consts ((5 + 9) / 2) ++ [EnableCardClk].
Proof.
  apply (delay_midpoint_of_single_run board_consts (delay_run_card 5 9) 0
           tuning_host MMC_SEND_TUNING_BLOCK 5 9).
  - exact board_delay_codes_fit.
  - lia.
  - lia.
  - cbn. lia.
  - intros j Hj. apply delay_run_card_passes, Hj.
  - intros j _ Hj. apply delay_run_card_fails, Hj.
Defined.

(** C1 as stated fails on a run of a single code: the card passes exactly at
    delay code 5, and the scanner programs the fallback code 32 and returns
    the status of the last, failed, tuning command. *)
Lemma delay_single_code_run_counterexample :
  (forall j, 5 <= j <= 5 ->
             delay_passes (delay_run_card 5 5) MMC_SEND_TUNING_BLOCK j) /\
  (forall j, 0 <= j <= PHY_DELAY_CODE_MAX board_consts -> j < 5 \/ 5 < j ->
             delay_fails (delay_run_card 5 5) MMC_SEND_TUNING_BLOCK j) /\
  fst (eswin_sdhci_sdio_delay_tuning board_consts (delay_run_card 5 5) 0
         tuning_host MMC_SEND_TUNING_BLOCK) = tuning_error /\
  regs (snd (eswin_sdhci_sdio_delay_tuning board_consts (delay_run_card 5 5) 0
               tuning_host MMC_SEND_TUNING_BLOCK)) PHY_SDCLKDL_DC_R = 32 /\
  ~ (fst (eswin_sdhci_sdio_delay_tuning board_consts (delay_run_card 5 5) 0
            tuning_host MMC_SEND_TUNING_BLOCK) = 0 /\
     regs (snd (eswin_sdhci_sdio_delay_tuning board_consts
                  (delay_run_card 5 5) 0 tuning_host MMC_SEND_TUNING_BLOCK))
       PHY_SDCLKDL_DC_R = (5 + 5) / 2).
Proof.
  split; [intros j Hj; apply delay_run_card_passes, Hj |].
  split; [intros j _ Hj; apply delay_run_card_fails, Hj |].
  split; [vm_compute; reflexivity |].
  split; [vm_compute; reflexivity |].
  intros (H0 & _). vm_compute in H0. discriminate.
Qed.

Lemma delay_widest_of_two_runs_witness :
  exists hd,
    eswin_sdhci_sdio_delay_tuning board_consts
      (delay_two_runs_card 2 10 120 127) 0 tuning_host
      MMC_SEND_TUNING_BLOCK = (0, hd) /\
    regs hd PHY_SDCLKDL_DC_R =
      (if 10 - 2 <? 127 - 120 then (120 + 127) / 2 else (2 + 10) / 2) /\
    regs hd PHY_SDCLKDL_DC_R <>
      (if 10 - 2 <? 127 - 120 then (2 + 10) / 2 else (120 + 127) / 2).
Proof.
  apply (delay_widest_of_two_runs board_consts
           (delay_two_runs_card 2 10 120 127) 0 tuning_host
           MMC_SEND_TUNING_BLOCK 2 10 120 127).
  - exact board_delay_codes_fit.
  - lia.
  - lia.
  - lia.
  - lia.
  - cbn. lia.
  - intros j Hj. apply delay_two_runs_card_passes, Hj.
  - intros j _ H1 H2. now apply delay_two_runs_card_fails.
  - lia.
  - intros H. lia.
Defined.

(** C3 as stated fails when the narrower run comes first and is wider than
    the threshold: the runs [0..21] and [30..60] pass, and the scanner stops
    at code 22 and programs 10, the midpoint of the narrower run. *)
Lemma delay_widest_window_counterexample :
  (forall j, 0 <= j <= 21 \/ 30 <= j <= 60 ->
             delay_passes (delay_two_runs_card 0 21 30 60)
               MMC_SEND_TUNING_BLOCK j) /\
  (forall j, 0 <= j <= PHY_DELAY_CODE_MAX board_consts ->
             ~ 0 <= j <= 21 -> ~ 30 <= j <= 60 ->
             delay_fails (delay_two_runs_card 0 21 30 60)
               MMC_SEND_TUNING_BLOCK j) /\
  21 - 0 < 60 - 30 /\
  regs (snd (eswin_sdhci_sdio_delay_tuning board_consts
               (delay_two_runs_card 0 21 30 60) 0 tuning_host
               MMC_SEND_TUNING_BLOCK)) PHY_SDCLKDL_DC_R = (0 + 21) / 2 /\
  regs (snd (eswin_sdhci_sdio_delay_tuning board_consts
               (delay_two_runs_card 0 21 30 60) 0 tuning_host
               MMC_SEND_TUNING_BLOCK)) PHY_SDCLKDL_DC_R <> (30 + 60) / 2.
Proof.
  split; [intros j Hj; apply delay_two_runs_card_passes, Hj |].
  split; [intros j _ H1 H2; now apply delay_two_runs_card_fails |].
  split; [lia |].
  split; [vm_compute; reflexivity | vm_compute; discriminate].
Qed.

Lemma delay_early_exit_witness :
  snd (delay_scan board_consts (delay_run_card 10 40) 0
         MMC_SEND_TUNING_BLOCK tuning_host) = Break /\
  exists k : nat,
    Z.of_nat k <= 40 + 2 /\
    probed_delays
      (new_events tuning_host
         (snd (eswin_sdhci_sdio_delay_tuning board_consts
                 (delay_run_card 10 40) 0 tuning_host
                 MMC_SEND_TUNING_BLOCK))) = zrange 0 k /\
    (forall x,
        In x (probed_delays
                (new_events tuning_host
                   (snd (eswin_sdhci_sdio_delay_tuning board_consts
                           (delay_run_card 10 40) 0 tuning_host
                           MMC_SEND_TUNING_BLOCK)))) ->
        x <= 40 + 1) /\
    (snd (delay_loop board_consts (delay_run_card 10 40)
            MMC_SEND_TUNING_BLOCK (Z.to_nat 10) 0 tuning_host
            (delay_init 0)) = Next ->
     Z.of_nat k = 40 + 2).
Proof.
  apply (delay_early_exit board_consts (delay_run_card 10 40) 0 tuning_host
           MMC_SEND_TUNING_BLOCK 10 40).
  - exact board_delay_codes_fit.
  - lia.
  - unfold DELAY_RANGE_THRESHOLD. lia.
  - cbn. lia.
  - intros j Hj. apply delay_run_card_passes, Hj.
  - apply delay_run_card_fails. lia.
Defined.

Lemma all_fail_fallback_witness :
  (exists ret hd evs,
      eswin_sdhci_sdio_delay_tuning board_consts dead_card 0 tuning_host
        MMC_SEND_TUNING_BLOCK = (ret, hd) /\
      ret <> 0 /\
      regs hd PHY_SDCLKDL_DC_R =
        u8 (Z.land (phy_delay_code tuning_host)
              (PHY_CLK_MAX_DELAY_MASK board_consts)) /\
      new_events tuning_host hd =
        evs ++ PrErr MsgDelayTuningFailed :: DisableCardClk ::
               config_events board_consts (phy_delay_code tuning_host) ++
               [EnableCardClk]) /\
  (exists ret hp evs,
      eswin_sdhci_sdio_phase_code_tuning board_consts dead_card tuning_host
        MMC_SEND_TUNING_BLOCK = (ret, hp) /\
      ret = - EIO board_consts /\ ret < 0 /\
      regs hp VENDOR_AT_SATA_R = 0 /\
      new_events tuning_host hp =
        evs ++ [PrErr MsgPhaseTuningFailed; DisableCardClk;
                Write VENDOR_AT_SATA_R 0; EnableCardClk]).
Proof.
  apply (all_fail_fallback board_consts dead_card 0 tuning_host
           MMC_SEND_TUNING_BLOCK).
  - cbn. lia.
  - cbn. lia.
  - cbn. lia.
  - intros h'. unfold dead_card, tuning_error. discriminate.
Defined.

Lemma delay_run_to_end_returns_zero_witness :
  (exists hd evs,
      eswin_sdhci_sdio_delay_tuning board_consts (delay_run_card 100 127) 0
        tuning_host MMC_SEND_TUNING_BLOCK = (0, hd) /\
      regs hd PHY_SDCLKDL_DC_R =
        u8 (Z.land (phy_delay_code tuning_host)
              (PHY_CLK_MAX_DELAY_MASK board_consts)) /\
      new_events tuning_host hd =
        evs ++ PrErr MsgDelayTuningFailed :: DisableCardClk ::
               config_events board_consts (phy_delay_code tuning_host) ++
               [EnableCardClk]) /\
  eswin_sdhci_sdio_executing_tuning board_consts (delay_run_card 100 127) 0
    tuning_host MMC_SEND_TUNING_BLOCK =
  (let '(ret, h2) :=
     eswin_sdhci_sdio_phase_code_tuning board_consts (delay_run_card 100 127)
       (snd (eswin_sdhci_sdio_delay_tuning board_consts
               (delay_run_card 100 127) 0
               (tuning_prologue board_consts tuning_host)
               MMC_SEND_TUNING_BLOCK))
       MMC_SEND_TUNING_BLOCK in
   if ret <? 0 then (ret, h2) else (0, h2)).
Proof.
  destruct (delay_run_to_end_returns_zero board_consts
              (delay_run_card 100 127) 0 MMC_SEND_TUNING_BLOCK)
    as (Scanner & Orchestrator).
  - exact board_delay_codes_fit.
  - cbn. lia.
  - apply delay_run_card_passes. cbn. lia.
  - split.
    + apply Scanner. vm_compute. reflexivity.
    + apply Orchestrator.
      * cbn. discriminate.
      * vm_compute. reflexivity.
Defined.

(** * Phase scanner on concrete cards *)

Lemma phase_sentinel_midpoint_witness :
  (snd (phase_scan scenario_consts (phase_two_runs_card 1 1 4 5)
          MMC_SEND_TUNING_BLOCK tuning_host) = Next /\
   p_code_min
     (snd (fst (phase_scan scenario_consts (phase_two_runs_card 1 1 4 5)
                  MMC_SEND_TUNING_BLOCK tuning_host))) <> -1 /\
   exists hp rest,
     eswin_sdhci_sdio_phase_code_tuning scenario_consts
       (phase_two_runs_card 1 1 4 5) tuning_host MMC_SEND_TUNING_BLOCK =
       (0, hp) /\
     regs hp VENDOR_AT_SATA_R =
       Z.quot
         (p_code_min
            (snd (fst (phase_scan scenario_consts
                         (phase_two_runs_card 1 1 4 5)
                         MMC_SEND_TUNING_BLOCK tuning_host))) +
          p_code_max
            (snd (fst (phase_scan scenario_consts
                         (phase_two_runs_card 1 1 4 5)
                         MMC_SEND_TUNING_BLOCK tuning_host)))) 2 /\
     passed_phases (new_events tuning_host hp) =
       p_code_min
         (snd (fst (phase_scan scenario_consts
                      (phase_two_runs_card 1 1 4 5)
                      MMC_SEND_TUNING_BLOCK tuning_host))) :: rest /\
     (rest = [] ->
      p_code_max
        (snd (fst (phase_scan scenario_consts
                     (phase_two_runs_card 1 1 4 5)
                     MMC_SEND_TUNING_BLOCK tuning_host))) = -1) /\
     (rest <> [] ->
      p_code_max
        (snd (fst (phase_scan scenario_consts
                     (phase_two_runs_card 1 1 4 5)
                     MMC_SEND_TUNING_BLOCK tuning_host))) =
        MAX_PHASE_CODE scenario_consts /\
      exists q,
        p_code_min
          (snd (fst (phase_scan scenario_consts
                       (phase_two_runs_card 1 1 4 5)
                       MMC_SEND_TUNING_BLOCK tuning_host))) < q <=
          MAX_PHASE_CODE scenario_consts /\
        rest = zrange q (Z.to_nat (MAX_PHASE_CODE scenario_consts + 1 - q))))
  /\
  (exists hp,
     eswin_sdhci_sdio_phase_code_tuning scenario_consts (phase_run_card 3 3)
       tuning_host MMC_SEND_TUNING_BLOCK = (0, hp) /\
     regs hp VENDOR_AT_SATA_R = Z.quot (3 - 1) 2 /\
     (1 <= 3 ->
      phase_fails (phase_run_card 3 3) MMC_SEND_TUNING_BLOCK
        (Z.quot (3 - 1) 2))) /\
  (exists hp,
     eswin_sdhci_sdio_phase_code_tuning scenario_consts
       (phase_two_runs_card 1 1 4 5) tuning_host MMC_SEND_TUNING_BLOCK =
       (0, hp) /\
     regs hp VENDOR_AT_SATA_R =
       Z.quot (1 + MAX_PHASE_CODE scenario_consts) 2).
Proof.
  split; [| split].
  - assert (Hnext : snd (phase_scan scenario_consts
                           (phase_two_runs_card 1 1 4 5)
                           MMC_SEND_TUNING_BLOCK tuning_host) = Next)
      by reflexivity.
    assert (Hmin : p_code_min
                     (snd (fst (phase_scan scenario_consts
                                  (phase_two_runs_card 1 1 4 5)
                                  MMC_SEND_TUNING_BLOCK tuning_host)))
                   <> -1)
      by (vm_compute; discriminate).
    split; [exact Hnext |]. split; [exact Hmin |].
    apply (proj1 (phase_sentinel_midpoint scenario_consts
                    (phase_two_runs_card 1 1 4 5) tuning_host
                    MMC_SEND_TUNING_BLOCK scenario_phase_codes_fit)
             Hnext Hmin).
  - destruct (phase_sentinel_midpoint scenario_consts (phase_run_card 3 3)
                tuning_host MMC_SEND_TUNING_BLOCK scenario_phase_codes_fit)
      as (_ & Single & _).
    apply (Single 3).
    + cbn. lia.
    + apply phase_run_card_passes. lia.
    + intros j _ Hj. apply phase_run_card_fails. lia.
  - destruct (phase_sentinel_midpoint scenario_consts
                (phase_two_runs_card 1 1 4 5) tuning_host
                MMC_SEND_TUNING_BLOCK scenario_phase_codes_fit)
      as (_ & _ & Tail).
    apply (Tail 1 4).
    + lia.
    + lia.
    + cbn. lia.
    + apply phase_card_passes. reflexivity.
    + intros j Hj. apply phase_card_passes.
      rewrite (in_run_true 4 5 j) by (cbn in Hj; lia). apply orb_true_r.
    + intros j Hj Hne. apply phase_card_fails; [discriminate |].
      rewrite (in_run_false 1 1 j), (in_run_false 4 5 j) by lia.
      reflexivity.
Defined.

(** C9 as stated fails when the passing run reaches the end of the range:
    with six phase codes and a card that passes at 4 and 5, a phase code
    passes and the sweep never breaks, yet [code_max] is 5, not the -1
    sentinel, and the code programmed is 4, not (4 - 1) / 2. *)
Lemma phase_run_to_end_counterexample :
  snd (phase_scan scenario_consts (phase_run_card 4 5)
         MMC_SEND_TUNING_BLOCK tuning_host) = Next /\
  p_code_min (snd (fst (phase_scan scenario_consts (phase_run_card 4 5)
                          MMC_SEND_TUNING_BLOCK tuning_host))) = 4 /\
  p_code_max (snd (fst (phase_scan scenario_consts (phase_run_card 4 5)
                          MMC_SEND_TUNING_BLOCK tuning_host))) = 5 /\
  regs (snd (eswin_sdhci_sdio_phase_code_tuning scenario_consts
               (phase_run_card 4 5) tuning_host MMC_SEND_TUNING_BLOCK))
    VENDOR_AT_SATA_R = 4 /\
  regs (snd (eswin_sdhci_sdio_phase_code_tuning scenario_consts
               (phase_run_card 4 5) tuning_host MMC_SEND_TUNING_BLOCK))
    VENDOR_AT_SATA_R <> Z.quot (4 + -1) 2.
Proof.
  vm_compute. repeat split; discriminate.
Qed.

(** * Windows that span failing codes *)

(** C4 -- ScanWindow reset.  The claim that every failing probe leaves both
    bounds unset does not hold of the code: a failing probe that finds only
    the lower bound set keeps it.  Delay scanner, card passing exactly at the
    delay codes 3 and 10: after the failing probe at code 4 [delay_min] is
    still 3, the window later closed is [3..10], and the code programmed is
    6, at which the tuning command fails.  Phase scanner, six phase codes,
    card passing exactly at the phases 1 and 3: after the failing probe at
    phase 2 [code_min] is still 1, and the code programmed is 2, at which the
    tuning command fails. *)
Theorem partial_window_survives_failure :
  (d_ret (snd (fst (delay_loop board_consts (delay_two_runs_card 3 3 10 10)
                      MMC_SEND_TUNING_BLOCK 5 0 tuning_host (delay_init 0))))
     = tuning_error /\
   d_delay_min
     (snd (fst (delay_loop board_consts (delay_two_runs_card 3 3 10 10)
                  MMC_SEND_TUNING_BLOCK 5 0 tuning_host (delay_init 0)))) = 3 /\
   fst (eswin_sdhci_sdio_delay_tuning board_consts
          (delay_two_runs_card 3 3 10 10) 0 tuning_host
          MMC_SEND_TUNING_BLOCK) = 0 /\
   regs (snd (eswin_sdhci_sdio_delay_tuning board_consts
                (delay_two_runs_card 3 3 10 10) 0 tuning_host
                MMC_SEND_TUNING_BLOCK)) PHY_SDCLKDL_DC_R = 6 /\
   delay_two_runs_card 3 3 10 10
     (snd (eswin_sdhci_sdio_delay_tuning board_consts
             (delay_two_runs_card 3 3 10 10) 0 tuning_host
             MMC_SEND_TUNING_BLOCK)) MMC_SEND_TUNING_BLOCK = tuning_error) /\
  (p_ret (snd (fst (phase_loop scenario_consts (phase_two_runs_card 1 1 3 3)
                      MMC_SEND_TUNING_BLOCK 3 0 tuning_host phase_init)))
     = tuning_error /\
   p_code_min
     (snd (fst (phase_loop scenario_consts (phase_two_runs_card 1 1 3 3)
                  MMC_SEND_TUNING_BLOCK 3 0 tuning_host phase_init))) = 1 /\
   fst (eswin_sdhci_sdio_phase_code_tuning scenario_consts
          (phase_two_runs_card 1 1 3 3) tuning_host
          MMC_SEND_TUNING_BLOCK) = 0 /\
   regs (snd (eswin_sdhci_sdio_phase_code_tuning scenario_consts
                (phase_two_runs_card 1 1 3 3) tuning_host
                MMC_SEND_TUNING_BLOCK)) VENDOR_AT_SATA_R = 2 /\
   phase_two_runs_card 1 1 3 3
     (snd (eswin_sdhci_sdio_phase_code_tuning scenario_consts
             (phase_two_runs_card 1 1 3 3) tuning_host
             MMC_SEND_TUNING_BLOCK)) MMC_SEND_TUNING_BLOCK = tuning_error).
Proof.
  vm_compute. repeat split.
Qed.

(** * A failed delay scan that does not stop the orchestrator *)

(** C5 -- Orchestrator short-circuit.  The claim that a failed delay scan
    keeps the phase scan from running does not hold of the code.  Software
    tuning enabled, card passing at delay code 127 only
    ([PHY_DELAY_CODE_MAX]): the delay sweep records no candidate, the delay
    scanner logs the failure and programs the fallback code 32, but returns
    0; the orchestrator goes on, the phase scanner issues its 256 tuning
    commands, and the status returned is the [-EIO] of the phase scanner. *)
Theorem failed_delay_scan_runs_phase_scan :
  d_delay (snd (fst (delay_scan board_consts (delay_run_card 127 127) 0
                       MMC_SEND_TUNING_BLOCK
                       (tuning_prologue board_consts tuning_host)))) = -1 /\
  nth_error
    (new_events
       (fst (fst (delay_scan board_consts (delay_run_card 127 127) 0
                    MMC_SEND_TUNING_BLOCK
                    (tuning_prologue board_consts tuning_host))))
       (snd (eswin_sdhci_sdio_delay_tuning board_consts
               (delay_run_card 127 127) 0
               (tuning_prologue board_consts tuning_host)
               MMC_SEND_TUNING_BLOCK))) 0 =
    Some (PrErr MsgDelayTuningFailed) /\
  regs (snd (eswin_sdhci_sdio_delay_tuning board_consts
               (delay_run_card 127 127) 0
               (tuning_prologue board_consts tuning_host)
               MMC_SEND_TUNING_BLOCK)) PHY_SDCLKDL_DC_R = 32 /\
  fst (eswin_sdhci_sdio_delay_tuning board_consts (delay_run_card 127 127) 0
         (tuning_prologue board_consts tuning_host)
         MMC_SEND_TUNING_BLOCK) = 0 /\
  length
    (probed_phases
       (new_events
          (snd (eswin_sdhci_sdio_delay_tuning board_consts
                  (delay_run_card 127 127) 0
                  (tuning_prologue board_consts tuning_host)
                  MMC_SEND_TUNING_BLOCK))
          (snd (eswin_sdhci_sdio_executing_tuning board_consts
                  (delay_run_card 127 127) 0 tuning_host
                  MMC_SEND_TUNING_BLOCK)))) = 256%nat /\
  fst (eswin_sdhci_sdio_executing_tuning board_consts
         (delay_run_card 127 127) 0 tuning_host MMC_SEND_TUNING_BLOCK) =
    - EIO board_consts.
Proof.
  vm_compute. repeat split.
Qed.

(** * Properties of the scanners for every card, on the board *)

Lemma scanners_probe_in_order_witness :
  (delay_codes_fit board_consts /\ 0 <= PHY_DELAY_CODE_MAX board_consts /\
   exists k : nat,
     (1 <= k <= Z.to_nat (PHY_DELAY_CODE_MAX board_consts + 1))%nat /\
     probed_delays
       (new_events tuning_host
          (snd (eswin_sdhci_sdio_delay_tuning board_consts
                  (delay_run_card 10 40) 0 tuning_host
                  MMC_SEND_TUNING_BLOCK))) = zrange 0 k /\
     (snd (delay_scan board_consts (delay_run_card 10 40) 0
             MMC_SEND_TUNING_BLOCK tuning_host) = Next ->
      k = Z.to_nat (PHY_DELAY_CODE_MAX board_consts + 1))) /\
  (phase_codes_fit scenario_consts /\
   exists k : nat,
     (1 <= k <= Z.to_nat (MAX_PHASE_CODE scenario_consts + 1))%nat /\
     probed_phases
       (new_events tuning_host
          (snd (eswin_sdhci_sdio_phase_code_tuning scenario_consts
                  (phase_run_card 1 2) tuning_host
                  MMC_SEND_TUNING_BLOCK))) = zrange 0 k /\
     (snd (phase_scan scenario_consts (phase_run_card 1 2)
             MMC_SEND_TUNING_BLOCK tuning_host) = Next ->
      k = Z.to_nat (MAX_PHASE_CODE scenario_consts + 1))).
Proof.
  split.
  - split; [exact board_delay_codes_fit |]. split; [cbn; lia |].
    apply (proj1 (scanners_probe_in_order board_consts (delay_run_card 10 40)
                    0 tuning_host MMC_SEND_TUNING_BLOCK)).
    + exact board_delay_codes_fit.
    + cbn. lia.
  - split; [exact scenario_phase_codes_fit |].
    apply (proj2 (scanners_probe_in_order scenario_consts (phase_run_card 1 2)
                    0 tuning_host MMC_SEND_TUNING_BLOCK)).
    exact scenario_phase_codes_fit.
Defined.

Lemma tuning_command_budget_witness :
  enable_sw_tuning (fresh_host 32 7 0) = 0 /\
  tuning_commands
    (new_events (fresh_host 32 7 0)
       (snd (eswin_sdhci_sdio_executing_tuning board_consts
               (delay_run_card 10 40) 0 (fresh_host 32 7 0)
               MMC_SEND_TUNING_BLOCK))) = 0%nat.
Proof.
  split; [reflexivity |].
  apply (proj2 (tuning_command_budget board_consts (delay_run_card 10 40) 0
                  (fresh_host 32 7 0) MMC_SEND_TUNING_BLOCK)).
  reflexivity.
Defined.

Lemma delay_commit_between_passing_probes_witness :
  delay_codes_fit board_consts /\ 0 <= PHY_DELAY_CODE_MAX board_consts /\
  d_delay (snd (fst (delay_scan board_consts (delay_run_card 10 40) 0
                       MMC_SEND_TUNING_BLOCK tuning_host))) <> -1 /\
  exists hd lo hi,
    eswin_sdhci_sdio_delay_tuning board_consts (delay_run_card 10 40) 0
      tuning_host MMC_SEND_TUNING_BLOCK = (0, hd) /\
    0 <= lo /\ lo < hi /\ hi < PHY_DELAY_CODE_MAX board_consts /\
    In lo (passed_delays (new_events tuning_host hd)) /\
    In hi (passed_delays (new_events tuning_host hd)) /\
    regs hd PHY_SDCLKDL_DC_R = (lo + hi) / 2 /\
    lo <= regs hd PHY_SDCLKDL_DC_R < hi.
Proof.
  split; [exact board_delay_codes_fit |]. split; [cbn; lia |].
  assert (H : d_delay (snd (fst (delay_scan board_consts
                                   (delay_run_card 10 40) 0
                                   MMC_SEND_TUNING_BLOCK tuning_host)))
              <> -1) by (vm_compute; discriminate).
  split; [exact H |].
  apply (delay_commit_between_passing_probes board_consts
           (delay_run_card 10 40) 0 tuning_host MMC_SEND_TUNING_BLOCK).
  - exact board_delay_codes_fit.
  - cbn. lia.
  - exact H.
Defined.

Lemma phase_code_always_in_range_witness :
  phase_codes_fit scenario_consts /\
  0 <= regs (snd (eswin_sdhci_sdio_phase_code_tuning scenario_consts
                    (phase_two_runs_card 1 1 3 3) tuning_host
                    MMC_SEND_TUNING_BLOCK))
         VENDOR_AT_SATA_R <= MAX_PHASE_CODE scenario_consts /\
  (fst (eswin_sdhci_sdio_phase_code_tuning scenario_consts
          (phase_two_runs_card 1 1 3 3) tuning_host
          MMC_SEND_TUNING_BLOCK) = 0 \/
   fst (eswin_sdhci_sdio_phase_code_tuning scenario_consts
          (phase_two_runs_card 1 1 3 3) tuning_host
          MMC_SEND_TUNING_BLOCK) = - EIO scenario_consts /\
   regs (snd (eswin_sdhci_sdio_phase_code_tuning scenario_consts
                (phase_two_runs_card 1 1 3 3) tuning_host
                MMC_SEND_TUNING_BLOCK))
     VENDOR_AT_SATA_R = 0).
Proof.
  split; [exact scenario_phase_codes_fit |].
  apply (phase_code_always_in_range scenario_consts
           (phase_two_runs_card 1 1 3 3) tuning_host
           MMC_SEND_TUNING_BLOCK).
  exact scenario_phase_codes_fit.
Defined.

Lemma scanners_hold_the_other_axis_witness :
  enable_sw_tuning tuning_host <> 0 /\
  0 <= fst (eswin_sdhci_sdio_delay_tuning board_consts
              (delay_run_card 10 40) 0
              (tuning_prologue board_consts tuning_host)
              MMC_SEND_TUNING_BLOCK) /\
  Forall (fun p => p = 0)
    (probed_phases
       (new_events (tuning_prologue board_consts tuning_host)
          (snd (eswin_sdhci_sdio_delay_tuning board_consts
                  (delay_run_card 10 40) 0
                  (tuning_prologue board_consts tuning_host)
                  MMC_SEND_TUNING_BLOCK)))) /\
  regs (snd (eswin_sdhci_sdio_executing_tuning board_consts
               (delay_run_card 10 40) 0 tuning_host
               MMC_SEND_TUNING_BLOCK)) PHY_SDCLKDL_DC_R =
    regs (snd (eswin_sdhci_sdio_delay_tuning board_consts
                 (delay_run_card 10 40) 0
                 (tuning_prologue board_consts tuning_host)
                 MMC_SEND_TUNING_BLOCK)) PHY_SDCLKDL_DC_R.
Proof.
  assert (Hsw : enable_sw_tuning tuning_host <> 0) by (cbn; lia).
  assert (Hret : 0 <= fst (eswin_sdhci_sdio_delay_tuning board_consts
                             (delay_run_card 10 40) 0
                             (tuning_prologue board_consts tuning_host)
                             MMC_SEND_TUNING_BLOCK))
    by (vm_compute; discriminate).
  split; [exact Hsw |]. split; [exact Hret |].
  destruct (proj2 (proj2 (scanners_hold_the_other_axis board_consts
                            (delay_run_card 10 40) 0 tuning_host
                            MMC_SEND_TUNING_BLOCK)) Hsw) as [Hphase Hdelay].
  split; [exact Hphase |].
  exact (proj1 (Hdelay Hret)).
Defined.

Lemma tuning_control_bits_witness :
  (enable_sw_tuning tuned_host <> 0 /\ 0 <= 28 /\
   Z.testbit
     (regs (snd (eswin_sdhci_sdio_executing_tuning board_consts
                   (delay_run_card 10 40) 0 tuned_host
                   MMC_SEND_TUNING_BLOCK)) SDHCI_HOST_CONTROL2) 28 =
     (28 <? 16) && Z.testbit (regs tuned_host SDHCI_HOST_CONTROL2) 28 &&
     negb (Z.testbit (SDHCI_CTRL_TUNED_CLK board_consts) 28) /\
   Z.testbit
     (regs (snd (eswin_sdhci_sdio_executing_tuning board_consts
                   (delay_run_card 10 40) 0 tuned_host
                   MMC_SEND_TUNING_BLOCK)) VENDOR_AT_CTRL_R) 28 =
     Z.testbit (regs tuned_host VENDOR_AT_CTRL_R) 28 ||
     (28 <? 16) && Z.testbit (SW_TUNE_ENABLE board_consts) 28) /\
  (enable_sw_tuning (fresh_host 32 7 0) = 0 /\
   SDHCI_HOST_CONTROL2 <> VENDOR_AT_SATA_R /\
   regs (snd (eswin_sdhci_sdio_executing_tuning board_consts
                (delay_run_card 10 40) 0 (fresh_host 32 7 0)
                MMC_SEND_TUNING_BLOCK)) SDHCI_HOST_CONTROL2 =
     regs (fresh_host 32 7 0) SDHCI_HOST_CONTROL2).
Proof.
  split.
  - assert (Hsw : enable_sw_tuning tuned_host <> 0) by (cbn; lia).
    split; [exact Hsw |]. split; [lia |].
    apply (proj1 (tuning_control_bits board_consts (delay_run_card 10 40) 0
                    tuned_host MMC_SEND_TUNING_BLOCK) Hsw 28).
    lia.
  - split; [reflexivity |]. split; [discriminate |].
    apply (proj2 (tuning_control_bits board_consts (delay_run_card 10 40) 0
                    (fresh_host 32 7 0) MMC_SEND_TUNING_BLOCK)).
    + reflexivity.
    + discriminate.
Defined.

(** * The reset hook on the board *)

Lemma reset_hook_interrupts_and_gating_witness :
  Z.land (quirks running_controller)
    (SDHCI_ESWIN_QUIRK_FORCE_CDTEST board_phy_consts) <> 0 /\
  0 <= 7 < 8 /\
  Z.testbit (Z.lor (SDHCI_CTRL_CDTEST_INS board_phy_consts)
               (SDHCI_CTRL_CDTEST_EN board_phy_consts)) 7 = true /\
  Z.testbit
    (io (eswin_sdhci_sdio_reset board_consts board_phy_consts clearing_reset
           running_controller 1) SDHCI_HOST_CONTROL) 7 = true.
Proof.
  assert (Hq : Z.land (quirks running_controller)
                 (SDHCI_ESWIN_QUIRK_FORCE_CDTEST board_phy_consts) <> 0)
    by (vm_compute; discriminate).
  assert (Hb : Z.testbit (Z.lor (SDHCI_CTRL_CDTEST_INS board_phy_consts)
                            (SDHCI_CTRL_CDTEST_EN board_phy_consts)) 7 = true)
    by reflexivity.
  split; [exact Hq |]. split; [lia |]. split; [exact Hb |].
  apply (proj2 (proj2 (proj2 (proj2
           (reset_hook_interrupts_and_gating board_consts board_phy_consts
              clearing_reset running_controller 1)))) Hq 7).
  - lia.
  - exact Hb.
Defined.

Lemma partial_reset_spares_phy_witness :
  u8 (Z.lor (SDHCI_RESET_CMD board_consts) (SDHCI_RESET_DATA board_consts))
    <> SDHCI_RESET_ALL board_phy_consts /\
  core_events
    (io_new_events running_controller
       (eswin_sdhci_sdio_reset board_consts board_phy_consts clearing_reset
          running_controller
          (Z.lor (SDHCI_RESET_CMD board_consts)
             (SDHCI_RESET_DATA board_consts)))) = [] /\
  phy_writes
    (io_new_events running_controller
       (eswin_sdhci_sdio_reset board_consts board_phy_consts clearing_reset
          running_controller
          (Z.lor (SDHCI_RESET_CMD board_consts)
             (SDHCI_RESET_DATA board_consts)))) = [] /\
  trace
    (host (eswin_sdhci_sdio_reset board_consts board_phy_consts
             clearing_reset running_controller
             (Z.lor (SDHCI_RESET_CMD board_consts)
                (SDHCI_RESET_DATA board_consts)))) =
    trace (host running_controller).
Proof.
  assert (Hm : u8 (Z.lor (SDHCI_RESET_CMD board_consts)
                     (SDHCI_RESET_DATA board_consts))
               <> SDHCI_RESET_ALL board_phy_consts)
    by (vm_compute; discriminate).
  split; [exact Hm |].
  destruct (partial_reset_spares_phy board_consts board_phy_consts
              clearing_reset running_controller
              (Z.lor (SDHCI_RESET_CMD board_consts)
                 (SDHCI_RESET_DATA board_consts)) Hm)
    as (Hcore & Hphy & Htr & _).
  split; [exact Hcore |]. split; [exact Hphy | exact Htr].
Defined.

Lemma full_reset_reprograms_phy_witness :
  u8 1 = SDHCI_RESET_ALL board_phy_consts /\
  regs (host (eswin_sdhci_sdio_reset board_consts board_phy_consts
                clearing_reset running_controller 1)) PHY_SDCLKDL_DC_R =
    u8 (Z.land (phy_delay_code (host running_controller))
          (PHY_CLK_MAX_DELAY_MASK board_consts)) /\
  regs (host (eswin_sdhci_sdio_reset board_consts board_phy_consts
                clearing_reset running_controller 1)) PHY_SDCLKDL_CNFG_R = 0.
Proof.
  assert (Hm : u8 1 = SDHCI_RESET_ALL board_phy_consts) by reflexivity.
  split; [exact Hm |].
  destruct (full_reset_reprograms_phy board_consts dead_card 0
              board_phy_consts clearing_reset running_controller 1 Hm)
    as (Hdc & Hup & _).
  split; [exact Hdc | exact Hup].
Defined.

(** * Probe, clock registration and power management *)

Lemma clk_balance_app (c : clk) (t1 t2 : list probe_call) :
  clk_balance c (t1 ++ t2) = clk_balance c t1 + clk_balance c t2.
Proof.
  induction t1 as [| x t1 IH]; cbn [app clk_balance]; [reflexivity |].
  destruct x; rewrite ?IH; lia.
Qed.

Lemma map_balance_app (t1 t2 : list probe_call) :
  map_balance (t1 ++ t2) = map_balance t1 + map_balance t2.
Proof.
  induction t1 as [| x t1 IH]; cbn [app map_balance]; [reflexivity |].
  destruct x; rewrite ?IH; lia.
Qed.

Lemma pltfm_balance_app (t1 t2 : list probe_call) :
  pltfm_balance (t1 ++ t2) = pltfm_balance t1 + pltfm_balance t2.
Proof.
  induction t1 as [| x t1 IH]; cbn [app pltfm_balance]; [reflexivity |].
  destruct x; rewrite ?IH; lia.
Qed.

Lemma providers_added_app (t1 t2 : list probe_call) :
  providers_added (t1 ++ t2) = providers_added t1 + providers_added t2.
Proof.
  induction t1 as [| x t1 IH]; cbn [app providers_added]; [reflexivity |].
  destruct x; rewrite ?IH; lia.
Qed.

Lemma providers_deleted_app (t1 t2 : list probe_call) :
  providers_deleted (t1 ++ t2) = providers_deleted t1 + providers_deleted t2.
Proof.
  induction t1 as [| x t1 IH]; cbn [app providers_deleted]; [reflexivity |].
  destruct x; rewrite ?IH; lia.
Qed.

Lemma setup_balance_app (t1 t2 : list probe_call) :
  setup_balance (t1 ++ t2) = setup_balance t1 + setup_balance t2.
Proof.
  induction t1 as [| x t1 IH]; cbn [app setup_balance]; [reflexivity |].
  destruct x; rewrite ?IH; lia.
Qed.

Lemma host_added_app (t1 t2 : list probe_call) :
  host_added (t1 ++ t2) = host_added t1 || host_added t2.
Proof.
  induction t1 as [| x t1 IH]; cbn [app host_added]; [reflexivity |].
  destruct x; rewrite ?IH; try reflexivity; now rewrite orb_assoc.
Qed.

Lemma tbu_powered_app (t1 t2 : list probe_call) :
  tbu_powered (t1 ++ t2) = tbu_powered t1 || tbu_powered t2.
Proof.
  induction t1 as [| x t1 IH]; cbn [app tbu_powered]; [reflexivity |].
  destruct x; rewrite ?IH; try reflexivity; now rewrite orb_assoc.
Qed.

(** A trace that takes and gives back nothing the probe accounts for, the
    clock providers apart. *)
Lemma register_sdclk_neutral (e : probe_env) (c : clk) :
  clk_balance c (snd (eswin_sdhci_sdio_register_sdclk e)) = 0 /\
  map_balance (snd (eswin_sdhci_sdio_register_sdclk e)) = 0 /\
  pltfm_balance (snd (eswin_sdhci_sdio_register_sdclk e)) = 0 /\
  host_added (snd (eswin_sdhci_sdio_register_sdclk e)) = false /\
  tbu_powered (snd (eswin_sdhci_sdio_register_sdclk e)) = false.
Proof.
  unfold eswin_sdhci_sdio_register_sdclk, eswin_sdhci_sdio_register_sdcardclk,
    eswin_sdhci_sdio_register_sampleclk, eswin_sdhci_sdio_unregister_sdclk.
  cbv zeta.
  repeat match goal with
         | |- context [if ?c then _ else _] => destruct c
         | |- context [match ?x with Some _ => _ | None => _ end] =>
             destruct x
         end; cbn; auto.
Qed.

Lemma sid_cfg_neutral (C : probe_consts) (e : probe_env) (c : clk) :
  clk_balance c (snd (eswin_sdhci_sdio_sid_cfg C e)) = 0 /\
  map_balance (snd (eswin_sdhci_sdio_sid_cfg C e)) = 0 /\
  pltfm_balance (snd (eswin_sdhci_sdio_sid_cfg C e)) = 0 /\
  host_added (snd (eswin_sdhci_sdio_sid_cfg C e)) = false /\
  tbu_powered (snd (eswin_sdhci_sdio_sid_cfg C e)) = false /\
  providers_added (snd (eswin_sdhci_sdio_sid_cfg C e)) = 0 /\
  providers_deleted (snd (eswin_sdhci_sdio_sid_cfg C e)) = 0.
Proof.
  unfold eswin_sdhci_sdio_sid_cfg. cbv zeta.
  repeat match goal with
         | |- context [if ?c then _ else _] => destruct c
         | |- context [match ?x with Some _ => _ | None => _ end] =>
             destruct x
         end; cbn; auto 10.
Qed.

Lemma add_host_neutral (C : probe_consts) (e : probe_env) (has_cqe : bool)
      (c : clk) :
  clk_balance c (snd (eswin_sdhci_sdio_add_host C e has_cqe)) = 0 /\
  map_balance (snd (eswin_sdhci_sdio_add_host C e has_cqe)) = 0 /\
  pltfm_balance (snd (eswin_sdhci_sdio_add_host C e has_cqe)) = 0 /\
  tbu_powered (snd (eswin_sdhci_sdio_add_host C e has_cqe)) = false /\
  providers_added (snd (eswin_sdhci_sdio_add_host C e has_cqe)) = 0 /\
  providers_deleted (snd (eswin_sdhci_sdio_add_host C e has_cqe)) = 0.
Proof.
  unfold eswin_sdhci_sdio_add_host. cbv zeta.
  repeat match goal with
         | |- context [if ?c then _ else _] => destruct c
         end; cbn; auto 10.
Qed.

Lemma unregister_sdclk_neutral (e : probe_env) (c : clk) :
  clk_balance c (eswin_sdhci_sdio_unregister_sdclk e) = 0 /\
  map_balance (eswin_sdhci_sdio_unregister_sdclk e) = 0 /\
  pltfm_balance (eswin_sdhci_sdio_unregister_sdclk e) = 0 /\
  host_added (eswin_sdhci_sdio_unregister_sdclk e) = false /\
  tbu_powered (eswin_sdhci_sdio_unregister_sdclk e) = false /\
  providers_added (eswin_sdhci_sdio_unregister_sdclk e) = 0.
Proof.
  unfold eswin_sdhci_sdio_unregister_sdclk.
  destruct (clock_cells_present e); cbn; auto 10.
Qed.

(** The host is added exactly when [eswin_sdhci_sdio_add_host] returns 0 on
    the path without command queueing. *)
Lemma add_host_plain (C : probe_consts) (e : probe_env) :
  eswin_sdhci_sdio_add_host C e false =
  (sdhci_add_host_ret e, [SdhciAddHost (sdhci_add_host_ret e)]).
Proof. reflexivity. Qed.

(** Following the probe along its tests, one exit at a time. *)
Ltac probe_step E :=
  match type of E with
  | (if ?c then _ else _) = _ => destruct c eqn:?
  | (let '(_, _) := ?x in _) = _ =>
      let R := fresh "R" in destruct x as [? ?] eqn:R
  end.

Ltac tests_to_facts :=
  repeat match goal with
         | H : negb _ = false |- _ => apply negb_false_iff in H
         | H : negb _ = true |- _ => apply negb_true_iff in H
         | H : _ && _ = true |- _ => apply andb_true_iff in H; destruct H
         end.

Ltac sub_traces C e :=
  repeat match goal with
         | R : eswin_sdhci_sdio_register_sdclk e = (_, _) |- _ =>
             let N1 := fresh "N" in
             let N2 := fresh "N" in
             pose proof (register_sdclk_neutral e ClkAhb) as N1;
             pose proof (register_sdclk_neutral e ClkXin) as N2;
             rewrite R in N1, N2; cbn [fst snd] in N1, N2;
             destruct N1 as (? & ? & ? & ? & ?); destruct N2 as (? & _);
             revert R
         | R : eswin_sdhci_sdio_sid_cfg C e = (_, _) |- _ =>
             let N1 := fresh "N" in
             let N2 := fresh "N" in
             pose proof (sid_cfg_neutral C e ClkAhb) as N1;
             pose proof (sid_cfg_neutral C e ClkXin) as N2;
             rewrite R in N1, N2; cbn [fst snd] in N1, N2;
             destruct N1 as (? & ? & ? & ? & ? & ? & ?);
             destruct N2 as (? & _);
             revert R
         end;
  intros;
  pose proof (unregister_sdclk_neutral e ClkAhb) as (? & ? & ? & ? & ? & ?);
  pose proof (unregister_sdclk_neutral e ClkXin) as (? & _).

Ltac balance_norm :=
  repeat (progress
            (rewrite ?clk_balance_app, ?map_balance_app, ?pltfm_balance_app,
               ?host_added_app, ?tbu_powered_app, ?providers_added_app,
               ?providers_deleted_app, ?setup_balance_app;
             cbn [clk_balance map_balance pltfm_balance host_added
                  tbu_powered providers_added providers_deleted
                  setup_balance clk_eqb andb orb];
             repeat match goal with
                    | H : (_ =? _) = _ |- _ => rewrite H
                    | H : (_ <? _) = _ |- _ => rewrite H
                    | H : clk_balance _ _ = _ |- _ => rewrite H
                    | H : map_balance _ = _ |- _ => rewrite H
                    | H : pltfm_balance _ = _ |- _ => rewrite H
                    | H : host_added _ = _ |- _ => rewrite H
                    | H : tbu_powered _ = _ |- _ => rewrite H
                    | H : providers_added _ = _ |- _ => rewrite H
                    | H : providers_deleted _ = _ |- _ => rewrite H
                    | H : setup_balance _ = _ |- _ => rewrite H
                    | H : ?b = true |- _ =>
                        lazymatch b with
                        | true => fail
                        | false => fail
                        | _ => rewrite H
                        end
                    | H : ?b = false |- _ =>
                        lazymatch b with
                        | true => fail
                        | false => fail
                        | _ => rewrite H
                        end
                    end)).

Ltac balances :=
  balance_norm;
  repeat match goal with
         | |- context [if ?c then _ else _] => destruct c eqn:?
         end;
  try congruence;
  balance_norm.

(** X10 -- Every error exit of the probe gives back what the probe took.
    Whenever the probe returns a status other than 0, whatever the kernel
    and the device tree answered: the platform host is freed if it was
    allocated, [core_clk_reg] is unmapped if it was mapped, each of the two
    clocks was disabled as often as it was enabled with success, and no host
    was added. *)
Theorem probe_error_exit_releases (C : probe_consts) (e : probe_env) :
  fst (fst (eswin_sdhci_sdio_probe C e)) <> 0 ->
  pltfm_balance (snd (fst (eswin_sdhci_sdio_probe C e))) = 0 /\
  map_balance (snd (fst (eswin_sdhci_sdio_probe C e))) = 0 /\
  clk_balance ClkAhb (snd (fst (eswin_sdhci_sdio_probe C e))) = 0 /\
  clk_balance ClkXin (snd (fst (eswin_sdhci_sdio_probe C e))) = 0 /\
  host_added (snd (fst (eswin_sdhci_sdio_probe C e))) = false.
Proof.
  destruct (eswin_sdhci_sdio_probe C e) as [[ret t] st] eqn:E.
  cbn [fst snd]. intros Hret.
  unfold eswin_sdhci_sdio_probe in E. cbv zeta in E.
  rewrite add_host_plain in E.
  repeat probe_step E;
    unfold unreg_clk, clk_disable_all, clk_dis_ahb, err_pltfm_free in E;
    inversion E; subst; clear E;
    tests_to_facts; sub_traces C e.
  all: try (exfalso; apply Hret; reflexivity).
  all: try (exfalso; apply Hret;
            match goal with H : (_ =? 0) = true |- _ =>
              apply Z.eqb_eq in H; exact H end).
  all: balances; repeat split; try reflexivity; try lia.
Qed.

Ltac refute_status :=
  try solve
      [exfalso;
       repeat match goal with
              | H : (?x =? 0) = false, H0 : ?x = 0 |- _ => rewrite H0 in H
              | H : (?x <? 0) = true, H0 : ?x = 0 |- _ => rewrite H0 in H
              end;
       match goal with
       | H : (0 =? 0) = false |- _ => discriminate H
       | H : (0 <? 0) = true |- _ => discriminate H
       end].

(** X11 -- The probe can report success without a host.  When the mapping
    of [core_clk_reg] fails, the status is still the 0 of the property read
    before it: the probe frees the platform host and returns 0.  And a probe
    that returns 0 without having added a host has either failed to map
    [core_clk_reg], or has found no [eswin,hsp_sp_csr] regmap; in the second
    case it returns with the platform host allocated, [core_clk_reg] mapped
    and both clocks enabled, before it has powered the TBU or read any of
    the tuning and pad settings of the device tree. *)
Theorem probe_success_without_host (C : probe_consts) (e : probe_env) :
  (pltfm_init_err e = 0 -> core_clk_reg_ret e = 0 -> ioremap_ok e = false ->
   eswin_sdhci_sdio_probe C e =
   (0, [SdhciPltfmInit; Ioremap false; DevErr MsgIoremap; SdhciPltfmFree],
    zeroed_settings)) /\
  (fst (fst (eswin_sdhci_sdio_probe C e)) = 0 ->
   host_added (snd (fst (eswin_sdhci_sdio_probe C e))) = false ->
   ioremap_ok e = false /\
   pltfm_balance (snd (fst (eswin_sdhci_sdio_probe C e))) = 0 \/
   regmap_found e = false /\
   pltfm_balance (snd (fst (eswin_sdhci_sdio_probe C e))) = 1 /\
   map_balance (snd (fst (eswin_sdhci_sdio_probe C e))) = 1 /\
   clk_balance ClkAhb (snd (fst (eswin_sdhci_sdio_probe C e))) = 1 /\
   clk_balance ClkXin (snd (fst (eswin_sdhci_sdio_probe C e))) = 1 /\
   tbu_powered (snd (fst (eswin_sdhci_sdio_probe C e))) = false /\
   snd (eswin_sdhci_sdio_probe C e) = zeroed_settings).
Proof.
  split.
  - intros H1 H2 H3. unfold eswin_sdhci_sdio_probe. cbv zeta.
    rewrite H1, H2, H3. reflexivity.
  - destruct (eswin_sdhci_sdio_probe C e) as [[ret t] st] eqn:E.
    cbn [fst snd]. intros Hret Hhost.
    unfold eswin_sdhci_sdio_probe in E. cbv zeta in E.
    rewrite add_host_plain in E.
    repeat probe_step E;
      unfold unreg_clk, clk_disable_all, clk_dis_ahb, err_pltfm_free in E;
      inversion E; subst; clear E;
      tests_to_facts; sub_traces C e; refute_status.
    + left. split; [assumption | reflexivity].
    + right. split; [assumption |]. balances; repeat split; reflexivity.
    + exfalso. revert Hhost. balances; discriminate.
Qed.

Lemma register_sdclk_providers (e : probe_env) :
  clock_cells_consistent e ->
  (fst (eswin_sdhci_sdio_register_sdclk e) <> 0 ->
   providers_added (snd (eswin_sdhci_sdio_register_sdclk e)) =
   providers_deleted (snd (eswin_sdhci_sdio_register_sdclk e))) /\
  (fst (eswin_sdhci_sdio_register_sdclk e) = 0 ->
   providers_deleted (snd (eswin_sdhci_sdio_register_sdclk e)) = 0 /\
   providers_added (snd (eswin_sdhci_sdio_register_sdclk e)) =
     match clock_cells e with
     | None => 0
     | Some num_clks => if u32 num_clks =? 0 then 1 else 2
     end) /\
  0 <= providers_added (snd (eswin_sdhci_sdio_register_sdclk e)) <= 2 /\
  0 <= providers_deleted (snd (eswin_sdhci_sdio_register_sdclk e)) <= 1.
Proof.
  unfold clock_cells_consistent.
  unfold eswin_sdhci_sdio_register_sdclk, eswin_sdhci_sdio_register_sdcardclk,
    eswin_sdhci_sdio_register_sampleclk, eswin_sdhci_sdio_unregister_sdclk.
  cbv zeta. intros Hc.
  destruct (clock_cells e) as [n |] eqn:Hn;
    [rewrite Hc by discriminate |];
    repeat match goal with
           | |- context [if ?c then _ else _] => destruct c eqn:?
           end;
    cbn [fst snd negb app providers_added providers_deleted];
    tests_to_facts;
    repeat match goal with
           | H : (_ =? _) = _ |- _ => rewrite H
           end;
    repeat match goal with
           | H : (_ =? 0) = true |- _ => apply Z.eqb_eq in H
           | H : (_ =? 0) = false |- _ => apply Z.eqb_neq in H
           end;
    repeat split; intros; try congruence; try lia.
Qed.

(** X12 -- Clock providers on the error exits of the probe.  With a
    consistent device tree, a probe that returns an error has called
    [of_clk_del_provider] at least as often as it added a provider, except
    in two situations: both clocks were offered and the probe failed after
    the stream ID was configured, where two providers were added and one
    deletion is called; and the reset initialisation or the stream ID
    configuration failed, where the probe leaves through [clk_disable_all]
    and deletes nothing although it added.  The second situation does
    occur: whenever the probe gets as far as [eswin_sdhci_reset_init] and
    that call fails, the probe returns its status, having deleted none of
    the providers [eswin_sdhci_sdio_register_sdclk] added. *)
Theorem probe_provider_accounting (C : probe_consts) (e : probe_env) :
  (clock_cells_consistent e ->
   fst (fst (eswin_sdhci_sdio_probe C e)) <> 0 ->
   providers_added (snd (fst (eswin_sdhci_sdio_probe C e))) <=
     providers_deleted (snd (fst (eswin_sdhci_sdio_probe C e))) \/
   providers_added (snd (fst (eswin_sdhci_sdio_probe C e))) = 2 /\
   providers_deleted (snd (fst (eswin_sdhci_sdio_probe C e))) = 1 /\
   0 <= reset_init_ret e /\ 0 <= fst (eswin_sdhci_sdio_sid_cfg C e) \/
   1 <= providers_added (snd (fst (eswin_sdhci_sdio_probe C e))) /\
   providers_deleted (snd (fst (eswin_sdhci_sdio_probe C e))) = 0 /\
   (reset_init_ret e < 0 \/ fst (eswin_sdhci_sdio_sid_cfg C e) < 0)) /\
  (reaches_reset_init e -> reset_init_ret e < 0 ->
   fst (fst (eswin_sdhci_sdio_probe C e)) = reset_init_ret e /\
   providers_added (snd (fst (eswin_sdhci_sdio_probe C e))) =
     providers_added (snd (eswin_sdhci_sdio_register_sdclk e)) /\
   providers_deleted (snd (fst (eswin_sdhci_sdio_probe C e))) =
     providers_deleted (snd (eswin_sdhci_sdio_register_sdclk e))).
Proof.
  split.
  - intros Hc.
    pose proof (register_sdclk_providers e Hc) as (Pe & Ps & Pa & Pd).
    pose proof (unregister_sdclk_neutral e ClkAhb) as (_ & _ & _ & _ & _ & U).
    assert (Ud : 0 <= providers_deleted (eswin_sdhci_sdio_unregister_sdclk e)
                 <= 1 /\
                 (clock_cells e <> None ->
                  providers_deleted (eswin_sdhci_sdio_unregister_sdclk e) = 1)).
    { unfold eswin_sdhci_sdio_unregister_sdclk.
      unfold clock_cells_consistent in Hc.
      destruct (clock_cells_present e) eqn:Hp; cbn [negb providers_deleted].
      - split; [lia | reflexivity].
      - split; [lia |]. intros Hn. specialize (Hc Hn). discriminate. }
    destruct Ud as (Ud & Ud1).
    pose proof (sid_cfg_neutral C e ClkAhb) as (_ & _ & _ & _ & _ & Sa & Sd).
    destruct (eswin_sdhci_sdio_probe C e) as [[ret t] st] eqn:E.
    cbn [fst snd]. intros Hret.
    unfold eswin_sdhci_sdio_probe in E. cbv zeta in E.
    rewrite add_host_plain in E.
    repeat probe_step E;
      unfold unreg_clk, clk_disable_all, clk_dis_ahb, err_pltfm_free in E;
      inversion E; subst; clear E;
      tests_to_facts;
      cbn [fst snd] in *;
      repeat match goal with
             | H : (_ =? 0) = true |- _ => apply Z.eqb_eq in H
             | H : (_ =? 0) = false |- _ => apply Z.eqb_neq in H
             | H : (_ <? 0) = true |- _ => apply Z.ltb_lt in H
             | H : (_ <? 0) = false |- _ => apply Z.ltb_ge in H
             end;
      try (exfalso; apply Hret; first [reflexivity | assumption]);
      rewrite ?providers_added_app, ?providers_deleted_app;
      cbn [providers_added providers_deleted];
      rewrite ?providers_added_app, ?providers_deleted_app;
      cbn [providers_added providers_deleted];
      rewrite ?U, ?Sa, ?Sd;
      repeat match goal with
             | |- context [if ?c then _ else _] => destruct c
             end;
      cbn [providers_added providers_deleted];
      try (specialize (Pe ltac:(assumption)));
      try (specialize (Ps ltac:(assumption)); destruct Ps as (Ps1 & Ps2);
           destruct (clock_cells e) as [n |];
           [specialize (Ud1 ltac:(discriminate)); destruct (u32 n =? 0) |]);
      lia.
  - unfold reaches_reset_init.
    intros (H1 & H2 & H3 & H4 & H5 & H6 & H7 & H8 & H9 & H10 & H11 & H12) Hr.
    unfold eswin_sdhci_sdio_probe. cbv zeta.
    rewrite H1, H2, H3, H4, H5, H6, H7, H9, H11.
    cbn [Z.eqb negb andb].
    assert (E8 : compatible_sdio e && negb (clk_mux_err e =? 0) = false).
    { destruct (compatible_sdio e); [| reflexivity].
      rewrite H8 by reflexivity. reflexivity. }
    rewrite E8.
    assert (E10 : negb (pltfm_clock e =? 0) &&
                  negb (pltfm_clock e =? xin_rate e) &&
                  negb (set_rate_ret e =? 0) = false).
    { destruct (pltfm_clock e =? 0) eqn:A; [reflexivity |].
      destruct (pltfm_clock e =? xin_rate e) eqn:B; [reflexivity |].
      apply Z.eqb_neq in A, B. rewrite (H10 A B). reflexivity. }
    rewrite E10.
    destruct (eswin_sdhci_sdio_register_sdclk e) as [r1 t1].
    cbn [fst snd] in H12 |- *. subst r1. cbn [Z.eqb negb].
    apply Z.ltb_lt in Hr. rewrite Hr.
    unfold clk_disable_all, clk_dis_ahb, err_pltfm_free. cbn [fst snd].
    split; [reflexivity |].
    rewrite !providers_added_app, !providers_deleted_app.
    cbn [providers_added providers_deleted].
    repeat match goal with
           | |- context [if ?c then _ else _] => destruct c
           end;
      cbn [providers_added providers_deleted]; lia.
Qed.

(** X13 -- Clock providers of [eswin_sdhci_sdio_register_sdclk].  With a
    consistent device tree: when the registration fails it has called
    [of_clk_del_provider] as often as it added a provider; when it succeeds
    it has deleted none and added none, one or two, as [#clock-cells] is
    unreadable, zero or not; and [eswin_sdhci_sdio_unregister_sdclk] after
    a registration of both clocks calls [of_clk_del_provider] once for the
    two providers added. *)
Theorem register_sdclk_accounting (e : probe_env) :
  clock_cells_consistent e ->
  (fst (eswin_sdhci_sdio_register_sdclk e) <> 0 ->
   providers_added (snd (eswin_sdhci_sdio_register_sdclk e)) =
   providers_deleted (snd (eswin_sdhci_sdio_register_sdclk e))) /\
  (fst (eswin_sdhci_sdio_register_sdclk e) = 0 ->
   providers_deleted (snd (eswin_sdhci_sdio_register_sdclk e)) = 0 /\
   providers_added (snd (eswin_sdhci_sdio_register_sdclk e)) =
     match clock_cells e with
     | None => 0
     | Some num_clks => if u32 num_clks =? 0 then 1 else 2
     end) /\
  (fst (eswin_sdhci_sdio_register_sdclk e) = 0 ->
   forall num_clks,
     clock_cells e = Some num_clks -> u32 num_clks <> 0 ->
     providers_added
       (snd (eswin_sdhci_sdio_register_sdclk e) ++
        eswin_sdhci_sdio_unregister_sdclk e) = 2 /\
     providers_deleted
       (snd (eswin_sdhci_sdio_register_sdclk e) ++
        eswin_sdhci_sdio_unregister_sdclk e) = 1).
Proof.
  intros Hc.
  destruct (register_sdclk_providers e Hc) as (Pe & Ps & _ & _).
  split; [exact Pe |]. split; [exact Ps |].
  intros Hret n Hn Hnz.
  destruct (Ps Hret) as (Pd & Pa).
  rewrite providers_added_app, providers_deleted_app, Pd, Pa, Hn.
  apply Z.eqb_neq in Hnz. rewrite Hnz.
  unfold eswin_sdhci_sdio_unregister_sdclk.
  unfold clock_cells_consistent in Hc.
  rewrite Hc by (rewrite Hn; discriminate).
  split; reflexivity.
Qed.

Lemma register_sdclk_no_cqe (e : probe_env) :
  existsb cqe_call (snd (eswin_sdhci_sdio_register_sdclk e)) = false.
Proof.
  unfold eswin_sdhci_sdio_register_sdclk, eswin_sdhci_sdio_register_sdcardclk,
    eswin_sdhci_sdio_register_sampleclk, eswin_sdhci_sdio_unregister_sdclk.
  cbv zeta.
  repeat match goal with
         | |- context [if ?c then _ else _] => destruct c
         | |- context [match ?x with Some _ => _ | None => _ end] =>
             destruct x
         end; reflexivity.
Qed.

Lemma sid_cfg_no_cqe (C : probe_consts) (e : probe_env) :
  existsb cqe_call (snd (eswin_sdhci_sdio_sid_cfg C e)) = false.
Proof.
  unfold eswin_sdhci_sdio_sid_cfg. cbv zeta.
  repeat match goal with
         | |- context [if ?c then _ else _] => destruct c
         | |- context [match ?x with Some _ => _ | None => _ end] =>
             destruct x
         end; reflexivity.
Qed.

Lemma unregister_sdclk_no_cqe (e : probe_env) :
  existsb cqe_call (eswin_sdhci_sdio_unregister_sdclk e) = false.
Proof.
  unfold eswin_sdhci_sdio_unregister_sdclk.
  destruct (clock_cells_present e); reflexivity.
Qed.

(** X14 -- Cleanup in [eswin_sdhci_sdio_add_host], and its dead path.  The
    function returns 0 exactly when the host was added.  On the
    command-queueing path every error after a successful
    [sdhci_setup_host] runs [sdhci_cleanup_host] once, an error of
    [sdhci_setup_host] itself runs none, and a success leaves the set-up
    host in place.  The probe, which clears [has_cqe] and never sets it,
    makes none of the calls of that path. *)
Theorem add_host_cleanup_discipline (C : probe_consts) (e : probe_env)
        (has_cqe : bool) :
  ENOMEM C <> 0 ->
  (fst (eswin_sdhci_sdio_add_host C e has_cqe) = 0 <->
   host_added (snd (eswin_sdhci_sdio_add_host C e has_cqe)) = true) /\
  (fst (eswin_sdhci_sdio_add_host C e has_cqe) <> 0 ->
   setup_balance (snd (eswin_sdhci_sdio_add_host C e has_cqe)) = 0) /\
  (fst (eswin_sdhci_sdio_add_host C e has_cqe) = 0 ->
   setup_balance (snd (eswin_sdhci_sdio_add_host C e has_cqe)) =
   if has_cqe then 1 else 0) /\
  existsb cqe_call (snd (fst (eswin_sdhci_sdio_probe C e))) = false.
Proof.
  intros Hm.
  split; [| split; [| split]].
  - unfold eswin_sdhci_sdio_add_host. cbv zeta.
    repeat match goal with
           | |- context [if ?c then _ else _] => destruct c eqn:?
           end;
      cbn [fst snd host_added orb]; tests_to_facts;
      repeat match goal with
             | H : (_ =? 0) = _ |- _ => rewrite H
             end;
      repeat match goal with
             | H : (_ =? 0) = true |- _ => apply Z.eqb_eq in H
             | H : (_ =? 0) = false |- _ => apply Z.eqb_neq in H
             end;
      cbn [orb]; split; intros; try congruence; try lia;
      try (destruct (sdhci_add_host_ret e =? 0) eqn:A;
           [apply Z.eqb_eq in A; assumption | discriminate]);
      try (apply Z.eqb_eq; assumption).
  - unfold eswin_sdhci_sdio_add_host. cbv zeta.
    repeat match goal with
           | |- context [if ?c then _ else _] => destruct c eqn:?
           end;
      cbn [fst snd setup_balance]; tests_to_facts;
      repeat match goal with
             | H : (_ =? 0) = _ |- _ => rewrite H
             end;
      repeat match goal with
             | H : (_ =? 0) = true |- _ => apply Z.eqb_eq in H
             end;
      cbn [Z.eqb]; intros; try congruence; try lia.
  - unfold eswin_sdhci_sdio_add_host. cbv zeta.
    repeat match goal with
           | |- context [if ?c then _ else _] => destruct c eqn:?
           end;
      cbn [fst snd setup_balance]; tests_to_facts;
      repeat match goal with
             | H : (_ =? 0) = _ |- _ => rewrite H
             end;
      repeat match goal with
             | H : (_ =? 0) = false |- _ => apply Z.eqb_neq in H
             end;
      cbn [Z.eqb]; intros; try congruence; try lia.
  - pose proof (register_sdclk_no_cqe e) as Nr.
    pose proof (sid_cfg_no_cqe C e) as Ns.
    pose proof (unregister_sdclk_no_cqe e) as Nu.
    destruct (eswin_sdhci_sdio_probe C e) as [[ret t] st] eqn:E.
    cbn [fst snd].
    unfold eswin_sdhci_sdio_probe in E. cbv zeta in E.
    rewrite add_host_plain in E.
    repeat probe_step E;
      unfold unreg_clk, clk_disable_all, clk_dis_ahb, err_pltfm_free in E;
      inversion E; subst; clear E;
      cbn [fst snd] in *;
      repeat (rewrite ?existsb_app; cbn [existsb cqe_call orb]);
      rewrite ?Nr, ?Ns, ?Nu;
      repeat match goal with
             | |- context [if ?c then _ else _] => destruct c
             end;
      reflexivity.
Qed.

(** X15 -- Clocks across suspend and resume.  A suspend that returns 0 has
    disabled each of the two clocks once, after the host was suspended; a
    suspend that returns an error has disabled none.  The resume enables
    the AHB clock, then the SD clock, and undoes nothing on an error: the
    AHB clock stays enabled when the SD clock cannot be enabled, and both
    stay enabled when the host cannot be resumed.  Hence after a suspend
    that returned 0 and a resume that enabled both clocks, each clock is
    enabled as often as before, whatever the resume returns. *)
Theorem suspend_resume_clocks (p : pm_env) (c : clk) :
  (fst (eswin_sdhci_sdio_suspend p) = 0 ->
   clk_balance c (snd (eswin_sdhci_sdio_suspend p)) = -1 /\
   exists t,
     snd (eswin_sdhci_sdio_suspend p) =
     t ++ [SdhciSuspendHost 0; ClkDisable ClkXin; ClkDisable ClkAhb]) /\
  (fst (eswin_sdhci_sdio_suspend p) <> 0 ->
   clk_balance c (snd (eswin_sdhci_sdio_suspend p)) = 0) /\
  clk_balance ClkAhb (snd (eswin_sdhci_sdio_resume p)) =
    (if clk_enable_ahb_ret p =? 0 then 1 else 0) /\
  clk_balance ClkXin (snd (eswin_sdhci_sdio_resume p)) =
    (if (clk_enable_ahb_ret p =? 0) && (clk_enable_xin_ret p =? 0)
     then 1 else 0) /\
  (fst (eswin_sdhci_sdio_resume p) = 0 ->
   clk_enable_ahb_ret p = 0 /\ clk_enable_xin_ret p = 0 /\
   sdhci_resume_host_ret p = 0) /\
  (fst (eswin_sdhci_sdio_suspend p) = 0 ->
   clk_enable_ahb_ret p = 0 -> clk_enable_xin_ret p = 0 ->
   clk_balance c
     (snd (eswin_sdhci_sdio_suspend p) ++ snd (eswin_sdhci_sdio_resume p)) =
   0).
Proof.
  assert (S0 : fst (eswin_sdhci_sdio_suspend p) = 0 ->
               clk_balance c (snd (eswin_sdhci_sdio_suspend p)) = -1 /\
               exists t,
                 snd (eswin_sdhci_sdio_suspend p) =
                 t ++ [SdhciSuspendHost 0; ClkDisable ClkXin;
                       ClkDisable ClkAhb]).
  { unfold eswin_sdhci_sdio_suspend. cbv zeta.
    destruct (pm_has_cqe p && negb (cqhci_suspend_ret p =? 0)) eqn:A;
      cbn [fst snd]; intros Hret.
    - apply andb_true_iff in A as (_ & A). apply negb_true_iff in A.
      apply Z.eqb_neq in A. contradiction.
    - destruct (negb (sdhci_suspend_host_ret p =? 0)) eqn:B;
        cbn [fst snd] in Hret |- *.
      + apply negb_true_iff in B. apply Z.eqb_neq in B. contradiction.
      + apply negb_false_iff in B. apply Z.eqb_eq in B. rewrite B.
        split.
        * rewrite !clk_balance_app.
          destruct (tuning_mode_3 p), (pm_has_cqe p), c; reflexivity.
        * exists ((if negb (tuning_mode_3 p) then [MmcRetuneNeeded] else []) ++
                  (if pm_has_cqe p then [CqhciSuspend 0] else [])).
          now rewrite <- (app_assoc _ [SdhciSuspendHost 0]). }
  assert (R1 : clk_balance ClkAhb (snd (eswin_sdhci_sdio_resume p)) =
               (if clk_enable_ahb_ret p =? 0 then 1 else 0) /\
               clk_balance ClkXin (snd (eswin_sdhci_sdio_resume p)) =
               (if (clk_enable_ahb_ret p =? 0) && (clk_enable_xin_ret p =? 0)
                then 1 else 0)).
  { unfold eswin_sdhci_sdio_resume. cbv zeta.
    destruct (clk_enable_ahb_ret p =? 0) eqn:A;
      destruct (clk_enable_xin_ret p =? 0) eqn:B;
      destruct (negb (sdhci_resume_host_ret p =? 0));
      destruct (pm_has_cqe p);
      cbn [negb fst snd andb app clk_balance clk_eqb];
      rewrite ?A, ?B; split; reflexivity. }
  split; [exact S0 |].
  split.
  { unfold eswin_sdhci_sdio_suspend. cbv zeta.
    destruct (pm_has_cqe p && negb (cqhci_suspend_ret p =? 0)) eqn:A;
      cbn [fst snd]; intros Hret.
    - rewrite clk_balance_app. destruct (tuning_mode_3 p); reflexivity.
    - destruct (negb (sdhci_suspend_host_ret p =? 0)) eqn:B;
        cbn [fst snd] in Hret |- *; [| contradiction].
      rewrite !clk_balance_app.
      destruct (tuning_mode_3 p), (pm_has_cqe p); reflexivity. }
  split; [exact (proj1 R1) |]. split; [exact (proj2 R1) |].
  split.
  { unfold eswin_sdhci_sdio_resume. cbv zeta.
    destruct (clk_enable_ahb_ret p =? 0) eqn:A; cbn [negb fst snd];
      [| intros Hret; apply Z.eqb_neq in A; contradiction].
    destruct (clk_enable_xin_ret p =? 0) eqn:B; cbn [negb fst snd];
      [| intros Hret; apply Z.eqb_neq in B; contradiction].
    destruct (sdhci_resume_host_ret p =? 0) eqn:D; cbn [negb fst snd];
      [| intros Hret; apply Z.eqb_neq in D; contradiction].
    apply Z.eqb_eq in A, B, D. auto. }
  intros Hs Ha Hx. rewrite clk_balance_app.
  destruct (S0 Hs) as (Hb & _). rewrite Hb.
  destruct R1 as (Ra & Rx). rewrite Ha in Ra. rewrite Ha, Hx in Rx.
  destruct c; [rewrite Ra | rewrite Rx]; reflexivity.
Qed.

Lemma sint32_u32_minus_one (v : Z) :
  sint32 (u32 v) = -1 <-> u32 v = 2 ^ 32 - 1.
Proof.
  unfold sint32, u32.
  assert (H : 0 <= v mod 2 ^ 32 < 2 ^ 32) by (apply Z.mod_pos_bound; lia).
  set (z := v mod 2 ^ 32) in *.
  destruct (Z_lt_ge_dec z (2 ^ 31)) as [L | G].
  - rewrite (Z.mod_small (z + 2 ^ 31)) by lia. lia.
  - replace (z + 2 ^ 31) with (z - 2 ^ 31 + 1 * 2 ^ 32) by lia.
    rewrite Z.mod_add by lia.
    rewrite Z.mod_small by lia. lia.
Qed.

Lemma u16_sint32_u32 (v : Z) : u16 (sint32 (u32 v)) = u32 v mod 2 ^ 16.
Proof.
  unfold u16, sint32, u32.
  assert (H : 0 <= v mod 2 ^ 32 < 2 ^ 32) by (apply Z.mod_pos_bound; lia).
  set (z := v mod 2 ^ 32) in *.
  destruct (Z_lt_ge_dec z (2 ^ 31)) as [L | G].
  - rewrite (Z.mod_small (z + 2 ^ 31)) by lia. f_equal. lia.
  - replace (z + 2 ^ 31) with (z - 2 ^ 31 + 1 * 2 ^ 32) by lia.
    rewrite Z.mod_add by lia.
    rewrite (Z.mod_small (z - 2 ^ 31)) by lia.
    replace (z - 2 ^ 31 - 2 ^ 31) with (z + (-65536) * 2 ^ 16) by lia.
    now rewrite Z.mod_add by lia.
Qed.

(** X16 -- From the device tree to the tuning hook.  A probe that returns 0
    with the host added has stored the settings of [read_settings]:
    [enable_sw_tuning] is [ENABLE] or [DISABLE] as the property is there or
    not, and [phase_code] is the 32-bit property read as an [int], or -1
    without the property.  With [DISABLE = 0] and no [enable_sw_tuning]
    property the tuning hook then always returns 0 without a tuning
    command; it leaves the controller untouched when [phase_code] is
    missing, and also when it is 0xFFFFFFFF, which the [int] field cannot
    tell from missing; for any other value it writes the low 16 bits of the
    property to the phase register, inside a disable/enable pair of the
    card clock. *)
Theorem probed_settings_drive_tuning
        (C : probe_consts) (e : probe_env) (K : eswin_consts)
        (card : sdhci_host -> Z -> Z) (ret0 : Z) (h : sdhci_host)
        (opcode : Z) :
  (fst (fst (eswin_sdhci_sdio_probe C e)) = 0 ->
   host_added (snd (fst (eswin_sdhci_sdio_probe C e))) = true ->
   snd (eswin_sdhci_sdio_probe C e) = read_settings C e) /\
  (DISABLE C = 0 -> dt_enable_sw_tuning e = false ->
   (dt_phase_code e = None \/
    (exists v, dt_phase_code e = Some v /\ u32 v = 2 ^ 32 - 1) ->
    eswin_sdhci_sdio_executing_tuning K card ret0
      (configured_host (read_settings C e) h) opcode =
    (0, configured_host (read_settings C e) h)) /\
   (forall v, dt_phase_code e = Some v -> u32 v <> 2 ^ 32 - 1 ->
      fst (eswin_sdhci_sdio_executing_tuning K card ret0
             (configured_host (read_settings C e) h) opcode) = 0 /\
      regs (snd (eswin_sdhci_sdio_executing_tuning K card ret0
                   (configured_host (read_settings C e) h) opcode))
        VENDOR_AT_SATA_R = u32 v mod 2 ^ 16 /\
      new_events (configured_host (read_settings C e) h)
        (snd (eswin_sdhci_sdio_executing_tuning K card ret0
                (configured_host (read_settings C e) h) opcode)) =
      [DisableCardClk; Write VENDOR_AT_SATA_R (u32 v mod 2 ^ 16);
       EnableCardClk])).
Proof.
  split.
  - destruct (eswin_sdhci_sdio_probe C e) as [[ret t] st] eqn:E.
    cbn [fst snd]. intros Hret Hhost.
    unfold eswin_sdhci_sdio_probe in E. cbv zeta in E.
    rewrite add_host_plain in E.
    repeat probe_step E;
      unfold unreg_clk, clk_disable_all, clk_dis_ahb, err_pltfm_free in E;
      inversion E; subst; clear E;
      tests_to_facts; sub_traces C e; refute_status;
      try reflexivity;
      exfalso; revert Hhost; balances; discriminate.
  - intros Hdis Hsw.
    assert (Hen : enable_sw_tuning (configured_host (read_settings C e) h)
                  = 0).
    { cbn. now rewrite Hsw. }
    assert (Hph : priv_phase_code (configured_host (read_settings C e) h) =
                  match dt_phase_code e with
                  | Some val => sint32 (u32 val)
                  | None => -1
                  end) by reflexivity.
    split.
    + intros Hnone.
      rewrite (executing_tuning_static K card ret0 _ _ Hen), Hph.
      destruct Hnone as [Hn | (v & Hv & Hmax)].
      * rewrite Hn. reflexivity.
      * rewrite Hv. apply sint32_u32_minus_one in Hmax. rewrite Hmax.
        reflexivity.
    + intros v Hv Hmax.
      rewrite (executing_tuning_static K card ret0 _ _ Hen), Hph, Hv.
      assert (Hne : (sint32 (u32 v) =? -1) = false).
      { apply Z.eqb_neq. intros Hc.
        apply sint32_u32_minus_one in Hc. contradiction. }
      rewrite Hne. cbn [negb fst snd].
      split; [reflexivity |]. split.
      * cbn. apply u16_sint32_u32.
      * rewrite <- u16_sint32_u32.
        apply new_events_app.
        unfold eswin_sdhci_enable_card_clk, eswin_sdhci_disable_card_clk,
          sdhci_writew, store_low_half, store, log.
        cbn [trace]. rewrite <- !app_assoc. reflexivity.
Qed.

(** * Probe and power management on the sample device *)

Lemma probe_error_exit_releases_witness :
  fst (fst (eswin_sdhci_sdio_probe board_probe_consts
              (sample_env true true 0 (-22) true None))) <> 0 /\
  pltfm_balance
    (snd (fst (eswin_sdhci_sdio_probe board_probe_consts
                 (sample_env true true 0 (-22) true None)))) = 0 /\
  map_balance
    (snd (fst (eswin_sdhci_sdio_probe board_probe_consts
                 (sample_env true true 0 (-22) true None)))) = 0.
Proof.
  assert (H : fst (fst (eswin_sdhci_sdio_probe board_probe_consts
                          (sample_env true true 0 (-22) true None))) <> 0)
    by (vm_compute; discriminate).
  split; [exact H |].
  destruct (probe_error_exit_releases board_probe_consts
              (sample_env true true 0 (-22) true None) H)
    as (Hp & Hm & _).
  split; [exact Hp | exact Hm].
Defined.

Lemma probe_success_without_host_witness :
  (pltfm_init_err (sample_env false true 0 0 true None) = 0 /\
   core_clk_reg_ret (sample_env false true 0 0 true None) = 0 /\
   ioremap_ok (sample_env false true 0 0 true None) = false /\
   eswin_sdhci_sdio_probe board_probe_consts
     (sample_env false true 0 0 true None) =
   (0, [SdhciPltfmInit; Ioremap false; DevErr MsgIoremap; SdhciPltfmFree],
    zeroed_settings)) /\
  (fst (fst (eswin_sdhci_sdio_probe board_probe_consts
               (sample_env true false 0 0 true None))) = 0 /\
   host_added
     (snd (fst (eswin_sdhci_sdio_probe board_probe_consts
                  (sample_env true false 0 0 true None)))) = false /\
   (ioremap_ok (sample_env true false 0 0 true None) = false /\
    pltfm_balance
      (snd (fst (eswin_sdhci_sdio_probe board_probe_consts
                   (sample_env true false 0 0 true None)))) = 0 \/
    regmap_found (sample_env true false 0 0 true None) = false /\
    pltfm_balance
      (snd (fst (eswin_sdhci_sdio_probe board_probe_consts
                   (sample_env true false 0 0 true None)))) = 1 /\
    map_balance
      (snd (fst (eswin_sdhci_sdio_probe board_probe_consts
                   (sample_env true false 0 0 true None)))) = 1 /\
    clk_balance ClkAhb
      (snd (fst (eswin_sdhci_sdio_probe board_probe_consts
                   (sample_env true false 0 0 true None)))) = 1 /\
    clk_balance ClkXin
      (snd (fst (eswin_sdhci_sdio_probe board_probe_consts
                   (sample_env true false 0 0 true None)))) = 1 /\
    tbu_powered
      (snd (fst (eswin_sdhci_sdio_probe board_probe_consts
                   (sample_env true false 0 0 true None)))) = false /\
    snd (eswin_sdhci_sdio_probe board_probe_consts
           (sample_env true false 0 0 true None)) = zeroed_settings)).
Proof.
  split.
  - split; [reflexivity |]. split; [reflexivity |]. split; [reflexivity |].
    apply (proj1 (probe_success_without_host board_probe_consts
                    (sample_env false true 0 0 true None)));
      reflexivity.
  - assert (H1 : fst (fst (eswin_sdhci_sdio_probe board_probe_consts
                             (sample_env true false 0 0 true None))) = 0)
      by reflexivity.
    assert (H2 : host_added
                   (snd (fst (eswin_sdhci_sdio_probe board_probe_consts
                                (sample_env true false 0 0 true None)))) =
                 false) by reflexivity.
    split; [exact H1 |]. split; [exact H2 |].
    exact (proj2 (probe_success_without_host board_probe_consts
                    (sample_env true false 0 0 true None)) H1 H2).
Defined.

Lemma sample_env_consistent (ioremap regmap : bool) (reset_ret parse_ret : Z)
      (sw : bool) (phase : option Z) :
  clock_cells_consistent (sample_env ioremap regmap reset_ret parse_ret sw
                            phase).
Proof. intros _. reflexivity. Qed.

Lemma sample_env_reaches_reset_init (regmap : bool) (reset_ret parse_ret : Z)
      (sw : bool) (phase : option Z) :
  reaches_reset_init (sample_env true regmap reset_ret parse_ret sw phase).
Proof. unfold reaches_reset_init. repeat split; intros; reflexivity. Qed.

Lemma probe_provider_accounting_witness :
  reaches_reset_init (sample_env true true (-5) 0 true None) /\
  reset_init_ret (sample_env true true (-5) 0 true None) < 0 /\
  fst (fst (eswin_sdhci_sdio_probe board_probe_consts
              (sample_env true true (-5) 0 true None))) =
    reset_init_ret (sample_env true true (-5) 0 true None) /\
  providers_added
    (snd (fst (eswin_sdhci_sdio_probe board_probe_consts
                 (sample_env true true (-5) 0 true None)))) =
    providers_added
      (snd (eswin_sdhci_sdio_register_sdclk
              (sample_env true true (-5) 0 true None))) /\
  providers_deleted
    (snd (fst (eswin_sdhci_sdio_probe board_probe_consts
                 (sample_env true true (-5) 0 true None)))) =
    providers_deleted
      (snd (eswin_sdhci_sdio_register_sdclk
              (sample_env true true (-5) 0 true None))).
Proof.
  assert (H1 : reaches_reset_init (sample_env true true (-5) 0 true None))
    by apply sample_env_reaches_reset_init.
  assert (H2 : reset_init_ret (sample_env true true (-5) 0 true None) < 0)
    by (cbn; lia).
  split; [exact H1 |]. split; [exact H2 |].
  exact (proj2 (probe_provider_accounting board_probe_consts
                  (sample_env true true (-5) 0 true None)) H1 H2).
Defined.

Lemma register_sdclk_accounting_witness :
  clock_cells_consistent (sample_env true true 0 0 true None) /\
  fst (eswin_sdhci_sdio_register_sdclk (sample_env true true 0 0 true None))
    = 0 /\
  clock_cells (sample_env true true 0 0 true None) = Some 1 /\
  u32 1 <> 0 /\
  providers_added
    (snd (eswin_sdhci_sdio_register_sdclk
            (sample_env true true 0 0 true None)) ++
     eswin_sdhci_sdio_unregister_sdclk (sample_env true true 0 0 true None))
    = 2 /\
  providers_deleted
    (snd (eswin_sdhci_sdio_register_sdclk
            (sample_env true true 0 0 true None)) ++
     eswin_sdhci_sdio_unregister_sdclk (sample_env true true 0 0 true None))
    = 1.
Proof.
  assert (H1 : clock_cells_consistent (sample_env true true 0 0 true None))
    by apply sample_env_consistent.
  assert (H2 : fst (eswin_sdhci_sdio_register_sdclk
                      (sample_env true true 0 0 true None)) = 0)
    by reflexivity.
  assert (H3 : clock_cells (sample_env true true 0 0 true None) = Some 1)
    by reflexivity.
  assert (H4 : u32 1 <> 0) by (vm_compute; discriminate).
  split; [exact H1 |]. split; [exact H2 |]. split; [exact H3 |].
  split; [exact H4 |].
  exact (proj2 (proj2 (register_sdclk_accounting
                         (sample_env true true 0 0 true None) H1))
           H2 1 H3 H4).
Defined.

Lemma add_host_cleanup_discipline_witness :
  ENOMEM board_probe_consts <> 0 /\
  (fst (eswin_sdhci_sdio_add_host board_probe_consts
          (sample_env true true 0 0 true None) true) = 0 <->
   host_added
     (snd (eswin_sdhci_sdio_add_host board_probe_consts
             (sample_env true true 0 0 true None) true)) = true).
Proof.
  assert (H : ENOMEM board_probe_consts <> 0) by (cbn; lia).
  split; [exact H |].
  exact (proj1 (add_host_cleanup_discipline board_probe_consts
                  (sample_env true true 0 0 true None) true H)).
Defined.

Lemma suspend_resume_clocks_witness :
  fst (eswin_sdhci_sdio_suspend sample_pm_env) = 0 /\
  clk_enable_ahb_ret sample_pm_env = 0 /\
  clk_enable_xin_ret sample_pm_env = 0 /\
  clk_balance ClkXin
    (snd (eswin_sdhci_sdio_suspend sample_pm_env) ++
     snd (eswin_sdhci_sdio_resume sample_pm_env)) = 0.
Proof.
  split; [reflexivity |]. split; [reflexivity |]. split; [reflexivity |].
  apply (proj2 (proj2 (proj2 (proj2 (proj2
           (suspend_resume_clocks sample_pm_env ClkXin))))));
    reflexivity.
Defined.

Lemma probed_settings_drive_tuning_witness :
  DISABLE board_probe_consts = 0 /\
  dt_enable_sw_tuning (sample_env true true 0 0 false (Some 4294967295)) =
    false /\
  (exists v,
      dt_phase_code (sample_env true true 0 0 false (Some 4294967295)) =
        Some v /\
      u32 v = 2 ^ 32 - 1) /\
  eswin_sdhci_sdio_executing_tuning board_consts (delay_run_card 10 40) 0
    (configured_host
       (read_settings board_probe_consts
          (sample_env true true 0 0 false (Some 4294967295)))
       tuning_host) MMC_SEND_TUNING_BLOCK =
  (0,
   configured_host
     (read_settings board_probe_consts
        (sample_env true true 0 0 false (Some 4294967295)))
     tuning_host).
Proof.
  assert (H1 : DISABLE board_probe_consts = 0) by reflexivity.
  assert (H2 : dt_enable_sw_tuning
                 (sample_env true true 0 0 false (Some 4294967295)) = false)
    by reflexivity.
  assert (H3 : exists v,
             dt_phase_code
               (sample_env true true 0 0 false (Some 4294967295)) = Some v /\
             u32 v = 2 ^ 32 - 1)
    by (exists 4294967295; split; reflexivity).
  split; [exact H1 |]. split; [exact H2 |]. split; [exact H3 |].
  exact (proj1 (proj2 (probed_settings_drive_tuning board_probe_consts
                         (sample_env true true 0 0 false (Some 4294967295))
                         board_consts (delay_run_card 10 40) 0 tuning_host
                         MMC_SEND_TUNING_BLOCK) H1 H2)
           (or_intror H3)).
Defined.

(** * The FUSB303B log buffer *)

Import Fusb303b.

Ltac ring_index :=
  unfold LOG_BUFFER_ENTRIES in *; Z.to_euclidean_division_equations; lia.

Lemma rem_entries (a : Z) :
  0 <= a -> Z.rem a LOG_BUFFER_ENTRIES = a mod LOG_BUFFER_ENTRIES.
Proof. intros H. apply Z.rem_mod_nonneg; unfold LOG_BUFFER_ENTRIES; lia. Qed.

Lemma in_bounds_true (i : Z) :
  0 <= i < LOG_BUFFER_ENTRIES -> in_bounds i = true.
Proof.
  intros H. unfold in_bounds. apply andb_true_iff.
  split; [apply Z.leb_le | apply Z.ltb_lt]; lia.
Qed.

Lemma pending_count_spec (c : fusb303b_chip) :
  log_inv c ->
  (pending_count c < 1024)%nat /\
  logbuffer_head c =
    (logbuffer_tail c + Z.of_nat (pending_count c)) mod LOG_BUFFER_ENTRIES.
Proof.
  intros (Hh & Ht & _). unfold pending_count.
  assert (B : 0 <= (logbuffer_head c - logbuffer_tail c) mod
                   LOG_BUFFER_ENTRIES < 1024)
    by (apply Z.mod_pos_bound; unfold LOG_BUFFER_ENTRIES; lia).
  split; [lia |].
  rewrite Z2Nat.id by lia. ring_index.
Qed.

Lemma full_count (c : fusb303b_chip) :
  log_inv c ->
  (fusb303b_log_full c = true <-> pending_count c = 1023%nat).
Proof.
  intros (Hh & Ht & _). unfold fusb303b_log_full, pending_count.
  rewrite rem_entries by lia.
  assert (B : 0 <= (logbuffer_head c - logbuffer_tail c) mod
                   LOG_BUFFER_ENTRIES < 1024)
    by (apply Z.mod_pos_bound; unfold LOG_BUFFER_ENTRIES; lia).
  split.
  - intros E. apply Z.eqb_eq in E.
    assert ((logbuffer_head c - logbuffer_tail c) mod LOG_BUFFER_ENTRIES =
            1023) by ring_index.
    lia.
  - intros E. apply Z.eqb_eq.
    assert ((logbuffer_head c - logbuffer_tail c) mod LOG_BUFFER_ENTRIES =
            1023) by lia.
    ring_index.
Qed.

(** Distinct offsets below the size of the ring name distinct slots. *)
Lemma ring_slots_distinct (t : Z) (j k : nat) :
  (j < 1024)%nat -> (k < 1024)%nat -> j <> k ->
  (t + Z.of_nat j) mod LOG_BUFFER_ENTRIES <>
  (t + Z.of_nat k) mod LOG_BUFFER_ENTRIES.
Proof. intros Hj Hk Hne. ring_index. Qed.

Import String.StringSyntax.

Lemma show_loop_spec (c : fusb303b_chip) :
  log_inv c ->
  forall (r fuel k : nat) (out : list String.string),
    pending_count c = (k + r)%nat -> (r <= fuel)%nat ->
    show_loop fuel c
      ((logbuffer_tail c + Z.of_nat k) mod LOG_BUFFER_ENTRIES) out =
    Ret (logbuffer_head c,
         out ++
         map (fun j =>
                slot_text c
                  ((logbuffer_tail c + Z.of_nat j) mod LOG_BUFFER_ENTRIES))
           (seq k r)).
Proof.
  intros Hinv.
  destruct (pending_count_spec c Hinv) as (Hn & Hhead).
  induction r as [| r IH]; intros fuel k out Hc Hf.
  - replace (pending_count c) with k in Hhead by lia.
    destruct fuel; cbn [show_loop seq map]; rewrite <- Hhead, Z.eqb_refl,
      app_nil_r; reflexivity.
  - destruct fuel as [| fuel]; [lia |].
    cbn [show_loop].
    assert (Hne : (logbuffer_tail c + Z.of_nat k) mod LOG_BUFFER_ENTRIES <>
                  logbuffer_head c).
    { rewrite Hhead. apply ring_slots_distinct; lia. }
    apply Z.eqb_neq in Hne. rewrite Hne.
    rewrite in_bounds_true
      by (apply Z.mod_pos_bound; unfold LOG_BUFFER_ENTRIES; lia).
    cbn [negb].
    rewrite rem_entries
      by (assert (0 <= (logbuffer_tail c + Z.of_nat k) mod
                       LOG_BUFFER_ENTRIES)
            by (apply Z.mod_pos_bound; unfold LOG_BUFFER_ENTRIES; lia);
          lia).
    replace (((logbuffer_tail c + Z.of_nat k) mod LOG_BUFFER_ENTRIES + 1)
             mod LOG_BUFFER_ENTRIES)
      with ((logbuffer_tail c + Z.of_nat (S k)) mod LOG_BUFFER_ENTRIES)
      by ring_index.
    rewrite (IH fuel (S k)) by lia.
    cbn [seq map]. now rewrite <- app_assoc.
Qed.

Lemma debug_show_spec (c : fusb303b_chip) (seq_overflowed : bool) :
  log_inv c ->
  fusb303b_debug_show 1024 c seq_overflowed =
  Ret (pending c,
       if negb seq_overflowed then set_tail c (logbuffer_head c) else c).
Proof.
  intros Hinv. pose proof Hinv as (Hh & Ht & _).
  destruct (pending_count_spec c Hinv) as (Hn & _).
  unfold fusb303b_debug_show.
  replace (logbuffer_tail c) with
    ((logbuffer_tail c + Z.of_nat 0) mod LOG_BUFFER_ENTRIES) at 1
    by (rewrite Z.add_0_r; apply Z.mod_small; exact Ht).
  rewrite (show_loop_spec c Hinv (pending_count c) 1024 0 []) by lia.
  reflexivity.
Qed.



Ltac log_alloc Hh Hs :=
  unfold _fusb303b_log;
  rewrite (in_bounds_true _ Hh); cbn [negb];
  let E := fresh "E" in
  destruct (logbuffer _ (logbuffer_head _)) as [? |] eqn:E;
  [| destruct Hs as [Hs | Hs]; [congruence | rewrite Hs]].


Lemma log_overflows (c : fusb303b_chip) (msg : String.string) (ts : Z)
      (ok : bool) :
  log_inv c ->
  fusb303b_log_full c = true ->
  1 <= logbuffer_head c ->
  logbuffer c (logbuffer_head c) <> None \/ ok = true ->
  exists c',
    _fusb303b_log c msg ts ok = Ret c' /\
    log_inv c' /\
    dev_warnings c' = dev_warnings c /\
    logbuffer_head c' = logbuffer_head c /\
    logbuffer_tail c' = logbuffer_tail c /\
    pending c' = removelast (pending c) ++ [log_entry ts "overflow"].
Proof.
  intros Hinv Hfull Hpos Hs.
  pose proof Hinv as (Hh & Ht & Hsl).
  destruct (pending_count_spec c Hinv) as (Hn & Hhead).
  pose proof (proj1 (full_count c Hinv) Hfull) as Hc.
  destruct (pending_count c) as [| m] eqn:Hm; [discriminate |].
  assert (Hm' : Z.of_nat m = 1022) by lia.
  assert (Hprev : (logbuffer_tail c + Z.of_nat m) mod LOG_BUFFER_ENTRIES =
                  logbuffer_head c - 1) by ring_index.
  assert (Hmax : Z.max (logbuffer_head c - 1) 0 = logbuffer_head c - 1)
    by lia.
  assert (Hb : (logbuffer_head c - 1 <? 0) ||
               (logbuffer_head c - 1 >=? LOG_BUFFER_ENTRIES) = false).
  { apply orb_false_iff. split; [apply Z.ltb_ge; lia |].
    rewrite Z.geb_leb. apply Z.leb_gt. lia. }
  assert (Hne : (logbuffer_head c - 1 =? logbuffer_head c) = false)
    by (apply Z.eqb_neq; lia).
  destruct (logbuffer c (logbuffer_head c - 1)) as [old |] eqn:Eold;
    [| exfalso; apply (Hsl m); [lia | now rewrite Hprev]].
  log_alloc Hh Hs.
  all: unfold fusb303b_log_full in *; cbv zeta;
    cbn [set_slot logbuffer_head logbuffer_tail];
    rewrite Hfull; cbv beta iota;
    cbn [set_head set_slot logbuffer_head logbuffer_tail logbuffer];
    rewrite Hmax, Hb, ?Hne, Eold;
    eexists; (split; [reflexivity |]).
  all: replace (logbuffer_head c - 1 + 1) with (logbuffer_head c) by lia.
  all: rewrite rem_entries, Z.mod_small by lia.
  all: assert (Hcount : forall c',
           logbuffer_head c' = logbuffer_head c ->
           logbuffer_tail c' = logbuffer_tail c ->
           pending_count c' = S m)
    by (intros c' H1 H2; unfold pending_count in *; now rewrite H1, H2).
  all: match goal with
       | |- log_inv ?c' /\ _ =>
           pose proof (Hcount c' eq_refl eq_refl) as Hcnt
       end.
  all: split; [| split; [reflexivity | split; [reflexivity |
                 split; [reflexivity |]]]].
  all: try (split; [exact Hh |]; split; [exact Ht |];
            intros k Hk; rewrite Hcnt in Hk;
            cbn [logbuffer logbuffer_tail set_head set_slot];
            repeat match goal with
                   | |- (if ?b then _ else _) <> None =>
                       destruct b; [discriminate |]
                   end;
            apply Hsl; lia).
  all: unfold pending; rewrite Hcnt, Hm, !seq_S, !map_app;
    cbn [logbuffer_tail map Nat.add set_head set_slot];
    rewrite removelast_last;
    f_equal;
    [apply map_ext_in; intros k Hk; apply in_seq in Hk;
     unfold slot_text; cbn [logbuffer set_head set_slot];
     assert (Hk1 : (logbuffer_tail c + Z.of_nat k) mod LOG_BUFFER_ENTRIES
                   <> logbuffer_head c - 1)
       by (rewrite <- Hprev; apply ring_slots_distinct; lia);
     assert (Hk2 : (logbuffer_tail c + Z.of_nat k) mod LOG_BUFFER_ENTRIES
                   <> logbuffer_head c)
       by (rewrite Hhead; apply ring_slots_distinct; lia);
     apply Z.eqb_neq in Hk1, Hk2; rewrite ?Hk1, ?Hk2; reflexivity
    | unfold slot_text; cbn [logbuffer set_head set_slot];
      rewrite Hprev, Z.eqb_refl; reflexivity].
Qed.

Lemma log_wraps (c : fusb303b_chip) (msg : String.string) (ts : Z)
      (ok : bool) :
  log_inv c ->
  fusb303b_log_full c = true ->
  logbuffer_head c = 0 ->
  logbuffer c (logbuffer_head c) <> None \/ ok = true ->
  exists c',
    _fusb303b_log c msg ts ok = Ret c' /\
    log_inv c' /\
    dev_warnings c' = dev_warnings c /\
    logbuffer_head c' = 1 /\
    logbuffer_tail c' = 1 /\
    pending_count c = 1023%nat /\
    pending c' = [].
Proof.
  intros Hinv Hfull Hzero Hs.
  pose proof Hinv as (Hh & Ht & Hsl).
  pose proof (proj1 (full_count c Hinv) Hfull) as Hc.
  assert (Htail : logbuffer_tail c = 1).
  { unfold fusb303b_log_full in Hfull. apply Z.eqb_eq in Hfull.
    rewrite Hfull, Hzero. reflexivity. }
  assert (Hcount : forall c',
             logbuffer_head c' = 1 -> logbuffer_tail c' = 1 ->
             pending_count c' = 0%nat)
    by (intros c' H1 H2; unfold pending_count; now rewrite H1, H2).
  log_alloc Hh Hs.
  all: unfold fusb303b_log_full in *; cbv zeta;
    cbn [set_slot logbuffer_head logbuffer_tail];
    rewrite Hfull; cbv beta iota;
    cbn [set_head set_slot logbuffer_head logbuffer_tail logbuffer];
    rewrite Hzero in *; cbn [Z.max Z.sub Z.add Z.opp Z.compare Z.ltb Z.geb
                             orb Z.eqb Z.rem Z.quotrem fst snd];
    rewrite ?E.
  all: eexists; (split; [reflexivity |]).
  all: match goal with
       | |- log_inv ?c' /\ _ =>
           pose proof (Hcount c' eq_refl Htail) as Hcnt
       end.
  all: split; [| split; [reflexivity | split; [reflexivity |
                 split; [exact Htail | split; [exact Hc |]]]]].
  all: try (split; [cbn; unfold LOG_BUFFER_ENTRIES; lia |];
            split; [cbn [logbuffer_tail set_head set_slot]; lia |];
            intros k Hk; rewrite Hcnt in Hk; lia).
  all: unfold pending; now rewrite Hcnt.
Qed.


Lemma full_chip_inv (head : Z) :
  0 <= head < LOG_BUFFER_ENTRIES -> log_inv (full_chip head).
Proof.
  intros H. split; [exact H |].
  split.
  - cbn [full_chip logbuffer_tail]. rewrite rem_entries by lia.
    apply Z.mod_pos_bound. unfold LOG_BUFFER_ENTRIES. lia.
  - intros k _. discriminate.
Qed.



(** X19 -- What the logger does when the ring is full.  In a well-formed
    chip whose ring is full, a call of the logger that has its slot steps
    the head back and stores a line that says [overflow] in place of the
    message.  With the head at 1 or above, the newest pending line is
    replaced by that line and the ring stays full, all 1023 lines pending.
    With the head at 0, the head cannot step back: the line goes into slot
    0, the head advances onto the tail, and the ring reads as empty; the
    1023 lines that were pending are never printed. *)
Theorem fusb303b_log_overflow (c : fusb303b_chip) (msg : String.string)
        (local_clock : Z) (kzalloc_ok : bool) :
  log_inv c ->
  fusb303b_log_full c = true ->
  logbuffer c (logbuffer_head c) <> None \/ kzalloc_ok = true ->
  length (pending c) = 1023%nat /\
  (1 <= logbuffer_head c ->
   exists c',
     _fusb303b_log c msg local_clock kzalloc_ok = Ret c' /\
     pending c' =
       removelast (pending c) ++ [log_entry local_clock "overflow"] /\
     fusb303b_log_full c' = true) /\
  (logbuffer_head c = 0 ->
   exists c',
     _fusb303b_log c msg local_clock kzalloc_ok = Ret c' /\
     pending c' = [] /\
     fusb303b_debug_show 1024 c' false = Ret ([], c')).
Proof.
  intros Hinv F Hs.
  split; [| split].
  - unfold pending. rewrite length_map, length_seq.
    apply (full_count c Hinv), F.
  - intros Hpos.
    destruct (log_overflows c msg local_clock kzalloc_ok Hinv F Hpos Hs)
      as (c' & R & _ & _ & H1 & H2 & P).
    exists c'. split; [exact R |]. split; [exact P |].
    unfold fusb303b_log_full in *. now rewrite H1, H2.
  - intros Hzero.
    destruct (log_wraps c msg local_clock kzalloc_ok Hinv F Hzero Hs)
      as (c' & R & I & _ & H1 & H2 & _ & P).
    exists c'. split; [exact R |]. split; [exact P |].
    rewrite (debug_show_spec c' false I), P. cbn [negb].
    f_equal. f_equal. destruct c' as [h t l w].
    cbn [logbuffer_head logbuffer_tail] in H1, H2. subst h t.
    reflexivity.
Qed.



Lemma fusb303b_log_overflow_witness :
  log_inv (full_chip 0) /\
  fusb303b_log_full (full_chip 0) = true /\
  (logbuffer (full_chip 0) (logbuffer_head (full_chip 0)) <> None \/
   true = true) /\
  logbuffer_head (full_chip 0) = 0 /\
  length (pending (full_chip 0)) = 1023%nat /\
  exists c',
    _fusb303b_log (full_chip 0) sample_message 1500000000 true = Ret c' /\
    pending c' = [] /\
    fusb303b_debug_show 1024 c' false = Ret ([], c').
Proof.
  assert (H0 : log_inv (full_chip 0))
    by (apply full_chip_inv; unfold LOG_BUFFER_ENTRIES; lia).
  assert (H1 : fusb303b_log_full (full_chip 0) = true) by reflexivity.
  assert (H2 : logbuffer (full_chip 0) (logbuffer_head (full_chip 0))
               <> None \/ true = true) by (right; reflexivity).
  assert (H3 : logbuffer_head (full_chip 0) = 0) by reflexivity.
  split; [exact H0 |]. split; [exact H1 |]. split; [exact H2 |].
  split; [exact H3 |].
  destruct (fusb303b_log_overflow (full_chip 0) sample_message 1500000000 true
              H0 H1 H2) as (L & _ & W).
  split; [exact L | exact (W H3)].
Defined.

(** * The FUSB303B on the bus *)

Lemma new_chip_events_app (p p' : port) (evs : list chip_event) :
  events p' = events p ++ evs -> new_chip_events p p' = evs.
Proof.
  intros E. unfold new_chip_events. rewrite E.
  rewrite skipn_app, skipn_all, Nat.sub_diag. reflexivity.
Qed.

Lemma i2c_read_spec (p : port) (address : Z) :
  fst (fst (fusb303b_i2c_read p address)) = bus p (xfers p) /\
  snd (fst (fusb303b_i2c_read p address)) = u8 (bus p (xfers p)) /\
  bus (snd (fusb303b_i2c_read p address)) = bus p /\
  xfers (snd (fusb303b_i2c_read p address)) = S (xfers p) /\
  events (snd (fusb303b_i2c_read p address)) =
    events p ++
    I2cRead (u8 address) (bus p (xfers p)) ::
    (if bus p (xfers p) <? 0
     then [Log (MsgCannotRead (u8 address) (bus p (xfers p)))] else []) /\
  vbus_present (snd (fusb303b_i2c_read p address)) = vbus_present p /\
  cc_polarity (snd (fusb303b_i2c_read p address)) = cc_polarity p.
Proof.
  unfold fusb303b_i2c_read. cbv zeta. cbn [fst snd].
  destruct (bus p (xfers p) <? 0);
    cbn [port_log emit transfer bus xfers events vbus_present cc_polarity];
    rewrite <- ?app_assoc; repeat split.
Qed.

Lemma i2c_write_spec (p : port) (address data : Z) :
  fst (fusb303b_i2c_write p address data) = bus p (xfers p) /\
  bus (snd (fusb303b_i2c_write p address data)) = bus p /\
  xfers (snd (fusb303b_i2c_write p address data)) = S (xfers p) /\
  events (snd (fusb303b_i2c_write p address data)) =
    events p ++
    I2cWrite (u8 address) (u8 data) (bus p (xfers p)) ::
    (if bus p (xfers p) <? 0
     then [Log (MsgCannotWrite (u8 data) (u8 address) (bus p (xfers p)))]
     else []) /\
  vbus_present (snd (fusb303b_i2c_write p address data)) = vbus_present p /\
  cc_polarity (snd (fusb303b_i2c_write p address data)) = cc_polarity p.
Proof.
  unfold fusb303b_i2c_write. cbv zeta. cbn [fst snd].
  destruct (bus p (xfers p) <? 0);
    cbn [port_log emit transfer bus xfers events vbus_present cc_polarity];
    rewrite <- ?app_assoc; repeat split.
Qed.

Lemma u8_u8 (z : Z) : u8 (u8 z) = u8 z.
Proof. unfold u8. apply Z.mod_mod. lia. Qed.

Lemma u8_bit (z n : Z) :
  0 <= n -> Z.testbit (u8 z) n = (n <? 8) && Z.testbit z n.
Proof.
  intros Hn. unfold u8. destruct (n <? 8) eqn:E.
  - apply Z.ltb_lt in E. now rewrite Z.mod_pow2_bits_low by lia.
  - apply Z.ltb_ge in E. now rewrite Z.mod_pow2_bits_high by lia.
Qed.

(** X20 -- Read-modify-write on the bus.  [fusb303b_i2c_mask_write] reads
    the register once.  If the read fails it writes nothing and returns
    the status of the read.  Otherwise it writes the register once and
    returns the status of the write; in the byte written the bits of
    [value] are set, the other bits of [mask] are clear, and every other
    bit is as read. *)
Theorem fusb303b_mask_write_bits (p : port) (address mask value : Z) :
  reads_of
    (new_chip_events p
       (snd (fusb303b_i2c_mask_write p address mask value))) =
    [u8 address] /\
  (bus p (xfers p) < 0 ->
   fst (fusb303b_i2c_mask_write p address mask value) = bus p (xfers p) /\
   writes_of
     (new_chip_events p
        (snd (fusb303b_i2c_mask_write p address mask value))) = []) /\
  (0 <= bus p (xfers p) ->
   fst (fusb303b_i2c_mask_write p address mask value) =
     bus p (S (xfers p)) /\
   exists data,
     writes_of
       (new_chip_events p
          (snd (fusb303b_i2c_mask_write p address mask value))) =
       [(u8 address, data)] /\
     forall n, 0 <= n ->
       Z.testbit data n =
       (n <? 8) &&
       (Z.testbit (bus p (xfers p)) n && negb (Z.testbit mask n) ||
        Z.testbit value n)).
Proof.
  unfold fusb303b_i2c_mask_write. cbv zeta.
  destruct (i2c_read_spec p (u8 address))
    as (Rr & Rd & Rb & Rx & Re & _).
  destruct (fusb303b_i2c_read p (u8 address)) as [[ret data] p1].
  cbn [fst snd] in *. subst ret data.
  rewrite u8_u8 in Re.
  destruct (bus p (xfers p) <? 0) eqn:Neg.
  - cbn [fst snd]. rewrite (new_chip_events_app _ _ _ Re).
    split; [reflexivity |]. split; [intros _; split; reflexivity |].
    intros Hpos. apply Z.ltb_lt in Neg. lia.
  - match goal with
    | |- context [fusb303b_i2c_write p1 ?a ?d] =>
        destruct (i2c_write_spec p1 a d) as (Wr & Wb & Wx & We & _);
        destruct (fusb303b_i2c_write p1 a d) as [ret2 p2]
    end.
    cbn [fst snd] in *.
    rewrite Re, Rb, Rx, !u8_u8 in We. rewrite Rb, Rx in Wr.
    rewrite <- app_assoc in We.
    assert (E : new_chip_events p
                  (snd (if ret2 <? 0 then (ret2, p2) else (ret2, p2))) = _)
      by (destruct (ret2 <? 0); cbn [snd];
          exact (new_chip_events_app _ _ _ We)).
    rewrite E.
    assert (F : fst (if ret2 <? 0 then (ret2, p2) else (ret2, p2)) = ret2)
      by (destruct (ret2 <? 0); reflexivity).
    rewrite F. clear E F.
    split; [cbn [app reads_of]; destruct (bus p (S (xfers p)) <? 0);
            reflexivity |].
    split; [intros Hneg; apply Z.ltb_ge in Neg; lia |].
    intros _. split; [exact Wr |].
    eexists. split.
    + cbn [app writes_of]. destruct (bus p (S (xfers p)) <? 0); reflexivity.
    + intros n Hn.
      rewrite !u8_bit, Z.lor_spec, !u8_bit, Z.land_spec, Z.lnot_spec,
        !u8_bit by lia.
      destruct (n <? 8); cbn [andb]; reflexivity.
Qed.

Lemma writes_of_app (l1 l2 : list chip_event) :
  writes_of (l1 ++ l2) = writes_of l1 ++ writes_of l2.
Proof.
  induction l1 as [| e l1 IH]; cbn [app writes_of]; [reflexivity |].
  destruct e; cbn [app]; now rewrite ?IH.
Qed.

Lemma reads_of_app (l1 l2 : list chip_event) :
  reads_of (l1 ++ l2) = reads_of l1 ++ reads_of l2.
Proof.
  induction l1 as [| e l1 IH]; cbn [app reads_of]; [reflexivity |].
  destruct e; cbn [app]; now rewrite ?IH.
Qed.

(** The part of the handler after its three reads: it touches the bus
    only to acknowledge. *)
Lemma irq_tail (p3 : port) (interrupt interrupt1 status : Z) :
  interrupt = u8 interrupt -> interrupt1 = u8 interrupt1 ->
  let p4 := port_log p3 (MsgIrq interrupt status) in
  let p5 :=
    if negb (Z.land interrupt FUSB303B_INT_I_VBUS_CHG =? 0) then
      let vbus := negb (Z.land status FUSB303B_STATUS_VBUSOK =? 0) in
      let p := port_log p4 (MsgVbusOk vbus) in
      if negb (Bool.eqb vbus (vbus_present p)) then
        emit (set_vbus_present p vbus) TcpmVbusChange
      else p
    else p4 in
  let cc_status := u8 (Z.shiftr (Z.land status FUSB303B_STATUS_MASK) 4) in
  let p6 :=
    if CC_CONN_CC1 =? cc_status then
      emit (set_cc_polarity p5 TYPEC_POLARITY_CC1) TcpmCcChange
    else if CC_CONN_CC2 =? cc_status then
      emit (set_cc_polarity p5 TYPEC_POLARITY_CC2) TcpmCcChange
    else p5 in
  let p7 :=
    if negb (0 =? interrupt) then
      snd (fusb303b_i2c_write p6 FUSB303B_REG_INTERRUPT interrupt)
    else p6 in
  let p8 :=
    if negb (0 =? interrupt1) then
      snd (fusb303b_i2c_write p7 FUSB303B_REG_INTERRUPT1 interrupt1)
    else p7 in
  exists evs,
    events p8 = events p3 ++ evs /\
    reads_of evs = [] /\
    writes_of evs =
      (if 0 =? interrupt then []
       else [(FUSB303B_REG_INTERRUPT, interrupt)]) ++
      (if 0 =? interrupt1 then []
       else [(FUSB303B_REG_INTERRUPT1, interrupt1)]) /\
    vbus_present p8 =
      (if negb (Z.land interrupt FUSB303B_INT_I_VBUS_CHG =? 0)
       then negb (Z.land status FUSB303B_STATUS_VBUSOK =? 0)
       else vbus_present p3).
Proof.
  intros Hi Hi1. cbv zeta.
  set (chg := negb (Z.land interrupt FUSB303B_INT_I_VBUS_CHG =? 0)).
  set (vbus := negb (Z.land status FUSB303B_STATUS_VBUSOK =? 0)).
  set (cc := u8 (Z.shiftr (Z.land status FUSB303B_STATUS_MASK) 4)).
  set (p5 := if chg then _ else _).
  assert (H5 : exists e5,
             events p5 = events p3 ++ e5 /\ reads_of e5 = [] /\
             writes_of e5 = [] /\
             vbus_present p5 = (if chg then vbus else vbus_present p3)).
  { subst p5. destruct chg.
    - cbn [port_log emit vbus_present].
      destruct (Bool.eqb vbus (vbus_present p3)) eqn:Eb; cbn [negb].
      + apply eqb_prop in Eb.
        cbn [port_log emit events vbus_present].
        eexists. rewrite <- !app_assoc. split; [reflexivity |].
        cbn. repeat split. now rewrite Eb.
      + cbn [port_log emit set_vbus_present events vbus_present].
        eexists. rewrite <- !app_assoc. split; [reflexivity |].
        cbn. repeat split.
    - cbn [port_log emit events vbus_present].
      eexists. split; [reflexivity |]. cbn. repeat split. }
  destruct H5 as (e5 & E5 & R5 & W5 & V5).
  set (p6 := if CC_CONN_CC1 =? cc then _ else _).
  assert (H6 : exists e6,
             events p6 = events p5 ++ e6 /\ reads_of e6 = [] /\
             writes_of e6 = [] /\ vbus_present p6 = vbus_present p5).
  { subst p6. destruct (CC_CONN_CC1 =? cc);
      [| destruct (CC_CONN_CC2 =? cc)];
      cbn [emit set_cc_polarity events vbus_present].
    - exists [TcpmCcChange]. repeat split.
    - exists [TcpmCcChange]. repeat split.
    - exists []. rewrite app_nil_r. repeat split. }
  destruct H6 as (e6 & E6 & R6 & W6 & V6).
  clearbody p5 p6.
  set (p7 := if negb (0 =? interrupt) then _ else _).
  assert (H7 : events p7 =
               events p6 ++
               (if 0 =? interrupt then []
                else I2cWrite FUSB303B_REG_INTERRUPT interrupt
                       (bus p6 (xfers p6)) ::
                     (if bus p6 (xfers p6) <? 0
                      then [Log (MsgCannotWrite interrupt
                                   FUSB303B_REG_INTERRUPT
                                   (bus p6 (xfers p6)))]
                      else [])) /\
               vbus_present p7 = vbus_present p6).
  { subst p7. destruct (0 =? interrupt); cbn [negb].
    - now rewrite app_nil_r.
    - destruct (i2c_write_spec p6 FUSB303B_REG_INTERRUPT interrupt)
        as (_ & _ & _ & We & Wv & _).
      rewrite We, Wv, <- Hi. split; reflexivity. }
  destruct H7 as (E7 & V7). clearbody p7.
  set (p8 := if negb (0 =? interrupt1) then _ else _).
  assert (H8 : events p8 =
               events p7 ++
               (if 0 =? interrupt1 then []
                else I2cWrite FUSB303B_REG_INTERRUPT1 interrupt1
                       (bus p7 (xfers p7)) ::
                     (if bus p7 (xfers p7) <? 0
                      then [Log (MsgCannotWrite interrupt1
                                   FUSB303B_REG_INTERRUPT1
                                   (bus p7 (xfers p7)))]
                      else [])) /\
               vbus_present p8 = vbus_present p7).
  { subst p8. destruct (0 =? interrupt1); cbn [negb].
    - now rewrite app_nil_r.
    - destruct (i2c_write_spec p7 FUSB303B_REG_INTERRUPT1 interrupt1)
        as (_ & _ & _ & We & Wv & _).
      rewrite We, Wv, <- Hi1. split; reflexivity. }
  destruct H8 as (E8 & V8). clearbody p8.
  eexists. split.
  - rewrite E8, E7, E6, E5, <- !app_assoc. reflexivity.
  - rewrite !reads_of_app, !writes_of_app, R5, R6, W5, W6, V8, V7, V6, V5.
    cbn [app].
    destruct (0 =? interrupt); destruct (0 =? interrupt1);
      destruct (bus p6 (xfers p6) <? 0);
      destruct (bus p7 (xfers p7) <? 0);
      cbn [app reads_of writes_of]; repeat split.
Qed.

(** X21 -- The interrupt handler on the bus.  The handler reads the
    interrupt register twice and the status register once, and never reads
    the second interrupt register.  If one of the reads fails, the handler
    writes nothing and leaves the VBUS state and the polarity as they
    were.  Otherwise it writes back to the interrupt register the byte of
    the first read, and to the second interrupt register the byte of the
    second read of the first, each only when it is not 0; and the VBUS
    state becomes the VBUSOK bit of the status when the first byte has the
    VBUS change bit, and stays otherwise. *)
Theorem fusb303b_irq_acknowledges (p : port) :
  (forall a,
      In a (reads_of (new_chip_events p (fusb303b_irq p))) ->
      a = FUSB303B_REG_INTERRUPT \/ a = FUSB303B_REG_STATUS) /\
  (bus p (xfers p) < 0 \/ bus p (S (xfers p)) < 0 \/
   bus p (S (S (xfers p))) < 0 ->
   writes_of (new_chip_events p (fusb303b_irq p)) = [] /\
   vbus_present (fusb303b_irq p) = vbus_present p /\
   cc_polarity (fusb303b_irq p) = cc_polarity p) /\
  (0 <= bus p (xfers p) -> 0 <= bus p (S (xfers p)) ->
   0 <= bus p (S (S (xfers p))) ->
   writes_of (new_chip_events p (fusb303b_irq p)) =
     (if 0 =? u8 (bus p (xfers p)) then []
      else [(FUSB303B_REG_INTERRUPT, u8 (bus p (xfers p)))]) ++
     (if 0 =? u8 (bus p (S (xfers p))) then []
      else [(FUSB303B_REG_INTERRUPT1, u8 (bus p (S (xfers p))))]) /\
   vbus_present (fusb303b_irq p) =
     (if negb (Z.land (u8 (bus p (xfers p))) FUSB303B_INT_I_VBUS_CHG =? 0)
      then negb (Z.land (u8 (bus p (S (S (xfers p)))))
                   FUSB303B_STATUS_VBUSOK =? 0)
      else vbus_present p)).
Proof.
  unfold fusb303b_irq.
  destruct (i2c_read_spec p FUSB303B_REG_INTERRUPT)
    as (A1 & A2 & A3 & A4 & A5 & A6 & A7).
  destruct (fusb303b_i2c_read p FUSB303B_REG_INTERRUPT) as [[r1 d1] p1].
  cbn [fst snd] in *. subst r1 d1.
  destruct (bus p (xfers p) <? 0) eqn:N1.
  { apply Z.ltb_lt in N1. rewrite (new_chip_events_app _ _ _ A5).
    split; [intros a [<- | []]; left; reflexivity |].
    split; [intros _; repeat split; assumption | intros; lia]. }
  apply Z.ltb_ge in N1.
  destruct (i2c_read_spec p1 FUSB303B_REG_INTERRUPT)
    as (B1 & B2 & B3 & B4 & B5 & B6 & B7).
  destruct (fusb303b_i2c_read p1 FUSB303B_REG_INTERRUPT) as [[r2 d2] p2].
  cbn [fst snd] in *. subst r2 d2.
  rewrite A3, A4 in *. rewrite A5, <- app_assoc in B5.
  destruct (bus p (S (xfers p)) <? 0) eqn:N2.
  { apply Z.ltb_lt in N2. rewrite (new_chip_events_app _ _ _ B5).
    split; [intros a [<- | [<- | []]]; left; reflexivity |].
    split; [intros _; repeat split; congruence | intros; lia]. }
  apply Z.ltb_ge in N2.
  destruct (i2c_read_spec p2 FUSB303B_REG_STATUS)
    as (C1 & C2 & C3 & C4 & C5 & C6 & C7).
  destruct (fusb303b_i2c_read p2 FUSB303B_REG_STATUS) as [[r3 d3] p3].
  cbn [fst snd] in *. subst r3 d3.
  rewrite B3, B4 in *. rewrite B5, <- app_assoc in C5.
  destruct (bus p (S (S (xfers p))) <? 0) eqn:N3.
  { apply Z.ltb_lt in N3. rewrite (new_chip_events_app _ _ _ C5).
    split; [intros a [<- | [<- | [<- | []]]]; auto |].
    split; [intros _; repeat split; congruence | intros; lia]. }
  apply Z.ltb_ge in N3.
  destruct (irq_tail p3 (u8 (bus p (xfers p))) (u8 (bus p (S (xfers p))))
              (u8 (bus p (S (S (xfers p)))))
              (eq_sym (u8_u8 _)) (eq_sym (u8_u8 _)))
    as (evs & Ev & Rd & Wr & Vb).
  cbv zeta in Ev, Rd, Wr, Vb.
  rewrite C5, <- app_assoc in Ev.
  rewrite (new_chip_events_app _ _ _ Ev).
  split; [| split].
  - cbn [app reads_of]. rewrite ?reads_of_app, Rd.
    intros a [<- | [<- | [<- | []]]]; auto.
  - intros [H | [H | H]]; lia.
  - intros _ _ _. cbn [app writes_of]. rewrite ?writes_of_app.
    split; [exact Wr |]. rewrite Vb. now rewrite C6, B6, A6.
Qed.

(** Stepping through a sequence of transfers: the facts known of the
    current port are kept relative to the port the sequence started from. *)
Ltac bus_read :=
  match goal with
  | Kb : bus ?q = _, Kx : xfers ?q = _, Ke : events ?q = _
    |- context [fusb303b_i2c_read ?q ?a] =>
      let r := fresh "r" in
      let d := fresh "d" in
      let q' := fresh "q" in
      let Hr := fresh "Hr" in
      let Hd := fresh "Hd" in
      let Hb := fresh "Hb" in
      let Hx := fresh "Hx" in
      let He := fresh "He" in
      destruct (i2c_read_spec q a) as (Hr & Hd & Hb & Hx & He & _);
      rewrite ?Kb, ?Kx in Hr; rewrite ?Kb, ?Kx in Hd; rewrite ?Kb in Hb;
      rewrite ?Kx in Hx; rewrite ?Kb, ?Kx in He;
      rewrite Ke, <- app_assoc in He;
      destruct (fusb303b_i2c_read q a) as [[r d] q'];
      cbn [fst snd] in Hr, Hd, Hb, Hx, He |- *;
      subst r d; cbv beta iota; clear Kb Kx Ke
  end.

Ltac bus_write :=
  match goal with
  | Kb : bus ?q = _, Kx : xfers ?q = _, Ke : events ?q = _
    |- context [fusb303b_i2c_write ?q ?a ?v] =>
      let r := fresh "r" in
      let q' := fresh "q" in
      let Hr := fresh "Hr" in
      let Hb := fresh "Hb" in
      let Hx := fresh "Hx" in
      let He := fresh "He" in
      destruct (i2c_write_spec q a v) as (Hr & Hb & Hx & He & _);
      rewrite ?Kb, ?Kx in Hr; rewrite ?Kb in Hb;
      rewrite ?Kx in Hx; rewrite ?Kb, ?Kx in He;
      rewrite Ke, <- app_assoc in He;
      destruct (fusb303b_i2c_write q a v) as [r q'];
      cbn [fst snd] in Hr, Hb, Hx, He |- *;
      subst r; cbv beta iota; clear Kb Kx Ke
  end.

Ltac bus_log :=
  match goal with
  | Kb : bus ?q = _, Kx : xfers ?q = _, Ke : events ?q = _
    |- context [port_log ?q ?m] =>
      let q' := fresh "q" in
      let Hb := fresh "Hb" in
      let Hx := fresh "Hx" in
      let He := fresh "He" in
      set (q' := port_log q m);
      assert (Hb : bus q' = bus q) by reflexivity;
      assert (Hx : xfers q' = xfers q) by reflexivity;
      assert (He : events q' = events q ++ [Log m]) by reflexivity;
      rewrite Kb in Hb; rewrite Kx in Hx;
      rewrite Ke, <- app_assoc in He;
      clearbody q'; clear Kb Kx Ke
  end.

Ltac bus_vbus :=
  match goal with
  | Kb : bus ?q = _, Kx : xfers ?q = _, Ke : events ?q = _
    |- context [set_vbus_present ?q ?v] =>
      let q' := fresh "q" in
      let Hb := fresh "Hb" in
      let Hx := fresh "Hx" in
      let He := fresh "He" in
      set (q' := set_vbus_present q v);
      assert (Hb : bus q' = bus q) by reflexivity;
      assert (Hx : xfers q' = xfers q) by reflexivity;
      assert (He : events q' = events q) by reflexivity;
      rewrite Kb in Hb; rewrite Kx in Hx; rewrite Ke in He;
      clearbody q'; clear Kb Kx Ke
  end.

Lemma tcpm_init_enable_failure_trace (p q : port) :
  bus q = bus p -> xfers q = xfers p -> events q = events p ++ [] ->
  (forall n, n <> S (S (xfers p)) -> 0 <= bus p n) ->
  bus p (S (S (xfers p))) < 0 ->
  0 <= fst (tcpm_init q) /\
  exists data,
    writes_of (new_chip_events p (snd (tcpm_init q))) =
      [(FUSB303B_REG_RESET, 1); (FUSB303B_REG_MASK, 0xEF);
       (FUSB303B_REG_MASK1, 0xFF); (FUSB303B_REG_CONTROL, data)] /\
    Z.testbit data 0 = false.
Proof.
  intros Hb Hx He Hok Hbad.
  assert (T : forall n, n <> S (S (xfers p)) -> (bus p n <? 0) = false)
    by (intros n Hn; apply Z.ltb_ge, Hok, Hn).
  assert (F : (bus p (S (S (xfers p))) <? 0) = true)
    by (apply Z.ltb_lt, Hbad).
  unfold tcpm_init, fusb303b_sw_reset, fusb303b_init_interrupt,
    fusb303b_i2c_clear_bits, fusb303b_i2c_mask_write.
  cbv zeta.
  bus_write. rewrite T by lia. cbv beta iota. bus_log.
  bus_read.
  bus_read. rewrite F. cbv beta iota.
  bus_write. rewrite T by lia. cbv beta iota.
  bus_write. rewrite T by lia. cbv beta iota.
  bus_read. rewrite T by lia. cbv beta iota.
  bus_write. rewrite !T by lia. cbv beta iota.
  bus_read. rewrite T by lia. cbv beta iota. bus_vbus.
  bus_read. rewrite T by lia. cbv beta iota. bus_log.
  bus_read. rewrite T by lia. cbv beta iota. bus_log.
  cbn [fst snd].
  split; [apply Hok; lia |].
  match goal with
  | Ke : events ?q = _ |- context [new_chip_events p ?q] =>
      rewrite F in Ke; rewrite !T in Ke by lia; cbn [app] in Ke;
      rewrite (new_chip_events_app _ _ _ Ke)
  end.
  cbn [writes_of].
  eexists. split; [reflexivity |].
  rewrite !u8_bit, Z.lor_spec, !u8_bit, Z.land_spec, Z.lnot_spec by lia.
  cbn. now rewrite andb_false_r.
Qed.

(** X22 -- [tcpm_init] reports success for a chip it did not enable.  Its
    first read of the status and its write of the enable bit are not
    checked.  When every transfer succeeds but the read of the control
    register 1, which is the third transfer, the function returns a status
    that is not negative although the enable bit was never written: the
    bytes written are the reset command, the two interrupt masks 0xEF and
    0xFF, and the control register with its interrupt mask bit cleared. *)
Theorem tcpm_init_ignores_enable_failure (p : port) :
  (forall n, n <> S (S (xfers p)) -> 0 <= bus p n) ->
  bus p (S (S (xfers p))) < 0 ->
  0 <= fst (tcpm_init p) /\
  exists data,
    writes_of (new_chip_events p (snd (tcpm_init p))) =
      [(FUSB303B_REG_RESET, 1); (FUSB303B_REG_MASK, 0xEF);
       (FUSB303B_REG_MASK1, 0xFF); (FUSB303B_REG_CONTROL, data)] /\
    Z.testbit data 0 = false.
Proof.
  apply tcpm_init_enable_failure_trace; auto using app_nil_r.

Qed.

Lemma fusb303b_mask_write_bits_witness :
  0 <= bus (idle_port [0x12; 0]) (xfers (idle_port [0x12; 0])) /\
  fst (fusb303b_i2c_mask_write (idle_port [0x12; 0]) FUSB303B_REG_CONTROL1
         FUSB303B_CONTROL1_ENABLE FUSB303B_CONTROL1_ENABLE) =
    bus (idle_port [0x12; 0]) (S (xfers (idle_port [0x12; 0]))) /\
  exists data,
    writes_of
      (new_chip_events (idle_port [0x12; 0])
         (snd (fusb303b_i2c_mask_write (idle_port [0x12; 0])
                 FUSB303B_REG_CONTROL1 FUSB303B_CONTROL1_ENABLE
                 FUSB303B_CONTROL1_ENABLE))) =
      [(u8 FUSB303B_REG_CONTROL1, data)] /\
    forall n, 0 <= n ->
      Z.testbit data n =
        (n <? 8) &&
        (Z.testbit (bus (idle_port [0x12; 0]) (xfers (idle_port [0x12; 0]))) n
           && negb (Z.testbit FUSB303B_CONTROL1_ENABLE n)
         || Z.testbit FUSB303B_CONTROL1_ENABLE n).
Proof.
  split; [cbn; lia |].
  apply (proj2 (proj2 (fusb303b_mask_write_bits (idle_port [0x12; 0])
                         FUSB303B_REG_CONTROL1 FUSB303B_CONTROL1_ENABLE
                         FUSB303B_CONTROL1_ENABLE))).
  cbn; lia.
Defined.

Lemma fusb303b_irq_acknowledges_witness :
  writes_of
    (new_chip_events (idle_port [0x10; 0x00; 0x08])
       (fusb303b_irq (idle_port [0x10; 0x00; 0x08]))) =
    [(FUSB303B_REG_INTERRUPT, 0x10)] /\
  vbus_present (fusb303b_irq (idle_port [0x10; 0x00; 0x08])) = true.
Proof.
  apply (proj2 (proj2 (fusb303b_irq_acknowledges
                         (idle_port [0x10; 0x00; 0x08]))));
    cbn; lia.
Defined.

Lemma tcpm_init_ignores_enable_failure_witness :
  0 <= fst (tcpm_init (idle_port [0; 0; -5])) /\
  exists data,
    writes_of
      (new_chip_events (idle_port [0; 0; -5])
         (snd (tcpm_init (idle_port [0; 0; -5])))) =
      [(FUSB303B_REG_RESET, 1); (FUSB303B_REG_MASK, 0xEF);
       (FUSB303B_REG_MASK1, 0xFF); (FUSB303B_REG_CONTROL, data)] /\
    Z.testbit data 0 = false.
Proof.
  apply (tcpm_init_ignores_enable_failure (idle_port [0; 0; -5])).
  - intros n Hn. cbn in Hn.
    do 3 (destruct n as [| n]; [cbn; lia || congruence |]).
    destruct n; cbn; lia.
  - cbn; lia.
Defined.

(** * The I2S controller *)

Import I2s.

Lemma new_i2s_events_app (d d' : i2s_dev) (evs : list i2s_event) :
  log d' = log d ++ evs -> new_i2s_events d d' = evs.
Proof.
  intros E. unfold new_i2s_events. rewrite E.
  rewrite skipn_app, skipn_all, Nat.sub_diag. reflexivity.
Qed.

Lemma deasserted_app (t u : list i2s_event) :
  deasserted (t ++ u) = deasserted t ++ deasserted u.
Proof.
  induction t as [| ev t IH]; [reflexivity |].
  destruct ev; cbn [app deasserted]; rewrite IH; reflexivity.
Qed.

Lemma deasserted_warn_on (b : bool) : deasserted (warn_on b) = [].
Proof. now destruct b. Qed.

(** X23 -- [i2s_reset] never sees a failed lookup of the third reset line.
    Its third test looks at the second control again.  When the lookups of
    "i2srst" and "i2sprst" give no error the function returns 0, whatever
    the lookup of "voprst" gave and whatever the five reset operations
    returned, and what the lookup of "voprst" gave, an error pointer
    included, is the last control handed to [reset_control_deassert]. *)
Theorem i2s_reset_ignores_voprst (e : i2s_env) :
  is_err (reset_control_get e I2srst) = false ->
  is_err (reset_control_get e I2sprst) = false ->
  fst (i2s_reset e) = 0 /\
  deasserted (snd (i2s_reset e)) =
    [reset_control_get e I2srst; reset_control_get e I2sprst;
     reset_control_get e Voprst].
Proof.
  intros H1 H2. unfold i2s_reset. cbv zeta. rewrite H1, H2.
  cbn [fst snd]. split; [reflexivity |].
  rewrite !deasserted_app, !deasserted_warn_on. reflexivity.
Qed.

Lemma i2s_reset_ignores_voprst_witness :
  fst (i2s_reset (sample_probe_env true voprst_fails 0)) = 0 /\
  deasserted (snd (i2s_reset (sample_probe_env true voprst_fails 0))) =
    [Control I2srst; Control I2sprst; ErrPtr (-517)].
Proof.
  apply (i2s_reset_ignores_voprst (sample_probe_env true voprst_fails 0));
    reflexivity.
Defined.
Lemma div_writes_app (t u : list i2s_event) :
  div_writes (t ++ u) = div_writes t ++ div_writes u.
Proof.
  induction t as [| ev t IH]; [reflexivity |].
  destruct ev; cbn [app div_writes]; rewrite IH; reflexivity.
Qed.

Lemma regmap_writes_app (t u : list i2s_event) :
  regmap_writes (t ++ u) = regmap_writes t ++ regmap_writes u.
Proof.
  induction t as [| ev t IH]; [reflexivity |].
  destruct ev; cbn [app regmap_writes]; rewrite IH; reflexivity.
Qed.

Lemma reg_writes_app (t u : list i2s_event) :
  reg_writes (t ++ u) = reg_writes t ++ reg_writes u.
Proof.
  induction t as [| ev t IH]; [reflexivity |].
  destruct ev; cbn [app reg_writes]; rewrite IH; reflexivity.
Qed.

Lemma clock_view_refl (d : i2s_dev) : clock_view d d [].
Proof. unfold clock_view. rewrite app_nil_r. repeat split. Qed.

Lemma clock_view_trans (d d' d'' : i2s_dev) (t u : list i2s_event) :
  clock_view d d' t -> clock_view d' d'' u -> clock_view d d'' (t ++ u).
Proof.
  unfold clock_view.
  intros (A1 & A2 & A3 & A4 & A5 & A6 & A7) (B1 & B2 & B3 & B4 & B5 & B6 & B7).
  rewrite B1, B2, B3, B4, B5, A5, div_writes_app, regmap_writes_app, A6, A7,
    B6, B7, app_assoc.
  repeat split; assumption.
Qed.

Lemma clock_view_write (d : i2s_dev) (r : i2s_reg) (v : Z) :
  clock_view d (i2s_write_reg d r v) [WriteReg r (u32 v)].
Proof. repeat split. Qed.

Lemma clock_view_channel (C : i2s_consts) (stream : Z) (d : i2s_dev)
  (ch : Z) :
  exists t, clock_view d (i2s_config_channel C stream d ch) t.
Proof.
  unfold i2s_config_channel. cbv zeta.
  destruct (stream =? SNDRV_PCM_STREAM_PLAYBACK C);
    eexists;
    (eapply clock_view_trans;
     [eapply clock_view_trans; apply clock_view_write
     | apply clock_view_write]).
Qed.

Lemma clock_view_fold (C : i2s_consts) (stream : Z) (chs : list Z) :
  forall d,
    exists t,
      clock_view d (fold_left (i2s_config_channel C stream) chs d) t.
Proof.
  induction chs as [| ch chs IH]; intros d; cbn [fold_left].
  - exists []. apply clock_view_refl.
  - destruct (clock_view_channel C stream d ch) as (t & Ht).
    destruct (IH (i2s_config_channel C stream d ch)) as (u & Hu).
    exists (t ++ u). eapply clock_view_trans; eassumption.
Qed.

Lemma clock_view_config (C : i2s_consts) (d : i2s_dev) (stream : Z) :
  exists t, clock_view d (i2s_config C d stream) t.
Proof.
  unfold i2s_config. cbv zeta.
  match goal with
  | |- context [fold_left _ ?chs ?d0] =>
      destruct (clock_view_fold C stream chs d0) as (u & Hu)
  end.
  unfold i2s_disable_channels in *.
  destruct (stream =? SNDRV_PCM_STREAM_PLAYBACK C);
    eexists; (eapply clock_view_trans; [apply clock_view_write | exact Hu]).
Qed.

(** What [i2s_hw_params] has done when it reaches the clock of a master:
    the registers of the channels and the clock configuration register are
    written and the rate is recorded. *)
Lemma hw_params_reaches_clock (C : i2s_consts) (e : hw_env) (d : i2s_dev)
  (stream format channels rate : Z) :
  format_supported C format = true ->
  channels = TWO_CHANNEL_SUPPORT C ->
  exists d0 t v,
    i2s_hw_params C e d stream format channels rate =
      i2s_hw_params_clock C e d0 /\
    clock_view d d0 (t ++ [WriteReg CCR v]) /\
    sample_rate d0 = rate.
Proof.
  intros Hf Hc.
  assert (K : forall d1,
             clock_view d d1 [DevInfo] ->
             exists d0 t v,
               i2s_hw_params_channels C e d1 stream channels rate =
                 i2s_hw_params_clock C e d0 /\
               clock_view d d0 (t ++ [WriteReg CCR v]) /\
               sample_rate d0 = rate).
  { intros d1 V. unfold i2s_hw_params_channels. cbv zeta.
    cbn [chan_nr set_chan_nr]. rewrite Hc, Z.eqb_refl. cbn [negb].
    destruct (clock_view_config C (set_chan_nr d1 (TWO_CHANNEL_SUPPORT C))
                stream) as (t & Ht).
    assert (V' : clock_view d (set_chan_nr d1 (TWO_CHANNEL_SUPPORT C))
                   [DevInfo])
      by (destruct V as (V1 & V2 & V3 & V4 & V5 & V6 & V7);
          repeat split; assumption).
    pose proof (clock_view_trans _ _ _ _ _ V' Ht) as V2.
    set (d3 := i2s_config C (set_chan_nr d1 (TWO_CHANNEL_SUPPORT C)) stream)
      in *.
    assert (V3 : clock_view d3
                   (set_sample_rate (i2s_write_reg d3 CCR (ccr d3)) rate)
                   [WriteReg CCR (u32 (ccr d3))])
      by (repeat split).
    pose proof (clock_view_trans _ _ _ _ _ V2 V3) as V4.
    exists (set_sample_rate (i2s_write_reg d3 CCR (ccr d3)) rate),
      ([DevInfo] ++ t), (u32 (ccr d3)).
    split; [reflexivity |]. split; [exact V4 | reflexivity]. }
  unfold i2s_hw_params. cbv zeta.
  unfold format_supported in Hf.
  destruct (format =? SNDRV_PCM_FORMAT_S16_LE C);
    [apply K; repeat split |].
  destruct (format =? SNDRV_PCM_FORMAT_S24_LE C);
    [apply K; repeat split |].
  destruct (format =? SNDRV_PCM_FORMAT_S32_LE C);
    [apply K; repeat split | discriminate].
Qed.
Lemma u32_bit (z n : Z) :
  0 <= n -> Z.testbit (u32 z) n = (n <? 32) && Z.testbit z n.
Proof.
  intros Hn. unfold u32. destruct (n <? 32) eqn:E.
  - apply Z.ltb_lt in E. now rewrite Z.mod_pow2_bits_low by lia.
  - apply Z.ltb_ge in E. now rewrite Z.mod_pow2_bits_high by lia.
Qed.

Lemma bits_above (x k n : Z) :
  0 <= x < 2 ^ k -> 0 <= k <= n -> Z.testbit x n = false.
Proof.
  intros Hx Hn. rewrite <- (Z.mod_small x (2 ^ k)) by lia.
  apply Z.mod_pow2_bits_high. lia.
Qed.

Lemma u32_small (z : Z) : 0 <= z < 2 ^ 32 -> u32 z = z.
Proof. intros H. unfold u32. now apply Z.mod_small. Qed.

(** The quotient of the divider: at least 1, and at most 32 from 6000 Hz
    on. *)
Lemma divider_range (rate : Z) :
  0 < rate -> MAX_SAMPLE_RATE_SUPPORT mod rate = 0 ->
  1 <= MAX_SAMPLE_RATE_SUPPORT / rate <= 192000 /\
  (6000 <= rate -> MAX_SAMPLE_RATE_SUPPORT / rate <= 32).
Proof.
  unfold MAX_SAMPLE_RATE_SUPPORT. intros Hr Hm.
  pose proof (Z.div_exact 192000 rate ltac:(lia)) as [_ E].
  specialize (E Hm).
  assert (0 <= 192000 / rate) by (apply Z.div_pos; lia).
  split; [nia |].
  intros H6.
  change 32 with (192000 / 6000).
  apply Z.div_le_compat_l; lia.
Qed.

(** The value written to the divider register. *)
Lemma divider_bits (old q n : Z) :
  1 <= q <= 32 -> 0 <= n ->
  Z.testbit (Z.lor (u32 (Z.land old (Z.lnot DIV_NUM_MASK))) (q - 1)) n =
    if n <? 5 then Z.testbit (q - 1) n
    else (n <? 32) && Z.testbit old n.
Proof.
  intros Hq Hn. unfold DIV_NUM_MASK.
  rewrite Z.lor_spec, u32_bit, Z.land_spec, Z.lnot_spec by lia.
  change 31 with (Z.ones 5).
  destruct (n <? 5) eqn:E.
  - apply Z.ltb_lt in E. rewrite Z.ones_spec_low by lia.
    cbn [negb]. now rewrite andb_false_r, andb_false_r.
  - apply Z.ltb_ge in E. rewrite Z.ones_spec_high by lia.
    rewrite (bits_above (q - 1) 5 n) by lia.
    cbn [negb]. now rewrite andb_true_r, orb_false_r.
Qed.

(** X24 -- The sample rate divider of a master on a platform with
    [eswin-plat].  For a supported format, two channels and a rate that is
    not zero, [i2s_hw_params] returns with the rate recorded and with the
    registers of the channels written, the clock configuration register
    last, also when it then refuses the rate.  A rate that does not divide
    192000 is refused with [-EINVAL] and the divider is left alone.  While
    a stream is active the divider is not written: the call succeeds only
    if 192000 / rate - 1 is the divider recorded.  Otherwise the divider
    is recorded and written once, and from 6000 Hz on the value written
    has 192000 / rate - 1 in its low five bits and the bits read from the
    register above them. *)
Theorem i2s_hw_params_divider (C : i2s_consts) (e : hw_env) (d : i2s_dev)
  (stream format channels rate : Z) :
  format_supported C format = true ->
  channels = TWO_CHANNEL_SUPPORT C ->
  Z.land (capability d) (DW_I2S_MASTER C) <> 0 ->
  eswin_plat d <> 0 ->
  0 < rate ->
  exists ret d',
    i2s_hw_params C e d stream format channels rate = Returns (ret, d') /\
    sample_rate d' = rate /\
    (exists w v, reg_writes (new_i2s_events d d') = w ++ [(CCR, v)]) /\
    (MAX_SAMPLE_RATE_SUPPORT mod rate <> 0 ->
     ret = - EINVAL C /\
     div_writes (new_i2s_events d d') = [] /\
     i2s_div_num d' = i2s_div_num d) /\
    (MAX_SAMPLE_RATE_SUPPORT mod rate = 0 -> active d <> 0 ->
     ret =
       (if i2s_div_num d =? MAX_SAMPLE_RATE_SUPPORT / rate - 1
        then 0 else - EINVAL C) /\
     div_writes (new_i2s_events d d') = [] /\
     i2s_div_num d' = i2s_div_num d) /\
    (MAX_SAMPLE_RATE_SUPPORT mod rate = 0 -> active d = 0 ->
     ret = 0 /\
     i2s_div_num d' = MAX_SAMPLE_RATE_SUPPORT / rate - 1 /\
     exists v,
       div_writes (new_i2s_events d d') = [v] /\
       (6000 <= rate ->
        forall n, 0 <= n ->
          Z.testbit v n =
            if n <? 5
            then Z.testbit (MAX_SAMPLE_RATE_SUPPORT / rate - 1) n
            else (n <? 32) && Z.testbit (div_readl e) n)).
Proof.
  intros Hf Hc Hm Hp Hr.
  destruct (hw_params_reaches_clock C e d stream format channels rate Hf Hc)
    as (d0 & t & v & -> & V & Hs).
  destruct V as (V1 & V2 & V3 & V4 & V5 & V6 & V7).
  unfold i2s_hw_params_clock, i2s_div. cbv zeta.
  rewrite V1, V2, V3, V4, Hs.
  apply Z.eqb_neq in Hm, Hp. rewrite Hm, Hp. cbn [negb].
  destruct (rate =? 0) eqn:R0; [apply Z.eqb_eq in R0; lia | clear R0].
  assert (W : forall u,
             reg_writes u = [] ->
             exists w v0,
               reg_writes ((t ++ [WriteReg CCR v]) ++ u) = w ++ [(CCR, v0)]).
  { intros u Hu. exists (reg_writes t), v.
    now rewrite !reg_writes_app, Hu, app_nil_r. }
  destruct (MAX_SAMPLE_RATE_SUPPORT mod rate =? 0) eqn:M; cbn [negb].
  - apply Z.eqb_eq in M.
    destruct (divider_range rate Hr M) as (Q1 & Q2).
    rewrite (u32_small (MAX_SAMPLE_RATE_SUPPORT / rate - 1)) by lia.
    destruct (active d =? 0) eqn:A; cbn [negb].
    + apply Z.eqb_eq in A.
      eexists _, _. split; [reflexivity |].
      match goal with
      | |- context [new_i2s_events d ?d'] =>
          assert (L : log d' =
                        log d ++
                        (t ++ [WriteReg CCR v]) ++
                        [DevInfo;
                         WriteDiv
                           (Z.lor
                              (u32 (Z.land (div_readl e)
                                      (Z.lnot DIV_NUM_MASK)))
                              (MAX_SAMPLE_RATE_SUPPORT / rate - 1))])
            by (cbn [log say set_i2s_div_num]; rewrite V5;
                now rewrite <- !app_assoc);
          rewrite (new_i2s_events_app d d' _ L)
      end.
      cbn [sample_rate say set_i2s_div_num i2s_div_num].
      split; [exact Hs |]. split; [apply W; reflexivity |].
      split; [intros N; contradiction |].
      split; [intros _ N; contradiction |].
      intros _ _. split; [reflexivity |]. split; [reflexivity |].
      eexists. split.
      * rewrite div_writes_app, V6. reflexivity.
      * intros H6 n Hn. apply divider_bits; [| exact Hn].
        specialize (Q2 H6). lia.
    + apply Z.eqb_neq in A.
      destruct (i2s_div_num d =? MAX_SAMPLE_RATE_SUPPORT / rate - 1) eqn:D;
        cbn [negb].
      * eexists _, _. split; [reflexivity |].
        assert (L : log d0 = log d ++ (t ++ [WriteReg CCR v]) ++ [])
          by (now rewrite app_nil_r).
        rewrite (new_i2s_events_app d d0 _ L).
        split; [exact Hs |]. split; [apply W; reflexivity |].
        split; [intros N; contradiction |].
        split; [| intros _ N; contradiction].
        intros _ _. split; [reflexivity |].
        split; [now rewrite app_nil_r | exact V4].
      * eexists _, _. split; [reflexivity |].
        match goal with
        | |- context [new_i2s_events d ?d'] =>
            assert (L : log d' =
                          log d ++
                          (t ++ [WriteReg CCR v]) ++ [DevErr MsgClocksDiffer])
              by (cbn [log say]; rewrite V5; now rewrite <- !app_assoc);
            rewrite (new_i2s_events_app d d' _ L)
        end.
        cbn [sample_rate say i2s_div_num].
        split; [exact Hs |]. split; [apply W; reflexivity |].
        split; [intros N; contradiction |].
        split; [| intros _ N; contradiction].
        intros _ _. split; [reflexivity |].
        split; [| exact V4].
        rewrite div_writes_app, V6. reflexivity.
  - apply Z.eqb_neq in M.
    eexists _, _. split; [reflexivity |].
    match goal with
    | |- context [new_i2s_events d ?d'] =>
        assert (L : log d' =
                      log d ++
                      (t ++ [WriteReg CCR v]) ++
                      [DevErr (MsgNotSupportRate rate)])
          by (cbn [log say]; rewrite V5; now rewrite <- !app_assoc);
        rewrite (new_i2s_events_app d d' _ L)
    end.
    cbn [sample_rate say i2s_div_num].
    split; [exact Hs |]. split; [apply W; reflexivity |].
    split; [| split; intros N; contradiction].
    intros _. split; [reflexivity |]. split; [| exact V4].
    rewrite div_writes_app, V6. reflexivity.
Qed.
Lemma i2s_hw_params_divider_witness :
  exists ret d',
    i2s_hw_params sample_consts (sample_hw_env 0 0x25) (sample_master 1 0 0)
      0 2 2 48000 = Returns (ret, d') /\
    sample_rate d' = 48000 /\
    (exists w v,
       reg_writes (new_i2s_events (sample_master 1 0 0) d') =
         w ++ [(CCR, v)]) /\
    (MAX_SAMPLE_RATE_SUPPORT mod 48000 <> 0 ->
     ret = - EINVAL sample_consts /\
     div_writes (new_i2s_events (sample_master 1 0 0) d') = [] /\
     i2s_div_num d' = i2s_div_num (sample_master 1 0 0)) /\
    (MAX_SAMPLE_RATE_SUPPORT mod 48000 = 0 ->
     active (sample_master 1 0 0) <> 0 ->
     ret =
       (if i2s_div_num (sample_master 1 0 0) =?
           MAX_SAMPLE_RATE_SUPPORT / 48000 - 1
        then 0 else - EINVAL sample_consts) /\
     div_writes (new_i2s_events (sample_master 1 0 0) d') = [] /\
     i2s_div_num d' = i2s_div_num (sample_master 1 0 0)) /\
    (MAX_SAMPLE_RATE_SUPPORT mod 48000 = 0 ->
     active (sample_master 1 0 0) = 0 ->
     ret = 0 /\
     i2s_div_num d' = MAX_SAMPLE_RATE_SUPPORT / 48000 - 1 /\
     exists v,
       div_writes (new_i2s_events (sample_master 1 0 0) d') = [v] /\
       (6000 <= 48000 ->
        forall n, 0 <= n ->
          Z.testbit v n =
            if n <? 5
            then Z.testbit (MAX_SAMPLE_RATE_SUPPORT / 48000 - 1) n
            else (n <? 32) && Z.testbit (div_readl (sample_hw_env 0 0x25)) n)).
Proof.
  apply (i2s_hw_params_divider sample_consts (sample_hw_env 0 0x25)
           (sample_master 1 0 0) 0 2 2 48000);
    [reflexivity | reflexivity | cbn; lia | cbn; lia | lia].
Defined.

Lemma mask_bit (n : Z) :
  0 <= n ->
  Z.testbit VO_MCLK_DIVSOR_MASK n = (4 <=? n) && (n <? 12).
Proof.
  intros Hn. unfold VO_MCLK_DIVSOR_MASK.
  change 4080 with (Z.shiftl (Z.ones 8) 4).
  destruct (4 <=? n) eqn:E.
  - apply Z.leb_le in E.
    rewrite Z.shiftl_spec, Z.testbit_ones_nonneg by lia.
    cbn [andb]. destruct (n <? 12) eqn:F.
    + apply Z.ltb_lt in F. apply Z.ltb_lt. lia.
    + apply Z.ltb_ge in F. apply Z.ltb_ge. lia.
  - apply Z.leb_gt in E. now rewrite Z.shiftl_spec_low by lia.
Qed.

(** The selector with a code put in its divisor field. *)
Lemma mclk_field (old code : Z) :
  0 <= code < 256 ->
  Z.shiftr
    (Z.land
       (Z.lor (u32 (Z.land old (Z.lnot VO_MCLK_DIVSOR_MASK)))
          (Z.shiftl code VO_MCLK_DIVSOR_OFFSET))
       VO_MCLK_DIVSOR_MASK)
    VO_MCLK_DIVSOR_OFFSET = code /\
  Z.land
    (Z.lor (u32 (Z.land old (Z.lnot VO_MCLK_DIVSOR_MASK)))
       (Z.shiftl code VO_MCLK_DIVSOR_OFFSET))
    (Z.lnot VO_MCLK_DIVSOR_MASK) =
    Z.land (u32 old) (Z.lnot VO_MCLK_DIVSOR_MASK).
Proof.
  intros Hc. unfold VO_MCLK_DIVSOR_OFFSET.
  split; apply Z.bits_inj'; intros n Hn.
  - rewrite Z.shiftr_spec, Z.land_spec, Z.lor_spec, u32_bit, Z.land_spec,
      Z.lnot_spec, Z.shiftl_spec, mask_bit by lia.
    replace (n + 4 - 4) with n by lia.
    replace (4 <=? n + 4) with true by (symmetry; apply Z.leb_le; lia).
    cbn [andb].
    destruct (n + 4 <? 12) eqn:E; cbn [negb].
    + now rewrite !andb_false_r, andb_true_r.
    + apply Z.ltb_ge in E. rewrite (bits_above code 8 n) by lia.
      now rewrite andb_false_r.
  - rewrite !Z.land_spec, Z.lor_spec, u32_bit, u32_bit, Z.land_spec,
      !Z.lnot_spec, mask_bit by lia.
    destruct (4 <=? n) eqn:E; cbn [andb].
    + apply Z.leb_le in E. destruct (n <? 12) eqn:F; cbn [negb].
      * now rewrite !andb_false_r.
      * apply Z.ltb_ge in F.
        rewrite Z.shiftl_spec, (bits_above code 8 (n - 4)) by lia.
        now rewrite !andb_true_r, orb_false_r.
    + apply Z.leb_gt in E. rewrite Z.shiftl_spec_low by lia.
      cbn [negb]. now rewrite !andb_true_r, orb_false_r.
Qed.

(** X25 -- The clock selector of a master on a platform without
    [eswin-plat].  For a supported format and two channels, when the
    selector is found, [i2s_hw_params] accepts the rates 96000, 48000 and
    44100 only.  For these it writes the selector once: the divisor field
    of the value written holds 0x10, 0x12 or 0x11, and every bit outside
    the field is as read.  Any other rate is refused with [-EINVAL] and
    the selector is not written. *)
Theorem i2s_hw_params_mclk_select (C : i2s_consts) (e : hw_env)
  (d : i2s_dev) (stream format channels rate reg : Z) :
  format_supported C format = true ->
  channels = TWO_CHANNEL_SUPPORT C ->
  Z.land (capability d) (DW_I2S_MASTER C) <> 0 ->
  eswin_plat d = 0 ->
  syscon_regmap_lookup_by_phandle e = None ->
  of_property_read_u32_index e = (0, reg) ->
  exists ret d',
    i2s_hw_params C e d stream format channels rate = Returns (ret, d') /\
    (rate <> 96000 -> rate <> 48000 -> rate <> 44100 ->
     ret = - EINVAL C /\ regmap_writes (new_i2s_events d d') = []) /\
    (rate = 96000 \/ rate = 48000 \/ rate = 44100 ->
     ret = 0 /\
     exists v,
       regmap_writes (new_i2s_events d d') = [(reg, v)] /\
       Z.shiftr (Z.land v VO_MCLK_DIVSOR_MASK) VO_MCLK_DIVSOR_OFFSET =
         (if rate =? 96000 then 0x10
          else if rate =? 48000 then 0x12 else 0x11) /\
       Z.land v (Z.lnot VO_MCLK_DIVSOR_MASK) =
         Z.land (u32 (regmap_read e)) (Z.lnot VO_MCLK_DIVSOR_MASK)).
Proof.
  intros Hf Hc Hm Hp Hl Hi.
  destruct (hw_params_reaches_clock C e d stream format channels rate Hf Hc)
    as (d0 & t & v & -> & V & Hs).
  destruct V as (V1 & V2 & V3 & V4 & V5 & V6 & V7).
  unfold i2s_hw_params_clock, vo_mclk_divisor. cbv zeta.
  rewrite V1, V2, Hl, Hi, Hs, Hp.
  apply Z.eqb_neq in Hm. rewrite Hm. cbn [negb Z.eqb].
  assert (L : forall u,
             log (say d0 u) = log d ++ (t ++ [WriteReg CCR v]) ++ u)
    by (intros u; cbn [log say]; rewrite V5; now rewrite <- !app_assoc).
  assert (Sel : forall code,
             0 <= code < 256 ->
             exists w,
               regmap_writes
                 ((t ++ [WriteReg CCR v]) ++
                  [RegmapWrite reg
                     (Z.lor
                        (u32 (Z.land (regmap_read e)
                                (Z.lnot VO_MCLK_DIVSOR_MASK)))
                        (Z.shiftl code VO_MCLK_DIVSOR_OFFSET))]) =
                 [(reg, w)] /\
               Z.shiftr (Z.land w VO_MCLK_DIVSOR_MASK) VO_MCLK_DIVSOR_OFFSET =
                 code /\
               Z.land w (Z.lnot VO_MCLK_DIVSOR_MASK) =
                 Z.land (u32 (regmap_read e)) (Z.lnot VO_MCLK_DIVSOR_MASK)).
  { intros code Hcode. eexists. split.
    - rewrite regmap_writes_app, V7. reflexivity.
    - apply mclk_field, Hcode. }
  destruct (rate =? 96000) eqn:R1;
    [| destruct (rate =? 48000) eqn:R2;
       [| destruct (rate =? 44100) eqn:R3]];
    eexists _, _; (split; [reflexivity |]);
    rewrite (new_i2s_events_app _ _ _ (L _)).
  - apply Z.eqb_eq in R1. split; [intros N; contradiction |].
    intros _. split; [reflexivity |]. apply Sel. lia.
  - apply Z.eqb_eq in R2. split; [intros _ N; contradiction |].
    intros _. split; [reflexivity |]. apply Sel. lia.
  - apply Z.eqb_eq in R3. split; [intros _ _ N; contradiction |].
    intros _. split; [reflexivity |]. apply Sel. lia.
  - apply Z.eqb_neq in R1, R2, R3.
    split; [| intros [N | [N | N]]; contradiction].
    intros _ _ _. split; [reflexivity |].
    rewrite regmap_writes_app, V7. reflexivity.
Qed.

Lemma i2s_hw_params_mclk_select_witness :
  exists ret d',
    i2s_hw_params sample_consts (sample_hw_env 0x1234 0) (sample_master 0 0 0)
      0 2 2 44100 = Returns (ret, d') /\
    (44100 <> 96000 -> 44100 <> 48000 -> 44100 <> 44100 ->
     ret = - EINVAL sample_consts /\
     regmap_writes (new_i2s_events (sample_master 0 0 0) d') = []) /\
    (44100 = 96000 \/ 44100 = 48000 \/ 44100 = 44100 ->
     ret = 0 /\
     exists v,
       regmap_writes (new_i2s_events (sample_master 0 0 0) d') = [(0x4c, v)] /\
       Z.shiftr (Z.land v VO_MCLK_DIVSOR_MASK) VO_MCLK_DIVSOR_OFFSET =
         (if 44100 =? 96000 then 0x10
          else if 44100 =? 48000 then 0x12 else 0x11) /\
       Z.land v (Z.lnot VO_MCLK_DIVSOR_MASK) =
         Z.land (u32 (regmap_read (sample_hw_env 0x1234 0)))
           (Z.lnot VO_MCLK_DIVSOR_MASK)).
Proof.
  apply (i2s_hw_params_mclk_select sample_consts (sample_hw_env 0x1234 0)
           (sample_master 0 0 0) 0 2 2 44100 0x4c);
    [reflexivity | reflexivity | cbn; lia | reflexivity | reflexivity
    | reflexivity].
Defined.
Lemma clk_enables_app (t u : list i2s_event) :
  clk_enables (t ++ u) = (clk_enables t + clk_enables u)%nat.
Proof. unfold clk_enables. now rewrite filter_app, length_app. Qed.

Lemma clk_disables_app (t u : list i2s_event) :
  clk_disables (t ++ u) = (clk_disables t + clk_disables u)%nat.
Proof. unfold clk_disables. now rewrite filter_app, length_app. Qed.

Lemma clk_warn_on (b : bool) :
  clk_enables (warn_on b) = 0%nat /\ clk_disables (warn_on b) = 0%nat.
Proof. now destruct b. Qed.

(** Case analysis on the tests of a function, with the log reduced. *)
Ltac split_i2s_tests :=
  repeat
    (match goal with
     | |- context [if ?c then _ else _] => destruct c eqn:?
     | |- context [match ?x with Some _ => _ | None => _ end] =>
         destruct x eqn:?
     end;
     cbn [fst snd log say capability set_capability set_fifo_th set_use_pio
          set_eswin_plat set_play_dma_data set_capture_dma_data negb]).

Ltac clk_count :=
  rewrite ?clk_enables_app, ?clk_disables_app; cbn; auto with zarith.

Lemma i2s_reset_clk (e : i2s_env) :
  clk_enables (snd (i2s_reset e)) = 0%nat /\
  clk_disables (snd (i2s_reset e)) = 0%nat.
Proof.
  unfold i2s_reset. cbv zeta.
  split_i2s_tests; split;
    rewrite ?clk_enables_app, ?clk_disables_app;
    rewrite ?(proj1 (clk_warn_on _)), ?(proj2 (clk_warn_on _));
    reflexivity.
Qed.

Lemma i2s_configure_dai_clk (C : i2s_consts) (e : i2s_env) (d : i2s_dev)
  (dais : list snd_soc_dai_driver) (i : nat) (r : Z) :
  clk_enables (log (snd (fst (i2s_configure_dai C e d dais i r)))) =
    clk_enables (log d) /\
  clk_disables (log (snd (fst (i2s_configure_dai C e d dais i r)))) =
    clk_disables (log d).
Proof.
  unfold i2s_configure_dai. cbv zeta. split_i2s_tests; split; clk_count.
Qed.

Lemma i2s_configure_dai_by_dt_clk (C : i2s_consts) (e : i2s_env)
  (d : i2s_dev) (dais : list snd_soc_dai_driver) (i : nat) :
  clk_enables (log (snd (fst (i2s_configure_dai_by_dt C e d dais i)))) =
    clk_enables (log d) /\
  clk_disables (log (snd (fst (i2s_configure_dai_by_dt C e d dais i)))) =
    clk_disables (log d).
Proof.
  unfold i2s_configure_dai_by_dt. cbv zeta.
  match goal with
  | |- context [i2s_configure_dai C e ?d0 dais i ?r] =>
      destruct (i2s_configure_dai_clk C e d0 dais i r) as (A & B);
      destruct (i2s_configure_dai C e d0 dais i r) as [[ret d1] dais1]
  end.
  cbn [fst snd log say] in A, B.
  rewrite clk_enables_app in A. rewrite clk_disables_app in B.
  cbn in A, B.
  split_i2s_tests; split; clk_count.
Qed.

(** The same with the capability known to be zero: the test at
    [err_probe] is decided. *)
Ltac probe_simpl Hcap :=
  cbn [fst snd log say capability set_capability set_fifo_th set_use_pio
       set_eswin_plat set_play_dma_data set_capture_dma_data];
  rewrite ?Hcap;
  cbn [Z.land];
  rewrite ?Z.eqb_refl;
  cbn [negb].

Ltac split_probe Hcap :=
  probe_simpl Hcap;
  repeat
    (match goal with
     | |- context [if ?c then _ else _] => destruct c eqn:?
     | |- context [match ?x with Some _ => _ | None => _ end] =>
         destruct x eqn:?
     | |- context [i2s_configure_dai_by_dt ?C ?e ?d0 ?dais ?i] =>
         let A := fresh "A" in
         let B := fresh "B" in
         destruct (i2s_configure_dai_by_dt_clk C e d0 dais i) as (A & B);
         destruct (i2s_configure_dai_by_dt C e d0 dais i) as [[? ?] ?];
         cbn [fst snd log say set_use_pio] in A, B;
         rewrite ?clk_enables_app in A; rewrite ?clk_disables_app in B;
         cbn in A, B
     | |- context [i2s_reset ?e] =>
         let A := fresh "A" in
         let B := fresh "B" in
         destruct (i2s_reset_clk e) as (A & B);
         destruct (i2s_reset e) as [? ?];
         cbn [fst snd] in A, B
     | |- context [match ?x with (_, _) => _ end] => destruct x as [? ?]
     end;
     probe_simpl Hcap).

Lemma i2s_probe_register_clk (C : i2s_consts) (e : i2s_env) (d : i2s_dev)
  (dais : list snd_soc_dai_driver) (irq : Z) :
  capability d = 0 ->
  clk_enables (log (snd (fst (i2s_probe_register C e d dais irq)))) =
    clk_enables (log d) /\
  clk_disables (log (snd (fst (i2s_probe_register C e d dais irq)))) =
    clk_disables (log d).
Proof.
  intros Hcap. unfold i2s_probe_register, err_probe. cbv zeta.
  split_probe Hcap; split; clk_count.
Qed.

Lemma i2s_probe_irq_clk (C : i2s_consts) (e : i2s_env) (d : i2s_dev)
  (dais : list snd_soc_dai_driver) :
  capability d = 0 ->
  clk_enables (log (snd (fst (i2s_probe_irq C e d dais)))) =
    clk_enables (log d) /\
  clk_disables (log (snd (fst (i2s_probe_irq C e d dais)))) =
    clk_disables (log d).
Proof.
  intros Hcap. unfold i2s_probe_irq. cbv zeta.
  destruct (platform_get_irq e >=? 0);
    [destruct (devm_request_irq e <? 0) |];
    try (match goal with
         | |- context [i2s_probe_register C e ?d0 dais ?irq] =>
             destruct (i2s_probe_register_clk C e d0 dais irq Hcap)
               as (A & B);
             rewrite A, B
         end);
    cbn [fst snd log say]; split; clk_count.
Qed.
Ltac split_whole_probe Hcap :=
  probe_simpl Hcap;
  repeat
    (match goal with
     | |- context [i2s_probe_irq ?C ?e ?d0 ?dais] =>
         let A := fresh "A" in
         let B := fresh "B" in
         destruct (i2s_probe_irq_clk C e d0 dais
                     ltac:(cbn [capability say]; exact Hcap)) as (A & B);
         destruct (i2s_probe_irq C e d0 dais) as [[? ?] ?];
         cbn [fst snd log say] in A, B;
         rewrite ?clk_enables_app in A; rewrite ?clk_disables_app in B
     | |- context [i2s_reset ?e] =>
         let A := fresh "A" in
         let B := fresh "B" in
         destruct (i2s_reset_clk e) as (A & B);
         destruct (i2s_reset e) as [? ?];
         cbn [fst snd] in A, B
     | |- context [if ?c then _ else _] =>
         lazymatch c with
         | context [capability] => fail
         | _ => destruct c eqn:?
         end
     | |- context [match ?x with Some _ => _ | None => _ end] =>
         destruct x eqn:?
     end;
     probe_simpl Hcap).

(** X26 -- [i2s_probe] never gives back the clock it enabled.  The cleanup
    at [err_probe] tests the master capability, which is set only by
    [i2s_configure_dai], after the last jump to the label: no path of the
    function calls [clk_disable_unprepare].  When the node is i2s0 and the
    clock was obtained, [clk_prepare_enable] was called once, so a probe
    that fails after it has succeeded leaves the clock prepared and
    enabled. *)
Theorem i2s_probe_never_disables_clock (C : i2s_consts) (e : i2s_env)
  (dais : list snd_soc_dai_driver) :
  clk_disables (log (snd (fst (i2s_probe C e dais)))) = 0%nat /\
  (kzalloc_drvdata e = true ->
   kzalloc_config e = true ->
   devm_ioremap_resource e = None ->
   node_is_i2s0 e = true ->
   devm_clk_get e = None ->
   clk_enables (log (snd (fst (i2s_probe C e dais)))) = 1%nat).
Proof.
  assert (Hcap : capability zeroed_dev = 0) by reflexivity.
  unfold i2s_probe, err_probe. cbv zeta.
  split_whole_probe Hcap;
    (split;
     [rewrite ?clk_disables_app;
      repeat match goal with H : clk_disables _ = _ |- _ => rewrite H end;
      reflexivity
     | intros K1 K2 K3 K4 K5;
       try (rewrite K1 in *; discriminate);
       try (rewrite K2 in *; discriminate);
       try discriminate;
       rewrite ?clk_enables_app;
       repeat match goal with H : clk_enables _ = _ |- _ => rewrite H end;
       reflexivity]).
Qed.
Lemma i2s_probe_never_disables_clock_witness :
  clk_enables
    (log (snd (fst (i2s_probe sample_consts
                      (sample_probe_env true i2srst_fails 0)
                      (i2s_dai sample_consts))))) = 1%nat.
Proof.
  apply (proj2 (i2s_probe_never_disables_clock sample_consts
                  (sample_probe_env true i2srst_fails 0)
                  (i2s_dai sample_consts)));
    reflexivity.
Defined.

Lemma update_dai_from (f : snd_soc_dai_driver -> snd_soc_dai_driver)
  (i : nat) (dais : list snd_soc_dai_driver) :
  forall s n,
    nth_error
      (map (fun '(k, x) => if Nat.eqb k i then f x else x)
         (combine (seq s (length dais)) dais)) n =
    option_map (fun x => if Nat.eqb (s + n) i then f x else x)
      (nth_error dais n).
Proof.
  induction dais as [| x dais IH]; intros s n.
  - destruct n; reflexivity.
  - cbn [length seq combine map]. destruct n as [| n]; cbn [nth_error].
    + now rewrite Nat.add_0_r.
    + rewrite IH. now rewrite Nat.add_succ_r.
Qed.

Lemma update_dai_other (dais : list snd_soc_dai_driver) (i n : nat)
  (f : snd_soc_dai_driver -> snd_soc_dai_driver) :
  n <> i -> nth_error (update_dai dais i f) n = nth_error dais n.
Proof.
  intros Hn. unfold update_dai. rewrite update_dai_from. cbn [Nat.add].
  apply Nat.eqb_neq in Hn. rewrite Hn.
  now destruct (nth_error dais n).
Qed.

Lemma update_dai_same (dais : list snd_soc_dai_driver) (i : nat)
  (f : snd_soc_dai_driver -> snd_soc_dai_driver) :
  nth_error (update_dai dais i f) i = option_map f (nth_error dais i).
Proof.
  unfold update_dai. rewrite update_dai_from. cbn [Nat.add].
  now rewrite Nat.eqb_refl.
Qed.

Ltac split_dais :=
  cbn [fst snd];
  repeat
    (match goal with
     | |- context [if ?c then _ else _] => destruct c eqn:?
     | |- context [match ?x with Some _ => _ | None => _ end] =>
         destruct x eqn:?
     | |- context [match ?x with (_, _) => _ end] => destruct x as [? ?]
     end;
     cbn [fst snd]).

Lemma i2s_configure_dai_others (C : i2s_consts) (e : i2s_env)
  (d : i2s_dev) (dais : list snd_soc_dai_driver) (i : nat) (r : Z)
  (n : nat) :
  n <> i ->
  nth_error (snd (i2s_configure_dai C e d dais i r)) n = nth_error dais n.
Proof.
  intros Hn. unfold i2s_configure_dai. cbv zeta.
  split_dais; rewrite ?update_dai_other by exact Hn; reflexivity.
Qed.

Lemma i2s_configure_dai_by_dt_others (C : i2s_consts) (e : i2s_env)
  (d : i2s_dev) (dais : list snd_soc_dai_driver) (i n : nat) :
  n <> i ->
  nth_error (snd (i2s_configure_dai_by_dt C e d dais i)) n =
    nth_error dais n.
Proof.
  intros Hn. unfold i2s_configure_dai_by_dt. cbv zeta.
  match goal with
  | |- context [i2s_configure_dai C e ?d0 dais i ?r] =>
      pose proof (i2s_configure_dai_others C e d0 dais i r n Hn) as A;
      destruct (i2s_configure_dai C e d0 dais i r) as [[ret d1] dais1]
  end.
  cbn [snd] in A.
  split_dais; try exact A; reflexivity.
Qed.

Ltac split_probe_dais n Hn :=
  cbn [fst snd];
  repeat
    (match goal with
     | |- context [i2s_configure_dai_by_dt ?C ?e ?d0 ?dais ?i] =>
         let A := fresh "A" in
         pose proof (i2s_configure_dai_by_dt_others C e d0 dais i n Hn) as A;
         destruct (i2s_configure_dai_by_dt C e d0 dais i) as [[? ?] ?];
         cbn [snd] in A
     | |- context [if ?c then _ else _] => destruct c eqn:?
     | |- context [match ?x with Some _ => _ | None => _ end] =>
         destruct x eqn:?
     | |- context [match ?x with (_, _) => _ end] => destruct x as [? ?]
     end;
     cbn [fst snd]).

Lemma i2s_probe_register_others (C : i2s_consts) (e : i2s_env)
  (d : i2s_dev) (dais : list snd_soc_dai_driver) (irq : Z) (n : nat) :
  n <> 0%nat ->
  nth_error (snd (i2s_probe_register C e d dais irq)) n = nth_error dais n.
Proof.
  intros Hn. unfold i2s_probe_register, err_probe. cbv zeta.
  split_probe_dais n Hn; try assumption; reflexivity.
Qed.

Lemma i2s_probe_others (C : i2s_consts) (e : i2s_env)
  (dais : list snd_soc_dai_driver) (n : nat) :
  n <> 0%nat ->
  nth_error (snd (i2s_probe C e dais)) n = nth_error dais n.
Proof.
  intros Hn. unfold i2s_probe, i2s_probe_irq, err_probe. cbv zeta.
  repeat
    (match goal with
     | |- context [i2s_probe_register ?C ?e ?d0 ?dais ?irq] =>
         rewrite (i2s_probe_register_others C e d0 dais irq n Hn)
     | |- context [if ?c then _ else _] => destruct c eqn:?
     | |- context [match ?x with Some _ => _ | None => _ end] =>
         destruct x eqn:?
     | |- context [match ?x with (_, _) => _ end] => destruct x as [? ?]
     end;
     cbn [fst snd]);
    reflexivity.
Qed.
Lemma i2s_configure_dai_playback (C : i2s_consts) (e : i2s_env)
  (d : i2s_dev) (dais : list snd_soc_dai_driver) (i : nat)
  (x : snd_soc_dai_driver) :
  0 < EINVAL C ->
  COMP1_TX_ENABLED C (comp1 e) <> 0 ->
  nth_error dais i = Some x ->
  (fst (fst (i2s_configure_dai C e d dais i
               (SNDRV_PCM_RATE_8000_192000 C))) <? 0) = false ->
  exists x',
    nth_error
      (snd (i2s_configure_dai C e d dais i (SNDRV_PCM_RATE_8000_192000 C)))
      i = Some x' /\
    playback x' = hardware_playback C e.
Proof.
  intros He Ht Hx. unfold i2s_configure_dai. cbv zeta.
  apply Z.eqb_neq in Ht. rewrite Ht. cbn [negb].
  assert (N : (- EINVAL C <? 0) = false -> False)
    by (intros N; apply Z.ltb_ge in N; lia).
  split_dais; intros R; try (exfalso; exact (N R));
    rewrite ?update_dai_same, Hx; cbn [option_map];
    eexists; (split; [reflexivity | reflexivity]).
Qed.

Lemma i2s_configure_dai_by_dt_playback (C : i2s_consts) (e : i2s_env)
  (d : i2s_dev) (dais : list snd_soc_dai_driver) (i : nat)
  (x : snd_soc_dai_driver) :
  0 < EINVAL C ->
  COMP1_TX_ENABLED C (comp1 e) <> 0 ->
  nth_error dais i = Some x ->
  (fst (fst (i2s_configure_dai_by_dt C e d dais i)) <? 0) = false ->
  exists x',
    nth_error (snd (i2s_configure_dai_by_dt C e d dais i)) i = Some x' /\
    playback x' = hardware_playback C e.
Proof.
  intros He Ht Hx. unfold i2s_configure_dai_by_dt. cbv zeta.
  assert (N : (- EINVAL C <? 0) = false -> False)
    by (intros N; apply Z.ltb_ge in N; lia).
  match goal with
  | |- context [i2s_configure_dai C e ?d0 dais i ?r] =>
      pose proof (i2s_configure_dai_playback C e d0 dais i x He Ht Hx) as A;
      destruct (i2s_configure_dai C e d0 dais i r) as [[ret d1] dais1]
  end.
  cbn [fst snd] in A.
  destruct (u32 (COMP1_APB_DATA_WIDTH C (comp1 e)) >=? COMP_MAX_DATA_WIDTH C);
    cbn [fst snd]; [intros R; exfalso; exact (N R) |].
  destruct (ret <? 0) eqn:R0; cbn [fst snd];
    [intros R; congruence |].
  destruct (snd_soc_lookup_component e); cbn [negb fst snd];
    [| intros R; discriminate].
  intros _. exact (A eq_refl).
Qed.

Lemma i2s_probe_register_playback (C : i2s_consts) (e : i2s_env)
  (d : i2s_dev) (dais : list snd_soc_dai_driver) (irq : Z)
  (x : snd_soc_dai_driver) :
  0 < EINVAL C -> 0 < ENOMEM C ->
  COMP1_TX_ENABLED C (comp1 e) <> 0 ->
  nth_error dais 0 = Some x ->
  fst (fst (i2s_probe_register C e d dais irq)) = 0 ->
  exists x',
    nth_error (snd (i2s_probe_register C e d dais irq)) 0 = Some x' /\
    playback x' = hardware_playback C e.
Proof.
  intros He Hm Ht Hx. unfold i2s_probe_register, err_probe. cbv zeta.
  repeat
    (match goal with
     | |- context [i2s_configure_dai_by_dt ?C ?e ?d0 ?dais ?i] =>
         let A := fresh "A" in
         pose proof
           (i2s_configure_dai_by_dt_playback C e d0 dais i x He Ht Hx) as A;
         destruct (i2s_configure_dai_by_dt C e d0 dais i) as [[? ?] ?];
         cbn [fst snd] in A
     | |- context [if ?c then _ else _] => destruct c eqn:?
     | |- context [match ?x with (_, _) => _ end] => destruct x as [? ?]
     end;
     cbn [fst snd]);
    intros R;
    try lia;
    try (subst; cbn in *; discriminate);
    try (apply A; first [reflexivity | assumption]).
Qed.

(** X27 -- [i2s_probe] configures the first entry of [i2s_dai] whatever
    the node.  The entries "i2s0", "i2s1" and "i2s2" of the table are never
    written: after the probe of any node they are as before.  When the
    probe of a node other than i2s0 returns 0 and the block has a
    transmitter, it is the playback stream of the entry "i2s0-hdmi" that
    holds what the component parameter register describes. *)
Theorem i2s_probe_configures_first_dai (C : i2s_consts) (e : i2s_env)
  (dais : list snd_soc_dai_driver) :
  (forall n, n <> 0%nat ->
     nth_error (snd (i2s_probe C e dais)) n = nth_error dais n) /\
  (0 < EINVAL C -> 0 < ENOMEM C ->
   node_is_i2s0 e = false ->
   devm_ioremap_resource e = None ->
   COMP1_TX_ENABLED C (comp1 e) <> 0 ->
   fst (fst (i2s_probe C e dais)) = 0 ->
   forall x, nth_error dais 0 = Some x ->
     exists x',
       nth_error (snd (i2s_probe C e dais)) 0 = Some x' /\
       playback x' = hardware_playback C e).
Proof.
  split; [intros n Hn; apply i2s_probe_others, Hn |].
  intros He Hm Hn Hi Ht R x Hx. revert R.
  unfold i2s_probe, i2s_probe_irq. cbv zeta. rewrite Hn, Hi.
  repeat
    (match goal with
     | |- context [i2s_probe_register ?C ?e ?d0 ?dais ?irq] =>
         let A := fresh "A" in
         pose proof
           (i2s_probe_register_playback C e d0 dais irq x He Hm Ht Hx) as A;
         destruct (i2s_probe_register C e d0 dais irq) as [[? ?] ?];
         cbn [fst snd] in A
     | |- context [if ?c then _ else _] => destruct c eqn:?
     end;
     cbn [fst snd]);
    intros R;
    try lia;
    try (match goal with
         | H : ?z = 0 -> _, K : ?z = 0 |- _ => exact (H K)
         end).
Qed.

Lemma i2s_probe_configures_first_dai_witness :
  exists x',
    nth_error
      (snd (i2s_probe sample_consts (sample_probe_env false all_lines 0)
              (i2s_dai sample_consts))) 0 = Some x' /\
    playback x' =
      hardware_playback sample_consts (sample_probe_env false all_lines 0).
Proof.
  apply (proj2 (i2s_probe_configures_first_dai sample_consts
                  (sample_probe_env false all_lines 0)
                  (i2s_dai sample_consts))
           ltac:(cbn; lia) ltac:(cbn; lia) eq_refl eq_refl
           ltac:(cbn; lia) eq_refl
           {| playback := esw_stream sample_consts;
              capture := esw_stream sample_consts |}
           eq_refl).
Defined.
